(** * VirtIO MMIO transport, split-virtqueue engine, block front end and
      SiFive UART: a shallow embedding of the device models and the
      properties of their register files and ring handling. *)

From Stdlib Require Import ZArith List Bool Lia.
Import ListNotations.
Local Open Scope Z_scope.

(** ** Fixed-width integers

    C integers are carried as [Z]; every conversion the source performs is
    written out as a reduction modulo the width. *)

Definition u8 (x : Z) : Z := x mod 256.
Definition u16 (x : Z) : Z := x mod 65536.
Definition u32 (x : Z) : Z := x mod 4294967296.
Definition u64 (x : Z) : Z := x mod 18446744073709551616.

(** Conversion to [int] (two's complement, 32 bits). *)
Definition s32 (x : Z) : Z :=
  let y := u32 x in if y <? 2147483648 then y else y - 4294967296.

(** Modelled from the spec: [min_int] of cutils.h, the minimum of two
    [int]s. *)
Definition min_int (a b : Z) : Z := if a <? b then a else b.

(** ** Constants of the register map *)

Definition VIRTIO_MMIO_MAGIC_VALUE : Z := 0x000.
Definition VIRTIO_MMIO_VERSION : Z := 0x004.
Definition VIRTIO_MMIO_DEVICE_ID : Z := 0x008.
Definition VIRTIO_MMIO_VENDOR_ID : Z := 0x00c.
Definition VIRTIO_MMIO_DEVICE_FEATURES : Z := 0x010.
Definition VIRTIO_MMIO_DEVICE_FEATURES_SEL : Z := 0x014.
Definition VIRTIO_MMIO_QUEUE_SEL : Z := 0x030.
Definition VIRTIO_MMIO_QUEUE_NUM_MAX : Z := 0x034.
Definition VIRTIO_MMIO_QUEUE_NUM : Z := 0x038.
Definition VIRTIO_MMIO_QUEUE_READY : Z := 0x044.
Definition VIRTIO_MMIO_QUEUE_NOTIFY : Z := 0x050.
Definition VIRTIO_MMIO_INTERRUPT_STATUS : Z := 0x060.
Definition VIRTIO_MMIO_INTERRUPT_ACK : Z := 0x064.
Definition VIRTIO_MMIO_STATUS : Z := 0x070.
Definition VIRTIO_MMIO_QUEUE_DESC_LOW : Z := 0x080.
Definition VIRTIO_MMIO_QUEUE_DESC_HIGH : Z := 0x084.
Definition VIRTIO_MMIO_QUEUE_AVAIL_LOW : Z := 0x090.
Definition VIRTIO_MMIO_QUEUE_AVAIL_HIGH : Z := 0x094.
Definition VIRTIO_MMIO_QUEUE_USED_LOW : Z := 0x0a0.
Definition VIRTIO_MMIO_QUEUE_USED_HIGH : Z := 0x0a4.
Definition VIRTIO_MMIO_CONFIG_GENERATION : Z := 0x0fc.
Definition VIRTIO_MMIO_CONFIG : Z := 0x100.

Definition MAX_QUEUE : Z := 8.
Definition MAX_CONFIG_SPACE_SIZE : Z := 256.
Definition MAX_QUEUE_NUM : Z := 16.

Definition VRING_DESC_F_NEXT : Z := 1.
Definition VRING_DESC_F_WRITE : Z := 2.
Definition VRING_DESC_F_INDIRECT : Z := 4.

Definition SECTOR_SIZE : Z := 512.

(** Modelled from the spec: [VIRTIO_PAGE_SIZE] of virtio.h, 4 KiB. *)
Definition VIRTIO_PAGE_SIZE : Z := 4096.

(** ** Guest memory and the interrupt line *)

(** Modelled from the spec: the simulator's debug MMU ([mmu_t], reached
    through [s->sim->debug_mmu]) as a byte-addressed store over 64-bit
    guest-physical addresses with little-endian multi-byte accesses. *)
Definition guest_ram : Type := Z -> Z.

Definition load_u8 (m : guest_ram) (a : Z) : Z := u8 (m (u64 a)).
Definition load_u16 (m : guest_ram) (a : Z) : Z :=
  load_u8 m a + 256 * load_u8 m (a + 1).
Definition load_u32 (m : guest_ram) (a : Z) : Z :=
  load_u16 m a + 65536 * load_u16 m (a + 2).
Definition load_u64 (m : guest_ram) (a : Z) : Z :=
  load_u32 m a + 4294967296 * load_u32 m (a + 4).

Definition store_u8 (m : guest_ram) (a v : Z) : guest_ram :=
  fun x => if x =? u64 a then u8 v else m x.
Definition store_u16 (m : guest_ram) (a v : Z) : guest_ram :=
  store_u8 (store_u8 m a (u16 v)) (a + 1) (u16 v / 256).
Definition store_u32 (m : guest_ram) (a v : Z) : guest_ram :=
  store_u16 (store_u16 m a (u32 v)) (a + 2) (u32 v / 65536).

(** What the guest and the interrupt controller can observe, in program
    order: stores to guest memory (width in bits, address, value) and
    changes of the interrupt line. *)
Inductive event : Type :=
| EvStore (bits : Z) (addr val : Z)
| EvIrq (level : bool).

(** ** Results of code that may abort or loop *)

Inductive res (A : Type) : Type :=
| Ok (a : A)        (* the call returned *)
| Aborted           (* [abort()] or a failed [assert] *)
| OutOfFuel.        (* the loop bound of the model was reached *)
Arguments Ok {A} a.
Arguments Aborted {A}.
Arguments OutOfFuel {A}.

Definition bind {A B : Type} (m : res A) (k : A -> res B) : res B :=
  match m with
  | Ok a => k a
  | Aborted => Aborted
  | OutOfFuel => OutOfFuel
  end.

Notation "x <- m ;; k" := (bind m (fun x => k))
  (at level 61, m at next level, right associativity).
Notation "' p <- m ;; k" := (bind m (fun p => k))
  (at level 61, p pattern, m at next level, right associativity).

(** ** Device state *)

Record QueueState : Type := mkQueueState {
  ready : Z;             (* 0 or 1 *)
  num : Z;
  last_avail_idx : Z;    (* uint16_t *)
  desc_addr : Z;
  avail_addr : Z;
  used_addr : Z;
  manual_recv : bool
}.

Record VIRTIODesc : Type := mkVIRTIODesc {
  d_addr : Z;   (* uint64_t *)
  d_len : Z;    (* uint32_t *)
  d_flags : Z;  (* uint16_t *)
  d_next : Z    (* uint16_t *)
}.

(** [VIRTIODevice]: the memory behind [sim] and the level of the line
    behind [irq] are held in the record, together with the [log] of
    observable events; [ext] carries the fields of a derived device.  The
    function pointers [device_recv] and [config_write] are parameters of
    the engine section below. *)
Record VIRTIODevice (X : Type) : Type := mkVIRTIODevice {
  ram : guest_ram;
  irq : bool;
  log : list event;
  int_status : Z;
  status : Z;
  device_features_sel : Z;
  queue_sel : Z;
  queue : Z -> QueueState;
  device_id : Z;
  vendor_id : Z;
  device_features : Z;
  config_space_size : Z;
  config_space : list Z;
  ext : X
}.
Arguments mkVIRTIODevice {X}.
Arguments ram {X}.
Arguments irq {X}.
Arguments log {X}.
Arguments int_status {X}.
Arguments status {X}.
Arguments device_features_sel {X}.
Arguments queue_sel {X}.
Arguments queue {X}.
Arguments device_id {X}.
Arguments vendor_id {X}.
Arguments device_features {X}.
Arguments config_space_size {X}.
Arguments config_space {X}.
Arguments ext {X}.

Section Setters.
Context {X : Type}.
Implicit Type s : VIRTIODevice X.

Definition with_ram (m : guest_ram) s :=
  mkVIRTIODevice m (irq s) (log s) (int_status s) (status s)
    (device_features_sel s) (queue_sel s) (queue s) (device_id s)
    (vendor_id s) (device_features s) (config_space_size s)
    (config_space s) (ext s).
Definition with_irq (b : bool) s :=
  mkVIRTIODevice (ram s) b (log s) (int_status s) (status s)
    (device_features_sel s) (queue_sel s) (queue s) (device_id s)
    (vendor_id s) (device_features s) (config_space_size s)
    (config_space s) (ext s).
Definition with_log (l : list event) s :=
  mkVIRTIODevice (ram s) (irq s) l (int_status s) (status s)
    (device_features_sel s) (queue_sel s) (queue s) (device_id s)
    (vendor_id s) (device_features s) (config_space_size s)
    (config_space s) (ext s).
Definition with_int_status (v : Z) s :=
  mkVIRTIODevice (ram s) (irq s) (log s) v (status s)
    (device_features_sel s) (queue_sel s) (queue s) (device_id s)
    (vendor_id s) (device_features s) (config_space_size s)
    (config_space s) (ext s).
Definition with_status (v : Z) s :=
  mkVIRTIODevice (ram s) (irq s) (log s) (int_status s) v
    (device_features_sel s) (queue_sel s) (queue s) (device_id s)
    (vendor_id s) (device_features s) (config_space_size s)
    (config_space s) (ext s).
Definition with_device_features_sel (v : Z) s :=
  mkVIRTIODevice (ram s) (irq s) (log s) (int_status s) (status s)
    v (queue_sel s) (queue s) (device_id s)
    (vendor_id s) (device_features s) (config_space_size s)
    (config_space s) (ext s).
Definition with_queue_sel (v : Z) s :=
  mkVIRTIODevice (ram s) (irq s) (log s) (int_status s) (status s)
    (device_features_sel s) v (queue s) (device_id s)
    (vendor_id s) (device_features s) (config_space_size s)
    (config_space s) (ext s).
Definition with_queue (q : Z -> QueueState) s :=
  mkVIRTIODevice (ram s) (irq s) (log s) (int_status s) (status s)
    (device_features_sel s) (queue_sel s) q (device_id s)
    (vendor_id s) (device_features s) (config_space_size s)
    (config_space s) (ext s).
Definition with_config_space (c : list Z) s :=
  mkVIRTIODevice (ram s) (irq s) (log s) (int_status s) (status s)
    (device_features_sel s) (queue_sel s) (queue s) (device_id s)
    (vendor_id s) (device_features s) (config_space_size s)
    c (ext s).
Definition with_ext (x : X) s :=
  mkVIRTIODevice (ram s) (irq s) (log s) (int_status s) (status s)
    (device_features_sel s) (queue_sel s) (queue s) (device_id s)
    (vendor_id s) (device_features s) (config_space_size s)
    (config_space s) x.

(** [s->queue[i] = qs]. *)
Definition upd_queue (q : Z -> QueueState) (i : Z) (qs : QueueState)
  : Z -> QueueState :=
  fun j => if j =? i then qs else q j.
Definition set_queue (i : Z) (qs : QueueState) s :=
  with_queue (upd_queue (queue s) i qs) s.

(** Modelled from the spec: [set_irq] on the [IRQSpike] line of
    virtio.h, which drives the interrupt-controller line to [level]. *)
Definition set_irq (level : bool) s :=
  with_log (log s ++ [EvIrq level]) (with_irq level s).

(** [virtio_read16], [virtio_write16], [virtio_write32]. *)
Definition virtio_read16 s (addr : Z) : Z := load_u16 (ram s) addr.
Definition virtio_write16 s (addr val : Z) :=
  with_log (log s ++ [EvStore 16 (u64 addr) (u16 val)])
    (with_ram (store_u16 (ram s) addr val) s).
Definition virtio_write32 s (addr val : Z) :=
  with_log (log s ++ [EvStore 32 (u64 addr) (u32 val)])
    (with_ram (store_u32 (ram s) addr val) s).
End Setters.

Definition with_ready (v : Z) (qs : QueueState) :=
  mkQueueState v (num qs) (last_avail_idx qs) (desc_addr qs)
    (avail_addr qs) (used_addr qs) (manual_recv qs).
Definition with_num (v : Z) (qs : QueueState) :=
  mkQueueState (ready qs) v (last_avail_idx qs) (desc_addr qs)
    (avail_addr qs) (used_addr qs) (manual_recv qs).
Definition with_last_avail_idx (v : Z) (qs : QueueState) :=
  mkQueueState (ready qs) (num qs) v (desc_addr qs)
    (avail_addr qs) (used_addr qs) (manual_recv qs).
Definition with_desc_addr (v : Z) (qs : QueueState) :=
  mkQueueState (ready qs) (num qs) (last_avail_idx qs) v
    (avail_addr qs) (used_addr qs) (manual_recv qs).
Definition with_avail_addr (v : Z) (qs : QueueState) :=
  mkQueueState (ready qs) (num qs) (last_avail_idx qs) (desc_addr qs)
    v (used_addr qs) (manual_recv qs).
Definition with_used_addr (v : Z) (qs : QueueState) :=
  mkQueueState (ready qs) (num qs) (last_avail_idx qs) (desc_addr qs)
    (avail_addr qs) v (manual_recv qs).

(** ** Reset and initialisation *)

Section ResetDevice.
Context {X : Type}.
Implicit Type s : VIRTIODevice X.

(** Body of the loop of [virtio_reset] on one queue; [manual_recv] is
    not written. *)
Definition reset_queue (qs : QueueState) : QueueState :=
  with_last_avail_idx 0
    (with_used_addr 0
       (with_avail_addr 0
          (with_desc_addr 0 (with_num MAX_QUEUE_NUM (with_ready 0 qs))))).

(** [for(i = 0; i < MAX_QUEUE; i++)], with [n] iterations left. *)
Fixpoint virtio_reset_loop (n : nat) (i : Z) (q : Z -> QueueState)
  : Z -> QueueState :=
  match n with
  | O => q
  | S n' => virtio_reset_loop n' (i + 1) (upd_queue q i (reset_queue (q i)))
  end.

Definition virtio_reset s :=
  let s := with_status 0 s in
  let s := with_queue_sel 0 s in
  let s := with_device_features_sel 0 s in
  let s := with_int_status 0 s in
  with_queue (virtio_reset_loop (Z.to_nat MAX_QUEUE) 0 (queue s)) s.
End ResetDevice.

(** The all-zero queue left by [memset]. *)
Definition zero_queue : QueueState := mkQueueState 0 0 0 0 0 0 false.

(** [virtio_init]: the structure is zeroed, the bus line and the simulator
    are attached ([m], [line]), the identity is set and the device is
    reset.  [x] is the zeroed part of the derived device. *)
Definition virtio_init {X : Type} (m : guest_ram) (line : bool)
    (dev_id cfg_size : Z) (x : X) : VIRTIODevice X :=
  virtio_reset
    (mkVIRTIODevice m line [] 0 0 0 0 (fun _ => zero_queue) (u32 dev_id)
       0xffff 0 (u32 cfg_size)
       (repeat 0 (Z.to_nat MAX_CONFIG_SPACE_SIZE)) x).

(** ** Host buffers

    A host buffer is a list of bytes addressed from a base position.  An
    access outside the list (undefined in C) reads 0, and a store outside
    the list is dropped. *)

Definition buf_get (buf : list Z) (i : Z) : Z :=
  if i <? 0 then 0 else nth (Z.to_nat i) buf 0.

Fixpoint list_put (buf : list Z) (n : nat) (v : Z) : list Z :=
  match buf, n with
  | [], _ => []
  | _ :: r, O => v :: r
  | b :: r, S n' => b :: list_put r n' v
  end.

Definition buf_put (buf : list Z) (i v : Z) : list Z :=
  if i <? 0 then buf else list_put buf (Z.to_nat i) v.

(** Little-endian value of a byte string ([get_le16], [get_le32] of
    cutils.h and the layout of structures read from guest memory on the
    little-endian host). *)
Fixpoint le_decode (bs : list Z) : Z :=
  match bs with
  | [] => 0
  | b :: r => b + 256 * le_decode r
  end.

(** The [n] low bytes of [v], least significant first ([put_le16],
    [put_le32], [read_little_endian_reg]). *)
Fixpoint le_encode (n : nat) (v : Z) : list Z :=
  match n with
  | O => []
  | S n' => u8 v :: le_encode n' (v / 256)
  end.

Definition sub_bytes (bs : list Z) (off len : nat) : list Z :=
  firstn len (skipn off bs).

(** ** Virtqueue engine: copies, descriptors, used ring *)

Section Virtqueue.
Context {X : Type}.
Implicit Type s : VIRTIODevice X.

(** [memcpy_from_ram_intrapage]: [n] iterations of
    [buf[l] = load<uint8_t>(addr + l); l++; count--]. *)
Fixpoint memcpy_from_ram_intrapage_loop (n : nat) (m : guest_ram)
    (buf : list Z) (bpos addr l : Z) : list Z :=
  match n with
  | O => buf
  | S n' =>
      memcpy_from_ram_intrapage_loop n' m
        (buf_put buf (bpos + l) (load_u8 m (addr + l))) bpos addr (l + 1)
  end.

Definition memcpy_from_ram_intrapage s (buf : list Z) (bpos addr count : Z)
  : list Z :=
  memcpy_from_ram_intrapage_loop (Z.to_nat count) (ram s) buf bpos addr 0.

Definition virtio_write8 s (addr val : Z) :=
  with_log (log s ++ [EvStore 8 (u64 addr) (u8 val)])
    (with_ram (store_u8 (ram s) addr val) s).

(** [memcpy_to_ram_intrapage]: [n] iterations of
    [store<uint8_t>(addr + l, buf[l]); l++; count--]. *)
Fixpoint memcpy_to_ram_intrapage_loop (n : nat) s (addr : Z)
    (buf : list Z) (bpos l : Z) : VIRTIODevice X :=
  match n with
  | O => s
  | S n' =>
      memcpy_to_ram_intrapage_loop n'
        (virtio_write8 s (addr + l) (buf_get buf (bpos + l)))
        addr buf bpos (l + 1)
  end.

Definition memcpy_to_ram_intrapage s (addr : Z) (buf : list Z)
    (bpos count : Z) : VIRTIODevice X :=
  memcpy_to_ram_intrapage_loop (Z.to_nat count) s addr buf bpos 0.

(** [virtio_memcpy_from_ram]: the transfer is split at page boundaries.
    Every round moves at least one byte, so [count] rounds are enough. *)
Fixpoint virtio_memcpy_from_ram_loop (n : nat) s (buf : list Z)
    (bpos addr count : Z) : list Z :=
  match n with
  | O => buf
  | S n' =>
      if 0 <? count then
        let l := min_int count
                   (VIRTIO_PAGE_SIZE - Z.land addr (VIRTIO_PAGE_SIZE - 1)) in
        virtio_memcpy_from_ram_loop n' s
          (memcpy_from_ram_intrapage s buf bpos addr l)
          (bpos + l) (u64 (addr + l)) (count - l)
      else buf
  end.

Definition virtio_memcpy_from_ram s (buf : list Z) (bpos addr count : Z)
  : list Z :=
  virtio_memcpy_from_ram_loop (Z.to_nat count) s buf bpos addr count.

(** [virtio_memcpy_to_ram]. *)
Fixpoint virtio_memcpy_to_ram_loop (n : nat) s (addr : Z) (buf : list Z)
    (bpos count : Z) : VIRTIODevice X :=
  match n with
  | O => s
  | S n' =>
      if 0 <? count then
        let l := min_int count
                   (VIRTIO_PAGE_SIZE - Z.land addr (VIRTIO_PAGE_SIZE - 1)) in
        virtio_memcpy_to_ram_loop n'
          (memcpy_to_ram_intrapage s addr buf bpos l)
          (u64 (addr + l)) buf (bpos + l) (count - l)
      else s
  end.

Definition virtio_memcpy_to_ram s (addr : Z) (buf : list Z)
    (bpos count : Z) : VIRTIODevice X :=
  virtio_memcpy_to_ram_loop (Z.to_nat count) s addr buf bpos count.

(** The 16 bytes of a descriptor, in the layout of [VIRTIODesc]. *)
Definition desc_of_bytes (bs : list Z) : VIRTIODesc :=
  mkVIRTIODesc (le_decode (sub_bytes bs 0 8)) (le_decode (sub_bytes bs 8 4))
    (le_decode (sub_bytes bs 12 2)) (le_decode (sub_bytes bs 14 2)).

(** [get_desc]: [sizeof(VIRTIODesc)] is 16. *)
Definition get_desc s (queue_idx desc_idx : Z) : VIRTIODesc :=
  let qs := queue s queue_idx in
  desc_of_bytes
    (virtio_memcpy_from_ram s (repeat 0 16%nat) 0
       (u64 (desc_addr qs + u64 desc_idx * 16)) 16).

Definition has_flag (d : VIRTIODesc) (f : Z) : bool :=
  negb (Z.land (d_flags d) f =? 0).

(** First loop of [memcpy_to_from_queue]: find the first write
    descriptor.  [None] stands for [return -1]. *)
Fixpoint find_write_desc (fuel : nat) s (queue_idx : Z) (desc : VIRTIODesc)
  : res (option VIRTIODesc) :=
  match fuel with
  | O => OutOfFuel
  | S f =>
      if Z.land (d_flags desc) VRING_DESC_F_WRITE =? VRING_DESC_F_WRITE
      then Ok (Some desc)
      else if negb (has_flag desc VRING_DESC_F_NEXT) then Ok None
      else find_write_desc f s queue_idx (get_desc s queue_idx (d_next desc))
  end.

(** Second loop: find the descriptor at [offset]. *)
Fixpoint find_desc_at_offset (fuel : nat) s (queue_idx : Z)
    (desc : VIRTIODesc) (offset f_write_flag : Z)
  : res (option (VIRTIODesc * Z)) :=
  match fuel with
  | O => OutOfFuel
  | S f =>
      if negb (Z.land (d_flags desc) VRING_DESC_F_WRITE =? f_write_flag)
      then Ok None
      else if u32 offset <? d_len desc then Ok (Some (desc, offset))
      else if negb (has_flag desc VRING_DESC_F_NEXT) then Ok None
      else find_desc_at_offset f s queue_idx
             (get_desc s queue_idx (d_next desc))
             (s32 (u32 offset - d_len desc)) f_write_flag
  end.

(** Third loop: stream [count] bytes; the result is the return value, the
    host buffer and the device. *)
Fixpoint copy_queue_loop (fuel : nat) s (buf : list Z) (bpos : Z)
    (queue_idx : Z) (desc : VIRTIODesc) (offset count : Z)
    (to_queue : bool) (f_write_flag : Z)
  : res (Z * list Z * VIRTIODevice X) :=
  match fuel with
  | O => OutOfFuel
  | S f =>
      let l := min_int count (s32 (d_len desc - offset)) in
      let buf' :=
        if to_queue then buf
        else virtio_memcpy_from_ram s buf bpos (u64 (d_addr desc + offset)) l
      in
      let s' :=
        if to_queue
        then virtio_memcpy_to_ram s (u64 (d_addr desc + offset)) buf bpos l
        else s in
      let count := s32 (count - l) in
      if count =? 0 then Ok (0, buf', s')
      else
        let offset := s32 (offset + l) in
        let bpos := bpos + l in
        if u32 offset =? d_len desc then
          if negb (has_flag desc VRING_DESC_F_NEXT) then Ok (-1, buf', s')
          else
            let desc := get_desc s' queue_idx (d_next desc) in
            if negb (Z.land (d_flags desc) VRING_DESC_F_WRITE =? f_write_flag)
            then Ok (-1, buf', s')
            else copy_queue_loop f s' buf' bpos queue_idx desc 0 count
                   to_queue f_write_flag
        else copy_queue_loop f s' buf' bpos queue_idx desc offset count
               to_queue f_write_flag
  end.

Definition memcpy_to_from_queue (fuel : nat) s (buf : list Z)
    (queue_idx desc_idx offset count : Z) (to_queue : bool)
  : res (Z * list Z * VIRTIODevice X) :=
  if count =? 0 then Ok (0, buf, s)
  else
    let desc := get_desc s queue_idx desc_idx in
    let f_write_flag := if to_queue then VRING_DESC_F_WRITE else 0 in
    r <- (if to_queue then find_write_desc fuel s queue_idx desc
          else Ok (Some desc)) ;;
    match r with
    | None => Ok (-1, buf, s)
    | Some desc =>
        r2 <- find_desc_at_offset fuel s queue_idx desc offset f_write_flag ;;
        match r2 with
        | None => Ok (-1, buf, s)
        | Some (desc, offset) =>
            copy_queue_loop fuel s buf 0 queue_idx desc offset count
              to_queue f_write_flag
        end
    end.

(** [memcpy_from_queue]: return value and filled buffer (guest memory is
    only read). *)
Definition memcpy_from_queue (fuel : nat) s (buf : list Z)
    (queue_idx desc_idx offset count : Z) : res (Z * list Z) :=
  '(r, b, _) <- memcpy_to_from_queue fuel s buf queue_idx desc_idx offset
                  count false ;;
  Ok (r, b).

(** [memcpy_to_queue]: return value and device. *)
Definition memcpy_to_queue (fuel : nat) s (queue_idx desc_idx offset : Z)
    (buf : list Z) (count : Z) : res (Z * VIRTIODevice X) :=
  '(r, _, s') <- memcpy_to_from_queue fuel s buf queue_idx desc_idx offset
                   count true ;;
  Ok (r, s').

(** Address of the 16-bit index of the used ring and of the slot of ring
    position [index]. *)
Definition used_idx_addr (qs : QueueState) : Z := u64 (used_addr qs + 2).
Definition used_slot_addr (qs : QueueState) (index : Z) : Z :=
  u64 (used_addr qs + 4 + u32 (Z.land index (u32 (num qs - 1)) * 8)).

(** [virtio_consume_desc]: signal that the descriptor has been consumed. *)
Definition virtio_consume_desc s (queue_idx desc_idx desc_len : Z)
  : VIRTIODevice X :=
  let qs := queue s queue_idx in
  let addr := used_idx_addr qs in
  let index := virtio_read16 s addr in
  let s := virtio_write16 s addr (index + 1) in
  let addr := used_slot_addr qs index in
  let s := virtio_write32 s addr desc_idx in
  let s := virtio_write32 s (addr + 4) desc_len in
  let s := with_int_status (Z.lor (int_status s) 1) s in
  set_irq true s.

(** First loop of [get_desc_rw_size]: the device-readable prefix.  The
    result is the size read so far and the descriptor at which the loop
    left by [break] ([None] after [goto done]). *)
Fixpoint rw_size_read_loop (fuel : nat) s (queue_idx : Z)
    (desc : VIRTIODesc) (read_size : Z) : res (Z * option VIRTIODesc) :=
  match fuel with
  | O => OutOfFuel
  | S f =>
      if has_flag desc VRING_DESC_F_WRITE then Ok (read_size, Some desc)
      else
        let read_size := s32 (read_size + d_len desc) in
        if negb (has_flag desc VRING_DESC_F_NEXT) then Ok (read_size, None)
        else rw_size_read_loop f s queue_idx
               (get_desc s queue_idx (d_next desc)) read_size
  end.

(** Second loop: the device-writable suffix; [None] is [return -1]. *)
Fixpoint rw_size_write_loop (fuel : nat) s (queue_idx : Z)
    (desc : VIRTIODesc) (write_size : Z) : res (option Z) :=
  match fuel with
  | O => OutOfFuel
  | S f =>
      if negb (has_flag desc VRING_DESC_F_WRITE) then Ok None
      else
        let write_size := s32 (write_size + d_len desc) in
        if negb (has_flag desc VRING_DESC_F_NEXT) then Ok (Some write_size)
        else rw_size_write_loop f s queue_idx
               (get_desc s queue_idx (d_next desc)) write_size
  end.

(** [get_desc_rw_size]: [Some (read_size, write_size)] when it returns 0,
    [None] when it returns -1. *)
Definition get_desc_rw_size (fuel : nat) s (queue_idx desc_idx : Z)
  : res (option (Z * Z)) :=
  let desc := get_desc s queue_idx desc_idx in
  '(read_size, brk) <- rw_size_read_loop fuel s queue_idx desc 0 ;;
  match brk with
  | None => Ok (Some (read_size, 0))
  | Some desc =>
      w <- rw_size_write_loop fuel s queue_idx desc 0 ;;
      match w with
      | None => Ok None
      | Some write_size => Ok (Some (read_size, write_size))
      end
  end.

End Virtqueue.

(** ** VirtIO core: notification, configuration space, register file *)

(** One round of the notify loop, recorded for the statements below: the
    ring position handled, the head read there, and whether the device
    callback ran on it. *)
Inductive visit_outcome : Type :=
| Skipped              (* [get_desc_rw_size] returned -1: no callback *)
| Called (ret : Z).    (* the callback ran and returned [ret] *)

Record visit : Type := mkVisit {
  v_index : Z;
  v_head : Z;
  v_outcome : visit_outcome
}.

Fixpoint buf_blit (buf : list Z) (pos : Z) (bs : list Z) : list Z :=
  match bs with
  | [] => buf
  | b :: r => buf_blit (buf_put buf pos b) (pos + 1) r
  end.

Section Engine.
Context {X : Type}.
Implicit Type s : VIRTIODevice X.

(** The function pointers of [VIRTIODevice]: [device_recv] returns a value
    below 0 to stop the notification; [config_write] may be null. *)
Variable device_recv :
  VIRTIODevice X -> Z -> Z -> Z -> Z -> res (Z * VIRTIODevice X).
Variable config_write : option (VIRTIODevice X -> res (VIRTIODevice X)).

(** [qs->last_avail_idx++] on queue [queue_idx]. *)
Definition advance_last_avail s (queue_idx : Z) : VIRTIODevice X :=
  let qs := queue s queue_idx in
  set_queue queue_idx (with_last_avail_idx (u16 (last_avail_idx qs + 1)) qs) s.

(** Address of the ring entry read for the current [last_avail_idx]. *)
Definition avail_entry_addr (qs : QueueState) : Z :=
  u64 (avail_addr qs + 4
       + u32 (Z.land (last_avail_idx qs) (u32 (num qs - 1)) * 2)).

(** The [while] loop of [queue_notify]: [n] bounds its rounds, [fuel] the
    descriptor walks.  The list of visits is an account of the rounds and
    has no counterpart in the device. *)
Fixpoint queue_notify_loop (n fuel : nat) s (queue_idx avail_idx : Z)
  : res (list visit * VIRTIODevice X) :=
  match n with
  | O => OutOfFuel
  | S n' =>
      let qs := queue s queue_idx in
      if last_avail_idx qs =? avail_idx then Ok ([], s)
      else
        let desc_idx := virtio_read16 s (avail_entry_addr qs) in
        r <- get_desc_rw_size fuel s queue_idx desc_idx ;;
        match r with
        | Some (read_size, write_size) =>
            '(ret, s1) <- device_recv s queue_idx desc_idx read_size
                            write_size ;;
            if ret <? 0
            then Ok ([mkVisit (last_avail_idx qs) desc_idx (Called ret)], s1)
            else
              '(vs, s2) <- queue_notify_loop n' fuel
                             (advance_last_avail s1 queue_idx)
                             queue_idx avail_idx ;;
              Ok (mkVisit (last_avail_idx qs) desc_idx (Called ret) :: vs, s2)
        | None =>
            '(vs, s2) <- queue_notify_loop n' fuel
                           (advance_last_avail s queue_idx)
                           queue_idx avail_idx ;;
            Ok (mkVisit (last_avail_idx qs) desc_idx Skipped :: vs, s2)
        end
  end.

Definition queue_notify_visits (n fuel : nat) s (queue_idx : Z)
  : res (list visit * VIRTIODevice X) :=
  let qs := queue s queue_idx in
  if manual_recv qs then Ok ([], s)
  else queue_notify_loop n fuel s queue_idx
         (virtio_read16 s (u64 (avail_addr qs + 2))).

(** [queue_notify]. *)
Definition queue_notify (n fuel : nat) s (queue_idx : Z)
  : res (VIRTIODevice X) :=
  '(_, s') <- queue_notify_visits n fuel s queue_idx ;;
  Ok s'.

(** [virtio_config_read]; the comparisons are on [uint32_t]. *)
Definition virtio_config_read s (offset size_log2 : Z) : res Z :=
  if size_log2 =? 0 then
    if offset <? config_space_size s
    then Ok (buf_get (config_space s) offset)
    else Ok 0
  else if size_log2 =? 1 then
    if offset <? u32 (config_space_size s - 1)
    then Ok (le_decode [buf_get (config_space s) offset;
                        buf_get (config_space s) (offset + 1)])
    else Ok 0
  else if size_log2 =? 2 then
    if offset <? u32 (config_space_size s - 3)
    then Ok (le_decode [buf_get (config_space s) offset;
                        buf_get (config_space s) (offset + 1);
                        buf_get (config_space s) (offset + 2);
                        buf_get (config_space s) (offset + 3)])
    else Ok 0
  else Aborted.

Definition call_config_write s : res (VIRTIODevice X) :=
  match config_write with
  | Some f => f s
  | None => Ok s
  end.

(** [virtio_config_write]. *)
Definition virtio_config_write s (offset val size_log2 : Z)
  : res (VIRTIODevice X) :=
  if size_log2 =? 0 then
    if offset <? config_space_size s
    then call_config_write
           (with_config_space (buf_put (config_space s) offset (u8 val)) s)
    else Ok s
  else if size_log2 =? 1 then
    if offset <? u32 (config_space_size s - 1)
    then call_config_write
           (with_config_space
              (buf_blit (config_space s) offset (le_encode 2 val)) s)
    else Ok s
  else if size_log2 =? 2 then
    if offset <? u32 (config_space_size s - 3)
    then call_config_write
           (with_config_space
              (buf_blit (config_space s) offset (le_encode 4 val)) s)
    else Ok s
  else Ok s.

(** [virtio_mmio_read]; [offset] is a [uint32_t]. *)
Definition virtio_mmio_read s (offset size_log2 : Z) : res Z :=
  let offset := u32 offset in
  let qs := queue s (queue_sel s) in
  if VIRTIO_MMIO_CONFIG <=? offset then
    virtio_config_read s (offset - VIRTIO_MMIO_CONFIG) size_log2
  else if size_log2 =? 2 then
    if offset =? VIRTIO_MMIO_MAGIC_VALUE then Ok 0x74726976
    else if offset =? VIRTIO_MMIO_VERSION then Ok 2
    else if offset =? VIRTIO_MMIO_DEVICE_ID then Ok (device_id s)
    else if offset =? VIRTIO_MMIO_VENDOR_ID then Ok (vendor_id s)
    else if offset =? VIRTIO_MMIO_DEVICE_FEATURES then
      (if device_features_sel s =? 0 then Ok (device_features s)
       else if device_features_sel s =? 1 then Ok 1
       else Ok 0)
    else if offset =? VIRTIO_MMIO_DEVICE_FEATURES_SEL
      then Ok (device_features_sel s)
    else if offset =? VIRTIO_MMIO_QUEUE_SEL then Ok (queue_sel s)
    else if offset =? VIRTIO_MMIO_QUEUE_NUM_MAX then Ok MAX_QUEUE_NUM
    else if offset =? VIRTIO_MMIO_QUEUE_NUM then Ok (num qs)
    else if offset =? VIRTIO_MMIO_QUEUE_DESC_LOW then Ok (u32 (desc_addr qs))
    else if offset =? VIRTIO_MMIO_QUEUE_AVAIL_LOW
      then Ok (u32 (avail_addr qs))
    else if offset =? VIRTIO_MMIO_QUEUE_USED_LOW then Ok (u32 (used_addr qs))
    else if offset =? VIRTIO_MMIO_QUEUE_DESC_HIGH
      then Ok (u32 (Z.shiftr (desc_addr qs) 32))
    else if offset =? VIRTIO_MMIO_QUEUE_AVAIL_HIGH
      then Ok (u32 (Z.shiftr (avail_addr qs) 32))
    else if offset =? VIRTIO_MMIO_QUEUE_USED_HIGH
      then Ok (u32 (Z.shiftr (used_addr qs) 32))
    else if offset =? VIRTIO_MMIO_QUEUE_READY then Ok (ready qs)
    else if offset =? VIRTIO_MMIO_INTERRUPT_STATUS then Ok (int_status s)
    else if offset =? VIRTIO_MMIO_STATUS then Ok (status s)
    else if offset =? VIRTIO_MMIO_CONFIG_GENERATION then Ok 0
    else Ok 0
  else Ok 0.

(** [set_low32] and [set_high32], in the variant compiled for 64-bit guest
    addresses ([VIRTIO_ADDR_BITS == 64]). *)
Definition set_low32 (paddr val : Z) : Z :=
  Z.lor (Z.land paddr 0xffffffff00000000) val.
Definition set_high32 (paddr val : Z) : Z :=
  Z.lor (Z.land paddr 0xffffffff) (Z.shiftl val 32).

(** [s->queue[s->queue_sel]] updated by [f]. *)
Definition upd_sel s (f : QueueState -> QueueState) : VIRTIODevice X :=
  set_queue (queue_sel s) (f (queue s (queue_sel s))) s.

(** [virtio_mmio_write]; [offset] and [val] are [uint32_t]. *)
Definition virtio_mmio_write (n fuel : nat) s (offset val size_log2 : Z)
  : res (VIRTIODevice X) :=
  let offset := u32 offset in
  let val := u32 val in
  let qs := queue s (queue_sel s) in
  if VIRTIO_MMIO_CONFIG <=? offset then
    virtio_config_write s (offset - VIRTIO_MMIO_CONFIG) val size_log2
  else if size_log2 =? 2 then
    if offset =? VIRTIO_MMIO_DEVICE_FEATURES_SEL
      then Ok (with_device_features_sel val s)
    else if offset =? VIRTIO_MMIO_QUEUE_SEL then
      (if val <? MAX_QUEUE then Ok (with_queue_sel val s) else Ok s)
    else if offset =? VIRTIO_MMIO_QUEUE_NUM then
      (if (Z.land val (u32 (val - 1)) =? 0) && (0 <? val)
       then Ok (upd_sel s (with_num val))
       else Ok s)
    else if offset =? VIRTIO_MMIO_QUEUE_DESC_LOW
      then Ok (upd_sel s (with_desc_addr (set_low32 (desc_addr qs) val)))
    else if offset =? VIRTIO_MMIO_QUEUE_AVAIL_LOW
      then Ok (upd_sel s (with_avail_addr (set_low32 (avail_addr qs) val)))
    else if offset =? VIRTIO_MMIO_QUEUE_USED_LOW
      then Ok (upd_sel s (with_used_addr (set_low32 (used_addr qs) val)))
    else if offset =? VIRTIO_MMIO_QUEUE_DESC_HIGH
      then Ok (upd_sel s (with_desc_addr (set_high32 (desc_addr qs) val)))
    else if offset =? VIRTIO_MMIO_QUEUE_AVAIL_HIGH
      then Ok (upd_sel s (with_avail_addr (set_high32 (avail_addr qs) val)))
    else if offset =? VIRTIO_MMIO_QUEUE_USED_HIGH
      then Ok (upd_sel s (with_used_addr (set_high32 (used_addr qs) val)))
    else if offset =? VIRTIO_MMIO_STATUS then
      (let s := with_status val s in
       if val =? 0 then Ok (virtio_reset (set_irq false s)) else Ok s)
    else if offset =? VIRTIO_MMIO_QUEUE_READY
      then Ok (upd_sel s (with_ready (Z.land val 1)))
    else if offset =? VIRTIO_MMIO_QUEUE_NOTIFY then
      (if val <? MAX_QUEUE then queue_notify n fuel s val else Ok s)
    else if offset =? VIRTIO_MMIO_INTERRUPT_ACK then
      (let s := with_int_status (Z.land (int_status s) (u32 (Z.lnot val))) s in
       if int_status s =? 0 then Ok (set_irq false s) else Ok s)
    else Ok s
  else Ok s.

(** [virtio_config_change_notify]. *)
Definition virtio_config_change_notify s : VIRTIODevice X :=
  set_irq true (with_int_status (Z.lor (int_status s) 2) s).

End Engine.

(** ** Block device front end *)

Definition VIRTIO_BLK_T_IN : Z := 0.
Definition VIRTIO_BLK_T_OUT : Z := 1.
Definition VIRTIO_BLK_T_FLUSH : Z := 4.
Definition VIRTIO_BLK_T_FLUSH_OUT : Z := 5.

Definition VIRTIO_BLK_S_OK : Z := 0.
Definition VIRTIO_BLK_S_IOERR : Z := 1.
Definition VIRTIO_BLK_S_UNSUPP : Z := 2.

(** [sizeof(BlockRequestHeader)]: type (4), ioprio (4), sector_num (8). *)
Definition HEADER_SIZE : Z := 16.

Record BlockRequest : Type := mkBlockRequest {
  req_type : Z;
  req_buf : list Z;
  req_write_size : Z;
  req_queue_idx : Z;
  req_desc_idx : Z
}.

(** The function pointers of [BlockDevice] over a backend state [BS]: a
    transfer returns its [int] result (above 0 when it will complete
    later), the buffer it may have filled and the backend. *)
Record BlockDevice (BS : Type) : Type := mkBlockDevice {
  get_sector_count : BS -> Z;
  read_async : BS -> Z -> list Z -> Z -> Z * list Z * BS;
  write_async : BS -> Z -> list Z -> Z -> Z * BS
}.
Arguments get_sector_count {BS}.
Arguments read_async {BS}.
Arguments write_async {BS}.

(** The fields [VIRTIOBlockDevice] adds to [VIRTIODevice].  The last one
    is not a member of the C structure: [heap] lists, for the calls of
    [malloc] still to come, the bytes each of them will find in the
    storage it returns.  C leaves these bytes indeterminate, so every
    statement about the device holds for every [heap]. *)
Record VIRTIOBlockExt (BS : Type) : Type := mkVIRTIOBlockExt {
  bs : BS;
  req_in_progress : bool;
  req : BlockRequest;
  heap : list (list Z)
}.
Arguments mkVIRTIOBlockExt {BS}.
Arguments bs {BS}.
Arguments req_in_progress {BS}.
Arguments req {BS}.
Arguments heap {BS}.

Definition VIRTIOBlockDevice (BS : Type) : Type :=
  VIRTIODevice (VIRTIOBlockExt BS).

(** [malloc(size)]: [size] bytes whose contents are not initialised.
    They are the bytes [found] in the storage (the first [size] of them,
    followed by zeros where [found] is shorter).  A negative [int] size,
    converted to a huge [size_t], yields no storage. *)
Definition malloc (found : list Z) (size : Z) : list Z :=
  firstn (Z.to_nat size) (found ++ repeat 0 (Z.to_nat size)).

Section Block.
Context {BS : Type}.
Variable bdev : BlockDevice BS.
Implicit Type s : VIRTIOBlockDevice BS.

Definition with_bs (b : BS) s :=
  with_ext
    (mkVIRTIOBlockExt b (req_in_progress (ext s)) (req (ext s))
       (heap (ext s))) s.
Definition with_req_in_progress (p : bool) s :=
  with_ext (mkVIRTIOBlockExt (bs (ext s)) p (req (ext s)) (heap (ext s))) s.
Definition with_req (r : BlockRequest) s :=
  with_ext
    (mkVIRTIOBlockExt (bs (ext s)) (req_in_progress (ext s)) r
       (heap (ext s))) s.
Definition with_heap (h : list (list Z)) s :=
  with_ext
    (mkVIRTIOBlockExt (bs (ext s)) (req_in_progress (ext s)) (req (ext s)) h)
    s.

(** What the next [malloc] finds, and the device once it has returned. *)
Definition stale s : list Z := hd [] (heap (ext s)).
Definition malloc_done s := with_heap (tl (heap (ext s))) s.

(** [virtio_block_req_end]. *)
Definition virtio_block_req_end (fuel : nat) s (ret : Z)
  : res (VIRTIOBlockDevice BS) :=
  let r := req (ext s) in
  let queue_idx := req_queue_idx r in
  let desc_idx := req_desc_idx r in
  if req_type r =? VIRTIO_BLK_T_IN then
    let write_size := req_write_size r in
    let buf :=
      buf_put (req_buf r) (write_size - 1)
        (if ret <? 0 then VIRTIO_BLK_S_IOERR else VIRTIO_BLK_S_OK) in
    '(_, s1) <- memcpy_to_queue fuel s queue_idx desc_idx 0 buf write_size ;;
    Ok (virtio_consume_desc s1 queue_idx desc_idx write_size)
  else if req_type r =? VIRTIO_BLK_T_OUT then
    let buf1 := [if ret <? 0 then VIRTIO_BLK_S_IOERR else VIRTIO_BLK_S_OK] in
    '(_, s1) <- memcpy_to_queue fuel s queue_idx desc_idx 0 buf1 1 ;;
    Ok (virtio_consume_desc s1 queue_idx desc_idx 1)
  else Aborted.

(** [virtio_block_recv_request]: the device callback of the block
    device.  The header [h] lives on the stack; it is read only after a
    copy that filled its 16 bytes, so what it held before plays no
    role. *)
Definition virtio_block_recv_request (fuel : nat) s
    (queue_idx desc_idx read_size write_size : Z)
  : res (Z * VIRTIOBlockDevice BS) :=
  if req_in_progress (ext s) then Ok (-1, s)
  else
    '(r, h) <- memcpy_from_queue fuel s (repeat 0 (Z.to_nat HEADER_SIZE))
                 queue_idx desc_idx 0 HEADER_SIZE ;;
    if r <? 0 then Ok (0, s)
    else
      let h_type := le_decode (sub_bytes h 0 4) in
      let h_sector_num := le_decode (sub_bytes h 8 8) in
      let s :=
        with_req (mkBlockRequest h_type (req_buf (req (ext s)))
                    (req_write_size (req (ext s))) queue_idx desc_idx) s in
      if h_type =? VIRTIO_BLK_T_IN then
        let buf := malloc (stale s) write_size in
        let s := malloc_done s in
        let '(ret, buf, b) :=
          read_async bdev (bs (ext s)) h_sector_num buf
            (Z.quot (s32 (write_size - 1)) SECTOR_SIZE) in
        let s :=
          with_bs b
            (with_req (mkBlockRequest h_type buf write_size queue_idx
                         desc_idx) s) in
        if 0 <? ret then Ok (0, with_req_in_progress true s)
        else s' <- virtio_block_req_end fuel s ret ;; Ok (0, s')
      else if h_type =? VIRTIO_BLK_T_OUT then
        if write_size <? 1 then Aborted   (* assert(write_size >= 1) *)
        else
          let len := s32 (read_size - HEADER_SIZE) in
          let buf := malloc (stale s) len in
          let s := malloc_done s in
          '(_, buf) <- memcpy_from_queue fuel s buf queue_idx desc_idx
                         HEADER_SIZE len ;;
          let '(ret, b) :=
            write_async bdev (bs (ext s)) h_sector_num buf
              (Z.quot len SECTOR_SIZE) in
          let s := with_bs b s in
          if 0 <? ret then Ok (0, with_req_in_progress true s)
          else s' <- virtio_block_req_end fuel s ret ;; Ok (0, s')
      else Ok (0, s).

(** The block device has no [config_write] callback. *)
Definition blk_queue_notify (n fuel : nat) s (queue_idx : Z) :=
  queue_notify (virtio_block_recv_request fuel) n fuel s queue_idx.

(** [virtio_block_req_cb]: completion of a deferred transfer. *)
Definition virtio_block_req_cb (n fuel : nat) s (ret : Z)
  : res (VIRTIOBlockDevice BS) :=
  s1 <- virtio_block_req_end fuel s ret ;;
  let s2 := with_req_in_progress false s1 in
  blk_queue_notify n fuel s2 (req_queue_idx (req (ext s2))).

Definition blk_mmio_write (n fuel : nat) s (offset val size_log2 : Z) :=
  virtio_mmio_write (virtio_block_recv_request fuel) None n fuel s offset val
    size_log2.

(** [virtio_block_init]: device id 2, 8 bytes of configuration space
    holding the sector count. *)
Definition virtio_block_init (m : guest_ram) (line : bool) (b : BS)
    (hp : list (list Z)) : VIRTIOBlockDevice BS :=
  let s :=
    virtio_init m line 2 8
      (mkVIRTIOBlockExt b false (mkBlockRequest 0 [] 0 0 0) hp) in
  let nb_sectors := u64 (get_sector_count bdev b) in
  let c := buf_blit (config_space s) 0 (le_encode 4 nb_sectors) in
  let c := buf_blit c 4 (le_encode 4 (Z.shiftr nb_sectors 32)) in
  with_config_space c s.

(** [virtioblk_t::load]: the result and the bytes written to [bytes]. *)
Definition virtioblk_load s (addr len : Z) : res (bool * list Z) :=
  if 8 <? len then Ok (false, [])
  else if len =? 1 then Ok (true, le_encode 1 0)
  else if len =? 2 then Ok (true, le_encode 2 0)
  else if len =? 4 then
    val <- virtio_mmio_read s addr 2 ;;
    Ok (true, le_encode 4 val)
  else if len =? 8 then
    low <- virtio_mmio_read s addr 2 ;;
    high <- virtio_mmio_read s (addr + 4) 2 ;;
    Ok (true, le_encode 8 (Z.lor low (Z.shiftl high 32)))
  else Ok (false, []).

(** [virtioblk_t::store]. *)
Definition virtioblk_store (n fuel : nat) s (addr len : Z) (bytes : list Z)
  : res (bool * VIRTIOBlockDevice BS) :=
  if 8 <? len then Ok (false, s)
  else if len =? 1 then Ok (true, s)
  else if len =? 2 then Ok (true, s)
  else if len =? 4 then
    s1 <- blk_mmio_write n fuel s addr (le_decode (firstn 4 bytes)) 2 ;;
    Ok (true, s1)
  else if len =? 8 then
    let val := le_decode (firstn 8 bytes) in
    s1 <- blk_mmio_write n fuel s addr (Z.land val 0xffffffff) 2 ;;
    s2 <- blk_mmio_write n fuel s1 (addr + 4)
            (Z.land (Z.shiftr val 32) 0xffffffff) 2 ;;
    Ok (true, s2)
  else Ok (false, s).

End Block.

(** ** The file backend

    A stream of the C library is held as the bytes of the file and the
    current position. *)

Inductive BlockDeviceModeEnum : Type :=
| BF_MODE_RO
| BF_MODE_RW
| BF_MODE_SNAPSHOT.

Record host_file : Type := mkHostFile {
  f_bytes : list Z;
  f_pos : Z
}.

(** Conversion to a signed 64-bit offset. *)
Definition s64 (x : Z) : Z :=
  let y := u64 x in
  if y <? 9223372036854775808 then y else y - 18446744073709551616.

(** [fseek(f, off, SEEK_SET)]: a negative offset is refused and leaves the
    position where it was. *)
Definition fseek (f : host_file) (off : Z) : host_file :=
  if off <? 0 then f else mkHostFile (f_bytes f) off.

(** [fread(buf, 1, count, f)]: the bytes from the position to the end of
    the file, at most [count] of them. *)
Definition fread (f : host_file) (buf : list Z) (bpos count : Z)
  : list Z * host_file :=
  let got := firstn (Z.to_nat count) (skipn (Z.to_nat (f_pos f)) (f_bytes f)) in
  (buf_blit buf bpos got, mkHostFile (f_bytes f) (f_pos f + Z.of_nat (length got))).

(** [count] bytes of a host buffer from [bpos]. *)
Definition buf_sub (buf : list Z) (bpos count : Z) : list Z :=
  map (fun i => buf_get buf (bpos + Z.of_nat i)) (seq 0 (Z.to_nat count)).

(** [fwrite(buf, 1, count, f)] on a stream opened for update: the bytes
    replace those at the position, and a position past the end leaves a
    gap of zeros. *)
Definition fwrite (f : host_file) (data : list Z) : host_file :=
  let p := Z.to_nat (f_pos f) in
  let old := f_bytes f in
  let head := firstn p old ++ repeat 0 (p - length old) in
  mkHostFile (head ++ data ++ skipn (p + length data) old)
    (f_pos f + Z.of_nat (length data)).

Record BlockDeviceFile : Type := mkBlockDeviceFile {
  f : option host_file;
  nb_sectors : Z;
  mode : BlockDeviceModeEnum;
  sector_table : Z -> option (list Z)
}.

Definition bf_get_sector_count (bf : BlockDeviceFile) : Z := nb_sectors bf.

(** The snapshot loop of [bf_read_async], [n] sectors left. *)
Fixpoint bf_read_snapshot (n : nat) (tbl : Z -> option (list Z))
    (fl : host_file) (sector_num : Z) (buf : list Z) (bpos : Z)
  : list Z * host_file :=
  match n with
  | O => (buf, fl)
  | S n' =>
      let '(buf1, fl1) :=
        match tbl sector_num with
        | None =>
            fread (fseek fl (s64 (sector_num * SECTOR_SIZE))) buf bpos
              SECTOR_SIZE
        | Some sec => (buf_blit buf bpos (firstn 512 sec), fl)
        end in
      bf_read_snapshot n' tbl fl1 (u64 (sector_num + 1)) buf1
        (bpos + SECTOR_SIZE)
  end.

(** [bf_read_async]: always synchronous. *)
Definition bf_read_async (bf : BlockDeviceFile) (sector_num : Z)
    (buf : list Z) (n : Z) : Z * list Z * BlockDeviceFile :=
  match f bf with
  | None => (-1, buf, bf)
  | Some fl =>
      match mode bf with
      | BF_MODE_SNAPSHOT =>
          let '(buf1, fl1) :=
            bf_read_snapshot (Z.to_nat n) (sector_table bf) fl
              (u64 sector_num) buf 0 in
          (0, buf1,
           mkBlockDeviceFile (Some fl1) (nb_sectors bf) (mode bf)
             (sector_table bf))
      | _ =>
          let '(buf1, fl1) :=
            fread (fseek fl (s64 (sector_num * SECTOR_SIZE))) buf 0
              (u64 (s32 (n * SECTOR_SIZE))) in
          (0, buf1,
           mkBlockDeviceFile (Some fl1) (nb_sectors bf) (mode bf)
             (sector_table bf))
      end
  end.

(** The snapshot loop of [bf_write_async]. *)
Fixpoint bf_write_snapshot (n : nat) (tbl : Z -> option (list Z))
    (sector_num : Z) (buf : list Z) (bpos : Z) : Z -> option (list Z) :=
  match n with
  | O => tbl
  | S n' =>
      bf_write_snapshot n'
        (fun k => if k =? sector_num
                  then Some (buf_sub buf bpos SECTOR_SIZE) else tbl k)
        (u64 (sector_num + 1)) buf (bpos + SECTOR_SIZE)
  end.

(** [bf_write_async].  The stream is never null after
    [block_device_init]; the read-write case does not test it, and the
    model leaves the backend alone if it were. *)
Definition bf_write_async (bf : BlockDeviceFile) (sector_num : Z)
    (buf : list Z) (n : Z) : Z * BlockDeviceFile :=
  match mode bf with
  | BF_MODE_RO => (-1, bf)
  | BF_MODE_RW =>
      match f bf with
      | None => (0, bf)
      | Some fl =>
          let fl1 :=
            fwrite (fseek fl (s64 (sector_num * SECTOR_SIZE)))
              (buf_sub buf 0 (u64 (s32 (n * SECTOR_SIZE)))) in
          (0, mkBlockDeviceFile (Some fl1) (nb_sectors bf) (mode bf)
                (sector_table bf))
      end
  | BF_MODE_SNAPSHOT =>
      if u64 (nb_sectors bf) <? u64 (sector_num + n) then (-1, bf)
      else
        (0, mkBlockDeviceFile (f bf) (nb_sectors bf) (mode bf)
              (bf_write_snapshot (Z.to_nat n) (sector_table bf)
                 (u64 sector_num) buf 0))
  end.

(** [block_device_init] on an opened file: the function table and the
    backend state. *)
Definition file_backend : BlockDevice BlockDeviceFile :=
  mkBlockDevice BlockDeviceFile bf_get_sector_count bf_read_async
    bf_write_async.

Definition block_device_init (contents : list Z) (m : BlockDeviceModeEnum)
  : BlockDeviceFile :=
  let file_size := Z.of_nat (length contents) in
  mkBlockDeviceFile (Some (mkHostFile contents file_size))
    (file_size / 512) m (fun _ => None).

(** ** SiFive UART: the load side of the register file *)

(** Modelled from the spec: the register offsets of sifive_uart.h. *)
Definition UART_TXFIFO : Z := 0x00.
Definition UART_RXFIFO : Z := 0x04.
Definition UART_TXCTRL : Z := 0x08.
Definition UART_RXCTRL : Z := 0x0c.
Definition UART_IE : Z := 0x10.
Definition UART_IP : Z := 0x14.
Definition UART_DIV : Z := 0x18.

Section Uart.
(** The members of [sifive_uart_t] declared in sifive_uart.h: the object,
    its registers, and the two reads that compute their value. *)
Variable U : Type.
Variable read_rxfifo : U -> Z * U.
Variable read_ip : U -> Z.
Variables txctrl rxctrl ie div : U -> Z.

(** [sifive_uart_t::load]: [memcpy(bytes, &r, len)] writes the [len] low
    bytes of the 32-bit value. *)
Definition sifive_uart_load (u : U) (addr len : Z)
  : res (bool * list Z * U) :=
  if (0x1000 <=? addr) || (4 <? len) then Ok (false, [], u)
  else
    let done (r : Z) (u' : U) :=
      Ok (true, le_encode (Z.to_nat len) (u32 r), u') in
    if addr =? UART_TXFIFO then done 0 u
    else if addr =? UART_RXFIFO then
      let '(r, u') := read_rxfifo u in done r u'
    else if addr =? UART_TXCTRL then done (txctrl u) u
    else if addr =? UART_RXCTRL then done (rxctrl u) u
    else if addr =? UART_IE then done (ie u) u
    else if addr =? UART_IP then done (read_ip u) u
    else if addr =? UART_DIV then done (div u) u
    else Aborted.

End Uart.

(** * Vocabulary of the statements and concrete devices *)

(** The state of one queue right after a reset. *)
Definition queue_after_reset (qs : QueueState) : Prop :=
  num qs = MAX_QUEUE_NUM /\ num qs <> 0 /\ ready qs = 0 /\
  last_avail_idx qs = 0 /\ desc_addr qs = 0 /\ avail_addr qs = 0 /\
  used_addr qs = 0.

(** The events added to the log by a call. *)
Definition new_events {X : Type} (s s' : VIRTIODevice X) : list event :=
  skipn (length (log s)) (log s').

(** The four events of a publication, in program order. *)
Definition publication_events (qs : QueueState) (index head len : Z)
  : list event :=
  [ EvStore 16 (used_idx_addr qs) (u16 (index + 1));
    EvStore 32 (used_slot_addr qs index) (u32 head);
    EvStore 32 (u64 (used_slot_addr qs index + 4)) (u32 len);
    EvIrq true ].

(** A power of two that fits the [uint32_t] field [num]. *)
Definition pow2_u32 (n : Z) : Prop := exists k, 0 <= k <= 31 /\ n = 2 ^ k.

(** A block device over an empty read-write image, guest memory all
    zero, line low. *)
Definition blk0 : VIRTIOBlockDevice BlockDeviceFile :=
  virtio_block_init file_backend (fun _ => 0) false
    (block_device_init [] BF_MODE_RW) [].

(** The same device over guest memory whose bytes are all 0xff. *)
Definition blk_ff : VIRTIOBlockDevice BlockDeviceFile :=
  virtio_block_init file_backend (fun _ => 255) false
    (block_device_init [] BF_MODE_RW) [].

Definition is_idx_store (qs : QueueState) (e : event) : bool :=
  match e with
  | EvStore b a _ => (b =? 16) && (a =? used_idx_addr qs)
  | EvIrq _ => false
  end.

Definition is_entry_store (qs : QueueState) (index : Z) (e : event) : bool :=
  match e with
  | EvStore b a _ =>
      (b =? 32) && ((a =? used_slot_addr qs index)
                    || (a =? u64 (used_slot_addr qs index + 4)))
  | EvIrq _ => false
  end.

Definition is_irq_raise (e : event) : bool :=
  match e with
  | EvIrq level => level
  | EvStore _ _ _ => false
  end.

(** Every event of kind [p] comes earlier in [l] than every event of kind
    [q]. *)
Definition all_before (p q : event -> bool) (l : list event) : Prop :=
  forall (i j : nat) (e1 e2 : event),
    nth_error l i = Some e1 -> nth_error l j = Some e2 ->
    p e1 = true -> q e2 = true -> (i < j)%nat.

(** [s'] is [s] up to guest memory and the log of events. *)
Definition ram_only {X : Type} (s s' : VIRTIODevice X) : Prop :=
  s' = with_log (log s') (with_ram (ram s') s).

(** A sequence of MMIO writes, each given as offset, value and
    [size_log2]. *)
Fixpoint blk_mmio_writes {BS : Type} (bdev : BlockDevice BS) (n fuel : nat)
    (s : VIRTIOBlockDevice BS) (ws : list (Z * Z * Z))
  : res (VIRTIOBlockDevice BS) :=
  match ws with
  | [] => Ok s
  | (offset, val, size_log2) :: rest =>
      s1 <- blk_mmio_write bdev n fuel s offset val size_log2 ;;
      blk_mmio_writes bdev n fuel s1 rest
  end.

(** Guest memory given by byte strings placed at base addresses, zero
    elsewhere. *)
Fixpoint ram_image (l : list (Z * list Z)) (a : Z) : Z :=
  match l with
  | [] => 0
  | (base, bytes) :: rest =>
      if (base <=? a) && (a <? base + Z.of_nat (length bytes))
      then nth (Z.to_nat (a - base)) bytes 0
      else ram_image rest a
  end.

(** One request in guest memory: a descriptor table at 0x1000 whose entry
    0 is a single device-readable descriptor of 16 bytes at 0x4000, an
    available ring at 0x2000 holding head 0 with index 1, and at 0x4000 a
    request header of the given type for sector 0. *)
Definition one_request_ram (type : Z) : guest_ram :=
  ram_image
    [ (0x1000, le_encode 8 0x4000 ++ le_encode 4 16 ++ le_encode 2 0
                 ++ le_encode 2 0);
      (0x2000, le_encode 2 0 ++ le_encode 2 1 ++ le_encode 2 0);
      (0x4000, le_encode 4 type ++ le_encode 4 0 ++ le_encode 8 0) ].

(** The block device after the driver has programmed queue 0 with 16
    entries and the three rings at 0x1000, 0x2000 and 0x3000. *)
Definition blk_setup (m : guest_ram) : VIRTIOBlockDevice BlockDeviceFile :=
  let s0 :=
    virtio_block_init file_backend m false
      (block_device_init (repeat 0 1024%nat) BF_MODE_RW) [] in
  match
    blk_mmio_writes file_backend 0 0 s0
      [ (VIRTIO_MMIO_STATUS, 3, 2);
        (VIRTIO_MMIO_QUEUE_SEL, 0, 2);
        (VIRTIO_MMIO_QUEUE_NUM, 16, 2);
        (VIRTIO_MMIO_QUEUE_DESC_LOW, 0x1000, 2);
        (VIRTIO_MMIO_QUEUE_AVAIL_LOW, 0x2000, 2);
        (VIRTIO_MMIO_QUEUE_USED_LOW, 0x3000, 2);
        (VIRTIO_MMIO_QUEUE_READY, 1, 2);
        (VIRTIO_MMIO_STATUS, 7, 2) ]
  with
  | Ok s => s
  | _ => s0
  end.

(** What a call of the device callback lets the guest observe: its return
    value, the events it added, the level of the line and the index of the
    used ring of queue [q]. *)
Definition recv_summary {BS : Type} (s : VIRTIOBlockDevice BS) (q : Z)
    (r : res (Z * VIRTIOBlockDevice BS)) : res (Z * list event * bool * Z) :=
  '(ret, s') <- r ;;
  Ok (ret, new_events s s', irq s',
      virtio_read16 s' (used_addr (queue s' q) + 2)).

(** The register offsets the UART decodes on a load. *)
Definition uart_load_regs : list Z :=
  [UART_TXFIFO; UART_RXFIFO; UART_TXCTRL; UART_RXCTRL; UART_IE; UART_IP;
   UART_DIV].

(** The selected queue is one of the eight, and every queue has a ring
    size that is a power of two. *)
Definition rings_ok {X : Type} (s : VIRTIODevice X) : Prop :=
  0 <= queue_sel s < MAX_QUEUE /\
  forall i, 0 <= i < MAX_QUEUE -> pow2_u32 (num (queue s i)).

(** [s'] has the selected queue and the ring sizes of [s]. *)
Definition same_sizes {X : Type} (s s' : VIRTIODevice X) : Prop :=
  queue_sel s' = queue_sel s /\
  forall i, num (queue s' i) = num (queue s i).

(** The ring size of queue [q] after a sequence of MMIO writes. *)
Definition num_after_writes {BS : Type} (bdev : BlockDevice BS)
    (n fuel : nat) (s : VIRTIOBlockDevice BS) (ws : list (Z * Z * Z)) (q : Z)
  : res Z :=
  s' <- blk_mmio_writes bdev n fuel s ws ;; Ok (num (queue s' q)).

(** A visit on which the device pushed back. *)
Definition is_pushback (v : visit) : bool :=
  match v_outcome v with
  | Called r => r <? 0
  | Skipped => false
  end.

(** The ring positions [l], [l + 1], ... modulo 2^16, [n] of them. *)
Definition ring_positions (l : Z) (n : nat) : list Z :=
  map (fun k => u16 (l + Z.of_nat k)) (seq 0 n).

(** What the loop leaves behind for an account [vs] of its rounds, started
    at position [l] with the driver's index at [a]: either no round was a
    push-back and [last_avail_idx] has reached [a] after [(a - l) mod 2^16]
    rounds, or the last round, and only the last, was a push-back and
    [last_avail_idx] still points at its head. *)
Definition walk_outcome (l a : Z) (vs : list visit) (last' : Z) : Prop :=
  map v_index vs = ring_positions l (length vs) /\
  ((forallb (fun v => negb (is_pushback v)) vs = true /\
    last' = a /\ Z.of_nat (length vs) = u16 (a - l))
   \/
   (exists vs0 v,
       vs = vs0 ++ [v] /\
       forallb (fun v => negb (is_pushback v)) vs0 = true /\
       is_pushback v = true /\ last' = v_index v)).

(** What a notify lets the guest observe: the account of the rounds, the
    new [last_avail_idx] of queue [q] and the events added. *)
Definition notify_summary {X : Type} (s : VIRTIODevice X) (q : Z)
    (r : res (list visit * VIRTIODevice X))
  : res (list visit * Z * list event) :=
  '(vs, s') <- r ;;
  Ok (vs, last_avail_idx (queue s' q), new_events s s').

(** Guest memory with a malformed chain: descriptor 0 is device-writable
    and links to descriptor 1, which is device-readable; the available
    ring at 0x2000 holds head 0 with index 1. *)
Definition bad_chain_ram : guest_ram :=
  ram_image
    [ (0x1000, le_encode 8 0x4000 ++ le_encode 4 16 ++ le_encode 2 3
                 ++ le_encode 2 1
                 ++ le_encode 8 0x5000 ++ le_encode 4 16 ++ le_encode 2 0
                 ++ le_encode 2 0);
      (0x2000, le_encode 2 0 ++ le_encode 2 1 ++ le_encode 2 0) ].

(** The programmed block device with queue 0 marked [manual_recv]. *)
Definition blk_manual : VIRTIOBlockDevice BlockDeviceFile :=
  let s := blk_setup (one_request_ram VIRTIO_BLK_T_IN) in
  set_queue 0 (mkQueueState 1 16 0 0x1000 0x2000 0x3000 true) s.

Definition notify_example_visits : list visit :=
  match
    queue_notify_visits (virtio_block_recv_request file_backend 8) 4 8
      (blk_setup (one_request_ram VIRTIO_BLK_T_IN)) 0
  with
  | Ok (vs, _) => vs
  | _ => []
  end.

Definition notify_example_state : VIRTIOBlockDevice BlockDeviceFile :=
  match
    queue_notify_visits (virtio_block_recv_request file_backend 8) 4 8
      (blk_setup (one_request_ram VIRTIO_BLK_T_IN)) 0
  with
  | Ok (_, s') => s'
  | _ => blk_setup (one_request_ram VIRTIO_BLK_T_IN)
  end.

(** Guest memory for a read of sector 0: a header of 16 device-readable
    bytes at 0x4000, 512 device-writable data bytes at 0x5000 and one
    device-writable status byte at 0x5200, chained as descriptors 0, 1
    and 2. *)
Definition read_request_ram : guest_ram :=
  ram_image
    [ (0x1000, le_encode 8 0x4000 ++ le_encode 4 16 ++ le_encode 2 1
                 ++ le_encode 2 1
                 ++ le_encode 8 0x5000 ++ le_encode 4 512 ++ le_encode 2 3
                 ++ le_encode 2 2
                 ++ le_encode 8 0x5200 ++ le_encode 4 1 ++ le_encode 2 2
                 ++ le_encode 2 0);
      (0x2000, le_encode 2 0 ++ le_encode 2 1 ++ le_encode 2 0);
      (0x4000, le_encode 4 VIRTIO_BLK_T_IN ++ le_encode 4 0 ++ le_encode 8 0);
      (0x5200, [0xff]) ].

(** The programmed block device over an image whose bytes are all 7. *)
Definition blk_sevens (m : guest_ram) : VIRTIOBlockDevice BlockDeviceFile :=
  with_ext
    (mkVIRTIOBlockExt (block_device_init (repeat 7 1024%nat) BF_MODE_RW)
       false (mkBlockRequest 0 [] 0 0 0) [])
    (blk_setup m).

(** After a notify: index and first entry of the used ring, the status
    byte, the first and last data byte, the line and [int_status]. *)
Definition read_scenario_summary
    (r : res (VIRTIOBlockDevice BlockDeviceFile))
  : res (Z * Z * Z * Z * Z * Z * bool * Z) :=
  s' <- r ;;
  Ok (virtio_read16 s' 0x3002, load_u32 (ram s') 0x3004,
      load_u32 (ram s') 0x3008, load_u8 (ram s') 0x5200,
      load_u8 (ram s') 0x5000, load_u8 (ram s') 0x51ff,
      irq s', int_status s').

(** The programmed block device with a read of 513 bytes in flight. *)
Definition blk_in_flight : VIRTIOBlockDevice BlockDeviceFile :=
  with_ext
    (mkVIRTIOBlockExt (block_device_init (repeat 7 1024%nat) BF_MODE_RW)
       true (mkBlockRequest VIRTIO_BLK_T_IN (repeat 7 513%nat) 513 0 0) [])
    (blk_setup read_request_ram).

(** A write of 0 to STATUS followed by the completion of the request in
    flight: the ready bit of queue 0 at the time of the completion, the
    first four events of the completion and the level of the line
    after it. *)
Definition completion_after_reset_summary : res (Z * list event * bool) :=
  s1 <- blk_mmio_write file_backend 4 8 blk_in_flight VIRTIO_MMIO_STATUS 0 2 ;;
  s2 <- virtio_block_req_cb file_backend 4 8 s1 0 ;;
  Ok (ready (queue s1 0), firstn 4 (new_events s1 s2), irq s2).

(** The value a call returned, and [d] if it did not return. *)
Definition res_value {A : Type} (r : res A) (d : A) : A :=
  match r with
  | Ok a => a
  | _ => d
  end.

Definition res_is_ok {A : Type} (r : res A) : bool :=
  match r with
  | Ok _ => true
  | _ => false
  end.

(** What the driver reads back from a LOW/HIGH register pair. *)
Definition read_pair {X : Type} (s : VIRTIODevice X) (low_reg high_reg : Z)
  : res (Z * Z) :=
  l <- virtio_mmio_read s low_reg 2 ;;
  h <- virtio_mmio_read s high_reg 2 ;;
  Ok (l, h).

(** Every element is a byte. *)
Definition all_bytes (bs : list Z) : Prop := Forall (fun b => 0 <= b < 256) bs.

(** The interrupt line is high exactly when an interrupt is pending. *)
Definition irq_follows_status {X : Type} (s : VIRTIODevice X) : Prop :=
  irq s = negb (int_status s =? 0).

(** What happens to a block device: a register write by the driver or
    the completion of a deferred transfer by the backend. *)
Inductive blk_action : Type :=
| MmioWrite (offset val size_log2 : Z)
| Completion (ret : Z).

Fixpoint blk_run {BS : Type} (bdev : BlockDevice BS) (n fuel : nat)
    (s : VIRTIOBlockDevice BS) (acts : list blk_action)
  : res (VIRTIOBlockDevice BS) :=
  match acts with
  | [] => Ok s
  | MmioWrite offset val size_log2 :: rest =>
      s1 <- blk_mmio_write bdev n fuel s offset val size_log2 ;;
      blk_run bdev n fuel s1 rest
  | Completion ret :: rest =>
      s1 <- virtio_block_req_cb bdev n fuel s ret ;;
      blk_run bdev n fuel s1 rest
  end.

(** The driver programs queue 0, notifies it and acknowledges the
    interrupt. *)
Definition notify_and_ack : list blk_action :=
  [ MmioWrite VIRTIO_MMIO_STATUS 3 2;
    MmioWrite VIRTIO_MMIO_QUEUE_SEL 0 2;
    MmioWrite VIRTIO_MMIO_QUEUE_NUM 16 2;
    MmioWrite VIRTIO_MMIO_QUEUE_DESC_LOW 0x1000 2;
    MmioWrite VIRTIO_MMIO_QUEUE_AVAIL_LOW 0x2000 2;
    MmioWrite VIRTIO_MMIO_QUEUE_USED_LOW 0x3000 2;
    MmioWrite VIRTIO_MMIO_QUEUE_READY 1 2;
    MmioWrite VIRTIO_MMIO_STATUS 7 2;
    MmioWrite VIRTIO_MMIO_QUEUE_NOTIFY 0 2;
    MmioWrite VIRTIO_MMIO_INTERRUPT_ACK 1 2 ].

(** The block device over an image of two sectors and guest memory
    holding a read request, before the driver touches it; the first
    [malloc] will find bytes 0x55. *)
Definition blk_fresh : VIRTIOBlockDevice BlockDeviceFile :=
  virtio_block_init file_backend read_request_ram false
    (block_device_init (repeat 7 1024%nat) BF_MODE_RW)
    [repeat 0x55 600%nat].

(** The bytes of the image file of a backend. *)
Definition image_bytes (bf : BlockDeviceFile) : option (list Z) :=
  match f bf with
  | Some fl => Some (f_bytes fl)
  | None => None
  end.

(** The descriptors that follow [d] in its chain: each one is the entry
    of the table named by the [next] field of the one before, and the
    last one has no NEXT flag. *)
Fixpoint desc_chain {X : Type} (s : VIRTIODevice X) (q : Z) (d : VIRTIODesc)
    (rest : list VIRTIODesc) : Prop :=
  match rest with
  | [] => has_flag d VRING_DESC_F_NEXT = false
  | d' :: r =>
      has_flag d VRING_DESC_F_NEXT = true /\
      d' = get_desc s q (d_next d) /\
      desc_chain s q d' r
  end.

(** The lengths of descriptors added up in an [int]. *)
Definition len_total (acc : Z) (ds : list VIRTIODesc) : Z :=
  fold_left (fun a d => s32 (a + d_len d)) ds acc.

(** The bytes of guest memory a descriptor points to, and those of a list
    of descriptors, one after the other. *)
Definition desc_bytes (m : guest_ram) (d : VIRTIODesc) : list Z :=
  map (fun i => load_u8 m (d_addr d + Z.of_nat i))
    (seq 0 (Z.to_nat (d_len d))).

Definition chain_bytes (m : guest_ram) (ds : list VIRTIODesc) : list Z :=
  flat_map (desc_bytes m) ds.

(** A descriptor the device may only read, and one it may write. *)
Definition is_read_desc (d : VIRTIODesc) : Prop :=
  has_flag d VRING_DESC_F_WRITE = false.
Definition is_write_desc (d : VIRTIODesc) : Prop :=
  has_flag d VRING_DESC_F_WRITE = true.

(** [rest] are the descriptors that follow [d] in its chain, which may go
    on after them. *)
Fixpoint desc_path {X : Type} (s : VIRTIODevice X) (q : Z) (d : VIRTIODesc)
    (rest : list VIRTIODesc) : Prop :=
  match rest with
  | [] => True
  | d' :: r =>
      has_flag d VRING_DESC_F_NEXT = true /\
      d' = get_desc s q (d_next d) /\
      desc_path s q d' r
  end.

(** The number of bytes of a list of descriptors. *)
Definition chain_len (ds : list VIRTIODesc) : Z :=
  fold_right (fun d a => d_len d + a) 0 ds.

(** The guest addresses a descriptor points to, and those of a list of
    descriptors, one after the other. *)
Definition addr_run (a : Z) (n : nat) : list Z :=
  map (fun i => a + Z.of_nat i) (seq 0 n).

Definition desc_addrs (d : VIRTIODesc) : list Z :=
  addr_run (d_addr d) (Z.to_nat (d_len d)).

Definition chain_addrs (ds : list VIRTIODesc) : list Z :=
  flat_map desc_addrs ds.

(** Bytes stored one after the other at the addresses of a list. *)
Fixpoint write_bytes (m : guest_ram) (addrs bytes : list Z) : guest_ram :=
  match addrs, bytes with
  | a :: ar, b :: br => write_bytes (store_u8 m a b) ar br
  | _, _ => m
  end.

(** The indices of the descriptor table read when the chain is followed
    through [ds]: the [next] field of all but the last. *)
Definition chain_links (ds : list VIRTIODesc) : list Z :=
  map d_next (removelast ds).

(** No byte of the guest buffers of [ws] lies in the entries [links] of
    the descriptor table at [base]. *)
Definition buffers_clear (base : Z) (ws : list VIRTIODesc) (links : list Z)
  : Prop :=
  forall w i k b,
    In w ws -> In i links -> 0 <= k < d_len w -> 0 <= b < 16 ->
    u64 (d_addr w + k) <> u64 (base + u64 i * 16 + b).

(** The 16 bytes of the request header found at the start of the
    device-readable part [rs] of a chain. *)
Definition request_header (m : guest_ram) (rs : list VIRTIODesc) : list Z :=
  firstn 16 (chain_bytes m rs).

(** Guest memory for a write of sector 1: a header of 16 device-readable
    bytes at 0x4000, 512 device-readable data bytes (all 9) at 0x5000 and
    one device-writable status byte at 0x5200, chained as descriptors 0,
    1 and 2. *)
Definition write_request_ram : guest_ram :=
  ram_image
    [ (0x1000, le_encode 8 0x4000 ++ le_encode 4 16 ++ le_encode 2 1
                 ++ le_encode 2 1
                 ++ le_encode 8 0x5000 ++ le_encode 4 512 ++ le_encode 2 1
                 ++ le_encode 2 2
                 ++ le_encode 8 0x5200 ++ le_encode 4 1 ++ le_encode 2 2
                 ++ le_encode 2 0);
      (0x2000, le_encode 2 0 ++ le_encode 2 1 ++ le_encode 2 0);
      (0x4000, le_encode 4 VIRTIO_BLK_T_OUT ++ le_encode 4 0 ++ le_encode 8 1);
      (0x5000, repeat 9 512%nat);
      (0x5200, [0xff]) ].

(** Guest memory for a read of sector 0 into 514 device-writable bytes:
    a header of 16 device-readable bytes at 0x4000, 512 device-writable
    bytes at 0x5000 and 2 device-writable bytes at 0x5200, chained as
    descriptors 0, 1 and 2.  The backend is asked for one sector, so the
    byte before the status byte is left as [malloc] returned it. *)
Definition wide_read_request_ram : guest_ram :=
  ram_image
    [ (0x1000, le_encode 8 0x4000 ++ le_encode 4 16 ++ le_encode 2 1
                 ++ le_encode 2 1
                 ++ le_encode 8 0x5000 ++ le_encode 4 512 ++ le_encode 2 3
                 ++ le_encode 2 2
                 ++ le_encode 8 0x5200 ++ le_encode 4 2 ++ le_encode 2 2
                 ++ le_encode 2 0);
      (0x2000, le_encode 2 0 ++ le_encode 2 1 ++ le_encode 2 0);
      (0x4000, le_encode 4 VIRTIO_BLK_T_IN ++ le_encode 4 0 ++ le_encode 8 0);
      (0x5200, [0xff; 0xff]) ].

(** The programmed block device over an image whose bytes are all 7, on
    that memory; the next [malloc] finds bytes 0xaa. *)
Definition blk_stale : VIRTIOBlockDevice BlockDeviceFile :=
  with_ext
    (mkVIRTIOBlockExt (block_device_init (repeat 7 1024%nat) BF_MODE_RW)
       false (mkBlockRequest 0 [] 0 0 0) [repeat 0xaa 514%nat])
    (blk_setup wide_read_request_ram).

(** After a notify: the last data byte, the byte the backend did not
    write, the status byte and the length of the used entry. *)
Definition stale_scenario_summary
    (r : res (VIRTIOBlockDevice BlockDeviceFile)) : res (Z * Z * Z * Z) :=
  s' <- r ;;
  Ok (load_u8 (ram s') 0x51ff, load_u8 (ram s') 0x5200,
      load_u8 (ram s') 0x5201, load_u32 (ram s') 0x3008).

(** The status byte of a completed transfer. *)
Definition status_of (ret : Z) : Z :=
  if ret <? 0 then VIRTIO_BLK_S_IOERR else VIRTIO_BLK_S_OK.

(** ** SiFive UART: stores and the tick *)

(** Modelled from the spec: the receive FIFO of sifive_uart.h is bounded,
    with room for 8 bytes. *)
Definition UART_RX_FIFO_SIZE : Z := 8.

(** The members of [sifive_uart_t] that [store] and [tick] touch: the
    four registers, the receive FIFO ([std::queue<uint8_t>], oldest byte
    first) and the host terminal of [canonical_terminal_t]. *)
Record sifive_uart_t (T : Type) : Type := mk_sifive_uart {
  txctrl : Z;
  rxctrl : Z;
  ie : Z;
  div : Z;
  rx_fifo : list Z;
  term : T
}.
Arguments mk_sifive_uart {T}.
Arguments txctrl {T}.
Arguments rxctrl {T}.
Arguments ie {T}.
Arguments div {T}.
Arguments rx_fifo {T}.
Arguments term {T}.

(** [memcpy(&reg, bytes, len)] on a 32-bit register of the little-endian
    host: the [len] low bytes are replaced. *)
Definition memcpy_reg (reg : Z) (bytes : list Z) (len : Z) : Z :=
  le_decode (firstn (Z.to_nat len) bytes
             ++ skipn (Z.to_nat len) (le_encode 4 reg)).

Section UartDevice.
Context {T : Type}.
(** [canonical_terminal_t::read], which returns an [int] below 0 when no
    input is pending, and [canonical_terminal_t::write]. *)
Variable term_read : T -> Z * T.
Variable term_write : T -> Z -> T.
(** [update_interrupts] of sifive_uart.h. *)
Variable update_interrupts : sifive_uart_t T -> sifive_uart_t T.
Implicit Type u : sifive_uart_t T.

(** [sifive_uart_t::store]. *)
Definition sifive_uart_store u (addr len : Z) (bytes : list Z)
  : res (bool * sifive_uart_t T) :=
  if (0x1000 <=? addr) || (4 <? len) then Ok (false, u)
  else if addr =? UART_TXFIFO then
    Ok (true,
        mk_sifive_uart (txctrl u) (rxctrl u) (ie u) (div u) (rx_fifo u)
          (term_write (term u) (u8 (buf_get bytes 0))))
  else if addr =? UART_TXCTRL then
    Ok (true,
        mk_sifive_uart (memcpy_reg (txctrl u) bytes len) (rxctrl u) (ie u)
          (div u) (rx_fifo u) (term u))
  else if addr =? UART_RXCTRL then
    Ok (true,
        mk_sifive_uart (txctrl u) (memcpy_reg (rxctrl u) bytes len) (ie u)
          (div u) (rx_fifo u) (term u))
  else if addr =? UART_IE then
    Ok (true,
        update_interrupts
          (mk_sifive_uart (txctrl u) (rxctrl u) (memcpy_reg (ie u) bytes len)
             (div u) (rx_fifo u) (term u)))
  else if addr =? UART_DIV then
    Ok (true,
        mk_sifive_uart (txctrl u) (rxctrl u) (ie u)
          (memcpy_reg (div u) bytes len) (rx_fifo u) (term u))
  else Aborted.

(** [sifive_uart_t::tick]. *)
Definition sifive_uart_tick u : sifive_uart_t T :=
  if UART_RX_FIFO_SIZE <=? Z.of_nat (length (rx_fifo u)) then u
  else
    let '(rc, t) := term_read (term u) in
    let u1 :=
      mk_sifive_uart (txctrl u) (rxctrl u) (ie u) (div u) (rx_fifo u) t in
    if rc <? 0 then u1
    else
      update_interrupts
        (mk_sifive_uart (txctrl u1) (rxctrl u1) (ie u1) (div u1)
           (rx_fifo u1 ++ [u8 rc]) (term u1)).

End UartDevice.

(** The register offsets the UART decodes on a store. *)
Definition uart_store_regs : list Z :=
  [UART_TXFIFO; UART_TXCTRL; UART_RXCTRL; UART_IE; UART_DIV].

(** A host terminal with the pending input characters; nothing is kept
    of the output. *)
Definition pending_read (t : list Z) : Z * list Z :=
  match t with
  | [] => (-1, [])
  | c :: r => (c, r)
  end.
Definition pending_write (t : list Z) (c : Z) : list Z := t.

(** A UART at rest over a terminal with pending input. *)
Definition uart0 (input : list Z) : sifive_uart_t (list Z) :=
  mk_sifive_uart 0 0 0 0 [] input.

(** The registers the driver programs, apart from the queues. *)
Definition same_registers {X : Type} (s s' : VIRTIODevice X) : Prop :=
  queue_sel s' = queue_sel s /\ status s' = status s /\
  device_features_sel s' = device_features_sel s /\
  config_space s' = config_space s /\
  config_space_size s' = config_space_size s.

(** [s'] is [s] up to guest memory, the interrupt line, [int_status] and
    the log: what a publication may change. *)
Definition publication_only {X : Type} (s s' : VIRTIODevice X) : Prop :=
  queue s' = queue s /\ same_registers s s' /\ ext s' = ext s.

(** [s'] is [s] up to what a notification of queue [q] may change: the
    progress of that queue, guest memory, the interrupt state and the
    fields of the derived device. *)
Definition notify_only {X : Type} (q : Z) (s s' : VIRTIODevice X) : Prop :=
  (forall i, i <> q -> queue s' i = queue s i) /\
  queue s' q = with_last_avail_idx (last_avail_idx (queue s' q)) (queue s q)
  /\ same_registers s s'.

(** The rounds of a notification of queue [q], as the available ring
    prescribes them: [vs] is an account of a run from [s] to [s'] if each
    visit is at the current [last_avail_idx], on the head found there,
    and either [get_desc_rw_size] rejects the chain, the callback is not
    invoked and the run goes on past the head; or it accepts the chain
    with sizes [(read_size, write_size)], the callback is invoked once on
    them, and the run ends there in the state the callback left if it
    returned a value below 0, and goes on past the head from that state
    otherwise. *)
Fixpoint notify_rounds {X : Type}
    (device_recv :
       VIRTIODevice X -> Z -> Z -> Z -> Z -> res (Z * VIRTIODevice X))
    (fuel : nat) (q : Z) (s : VIRTIODevice X) (vs : list visit)
    (s' : VIRTIODevice X) : Prop :=
  match vs with
  | [] => s' = s
  | v :: vs' =>
      v_index v = last_avail_idx (queue s q) /\
      v_head v = virtio_read16 s (avail_entry_addr (queue s q)) /\
      match v_outcome v with
      | Skipped =>
          get_desc_rw_size fuel s q (v_head v) = Ok None /\
          notify_rounds device_recv fuel q (advance_last_avail s q) vs' s'
      | Called ret =>
          exists read_size write_size s1,
            get_desc_rw_size fuel s q (v_head v)
              = Ok (Some (read_size, write_size)) /\
            device_recv s q (v_head v) read_size write_size = Ok (ret, s1) /\
            if ret <? 0 then vs' = [] /\ s' = s1
            else notify_rounds device_recv fuel q (advance_last_avail s1 q)
                   vs' s'
      end
  end.
(** Nothing was published between [s] and [s']: the log, guest memory,
    the line and [int_status] are as they were. *)
Definition nothing_published {X : Type} (s s' : VIRTIODevice X) : Prop :=
  log s' = log s /\ ram s' = ram s /\ irq s' = irq s /\
  int_status s' = int_status s.

(** An 8-bit store to guest memory, as the copies to the queue make
    them. *)
Definition is_data_store (e : event) : Prop :=
  exists a v, e = EvStore 8 a v.

(** From [s] to [s1] the log has grown by 8-bit stores only. *)
Definition data_stores_only {X : Type} (s s1 : VIRTIODevice X) : Prop :=
  exists l, log s1 = log s ++ l /\ Forall is_data_store l.

(** Between [s] and [s'] the used entry ([head], [len]) was published on
    queue [q], once: [s'] is the result of [virtio_consume_desc] on a
    state [s1] reached from [s] by 8-bit stores of data, whose queues,
    line and [int_status] are those of [s]; so the four events of the
    publication are the last ones of the log and the only ones that are
    not stores of data. *)
Definition published_by {X : Type} (s s' : VIRTIODevice X) (q head len : Z)
  : Prop :=
  exists s1,
    data_stores_only s s1 /\
    queue s1 = queue s /\ irq s1 = irq s /\ int_status s1 = int_status s /\
    s' = virtio_consume_desc s1 q head len /\
    new_events s1 s' =
      publication_events (queue s q)
        (virtio_read16 s1 (used_idx_addr (queue s q))) head len.

(** * Properties *)

(** ** Arithmetic of the fixed-width types *)

Lemma u8_range (x : Z) : 0 <= u8 x < 256.
Proof. unfold u8. apply Z.mod_pos_bound. lia. Qed.

Lemma u16_range (x : Z) : 0 <= u16 x < 65536.
Proof. unfold u16. apply Z.mod_pos_bound. lia. Qed.

Lemma u32_range (x : Z) : 0 <= u32 x < 4294967296.
Proof. unfold u32. apply Z.mod_pos_bound. lia. Qed.

Lemma u64_range (x : Z) : 0 <= u64 x < 18446744073709551616.
Proof. unfold u64. apply Z.mod_pos_bound. lia. Qed.

Lemma u8_small (x : Z) : 0 <= x < 256 -> u8 x = x.
Proof. intros. unfold u8. apply Z.mod_small. lia. Qed.

Lemma u16_small (x : Z) : 0 <= x < 65536 -> u16 x = x.
Proof. intros. unfold u16. apply Z.mod_small. lia. Qed.

Lemma u32_small (x : Z) : 0 <= x < 4294967296 -> u32 x = x.
Proof. intros. unfold u32. apply Z.mod_small. lia. Qed.

Lemma u64_small (x : Z) : 0 <= x < 18446744073709551616 -> u64 x = x.
Proof. intros. unfold u64. apply Z.mod_small. lia. Qed.

Lemma u64_idem (x : Z) : u64 (u64 x) = u64 x.
Proof. unfold u64. apply Z.mod_mod. lia. Qed.

Lemma u64_add_l (x y : Z) : u64 (u64 x + y) = u64 (x + y).
Proof. unfold u64. apply Zplus_mod_idemp_l. Qed.

(** Two addresses whose distance is neither zero nor a multiple of 2^64
    stay distinct after wrap-around. *)
Lemma u64_apart (a b : Z) :
  0 < b - a < 18446744073709551616 -> u64 a <> u64 b.
Proof.
  unfold u64. intros Hd Heq.
  assert (H : (b - a) mod 18446744073709551616 = 0).
  { rewrite Zminus_mod, Heq, Z.sub_diag. reflexivity. }
  rewrite Z.mod_small in H; lia.
Qed.

Lemma u64_apart' (a b : Z) :
  0 < a - b < 18446744073709551616 -> u64 a <> u64 b.
Proof. intros H E. symmetry in E. revert E. apply u64_apart. exact H. Qed.

Ltac norm_addr :=
  repeat first [ rewrite u64_add_l
               | rewrite <- (Z.add_assoc (u64 _)) ].

Ltac apart := first [ apply u64_apart; lia | apply u64_apart'; lia ].

(** ** Guest memory: what a load sees after a store *)

Lemma load_u8_range (m : guest_ram) (a : Z) : 0 <= load_u8 m a < 256.
Proof. apply u8_range. Qed.

Lemma load_u16_range (m : guest_ram) (a : Z) : 0 <= load_u16 m a < 65536.
Proof.
  unfold load_u16.
  pose proof (load_u8_range m a). pose proof (load_u8_range m (a + 1)). lia.
Qed.

Lemma load_u8_store_u8_same (m : guest_ram) (a v : Z) :
  load_u8 (store_u8 m a v) a = u8 v.
Proof.
  unfold load_u8, store_u8. rewrite Z.eqb_refl.
  apply u8_small, u8_range.
Qed.

Lemma load_u8_store_u8_other (m : guest_ram) (a b v : Z) :
  u64 b <> u64 a -> load_u8 (store_u8 m a v) b = load_u8 m b.
Proof.
  intros H. unfold load_u8, store_u8.
  destruct (Z.eqb_spec (u64 b) (u64 a)); [contradiction | reflexivity].
Qed.

Lemma load_u8_store_u16_other (m : guest_ram) (a b v : Z) :
  u64 b <> u64 a -> u64 b <> u64 (a + 1) ->
  load_u8 (store_u16 m a v) b = load_u8 m b.
Proof.
  intros H0 H1. unfold store_u16.
  rewrite !load_u8_store_u8_other; auto.
Qed.

Lemma load_u8_store_u32_other (m : guest_ram) (a b v : Z) :
  u64 b <> u64 a -> u64 b <> u64 (a + 1) ->
  u64 b <> u64 (a + 2) -> u64 b <> u64 (a + 3) ->
  load_u8 (store_u32 m a v) b = load_u8 m b.
Proof.
  intros H0 H1 H2 H3. unfold store_u32.
  rewrite !load_u8_store_u16_other; auto.
  replace (a + 2 + 1) with (a + 3) by lia. exact H3.
Qed.

Lemma load_u16_store_u16_same (m : guest_ram) (a v : Z) :
  load_u16 (store_u16 m a v) a = u16 v.
Proof.
  unfold load_u16, store_u16.
  rewrite load_u8_store_u8_other by apart.
  rewrite !load_u8_store_u8_same.
  pose proof (u16_range v) as R. unfold u8.
  rewrite (Z.mod_small (u16 v / 256)).
  - pose proof (Z.div_mod (u16 v) 256). lia.
  - split; [apply Z.div_pos; lia | apply Z.div_lt_upper_bound; lia].
Qed.

Lemma load_u16_store_u16_other (m : guest_ram) (a b v : Z) :
  u64 b <> u64 a -> u64 b <> u64 (a + 1) ->
  u64 (b + 1) <> u64 a -> u64 (b + 1) <> u64 (a + 1) ->
  load_u16 (store_u16 m a v) b = load_u16 m b.
Proof.
  intros. unfold load_u16. rewrite !load_u8_store_u16_other; auto.
Qed.

Lemma load_u16_store_u32_other (m : guest_ram) (a b v : Z) :
  (forall i j, 0 <= i < 2 -> 0 <= j < 4 -> u64 (b + i) <> u64 (a + j)) ->
  load_u16 (store_u32 m a v) b = load_u16 m b.
Proof.
  intros H. unfold load_u16.
  assert (H0 : forall j, 0 <= j < 4 -> u64 b <> u64 (a + j)).
  { intros j Hj. rewrite <- (Z.add_0_r b). apply H; lia. }
  assert (H1 : forall j, 0 <= j < 4 -> u64 (b + 1) <> u64 (a + j)).
  { intros j Hj. apply H; lia. }
  assert (Ea : a = a + 0) by lia.
  rewrite !load_u8_store_u32_other; auto; try (apply H0; lia);
    try (apply H1; lia).
  - rewrite Ea. apply H1. lia.
  - rewrite Ea. apply H0. lia.
Qed.

Lemma load_u32_store_u32_same (m : guest_ram) (a v : Z) :
  load_u32 (store_u32 m a v) a = u32 v.
Proof.
  unfold load_u32, store_u32.
  rewrite load_u16_store_u16_other by apart.
  rewrite !load_u16_store_u16_same.
  pose proof (u32_range v) as R. unfold u16.
  rewrite (Z.mod_small (u32 v / 65536)).
  - pose proof (Z.div_mod (u32 v) 65536). lia.
  - split; [apply Z.div_pos; lia | apply Z.div_lt_upper_bound; lia].
Qed.

Lemma load_u32_store_u32_other (m : guest_ram) (a b v : Z) :
  (forall i j, 0 <= i < 4 -> 0 <= j < 4 -> u64 (b + i) <> u64 (a + j)) ->
  load_u32 (store_u32 m a v) b = load_u32 m b.
Proof.
  intros H. unfold load_u32.
  rewrite !load_u16_store_u32_other; auto.
  - intros i j Hi Hj. replace (b + 2 + i) with (b + (2 + i)) by lia.
    apply H; lia.
  - intros i j Hi Hj. apply H; lia.
Qed.

(** Loads wrap their address, so a wrapped base may be unwrapped. *)
Lemma load_u8_norm_add (m : guest_ram) (a d : Z) :
  load_u8 m (u64 a + d) = load_u8 m (a + d).
Proof. unfold load_u8. rewrite u64_add_l. reflexivity. Qed.

Lemma load_u16_norm_add (m : guest_ram) (a d : Z) :
  load_u16 m (u64 a + d) = load_u16 m (a + d).
Proof.
  unfold load_u16. rewrite <- !Z.add_assoc, !load_u8_norm_add. reflexivity.
Qed.

Lemma load_u32_norm_add (m : guest_ram) (a d : Z) :
  load_u32 m (u64 a + d) = load_u32 m (a + d).
Proof.
  unfold load_u32. rewrite <- !Z.add_assoc, !load_u16_norm_add. reflexivity.
Qed.

Lemma load_u16_norm (m : guest_ram) (a : Z) :
  load_u16 m (u64 a) = load_u16 m a.
Proof.
  rewrite <- (Z.add_0_r (u64 a)), load_u16_norm_add, Z.add_0_r. reflexivity.
Qed.

Lemma load_u32_norm (m : guest_ram) (a : Z) :
  load_u32 m (u64 a) = load_u32 m a.
Proof.
  rewrite <- (Z.add_0_r (u64 a)), load_u32_norm_add, Z.add_0_r. reflexivity.
Qed.

(** ** Reset *)

Lemma virtio_reset_loop_spec (n : nat) (i0 : Z) (q : Z -> QueueState) (j : Z) :
  virtio_reset_loop n i0 q j =
  if (i0 <=? j) && (j <? i0 + Z.of_nat n) then reset_queue (q j) else q j.
Proof.
  revert i0 q. induction n as [|n IH]; intros i0 q.
  - simpl. destruct (Z.leb_spec i0 j), (Z.ltb_spec j (i0 + 0)); simpl;
      try reflexivity; lia.
  - cbn [virtio_reset_loop]. rewrite IH. unfold upd_queue.
    destruct (Z.leb_spec (i0 + 1) j), (Z.ltb_spec j (i0 + 1 + Z.of_nat n)),
      (Z.leb_spec i0 j), (Z.ltb_spec j (i0 + Z.of_nat (S n))),
      (Z.eqb_spec j i0); simpl; subst; try reflexivity; lia.
Qed.

Lemma virtio_reset_queue {X : Type} (s : VIRTIODevice X) (i : Z) :
  0 <= i < MAX_QUEUE -> queue (virtio_reset s) i = reset_queue (queue s i).
Proof.
  intros Hi. unfold virtio_reset. cbn [queue with_queue with_int_status
    with_device_features_sel with_queue_sel with_status].
  rewrite virtio_reset_loop_spec. unfold MAX_QUEUE in *.
  destruct (Z.leb_spec 0 i), (Z.ltb_spec i (0 + Z.of_nat (Z.to_nat 8)));
    simpl; try reflexivity; lia.
Qed.

Lemma reset_queue_after_reset (qs : QueueState) :
  queue_after_reset (reset_queue qs).
Proof. unfold queue_after_reset. cbn. repeat split. discriminate. Qed.

(** ** Used-ring publication *)

Section Publication.
Context {X : Type}.
Implicit Type s : VIRTIODevice X.

Lemma consume_desc_log s (q head len : Z) :
  log (virtio_consume_desc s q head len) =
  log s ++ publication_events (queue s q)
             (virtio_read16 s (used_idx_addr (queue s q))) head len.
Proof.
  unfold virtio_consume_desc, publication_events, set_irq, virtio_write32,
    virtio_write16, virtio_read16.
  cbn [log ram with_log with_ram with_irq with_int_status queue].
  rewrite <- !app_assoc. cbn [app].
  unfold used_idx_addr, used_slot_addr. rewrite !u64_idem. reflexivity.
Qed.

Lemma consume_desc_new_events s (q head len : Z) :
  new_events s (virtio_consume_desc s q head len) =
  publication_events (queue s q)
    (virtio_read16 s (used_idx_addr (queue s q))) head len.
Proof.
  unfold new_events. rewrite consume_desc_log.
  rewrite skipn_app, skipn_all, Nat.sub_diag. reflexivity.
Qed.

Lemma consume_desc_ram s (q head len : Z) :
  let qs := queue s q in
  let index := virtio_read16 s (used_idx_addr qs) in
  ram (virtio_consume_desc s q head len) =
  store_u32
    (store_u32 (store_u16 (ram s) (used_idx_addr qs) (index + 1))
       (used_slot_addr qs index) head)
    (used_slot_addr qs index + 4) len.
Proof. reflexivity. Qed.

Lemma consume_desc_irq s (q head len : Z) :
  irq (virtio_consume_desc s q head len) = true /\
  int_status (virtio_consume_desc s q head len) = Z.lor (int_status s) 1.
Proof. split; reflexivity. Qed.

Lemma consume_desc_queue s (q head len : Z) :
  queue (virtio_consume_desc s q head len) = queue s.
Proof. reflexivity. Qed.

Lemma new_events_consume_same s (s1 : VIRTIODevice X) (q head len : Z) :
  log s1 = log s -> ram s1 = ram s -> queue s1 = queue s ->
  new_events s (virtio_consume_desc s1 q head len) =
  publication_events (queue s q)
    (virtio_read16 s (used_idx_addr (queue s q))) head len.
Proof.
  intros El Er Eq. unfold new_events. rewrite consume_desc_log.
  unfold virtio_read16. rewrite El, Er, Eq.
  rewrite skipn_app, skipn_all, Nat.sub_diag. reflexivity.
Qed.

(** The index counter after a publication: the later stores of the ring
    entry lie above it and do not reach it. *)
Lemma consume_desc_used_idx s (q head len : Z) :
  let qs := queue s q in
  virtio_read16 (virtio_consume_desc s q head len) (used_idx_addr qs) =
  u16 (virtio_read16 s (used_idx_addr qs) + 1).
Proof.
  intros qs. unfold virtio_read16 at 1. rewrite consume_desc_ram.
  fold qs. set (index := virtio_read16 s (used_idx_addr qs)).
  pose proof (u32_range (Z.land index (u32 (num qs - 1)) * 8)) as R.
  unfold used_slot_addr, used_idx_addr.
  set (k := u32 (Z.land index (u32 (num qs - 1)) * 8)) in *.
  clearbody k.
  rewrite !load_u16_store_u32_other.
  - rewrite load_u16_store_u16_same. reflexivity.
  - intros i j Hi Hj. norm_addr. apart.
  - intros i j Hi Hj. norm_addr. apart.
Qed.

End Publication.

(** ** Ring sizes *)

Lemma pow2_u32_range (n : Z) : pow2_u32 n -> 1 <= n <= 2147483648.
Proof.
  intros (k & Hk & ->). split.
  - change 1 with (2 ^ 0). apply Z.pow_le_mono_r; lia.
  - change 2147483648 with (2 ^ 31). apply Z.pow_le_mono_r; lia.
Qed.

Lemma land_pow2_mask (n x : Z) :
  pow2_u32 n -> Z.land x (u32 (n - 1)) = x mod n.
Proof.
  intros Hn. pose proof (pow2_u32_range n Hn) as R.
  destruct Hn as (k & Hk & ->).
  rewrite u32_small by lia.
  replace (2 ^ k - 1) with (Z.ones k) by (rewrite Z.ones_equiv; lia).
  apply Z.land_ones. lia.
Qed.

Lemma used_slot_addr_pow2 (qs : QueueState) (index : Z) :
  pow2_u32 (num qs) -> 0 <= index < 65536 ->
  used_slot_addr qs index = u64 (used_addr qs + 4 + (index mod num qs) * 8).
Proof.
  intros Hn Hi. unfold used_slot_addr. rewrite land_pow2_mask by exact Hn.
  pose proof (pow2_u32_range _ Hn) as R.
  pose proof (Z.mod_pos_bound index (num qs)) as B.
  assert (index mod num qs <= index) by (apply Z.mod_le; lia).
  rewrite u32_small by lia. reflexivity.
Qed.

Section PublicationSlot.
Context {X : Type}.
Implicit Type s : VIRTIODevice X.

Lemma consume_desc_slot s (q head len : Z) :
  let qs := queue s q in
  let index := virtio_read16 s (used_idx_addr qs) in
  let s' := virtio_consume_desc s q head len in
  load_u32 (ram s') (used_slot_addr qs index) = u32 head /\
  load_u32 (ram s') (used_slot_addr qs index + 4) = u32 len.
Proof.
  intros qs index s'. unfold s'. rewrite consume_desc_ram.
  fold qs. fold index. set (sl := used_slot_addr qs index). split.
  - rewrite load_u32_store_u32_other.
    + apply load_u32_store_u32_same.
    + intros i j Hi Hj. norm_addr. apart.
  - apply load_u32_store_u32_same.
Qed.

End PublicationSlot.

(** ** A publication on the initialised device *)

Example blk0_consume_idx :
  virtio_read16 (virtio_consume_desc blk0 0 3 0) 2 = 1.
Proof. vm_compute. reflexivity. Qed.

Example blk0_consume_log :
  log (virtio_consume_desc blk0 0 3 0) =
  [EvStore 16 2 1; EvStore 32 4 3; EvStore 32 8 0; EvIrq true].
Proof. vm_compute. reflexivity. Qed.

(** ** Order of the events of a publication *)

Lemma is_idx_store_32 (qs : QueueState) (a v : Z) :
  is_idx_store qs (EvStore 32 a v) = false.
Proof. reflexivity. Qed.

Lemma is_entry_store_16 (qs : QueueState) (index a v : Z) :
  is_entry_store qs index (EvStore 16 a v) = false.
Proof. reflexivity. Qed.

Ltac event_kinds H :=
  first [ rewrite is_idx_store_32 in H
        | rewrite is_entry_store_16 in H
        | unfold is_idx_store in H
        | unfold is_entry_store in H
        | unfold is_irq_raise in H ];
  try discriminate H.

Ltac four_events :=
  let i := fresh "i" in
  let j := fresh "j" in
  let e1 := fresh "e1" in
  let e2 := fresh "e2" in
  let H1 := fresh "H1" in
  let H2 := fresh "H2" in
  let P1 := fresh "P1" in
  let P2 := fresh "P2" in
  intros i j e1 e2 H1 H2 P1 P2;
  destruct i as [|[|[|[|i]]]]; cbn [nth_error] in H1; try discriminate H1;
  try (destruct i; discriminate H1);
  injection H1 as <-; event_kinds P1;
  destruct j as [|[|[|[|j]]]]; cbn [nth_error] in H2; try discriminate H2;
  try (destruct j; discriminate H2);
  injection H2 as <-; event_kinds P2; try lia.

(** C3 fails as stated: on the freshly initialised block device the store
    of the ring entry (second event) does not come before the store of
    the index (first event). *)
Lemma consume_desc_entry_not_before_idx :
  let s := blk0 in
  let qs := queue s 0 in
  let index := virtio_read16 s (used_idx_addr qs) in
  ~ all_before (is_entry_store qs index) (is_idx_store qs)
      (new_events s (virtio_consume_desc s 0 3 0)).
Proof.
  intros s qs index H.
  assert (E1 : nth_error (new_events s (virtio_consume_desc s 0 3 0)) 1
               = Some (EvStore 32 4 3)) by (vm_compute; reflexivity).
  assert (E0 : nth_error (new_events s (virtio_consume_desc s 0 3 0)) 0
               = Some (EvStore 16 2 1)) by (vm_compute; reflexivity).
  specialize (H 1%nat 0%nat _ _ E1 E0).
  assert (1 < 0)%nat; [apply H; vm_compute; reflexivity | lia].
Qed.

(** C3, amended: a publication by [virtio_consume_desc] consists of the
    store of the incremented index, then the two stores of the ring entry
    (head, then length), then the raise of the interrupt line; so the
    index store precedes the entry stores, which precede the raise. *)
Theorem consume_desc_event_order {X : Type} (s : VIRTIODevice X)
    (q head len : Z) :
  let qs := queue s q in
  let index := virtio_read16 s (used_idx_addr qs) in
  let evs := new_events s (virtio_consume_desc s q head len) in
  evs = [ EvStore 16 (used_idx_addr qs) (u16 (index + 1));
          EvStore 32 (used_slot_addr qs index) (u32 head);
          EvStore 32 (u64 (used_slot_addr qs index + 4)) (u32 len);
          EvIrq true ] /\
  all_before (is_idx_store qs) (is_entry_store qs index) evs /\
  all_before (is_entry_store qs index) is_irq_raise evs /\
  all_before (is_idx_store qs) is_irq_raise evs.
Proof.
  intros qs index evs. unfold evs. rewrite consume_desc_new_events.
  fold qs. fold index. unfold publication_events.
  split; [reflexivity|]. repeat split; four_events.
Qed.

(** ** Publication and the ready flag *)

Section NotifyFirstVisit.
Context {X : Type}.
Variable device_recv :
  VIRTIODevice X -> Z -> Z -> Z -> Z -> res (Z * VIRTIODevice X).

Lemma queue_notify_visits_nonempty (n fuel : nat) (s s' : VIRTIODevice X)
    (q : Z) (vs : list visit) :
  manual_recv (queue s q) = false ->
  last_avail_idx (queue s q) <>
    virtio_read16 s (u64 (avail_addr (queue s q) + 2)) ->
  queue_notify_visits device_recv n fuel s q = Ok (vs, s') ->
  vs <> [].
Proof.
  intros Hm Hne. unfold queue_notify_visits. rewrite Hm.
  destruct n as [|n]; [discriminate|]. cbn [queue_notify_loop].
  destruct (Z.eqb_spec (last_avail_idx (queue s q))
              (virtio_read16 s (u64 (avail_addr (queue s q) + 2))));
    [contradiction|].
  destruct (get_desc_rw_size fuel s q _) as [[[rs ws]|]| |]; cbn [bind];
    try discriminate.
  - destruct (device_recv s q _ rs ws) as [[ret s1]| |]; cbn [bind];
      try discriminate.
    destruct (ret <? 0).
    + intros H. injection H as <- _. discriminate.
    + destruct (queue_notify_loop device_recv n fuel _ q _)
        as [[vs2 s2]| |]; cbn [bind]; try discriminate.
      intros H. injection H as <- _. discriminate.
  - destruct (queue_notify_loop device_recv n fuel _ q _)
      as [[vs2 s2]| |]; cbn [bind]; try discriminate.
    intros H. injection H as <- _. discriminate.
Qed.

End NotifyFirstVisit.

(** C2 fails as stated: right after initialisation queue 0 is not ready,
    and a publication on it still writes the used ring and raises the
    line. *)
Lemma consume_desc_publishes_when_not_ready :
  ready (queue blk0 0) = 0 /\
  new_events blk0 (virtio_consume_desc blk0 0 3 0) =
    [EvStore 16 2 1; EvStore 32 4 3; EvStore 32 8 0; EvIrq true] /\
  virtio_read16 blk0 2 = 0 /\
  virtio_read16 (virtio_consume_desc blk0 0 3 0) 2 = 1.
Proof. vm_compute. repeat split. Qed.

(** The completion of a request that was in flight when the driver reset
    the device: the queue is not ready, and the used entry (head 0, 513) is
    still published, at the ring base 0 left by the reset. *)
Example completion_after_reset_is_published :
  completion_after_reset_summary
  = Ok (0, [EvStore 16 2 1; EvStore 32 4 0; EvStore 32 8 513; EvIrq true],
        true).
Proof. vm_compute. reflexivity. Qed.

(** C2, amended: neither [virtio_consume_desc] nor [queue_notify] reads
    the ready flag.  On a queue whose ready bit is 0 a publication still
    stores the index and the ring entry, sets bit 0 of [int_status] and
    raises the line, and a notify on a queue with pending heads still
    walks the available ring. *)
Theorem consume_desc_ignores_ready {X : Type}
    (device_recv :
       VIRTIODevice X -> Z -> Z -> Z -> Z -> res (Z * VIRTIODevice X))
    (s : VIRTIODevice X) (q head len : Z) :
  ready (queue s q) = 0 ->
  let qs := queue s q in
  let index := virtio_read16 s (used_idx_addr qs) in
  let s' := virtio_consume_desc s q head len in
  new_events s s' = publication_events qs index head len /\
  virtio_read16 s' (used_idx_addr qs) = u16 (index + 1) /\
  load_u32 (ram s') (used_slot_addr qs index) = u32 head /\
  load_u32 (ram s') (used_slot_addr qs index + 4) = u32 len /\
  int_status s' = Z.lor (int_status s) 1 /\
  irq s' = true /\
  (forall n fuel vs s2,
      manual_recv qs = false ->
      last_avail_idx qs <> virtio_read16 s (u64 (avail_addr qs + 2)) ->
      queue_notify_visits device_recv n fuel s q = Ok (vs, s2) ->
      vs <> []).
Proof.
  intros _ qs index s'.
  split; [exact (consume_desc_new_events s q head len)|].
  split; [exact (consume_desc_used_idx s q head len)|].
  split; [exact (proj1 (consume_desc_slot s q head len))|].
  split; [exact (proj2 (consume_desc_slot s q head len))|].
  split; [reflexivity|].
  split; [reflexivity|].
  intros n fuel vs s2 Hm Hne Hr.
  exact (queue_notify_visits_nonempty device_recv n fuel s s2 q vs Hm Hne Hr).
Qed.

Lemma consume_desc_ignores_ready_witness :
  irq (virtio_consume_desc blk0 0 3 0) = true.
Proof.
  refine (proj1 (proj2 (proj2 (proj2 (proj2 (proj2
    (consume_desc_ignores_ready
       (virtio_block_recv_request file_backend 8) blk0 0 3 0 _))))))).
  vm_compute. reflexivity.
Defined.

(** ** State after a publication *)

(** C4 fails as stated: with the index counter at 0xffff before the call,
    the counter afterwards is 0 and not the old value plus one. *)
Lemma consume_desc_idx_wraps :
  let s := blk_ff in
  let qs := queue s 0 in
  let old_idx := virtio_read16 s (used_addr qs + 2) in
  old_idx = 65535 /\
  virtio_read16 (virtio_consume_desc s 0 3 0) (used_addr qs + 2) = 0 /\
  virtio_read16 (virtio_consume_desc s 0 3 0) (used_addr qs + 2)
    <> old_idx + 1.
Proof. vm_compute. repeat split. discriminate. Qed.

(** C4, amended: for a queue whose [num] is a power of two, with
    [old_idx] the 16-bit counter at [used + 2] before the call, after
    [virtio_consume_desc(q, head, len)] the counter holds [old_idx + 1]
    modulo 2^16, the slot at [used + 4 + (old_idx mod num) * 8] holds
    [head] and [len] as 32-bit words, bit 0 of [int_status] is set and the
    line is raised. *)
Theorem consume_desc_publishes {X : Type} (s : VIRTIODevice X)
    (q head len : Z) :
  let qs := queue s q in
  let old_idx := virtio_read16 s (used_addr qs + 2) in
  let slot := used_addr qs + 4 + (old_idx mod num qs) * 8 in
  let s' := virtio_consume_desc s q head len in
  pow2_u32 (num qs) ->
  virtio_read16 s' (used_addr qs + 2) = (old_idx + 1) mod 65536 /\
  load_u32 (ram s') slot = head mod 4294967296 /\
  load_u32 (ram s') (slot + 4) = len mod 4294967296 /\
  Z.testbit (int_status s') 0 = true /\
  irq s' = true.
Proof.
  intros qs old_idx slot s' Hn.
  assert (Ei : virtio_read16 s (used_idx_addr qs) = old_idx).
  { unfold virtio_read16, used_idx_addr. apply load_u16_norm. }
  pose proof (load_u16_range (ram s) (used_addr qs + 2)) as Ri.
  fold (virtio_read16 s (used_addr qs + 2)) in Ri. fold old_idx in Ri.
  assert (Es : used_slot_addr qs old_idx = u64 slot).
  { apply used_slot_addr_pow2; assumption. }
  pose proof (consume_desc_used_idx s q head len) as H1.
  pose proof (consume_desc_slot s q head len) as [H2 H3].
  cbv zeta in H1, H2, H3. fold qs in H1, H2, H3.
  rewrite Ei in H1, H2, H3. rewrite Es in H2, H3. fold s' in H1, H2, H3.
  split.
  { unfold virtio_read16, used_idx_addr in H1. rewrite load_u16_norm in H1.
    exact H1. }
  split.
  { rewrite load_u32_norm in H2. exact H2. }
  split.
  { rewrite load_u32_norm_add in H3. exact H3. }
  split.
  { unfold s'. cbn [int_status virtio_consume_desc set_irq with_log
      with_irq with_int_status].
    rewrite Z.lor_spec. apply orb_true_r. }
  reflexivity.
Qed.

Lemma consume_desc_publishes_witness :
  virtio_read16 (virtio_consume_desc blk0 0 3 0)
    (used_addr (queue blk0 0) + 2) = 1.
Proof.
  refine (proj1 (consume_desc_publishes blk0 0 3 0 _)).
  exists 4. vm_compute. repeat split; discriminate.
Defined.

(** ** Reset through the STATUS register *)

Section StatusReset.
Context {X : Type}.
Variable device_recv :
  VIRTIODevice X -> Z -> Z -> Z -> Z -> res (Z * VIRTIODevice X).
Variable config_write : option (VIRTIODevice X -> res (VIRTIODevice X)).

Lemma mmio_write_status_zero (n fuel : nat) (s : VIRTIODevice X) :
  virtio_mmio_write device_recv config_write n fuel s VIRTIO_MMIO_STATUS 0 2
  = Ok (virtio_reset (set_irq false (with_status 0 s))).
Proof. reflexivity. Qed.

(** C7: a 32-bit write of 0 to STATUS returns with every queue's ready bit
    and [last_avail_idx] at 0, [int_status] and [status] at 0, and the
    line low (lowering it is the only event of the write). *)
Theorem status_zero_write_resets (n fuel : nat) (s : VIRTIODevice X) :
  exists s',
    virtio_mmio_write device_recv config_write n fuel s
      VIRTIO_MMIO_STATUS 0 2 = Ok s' /\
    (forall i, 0 <= i < MAX_QUEUE ->
       ready (queue s' i) = 0 /\ last_avail_idx (queue s' i) = 0) /\
    int_status s' = 0 /\ status s' = 0 /\ irq s' = false /\
    new_events s s' = [EvIrq false].
Proof.
  exists (virtio_reset (set_irq false (with_status 0 s))).
  split; [apply mmio_write_status_zero|].
  split.
  { intros i Hi. rewrite virtio_reset_queue by exact Hi. split; reflexivity. }
  repeat split.
  unfold new_events. cbn [log virtio_reset set_irq with_queue with_log
    with_irq with_int_status with_device_features_sel with_queue_sel
    with_status].
  rewrite skipn_app, skipn_all, Nat.sub_diag. reflexivity.
Qed.

(** C9: after a reset, by [virtio_reset] itself, by initialisation or by
    a write of 0 to STATUS, every queue has [num] equal to MAX_QUEUE_NUM
    (16, not zero) while ready, [last_avail_idx] and the three ring
    addresses are zero. *)
Theorem reset_leaves_num_at_max (n fuel : nat) (s : VIRTIODevice X)
    (m : guest_ram) (line : bool) (dev_id cfg_size : Z) (x : X) (i : Z) :
  0 <= i < MAX_QUEUE ->
  queue_after_reset (queue (virtio_reset s) i) /\
  queue_after_reset (queue (virtio_init m line dev_id cfg_size x) i) /\
  (exists s',
      virtio_mmio_write device_recv config_write n fuel s
        VIRTIO_MMIO_STATUS 0 2 = Ok s' /\
      queue_after_reset (queue s' i)).
Proof.
  intros Hi. split; [|split].
  - rewrite virtio_reset_queue by exact Hi. apply reset_queue_after_reset.
  - unfold virtio_init. rewrite virtio_reset_queue by exact Hi.
    apply reset_queue_after_reset.
  - eexists. split; [apply mmio_write_status_zero|].
    rewrite virtio_reset_queue by exact Hi. apply reset_queue_after_reset.
Qed.

End StatusReset.

Lemma reset_leaves_num_at_max_witness :
  num (queue (virtio_reset blk0) 3) = 16.
Proof.
  refine (proj1 (proj1 (reset_leaves_num_at_max
    (virtio_block_recv_request file_backend 8) None 0 0 blk0
    (fun _ => 0) false 2 8 (ext blk0) 3 _))).
  unfold MAX_QUEUE. lia.
Defined.

(** ** Copies to the queue touch guest memory and nothing else *)

Section Frame.
Context {X : Type}.
Implicit Type s : VIRTIODevice X.

Lemma ram_only_refl s : ram_only s s.
Proof. destruct s. reflexivity. Qed.

Lemma ram_only_trans s s1 s2 :
  ram_only s s1 -> ram_only s1 s2 -> ram_only s s2.
Proof.
  unfold ram_only. destruct s, s1, s2. cbn.
  intros H1 H2. injection H1 as -> -> -> -> -> -> -> -> -> -> -> ->.
  exact H2.
Qed.

Lemma ram_only_fields s s' :
  ram_only s s' ->
  queue s' = queue s /\ queue_sel s' = queue_sel s /\ ext s' = ext s /\
  irq s' = irq s /\ int_status s' = int_status s /\ status s' = status s.
Proof. unfold ram_only. intros ->. repeat split. Qed.

Lemma virtio_write8_ram_only s (a v : Z) : ram_only s (virtio_write8 s a v).
Proof. destruct s. reflexivity. Qed.

Lemma memcpy_to_ram_intrapage_loop_ram_only (n : nat) s (addr : Z)
    (buf : list Z) (bpos l : Z) :
  ram_only s (memcpy_to_ram_intrapage_loop n s addr buf bpos l).
Proof.
  revert s l. induction n as [|n IH]; intros s l; cbn.
  - apply ram_only_refl.
  - eapply ram_only_trans; [apply virtio_write8_ram_only | apply IH].
Qed.

Lemma virtio_memcpy_to_ram_ram_only s (addr : Z) (buf : list Z)
    (bpos count : Z) :
  ram_only s (virtio_memcpy_to_ram s addr buf bpos count).
Proof.
  unfold virtio_memcpy_to_ram. generalize (Z.to_nat count) as n.
  intros n. revert s addr bpos count.
  induction n as [|n IH]; intros s addr bpos count; cbn.
  - apply ram_only_refl.
  - destruct (0 <? count); [|apply ram_only_refl].
    eapply ram_only_trans; [|apply IH].
    apply memcpy_to_ram_intrapage_loop_ram_only.
Qed.

Lemma copy_queue_loop_ram_only (fuel : nat) s (buf : list Z) (bpos q : Z)
    (desc : VIRTIODesc) (offset count : Z) (to_queue : bool) (fw : Z)
    (r : Z) (b : list Z) s' :
  copy_queue_loop fuel s buf bpos q desc offset count to_queue fw
    = Ok (r, b, s') ->
  ram_only s s'.
Proof.
  revert s buf bpos desc offset count.
  induction fuel as [|fuel IH]; intros s buf bpos desc offset count;
    cbn [copy_queue_loop]; [discriminate|].
  set (l := min_int count (s32 (d_len desc - offset))).
  set (s1 := if to_queue
             then virtio_memcpy_to_ram s (u64 (d_addr desc + offset)) buf
                    bpos l
             else s).
  assert (F : ram_only s s1).
  { unfold s1. destruct to_queue;
      [apply virtio_memcpy_to_ram_ram_only | apply ram_only_refl]. }
  clearbody s1.
  destruct (s32 (count - l) =? 0).
  { intros H. injection H as _ _ <-. exact F. }
  destruct (u32 (s32 (offset + l)) =? d_len desc).
  - destruct (negb (has_flag desc VRING_DESC_F_NEXT)).
    { intros H. injection H as _ _ <-. exact F. }
    destruct (negb (Z.land (d_flags (get_desc s1 q (d_next desc)))
                      VRING_DESC_F_WRITE =? fw)).
    { intros H. injection H as _ _ <-. exact F. }
    intros H. eapply ram_only_trans; [exact F | eapply IH; exact H].
  - intros H. eapply ram_only_trans; [exact F | eapply IH; exact H].
Qed.

Lemma memcpy_to_from_queue_ram_only (fuel : nat) s (buf : list Z)
    (q d offset count : Z) (to_queue : bool) (r : Z) (b : list Z) s' :
  memcpy_to_from_queue fuel s buf q d offset count to_queue = Ok (r, b, s') ->
  ram_only s s'.
Proof.
  unfold memcpy_to_from_queue.
  destruct (count =? 0).
  { intros H. injection H as _ _ <-. apply ram_only_refl. }
  destruct (if to_queue then find_write_desc fuel s q (get_desc s q d)
            else Ok (Some (get_desc s q d))) as [[d1|]| |]; cbn [bind];
    try discriminate.
  - destruct (find_desc_at_offset fuel s q d1 offset _)
      as [[[d2 o2]|]| |]; cbn [bind]; try discriminate.
    + apply copy_queue_loop_ram_only.
    + intros H. injection H as _ _ <-. apply ram_only_refl.
  - intros H. injection H as _ _ <-. apply ram_only_refl.
Qed.

Lemma memcpy_to_queue_ram_only (fuel : nat) s (q d offset : Z)
    (buf : list Z) (count r : Z) s' :
  memcpy_to_queue fuel s q d offset buf count = Ok (r, s') -> ram_only s s'.
Proof.
  unfold memcpy_to_queue.
  destruct (memcpy_to_from_queue fuel s buf q d offset count true)
    as [[[r1 b1] s1]| |] eqn:E; cbn [bind]; try discriminate.
  intros H. injection H as _ <-.
  eapply memcpy_to_from_queue_ram_only. exact E.
Qed.

(** A copy from the queue of zero bytes succeeds without a look at the
    chain; so does a copy to the queue. *)
Lemma memcpy_to_queue_zero (fuel : nat) s (q d offset : Z) (buf : list Z) :
  memcpy_to_queue fuel s q d offset buf 0 = Ok (0, s).
Proof. reflexivity. Qed.

End Frame.

(** ** Driving the block device *)

Example blk_setup_queue0 :
  let qs := queue (blk_setup (one_request_ram 0)) 0 in
  (ready qs, num qs, desc_addr qs, avail_addr qs, used_addr qs)
  = (1, 16, 0x1000, 0x2000, 0x3000).
Proof. vm_compute. reflexivity. Qed.

Example one_request_desc :
  get_desc (blk_setup (one_request_ram 0)) 0 0 = mkVIRTIODesc 0x4000 16 0 0.
Proof. vm_compute. reflexivity. Qed.

Example one_request_rw_size :
  get_desc_rw_size 4 (blk_setup (one_request_ram 0)) 0 0 = Ok (Some (16, 0)).
Proof. vm_compute. reflexivity. Qed.

(** The scenario of a chain whose only descriptor is read-only with a
    request of type IN: a used entry (head, 0) is published. *)
Example read_only_in_request_publishes :
  let s := blk_setup (one_request_ram VIRTIO_BLK_T_IN) in
  recv_summary s 0 (virtio_block_recv_request file_backend 4 s 0 0 16 0)
  = Ok (0, [EvStore 16 0x3002 1; EvStore 32 0x3004 0; EvStore 32 0x3008 0;
            EvIrq true], true, 1).
Proof. vm_compute. reflexivity. Qed.

(** ** Copies never abort *)

Section NoAbort.
Context {X : Type}.
Implicit Type s : VIRTIODevice X.

Lemma find_write_desc_no_abort (fuel : nat) s (q : Z) (desc : VIRTIODesc) :
  find_write_desc fuel s q desc <> Aborted.
Proof.
  revert desc. induction fuel as [|fuel IH]; intros desc; cbn;
    [discriminate|].
  destruct (_ =? _); [discriminate|].
  destruct (negb _); [discriminate | apply IH].
Qed.

Lemma find_desc_at_offset_no_abort (fuel : nat) s (q : Z)
    (desc : VIRTIODesc) (offset fw : Z) :
  find_desc_at_offset fuel s q desc offset fw <> Aborted.
Proof.
  revert desc offset. induction fuel as [|fuel IH]; intros desc offset; cbn;
    [discriminate|].
  destruct (negb _); [discriminate|].
  destruct (_ <? _); [discriminate|].
  destruct (negb _); [discriminate | apply IH].
Qed.

Lemma copy_queue_loop_no_abort (fuel : nat) s (buf : list Z) (bpos q : Z)
    (desc : VIRTIODesc) (offset count : Z) (to_queue : bool) (fw : Z) :
  copy_queue_loop fuel s buf bpos q desc offset count to_queue fw <> Aborted.
Proof.
  revert s buf bpos desc offset count.
  induction fuel as [|fuel IH]; intros s buf bpos desc offset count;
    cbn [copy_queue_loop]; [discriminate|].
  cbv zeta.
  destruct (s32 (count - _) =? 0); [discriminate|].
  destruct (u32 _ =? d_len desc); [|apply IH].
  destruct (negb (has_flag desc _)); [discriminate|].
  destruct (negb (_ =? fw)); [discriminate | apply IH].
Qed.

Lemma memcpy_to_from_queue_no_abort (fuel : nat) s (buf : list Z)
    (q d offset count : Z) (to_queue : bool) :
  memcpy_to_from_queue fuel s buf q d offset count to_queue <> Aborted.
Proof.
  unfold memcpy_to_from_queue.
  destruct (count =? 0); [discriminate|].
  destruct to_queue.
  - destruct (find_write_desc fuel s q (get_desc s q d)) as [[d1|]| |] eqn:E;
      cbn [bind]; try discriminate.
    + destruct (find_desc_at_offset fuel s q d1 offset _)
        as [[[d2 o2]|]| |] eqn:E2; cbn [bind]; try discriminate.
      * apply copy_queue_loop_no_abort.
      * exfalso. revert E2. apply find_desc_at_offset_no_abort.
    + exfalso. revert E. apply find_write_desc_no_abort.
  - cbn [bind].
    destruct (find_desc_at_offset fuel s q (get_desc s q d) offset _)
      as [[[d2 o2]|]| |] eqn:E2; cbn [bind]; try discriminate.
    + apply copy_queue_loop_no_abort.
    + exfalso. revert E2. apply find_desc_at_offset_no_abort.
Qed.

Lemma memcpy_from_queue_no_abort (fuel : nat) s (buf : list Z)
    (q d offset count : Z) :
  memcpy_from_queue fuel s buf q d offset count <> Aborted.
Proof.
  unfold memcpy_from_queue.
  destruct (memcpy_to_from_queue fuel s buf q d offset count false)
    as [[[r b] s1]| |] eqn:E; cbn [bind]; try discriminate.
  exfalso. revert E. apply memcpy_to_from_queue_no_abort.
Qed.

Lemma memcpy_to_queue_no_abort (fuel : nat) s (q d offset : Z)
    (buf : list Z) (count : Z) :
  memcpy_to_queue fuel s q d offset buf count <> Aborted.
Proof.
  unfold memcpy_to_queue.
  destruct (memcpy_to_from_queue fuel s buf q d offset count true)
    as [[[r b] s1]| |] eqn:E; cbn [bind]; try discriminate.
  exfalso. revert E. apply memcpy_to_from_queue_no_abort.
Qed.

End NoAbort.

(** ** The block callback *)

Section BlockProps.
Context {BS : Type}.
Variable bdev : BlockDevice BS.
Implicit Type s : VIRTIOBlockDevice BS.

Lemma req_end_keeps_queue (fuel : nat) s (ret : Z) s' :
  virtio_block_req_end fuel s ret = Ok s' ->
  queue s' = queue s /\ queue_sel s' = queue_sel s.
Proof.
  unfold virtio_block_req_end.
  destruct (req_type (req (ext s)) =? VIRTIO_BLK_T_IN).
  - destruct (memcpy_to_queue fuel s _ _ 0 _ _) as [[r s1]| |] eqn:E;
      cbn [bind]; try discriminate.
    intros H. injection H as <-.
    apply memcpy_to_queue_ram_only, ram_only_fields in E.
    destruct E as (Eq & Es & _). rewrite consume_desc_queue.
    split; [exact Eq | exact Es].
  - destruct (req_type (req (ext s)) =? VIRTIO_BLK_T_OUT); [|discriminate].
    destruct (memcpy_to_queue fuel s _ _ 0 _ _) as [[r s1]| |] eqn:E;
      cbn [bind]; try discriminate.
    intros H. injection H as <-.
    apply memcpy_to_queue_ram_only, ram_only_fields in E.
    destruct E as (Eq & Es & _). rewrite consume_desc_queue.
    split; [exact Eq | exact Es].
Qed.

Lemma recv_request_keeps_queue (fuel : nat) s (q d rs ws r : Z) s' :
  virtio_block_recv_request bdev fuel s q d rs ws = Ok (r, s') ->
  queue s' = queue s /\ queue_sel s' = queue_sel s.
Proof.
  unfold virtio_block_recv_request.
  destruct (req_in_progress (ext s)).
  { intros H. injection H as _ <-. split; reflexivity. }
  destruct (memcpy_from_queue fuel s _ q d 0 HEADER_SIZE) as [[r0 h]| |];
    cbn [bind]; try discriminate.
  destruct (r0 <? 0).
  { intros H. injection H as _ <-. split; reflexivity. }
  destruct (le_decode (sub_bytes h 0 4) =? VIRTIO_BLK_T_IN).
  { destruct (read_async bdev _ _ _ _) as [[ret buf] b].
    destruct (0 <? ret).
    - intros H. injection H as _ <-. split; reflexivity.
    - destruct (virtio_block_req_end fuel _ ret) as [s1| |] eqn:E;
        cbn [bind]; try discriminate.
      intros H. injection H as _ <-.
      apply req_end_keeps_queue in E. exact E. }
  destruct (le_decode (sub_bytes h 0 4) =? VIRTIO_BLK_T_OUT).
  { destruct (ws <? 1); [discriminate|].
    destruct (memcpy_from_queue fuel _ _ q d HEADER_SIZE _) as [[r1 buf]| |];
      cbn [bind]; try discriminate.
    destruct (write_async bdev _ _ _ _) as [ret b].
    destruct (0 <? ret).
    - intros H. injection H as _ <-. split; reflexivity.
    - destruct (virtio_block_req_end fuel _ ret) as [s1| |] eqn:E;
        cbn [bind]; try discriminate.
      intros H. injection H as _ <-.
      apply req_end_keeps_queue in E. exact E. }
  intros H. injection H as _ <-. split; reflexivity.
Qed.

(** C10: for an OUT request (the device is idle and the header was read
    with type 1), [virtio_block_recv_request] aborts on its assertion
    exactly when [write_size] is below 1; in particular it aborts for a
    chain without a device-writable descriptor ([write_size = 0]), and the
    assertion holds only if the driver supplies a writable status byte. *)
Theorem out_request_without_status_byte_aborts (fuel : nat) s
    (q d rs ws r : Z) (h : list Z) :
  req_in_progress (ext s) = false ->
  memcpy_from_queue fuel s (repeat 0 (Z.to_nat HEADER_SIZE)) q d 0
    HEADER_SIZE = Ok (r, h) ->
  0 <= r ->
  le_decode (sub_bytes h 0 4) = VIRTIO_BLK_T_OUT ->
  (ws = 0 -> virtio_block_recv_request bdev fuel s q d rs ws = Aborted) /\
  (virtio_block_recv_request bdev fuel s q d rs ws = Aborted <-> ws < 1).
Proof.
  intros Hp Hh Hr Ht.
  assert (Er : (r <? 0) = false) by (apply Z.ltb_ge; exact Hr).
  assert (A : ws < 1 ->
              virtio_block_recv_request bdev fuel s q d rs ws = Aborted).
  { intros Hw. unfold virtio_block_recv_request.
    rewrite Hp, Hh. cbn [bind]. rewrite Er, Ht. cbn [Z.eqb VIRTIO_BLK_T_OUT
      VIRTIO_BLK_T_IN Pos.eqb].
    destruct (Z.ltb_spec ws 1); [reflexivity | lia]. }
  split; [intros ->; apply A; lia|].
  split; [|exact A].
  intros Ha. destruct (Z.ltb_spec ws 1) as [Hw|Hw]; [exact Hw|exfalso].
  revert Ha. unfold virtio_block_recv_request.
  rewrite Hp, Hh. cbn [bind]. rewrite Er, Ht. cbn [Z.eqb VIRTIO_BLK_T_OUT
    VIRTIO_BLK_T_IN Pos.eqb].
  destruct (Z.ltb_spec ws 1); [lia|].
  destruct (memcpy_from_queue fuel _ _ q d HEADER_SIZE _) as [[r1 buf]| |]
    eqn:E; cbn [bind]; try discriminate.
  2:{ exfalso. revert E. apply memcpy_from_queue_no_abort. }
  destruct (write_async bdev _ _ _ _) as [ret b].
  destruct (0 <? ret); [discriminate|].
  unfold virtio_block_req_end.
  cbn [req_type req ext with_bs with_req with_ext].
  cbn [Z.eqb VIRTIO_BLK_T_OUT VIRTIO_BLK_T_IN Pos.eqb].
  destruct (memcpy_to_queue fuel _ _ _ 0 _ 1) as [[r2 s2]| |] eqn:E2;
    cbn [bind]; try discriminate.
  exfalso. revert E2. apply memcpy_to_queue_no_abort.
Qed.

End BlockProps.

Lemma out_request_without_status_byte_aborts_witness :
  virtio_block_recv_request file_backend 4
    (blk_setup (one_request_ram VIRTIO_BLK_T_OUT)) 0 0 16 0 = Aborted.
Proof.
  refine (proj1 (out_request_without_status_byte_aborts file_backend 4
    (blk_setup (one_request_ram VIRTIO_BLK_T_OUT)) 0 0 16 0 0
    (le_encode 4 1 ++ le_encode 4 0 ++ le_encode 8 0) _ _ _ _) _).
  - vm_compute. reflexivity.
  - vm_compute. reflexivity.
  - lia.
  - vm_compute. reflexivity.
  - reflexivity.
Defined.

(** ** Requests that fail *)

Lemma s32_small (x : Z) : 0 <= x < 2147483648 -> s32 x = x.
Proof.
  intros H. unfold s32. rewrite u32_small by lia.
  destruct (Z.ltb_spec x 2147483648); [reflexivity | lia].
Qed.

Section SingleDescriptor.
Context {X : Type}.
Implicit Type s : VIRTIODevice X.

Lemma Ok_pair_inj {A B : Type} (a c : A) (b d : B) :
  Ok (a, b) = Ok (c, d) -> a = c /\ b = d.
Proof. intros H. injection H as -> ->. split; reflexivity. Qed.

Lemma bind_Ok {A B : Type} (a : A) (k : A -> res B) : bind (Ok a) k = k a.
Proof. reflexivity. Qed.

(** One round of the loops over a chain. *)
Lemma rw_size_read_loop_step (fuel : nat) s (q : Z) (desc : VIRTIODesc)
    (read_size : Z) :
  rw_size_read_loop (S fuel) s q desc read_size =
  if has_flag desc VRING_DESC_F_WRITE then Ok (read_size, Some desc)
  else if negb (has_flag desc VRING_DESC_F_NEXT)
       then Ok (s32 (read_size + d_len desc), None)
       else rw_size_read_loop fuel s q (get_desc s q (d_next desc))
              (s32 (read_size + d_len desc)).
Proof. reflexivity. Qed.

Lemma find_desc_at_offset_step (fuel : nat) s (q : Z) (desc : VIRTIODesc)
    (offset fw : Z) :
  find_desc_at_offset (S fuel) s q desc offset fw =
  if negb (Z.land (d_flags desc) VRING_DESC_F_WRITE =? fw) then Ok None
  else if u32 offset <? d_len desc then Ok (Some (desc, offset))
  else if negb (has_flag desc VRING_DESC_F_NEXT) then Ok None
  else find_desc_at_offset fuel s q (get_desc s q (d_next desc))
         (s32 (u32 offset - d_len desc)) fw.
Proof. reflexivity. Qed.

(** A copy from the queue that fits the current descriptor ends in the
    first round of the third loop. *)
Lemma copy_from_queue_fits (fuel : nat) s (buf : list Z) (bpos q : Z)
    (desc : VIRTIODesc) (offset count : Z) :
  min_int count (s32 (d_len desc - offset)) = count ->
  copy_queue_loop (S fuel) s buf bpos q desc offset count false 0 =
  Ok (0, virtio_memcpy_from_ram s buf bpos (u64 (d_addr desc + offset)) count,
      s).
Proof.
  intros El. cbn [copy_queue_loop]. cbv zeta. rewrite El.
  rewrite Z.sub_diag. reflexivity.
Qed.

(** The parts of [get_desc_rw_size] and of a copy from the queue, put
    together. *)
Lemma get_desc_rw_size_read_only (fuel : nat) s (q d read_size : Z) :
  rw_size_read_loop fuel s q (get_desc s q d) 0 = Ok (read_size, None) ->
  get_desc_rw_size fuel s q d = Ok (Some (read_size, 0)).
Proof. intros H. unfold get_desc_rw_size. rewrite H. reflexivity. Qed.

Lemma memcpy_from_queue_parts (fuel : nat) s (buf : list Z)
    (q d offset count : Z) (desc : VIRTIODesc) (off r : Z) (b : list Z)
    (s' : VIRTIODevice X) :
  count <> 0 ->
  find_desc_at_offset fuel s q (get_desc s q d) offset 0
    = Ok (Some (desc, off)) ->
  copy_queue_loop fuel s buf 0 q desc off count false 0 = Ok (r, b, s') ->
  memcpy_from_queue fuel s buf q d offset count = Ok (r, b).
Proof.
  intros Hc Hf Hl. unfold memcpy_from_queue, memcpy_to_from_queue.
  destruct (Z.eqb_spec count 0); [contradiction|].
  rewrite bind_Ok, Hf, bind_Ok, Hl. reflexivity.
Qed.

Lemma find_desc_at_offset_here (fuel : nat) s (q : Z) (desc : VIRTIODesc) :
  has_flag desc VRING_DESC_F_WRITE = false ->
  0 < d_len desc ->
  find_desc_at_offset (S fuel) s q desc 0 0 = Ok (Some (desc, 0)).
Proof.
  intros Hw Hl. rewrite find_desc_at_offset_step.
  unfold has_flag in Hw. apply negb_false_iff in Hw. rewrite Hw.
  replace (u32 0) with 0 by reflexivity.
  destruct (Z.ltb_spec 0 (d_len desc)); [reflexivity | lia].
Qed.

(** A chain made of one device-readable descriptor of at least 16 bytes:
    the sizes reported to the callback and the copy of the header. *)
Lemma single_read_only_desc (fuel : nat) s (q d : Z) (buf : list Z) :
  has_flag (get_desc s q d) VRING_DESC_F_WRITE = false ->
  has_flag (get_desc s q d) VRING_DESC_F_NEXT = false ->
  HEADER_SIZE <= d_len (get_desc s q d) < 2147483648 ->
  get_desc_rw_size (S fuel) s q d = Ok (Some (d_len (get_desc s q d), 0)) /\
  memcpy_from_queue (S fuel) s buf q d 0 HEADER_SIZE =
    Ok (0, virtio_memcpy_from_ram s buf 0
             (u64 (d_addr (get_desc s q d) + 0)) HEADER_SIZE).
Proof.
  intros Hw Hn Hl. unfold HEADER_SIZE in Hl. split.
  - apply get_desc_rw_size_read_only. rewrite rw_size_read_loop_step.
    rewrite Hw, Hn. rewrite Z.add_0_l.
    rewrite s32_small; [reflexivity | lia].
  - apply (memcpy_from_queue_parts (S fuel) s buf q d 0 HEADER_SIZE
             (get_desc s q d) 0 0 _ s).
    + discriminate.
    + apply find_desc_at_offset_here; [exact Hw | lia].
    + apply copy_from_queue_fits.
      rewrite Z.sub_0_r. rewrite s32_small by lia.
      unfold min_int, HEADER_SIZE.
      destruct (Z.ltb_spec 16 (d_len (get_desc s q d))); [reflexivity | lia].
Qed.

End SingleDescriptor.

(** C1 fails as stated: a well-formed request of an unsupported type (2)
    is accepted by the callback, which returns 0 without any store to
    guest memory and without raising the line; the index of the used ring
    stays at 0. *)
Lemma unsupported_request_not_published :
  let s := blk_setup (one_request_ram 2) in
  get_desc_rw_size 4 s 0 0 = Ok (Some (16, 0)) /\
  virtio_read16 s (used_addr (queue s 0) + 2) = 0 /\
  recv_summary s 0 (virtio_block_recv_request file_backend 4 s 0 0 16 0)
    = Ok (0, [], false, 0).
Proof. repeat split; vm_compute; reflexivity. Qed.

(** ** Loads *)

Section LoadProps.
Context {X : Type}.
Implicit Type s : VIRTIODevice X.

Ltac split_ifs :=
  repeat match goal with
         | |- context [if ?c then _ else _] => destruct c
         end.

Lemma virtio_mmio_read_word_returns s (offset : Z) :
  exists v, virtio_mmio_read s offset 2 = Ok v.
Proof.
  unfold virtio_mmio_read, virtio_config_read.
  replace (2 =? 0) with false by reflexivity.
  replace (2 =? 1) with false by reflexivity.
  replace (2 =? 2) with true by reflexivity.
  split_ifs; eexists; reflexivity.
Qed.

End LoadProps.

(** C8 fails as stated: a load of 3 bytes at offset 0 of the block device
    (inside the window, length at most 8) is refused. *)
Lemma load_three_bytes_refused :
  virtioblk_load blk0 0 3 = Ok (false, []).
Proof. vm_compute. reflexivity. Qed.

(** ** Ring sizes under MMIO writes *)

(** The test of the QUEUE_NUM register accepts exactly the powers of
    two. *)
Lemma queue_num_test_iff (v : Z) :
  0 <= v < 4294967296 ->
  ((Z.land v (u32 (v - 1)) =? 0) && (0 <? v) = true <-> pow2_u32 v).
Proof.
  intros Hv. rewrite andb_true_iff, Z.eqb_eq, Z.ltb_lt. split.
  - intros [Hl Hp]. rewrite u32_small in Hl by lia.
    pose proof (Z.log2_spec v Hp) as [Hlo Hhi].
    pose proof (Z.log2_nonneg v) as Hk.
    set (k := Z.log2 v) in *.
    assert (Hk31 : k <= 31).
    { destruct (Z.le_gt_cases k 31) as [|Hgt]; [assumption|exfalso].
      assert (2 ^ 32 <= 2 ^ k) by (apply Z.pow_le_mono_r; lia).
      change (2 ^ 32) with 4294967296 in *. lia. }
    exists k. split; [lia|].
    destruct (Z.eq_dec v (2 ^ k)) as [|Hne]; [assumption|exfalso].
    assert (Hb1 : Z.testbit v k = true) by (apply Z.bit_log2; lia).
    assert (Hb2 : Z.testbit (v - 1) k = true).
    { replace k with (Z.log2 (v - 1)).
      - apply Z.bit_log2. lia.
      - apply Z.log2_unique; [lia|].
        replace (Z.succ k) with (k + 1) in * by lia. lia. }
    assert (Hb : Z.testbit (Z.land v (v - 1)) k = true).
    { rewrite Z.land_spec, Hb1, Hb2. reflexivity. }
    rewrite Hl, Z.bits_0 in Hb. discriminate.
  - intros Hn. pose proof (pow2_u32_range v Hn) as R.
    split; [|lia].
    rewrite land_pow2_mask by exact Hn. apply Z_mod_same_full.
Qed.

Lemma same_sizes_refl {X : Type} (s : VIRTIODevice X) : same_sizes s s.
Proof. split; reflexivity. Qed.

Lemma same_sizes_trans {X : Type} (s s1 s2 : VIRTIODevice X) :
  same_sizes s s1 -> same_sizes s1 s2 -> same_sizes s s2.
Proof.
  intros [A1 B1] [A2 B2]. split; [congruence|].
  intros i. rewrite B2. apply B1.
Qed.

Lemma same_sizes_rings_ok {X : Type} (s s' : VIRTIODevice X) :
  same_sizes s s' -> rings_ok s -> rings_ok s'.
Proof.
  intros [A B] [C D]. split; [rewrite A; exact C|].
  intros i Hi. rewrite B. apply D. exact Hi.
Qed.

Lemma upd_sel_same_sizes {X : Type} (s : VIRTIODevice X)
    (f : QueueState -> QueueState) :
  (forall qs, num (f qs) = num qs) -> same_sizes s (upd_sel s f).
Proof.
  intros Hf. split; [reflexivity|]. intros i.
  unfold upd_sel, set_queue, upd_queue. cbn [queue with_queue].
  destruct (Z.eqb_spec i (queue_sel s)) as [->|]; [apply Hf | reflexivity].
Qed.

Section SizesInvariant.
Context {X : Type}.
Variable device_recv :
  VIRTIODevice X -> Z -> Z -> Z -> Z -> res (Z * VIRTIODevice X).
Variable config_write : option (VIRTIODevice X -> res (VIRTIODevice X)).
Hypothesis recv_sizes :
  forall s q d rs ws r s',
    device_recv s q d rs ws = Ok (r, s') -> same_sizes s s'.
Hypothesis config_write_sizes :
  forall f s s', config_write = Some f -> f s = Ok s' -> same_sizes s s'.

Lemma advance_last_avail_same_sizes (s : VIRTIODevice X) (q : Z) :
  same_sizes s (advance_last_avail s q).
Proof.
  split; [reflexivity|]. intros i.
  unfold advance_last_avail, set_queue, upd_queue. cbn [queue with_queue].
  destruct (Z.eqb_spec i q) as [->|]; reflexivity.
Qed.

Lemma queue_notify_loop_same_sizes (n fuel : nat) (s : VIRTIODevice X)
    (q a : Z) (vs : list visit) (s' : VIRTIODevice X) :
  queue_notify_loop device_recv n fuel s q a = Ok (vs, s') ->
  same_sizes s s'.
Proof.
  revert s vs s'. induction n as [|n IH]; intros s vs s';
    cbn [queue_notify_loop]; [discriminate|].
  destruct (last_avail_idx (queue s q) =? a).
  { intros H. apply Ok_pair_inj in H as [_ <-]. apply same_sizes_refl. }
  destruct (get_desc_rw_size fuel s q _) as [[[rs ws]|]| |];
    cbn [bind]; try discriminate.
  - destruct (device_recv s q _ rs ws) as [[ret s1]| |] eqn:E;
      cbn [bind]; try discriminate.
    apply recv_sizes in E.
    destruct (ret <? 0).
    { intros H. apply Ok_pair_inj in H as [_ <-]. exact E. }
    destruct (queue_notify_loop device_recv n fuel _ q a)
      as [[vs2 s2]| |] eqn:E2; cbn [bind]; try discriminate.
    intros H. apply Ok_pair_inj in H as [_ <-].
    apply IH in E2.
    eapply same_sizes_trans; [exact E|].
    eapply same_sizes_trans; [apply advance_last_avail_same_sizes|exact E2].
  - destruct (queue_notify_loop device_recv n fuel _ q a)
      as [[vs2 s2]| |] eqn:E2; cbn [bind]; try discriminate.
    intros H. apply Ok_pair_inj in H as [_ <-].
    apply IH in E2.
    eapply same_sizes_trans; [apply advance_last_avail_same_sizes|exact E2].
Qed.

Lemma queue_notify_same_sizes (n fuel : nat) (s s' : VIRTIODevice X)
    (q : Z) :
  queue_notify device_recv n fuel s q = Ok s' -> same_sizes s s'.
Proof.
  unfold queue_notify, queue_notify_visits.
  destruct (manual_recv (queue s q)).
  { cbn [bind]. intros H. injection H as <-. apply same_sizes_refl. }
  destruct (queue_notify_loop device_recv n fuel s q _)
    as [[vs s1]| |] eqn:E; cbn [bind]; try discriminate.
  intros H. injection H as <-.
  eapply queue_notify_loop_same_sizes. exact E.
Qed.

Lemma call_config_write_same_sizes (s1 s s' : VIRTIODevice X) :
  same_sizes s s1 -> call_config_write config_write s1 = Ok s' ->
  same_sizes s s'.
Proof.
  intros H. unfold call_config_write.
  destruct config_write as [f|] eqn:E.
  - intros Hf. eapply same_sizes_trans; [exact H|].
    eapply config_write_sizes; [reflexivity | exact Hf].
  - intros Hf. injection Hf as <-. exact H.
Qed.

Lemma virtio_config_write_same_sizes (s s' : VIRTIODevice X)
    (offset val size_log2 : Z) :
  virtio_config_write config_write s offset val size_log2 = Ok s' ->
  same_sizes s s'.
Proof.
  unfold virtio_config_write.
  repeat match goal with
         | |- context [if ?c then _ else _] => destruct c
         end;
    first [ apply call_config_write_same_sizes; split; reflexivity
          | intros H; injection H as <-; apply same_sizes_refl ].
Qed.

(** Every MMIO write keeps the invariant. *)
Lemma virtio_mmio_write_rings_ok (n fuel : nat) (s s' : VIRTIODevice X)
    (offset val size_log2 : Z) :
  rings_ok s ->
  virtio_mmio_write device_recv config_write n fuel s offset val size_log2
    = Ok s' ->
  rings_ok s'.
Proof.
  intros Hs. unfold virtio_mmio_write.
  destruct (VIRTIO_MMIO_CONFIG <=? u32 offset).
  { intros EQ. apply virtio_config_write_same_sizes in EQ.
    eapply same_sizes_rings_ok; eassumption. }
  destruct (size_log2 =? 2);
    [|intros EQ; injection EQ as <-; exact Hs].
  destruct (u32 offset =? VIRTIO_MMIO_DEVICE_FEATURES_SEL).
  { intros EQ. injection EQ as <-. exact Hs. }
  destruct (u32 offset =? VIRTIO_MMIO_QUEUE_SEL).
  { destruct (Z.ltb_spec (u32 val) MAX_QUEUE);
      intros EQ; injection EQ as <-; [|exact Hs].
    destruct Hs as [_ Hn]. split; [|exact Hn].
    cbn [queue_sel with_queue_sel]. pose proof (u32_range val). lia. }
  destruct (u32 offset =? VIRTIO_MMIO_QUEUE_NUM).
  { destruct ((Z.land (u32 val) (u32 (u32 val - 1)) =? 0) && (0 <? u32 val))
      eqn:E; intros EQ; injection EQ as <-; [|exact Hs].
    apply queue_num_test_iff in E; [|apply u32_range].
    destruct Hs as [Hq Hn]. split; [exact Hq|]. intros i Hi.
    unfold upd_sel, set_queue, upd_queue. cbn [queue with_queue].
    destruct (Z.eqb_spec i (queue_sel s)); [exact E | apply Hn; exact Hi]. }
  repeat match goal with
         | |- context [if u32 offset =? ?c then _ else _] =>
             destruct (u32 offset =? c)
         end;
    try (intros EQ; injection EQ as <-;
         first [ exact Hs
               | eapply same_sizes_rings_ok; [|exact Hs];
                 apply upd_sel_same_sizes; reflexivity ]).
  - (* STATUS *)
    destruct (u32 val =? 0); intros EQ; injection EQ as <-; [|exact Hs].
    split; [unfold MAX_QUEUE; cbn; lia|].
    intros i Hi. rewrite virtio_reset_queue by exact Hi.
    exists 4. split; [lia | reflexivity].
  - (* QUEUE_NOTIFY *)
    destruct (u32 val <? MAX_QUEUE);
      [|intros EQ; injection EQ as <-; exact Hs].
    intros EQ. apply queue_notify_same_sizes in EQ.
    eapply same_sizes_rings_ok; eassumption.
  - (* INTERRUPT_ACK *)
    cbv zeta.
    destruct (int_status _ =? 0); intros EQ; injection EQ as <-; exact Hs.
Qed.

End SizesInvariant.

(** C6 fails as stated: a write of 32 to QUEUE_NUM on the initialised
    device is accepted although 32 exceeds MAX_QUEUE_NUM. *)
Lemma queue_num_above_max_accepted :
  num (queue blk0 0) = 16 /\
  num_after_writes file_backend 0 0 blk0 [(VIRTIO_MMIO_QUEUE_NUM, 32, 2)] 0
    = Ok 32 /\
  MAX_QUEUE_NUM < 32.
Proof. vm_compute. repeat split. Qed.

Section BlockSizes.
Context {BS : Type}.
Variable bdev : BlockDevice BS.
Implicit Type s : VIRTIOBlockDevice BS.

Lemma blk_mmio_write_rings_ok (n fuel : nat) s s' (offset val size_log2 : Z) :
  rings_ok s ->
  blk_mmio_write bdev n fuel s offset val size_log2 = Ok s' ->
  rings_ok s'.
Proof.
  unfold blk_mmio_write. apply virtio_mmio_write_rings_ok.
  - intros s0 q d rs ws r s1 H.
    apply recv_request_keeps_queue in H as [Hq Hs].
    split; [exact Hs | intros i; rewrite Hq; reflexivity].
  - intros f s0 s1 H. discriminate H.
Qed.

Lemma blk_mmio_writes_rings_ok (n fuel : nat) (ws : list (Z * Z * Z)) s s' :
  rings_ok s -> blk_mmio_writes bdev n fuel s ws = Ok s' -> rings_ok s'.
Proof.
  revert s. induction ws as [|[[o v] sz] ws IH]; intros s Hs;
    cbn [blk_mmio_writes].
  - intros H. injection H as <-. exact Hs.
  - destruct (blk_mmio_write bdev n fuel s o v sz) as [s1| |] eqn:E;
      cbn [bind]; try discriminate.
    apply IH. eapply blk_mmio_write_rings_ok; eassumption.
Qed.

Lemma virtio_block_init_rings_ok (m : guest_ram) (line : bool) (b : BS)
    (hp : list (list Z)) :
  rings_ok (virtio_block_init bdev m line b hp).
Proof.
  split; [unfold MAX_QUEUE; cbn; lia|].
  intros i Hi. unfold virtio_block_init, virtio_init.
  cbn [queue with_config_space]. rewrite virtio_reset_queue by exact Hi.
  exists 4. split; [lia | reflexivity].
Qed.

Lemma blk_mmio_write_queue_num (n fuel : nat) s (val : Z) :
  blk_mmio_write bdev n fuel s VIRTIO_MMIO_QUEUE_NUM val 2 =
  Ok (if (Z.land (u32 val) (u32 (u32 val - 1)) =? 0) && (0 <? u32 val)
      then upd_sel s (with_num (u32 val)) else s).
Proof.
  unfold blk_mmio_write, virtio_mmio_write.
  replace (u32 VIRTIO_MMIO_QUEUE_NUM) with 0x38 by reflexivity.
  replace (VIRTIO_MMIO_CONFIG <=? 0x38) with false by reflexivity.
  replace (2 =? 2) with true by reflexivity.
  replace (0x38 =? VIRTIO_MMIO_DEVICE_FEATURES_SEL) with false
    by reflexivity.
  replace (0x38 =? VIRTIO_MMIO_QUEUE_SEL) with false by reflexivity.
  replace (0x38 =? VIRTIO_MMIO_QUEUE_NUM) with true by reflexivity.
  destruct ((Z.land (u32 val) (u32 (u32 val - 1)) =? 0) && (0 <? u32 val));
    reflexivity.
Qed.

(** C6, amended: the QUEUE_NUM register accepts exactly the powers of two
    (of the 32-bit value written), with no upper bound at MAX_QUEUE_NUM: a
    write of a power of two sets [num] of the selected queue to it, a
    write of zero or of any other value leaves the device unchanged.
    Hence after initialisation and any sequence of MMIO writes that
    returns, the [num] of every queue is a power of two greater than
    zero. *)
Theorem queue_num_stays_power_of_two (n fuel : nat) :
  (forall s val,
      exists s',
        blk_mmio_write bdev n fuel s VIRTIO_MMIO_QUEUE_NUM val 2 = Ok s' /\
        (pow2_u32 (u32 val) ->
         s' = upd_sel s (with_num (u32 val)) /\
         num (queue s' (queue_sel s)) = u32 val) /\
        (~ pow2_u32 (u32 val) -> s' = s)) /\
  (forall m line b hp ws s',
      blk_mmio_writes bdev n fuel (virtio_block_init bdev m line b hp) ws
        = Ok s' ->
      forall i, 0 <= i < MAX_QUEUE ->
        pow2_u32 (num (queue s' i)) /\ 0 < num (queue s' i)).
Proof.
  split.
  - intros s val. eexists. split; [apply blk_mmio_write_queue_num|].
    pose proof (queue_num_test_iff (u32 val) (u32_range val)) as T.
    destruct ((Z.land (u32 val) (u32 (u32 val - 1)) =? 0) && (0 <? u32 val)).
    + split; [|intros Hn; exfalso; apply Hn, T; reflexivity].
      intros _. split; [reflexivity|].
      unfold upd_sel, set_queue, upd_queue. cbn [queue with_queue].
      rewrite Z.eqb_refl. reflexivity.
    + split; [|reflexivity].
      intros Hp. apply T in Hp. discriminate Hp.
  - intros m line b hp ws s' H i Hi.
    pose proof (blk_mmio_writes_rings_ok n fuel ws _ _
                  (virtio_block_init_rings_ok m line b hp) H) as [_ Hn].
    split; [apply Hn; exact Hi|].
    pose proof (pow2_u32_range _ (Hn i Hi)). lia.
Qed.

End BlockSizes.

Lemma queue_num_stays_power_of_two_witness :
  pow2_u32 (num (queue (blk_setup (one_request_ram 0)) 0)) /\
  0 < num (queue (blk_setup (one_request_ram 0)) 0).
Proof.
  refine (proj2 (queue_num_stays_power_of_two file_backend 0 0)
            (one_request_ram 0) false
            (block_device_init (repeat 0 1024%nat) BF_MODE_RW) []
            [ (VIRTIO_MMIO_STATUS, 3, 2);
              (VIRTIO_MMIO_QUEUE_SEL, 0, 2);
              (VIRTIO_MMIO_QUEUE_NUM, 16, 2);
              (VIRTIO_MMIO_QUEUE_DESC_LOW, 0x1000, 2);
              (VIRTIO_MMIO_QUEUE_AVAIL_LOW, 0x2000, 2);
              (VIRTIO_MMIO_QUEUE_USED_LOW, 0x3000, 2);
              (VIRTIO_MMIO_QUEUE_READY, 1, 2);
              (VIRTIO_MMIO_STATUS, 7, 2) ]
            (blk_setup (one_request_ram 0)) _ 0 _).
  - reflexivity.
  - unfold MAX_QUEUE. lia.
Defined.

(** ** The notify loop *)

Lemma u16_dist_step (l a : Z) :
  0 <= l < 65536 -> 0 <= a < 65536 -> l <> a ->
  u16 (a - l) = 1 + u16 (a - u16 (l + 1)).
Proof. unfold u16. intros. Z.div_mod_to_equations. lia. Qed.

Lemma u16_add_l (x y : Z) : u16 (u16 x + y) = u16 (x + y).
Proof. unfold u16. apply Zplus_mod_idemp_l. Qed.

Lemma ring_positions_S (l : Z) (n : nat) :
  0 <= l < 65536 ->
  ring_positions l (S n) = l :: ring_positions (u16 (l + 1)) n.
Proof.
  intros Hl. unfold ring_positions. cbn [seq map].
  rewrite Z.add_0_r, u16_small by exact Hl. f_equal.
  rewrite <- seq_shift, map_map. apply map_ext. intros k.
  rewrite u16_add_l. f_equal. lia.
Qed.

Lemma walk_outcome_cons (l a : Z) (v : visit) (vs : list visit) (last' : Z) :
  0 <= l < 65536 -> 0 <= a < 65536 -> l <> a ->
  v_index v = l -> is_pushback v = false ->
  walk_outcome (u16 (l + 1)) a vs last' ->
  walk_outcome l a (v :: vs) last'.
Proof.
  intros Hl Ha Hne Hv Hp [Hi Hf]. split.
  - cbn [map length]. rewrite ring_positions_S by exact Hl.
    rewrite Hv, Hi. reflexivity.
  - destruct Hf as [(Hall & Hlast & Hlen) | (vs0 & v0 & -> & Hall & Hpb & Hlast)].
    + left. cbn [forallb length]. rewrite Hp, Hall. repeat split; auto.
      rewrite (u16_dist_step l a) by assumption. lia.
    + right. exists (v :: vs0), v0. cbn [forallb app]. rewrite Hp, Hall.
      repeat split; auto.
Qed.

Section NotifyWalk.
Context {X : Type}.
Variable device_recv :
  VIRTIODevice X -> Z -> Z -> Z -> Z -> res (Z * VIRTIODevice X).
Hypothesis recv_keeps_queue :
  forall s q d rs ws r s',
    device_recv s q d rs ws = Ok (r, s') -> queue s' = queue s.

Lemma advance_last_avail_idx (s : VIRTIODevice X) (q : Z) :
  last_avail_idx (queue (advance_last_avail s q) q)
  = u16 (last_avail_idx (queue s q) + 1).
Proof.
  unfold advance_last_avail, set_queue, upd_queue. cbn [queue with_queue].
  rewrite Z.eqb_refl. reflexivity.
Qed.

Lemma queue_notify_loop_walk (n fuel : nat) (s : VIRTIODevice X) (q a : Z)
    (vs : list visit) (s' : VIRTIODevice X) :
  0 <= last_avail_idx (queue s q) < 65536 -> 0 <= a < 65536 ->
  queue_notify_loop device_recv n fuel s q a = Ok (vs, s') ->
  walk_outcome (last_avail_idx (queue s q)) a vs
    (last_avail_idx (queue s' q)).
Proof.
  revert s vs s'. induction n as [|n IH]; intros s vs s' Hl Ha;
    cbn [queue_notify_loop]; [discriminate|].
  destruct (Z.eqb_spec (last_avail_idx (queue s q)) a) as [He|Hne].
  { intros H. apply Ok_pair_inj in H as [<- <-]. split; [reflexivity|].
    left. cbn. rewrite He, Z.sub_diag. repeat split. }
  set (head := virtio_read16 s (avail_entry_addr (queue s q))).
  destruct (get_desc_rw_size fuel s q head) as [[[rs ws]|]| |];
    cbn [bind]; try discriminate.
  - destruct (device_recv s q head rs ws) as [[ret s1]| |] eqn:E;
      cbn [bind]; try discriminate.
    apply recv_keeps_queue in E.
    destruct (Z.ltb_spec ret 0) as [Hneg|Hpos].
    + intros H. apply Ok_pair_inj in H as [<- <-]. split.
      * cbn. rewrite Z.add_0_r, u16_small by exact Hl. reflexivity.
      * right. exists [], (mkVisit (last_avail_idx (queue s q)) head
                           (Called ret)).
        rewrite E. repeat split.
        unfold is_pushback. cbn. apply Z.ltb_lt. exact Hneg.
    + destruct (queue_notify_loop device_recv n fuel
                  (advance_last_avail s1 q) q a) as [[vs2 s2]| |] eqn:E2;
        cbn [bind]; try discriminate.
      intros H. apply Ok_pair_inj in H as [<- <-].
      apply IH in E2.
      * rewrite advance_last_avail_idx, E in E2.
        apply walk_outcome_cons; auto.
        unfold is_pushback. cbn. apply Z.ltb_ge. exact Hpos.
      * rewrite advance_last_avail_idx. apply u16_range.
      * exact Ha.
  - destruct (queue_notify_loop device_recv n fuel
                (advance_last_avail s q) q a) as [[vs2 s2]| |] eqn:E2;
      cbn [bind]; try discriminate.
    intros H. apply Ok_pair_inj in H as [<- <-].
    apply IH in E2.
    + rewrite advance_last_avail_idx in E2.
      apply walk_outcome_cons; auto.
    + rewrite advance_last_avail_idx. apply u16_range.
    + exact Ha.
Qed.

(** Rounds beyond the distance between the two indices are never used:
    the loop gives the same result for any two bounds above it. *)
Lemma queue_notify_loop_bound (n1 n2 fuel : nat) (s : VIRTIODevice X)
    (q a : Z) :
  0 <= last_avail_idx (queue s q) < 65536 -> 0 <= a < 65536 ->
  u16 (a - last_avail_idx (queue s q)) < Z.of_nat n1 ->
  u16 (a - last_avail_idx (queue s q)) < Z.of_nat n2 ->
  queue_notify_loop device_recv n1 fuel s q a
  = queue_notify_loop device_recv n2 fuel s q a.
Proof.
  revert n2 s. induction n1 as [|n1 IH]; intros n2 s Hl Ha H1 H2.
  { pose proof (u16_range (a - last_avail_idx (queue s q))). lia. }
  destruct n2 as [|n2].
  { pose proof (u16_range (a - last_avail_idx (queue s q))). lia. }
  cbn [queue_notify_loop].
  destruct (Z.eqb_spec (last_avail_idx (queue s q)) a) as [He|Hne];
    [reflexivity|].
  pose proof (u16_dist_step _ _ Hl Ha Hne) as Hd.
  set (head := virtio_read16 s (avail_entry_addr (queue s q))).
  destruct (get_desc_rw_size fuel s q head) as [[[rs ws]|]| |];
    cbn [bind]; try reflexivity.
  - destruct (device_recv s q head rs ws) as [[ret s1]| |] eqn:E;
      cbn [bind]; try reflexivity.
    apply recv_keeps_queue in E.
    destruct (ret <? 0); [reflexivity|].
    rewrite (IH n2); [reflexivity | | | |];
      rewrite ?advance_last_avail_idx, ?E;
      try apply u16_range; try exact Ha; lia.
  - rewrite (IH n2); [reflexivity | | | |];
      rewrite ?advance_last_avail_idx;
      try apply u16_range; try exact Ha; lia.
Qed.

End NotifyWalk.

(** C5 fails as stated.  On a head whose chain [get_desc_rw_size] rejects
    the callback is not invoked at all (nothing is published) and
    [last_avail_idx] still moves past the head; and on a queue marked
    [manual_recv] a notify does nothing, so [last_avail_idx] (0) stays
    behind the driver's index (1) without any push-back. *)
Lemma notify_skips_rejected_chain :
  notify_summary (blk_setup bad_chain_ram) 0
    (queue_notify_visits (virtio_block_recv_request file_backend 8) 4 8
       (blk_setup bad_chain_ram) 0)
  = Ok ([mkVisit 0 0 Skipped], 1, []) /\
  virtio_read16 blk_manual (avail_addr (queue blk_manual 0) + 2) = 1 /\
  notify_summary blk_manual 0
    (queue_notify_visits (virtio_block_recv_request file_backend 8) 4 8
       blk_manual 0)
  = Ok ([], 0, []).
Proof. repeat split; vm_compute; reflexivity. Qed.

(** A notify on the programmed device with one pending IN request. *)

Example notify_example_summary :
  notify_summary (blk_setup (one_request_ram VIRTIO_BLK_T_IN)) 0
    (queue_notify_visits (virtio_block_recv_request file_backend 8) 4 8
       (blk_setup (one_request_ram VIRTIO_BLK_T_IN)) 0)
  = Ok ([mkVisit 0 0 (Called 0)], 1,
        [EvStore 16 0x3002 1; EvStore 32 0x3004 0; EvStore 32 0x3008 0;
         EvIrq true]).
Proof. vm_compute. reflexivity. Qed.

Lemma notify_example_returns :
  queue_notify_visits (virtio_block_recv_request file_backend 8) 4 8
    (blk_setup (one_request_ram VIRTIO_BLK_T_IN)) 0
  = Ok (notify_example_visits, notify_example_state).
Proof.
  pose proof notify_example_summary as S. revert S.
  unfold notify_example_visits, notify_example_state, notify_summary.
  destruct (queue_notify_visits _ 4 8 _ 0) as [[vs s']| |];
    [intros _; reflexivity | |]; unfold bind; discriminate.
Qed.

(** ** A block read, end to end *)

(** One notify on a chain of header, 512 data bytes and status byte:
    the used index becomes 1, the entry is (head 0, 513), the status byte
    is OK, the data are the bytes of sector 0, the line is high. *)
Example block_read_scenario :
  read_scenario_summary
    (blk_queue_notify file_backend 4 8 (blk_sevens read_request_ram) 0)
  = Ok (1, 0, 513, VIRTIO_BLK_S_OK, 7, 7, true, 1).
Proof. vm_compute. reflexivity. Qed.

(** ** The page-splitting loops always finish *)

Lemma page_round_positive (addr count : Z) :
  0 < count ->
  1 <= min_int count (VIRTIO_PAGE_SIZE - Z.land addr (VIRTIO_PAGE_SIZE - 1))
    <= count.
Proof.
  intros Hc. unfold VIRTIO_PAGE_SIZE.
  change (4096 - 1) with (Z.ones 12). rewrite Z.land_ones by lia.
  pose proof (Z.mod_pos_bound addr (2 ^ 12) eq_refl) as B.
  change (2 ^ 12) with 4096 in *. unfold min_int.
  destruct (Z.ltb_spec count (4096 - addr mod 4096)); lia.
Qed.

Section PageLoops.
Context {X : Type}.
Implicit Type s : VIRTIODevice X.

(** [count] rounds are enough for [virtio_memcpy_from_ram]: more rounds
    give the same buffer. *)
Lemma virtio_memcpy_from_ram_loop_enough (n1 n2 : nat) s (buf : list Z)
    (bpos addr count : Z) :
  (Z.to_nat count <= n1)%nat -> (Z.to_nat count <= n2)%nat ->
  virtio_memcpy_from_ram_loop n1 s buf bpos addr count
  = virtio_memcpy_from_ram_loop n2 s buf bpos addr count.
Proof.
  revert n2 buf bpos addr count.
  induction n1 as [|n1 IH]; intros n2 buf bpos addr count H1 H2.
  - destruct n2 as [|n2]; [reflexivity|]. cbn [virtio_memcpy_from_ram_loop].
    destruct (Z.ltb_spec 0 count); [lia | reflexivity].
  - cbn [virtio_memcpy_from_ram_loop].
    destruct (Z.ltb_spec 0 count) as [Hc|Hc].
    + destruct n2 as [|n2]; [lia|]. cbn [virtio_memcpy_from_ram_loop].
      destruct (Z.ltb_spec 0 count); [|lia].
      pose proof (page_round_positive addr count Hc).
      apply IH; lia.
    + destruct n2 as [|n2]; [reflexivity|].
      cbn [virtio_memcpy_from_ram_loop].
      destruct (Z.ltb_spec 0 count); [lia | reflexivity].
Qed.

(** The same for [virtio_memcpy_to_ram]. *)
Lemma virtio_memcpy_to_ram_loop_enough (n1 n2 : nat) s (addr : Z)
    (buf : list Z) (bpos count : Z) :
  (Z.to_nat count <= n1)%nat -> (Z.to_nat count <= n2)%nat ->
  virtio_memcpy_to_ram_loop n1 s addr buf bpos count
  = virtio_memcpy_to_ram_loop n2 s addr buf bpos count.
Proof.
  revert n2 s addr bpos count.
  induction n1 as [|n1 IH]; intros n2 s addr bpos count H1 H2.
  - destruct n2 as [|n2]; [reflexivity|]. cbn [virtio_memcpy_to_ram_loop].
    destruct (Z.ltb_spec 0 count); [lia | reflexivity].
  - cbn [virtio_memcpy_to_ram_loop].
    destruct (Z.ltb_spec 0 count) as [Hc|Hc].
    + destruct n2 as [|n2]; [lia|]. cbn [virtio_memcpy_to_ram_loop].
      destruct (Z.ltb_spec 0 count); [|lia].
      pose proof (page_round_positive addr count Hc).
      apply IH; lia.
    + destruct n2 as [|n2]; [reflexivity|].
      cbn [virtio_memcpy_to_ram_loop].
      destruct (Z.ltb_spec 0 count); [lia | reflexivity].
Qed.

End PageLoops.

(** * Further properties of the engine *)

(** ** Host buffers *)

Lemma list_put_length (buf : list Z) (n : nat) (v : Z) :
  length (list_put buf n v) = length buf.
Proof.
  revert n. induction buf as [|b r IH]; intros n; [reflexivity|].
  destruct n; cbn; [reflexivity | rewrite IH; reflexivity].
Qed.

Lemma nth_list_put (buf : list Z) (n m : nat) (v : Z) :
  nth m (list_put buf n v) 0 =
  if (m =? n)%nat && (n <? length buf)%nat then v else nth m buf 0.
Proof.
  revert n m. induction buf as [|b r IH]; intros n m.
  - cbn. rewrite andb_false_r. reflexivity.
  - destruct n as [|n]; destruct m as [|m]; cbn [list_put nth length];
      try reflexivity.
    rewrite IH. reflexivity.
Qed.

Lemma buf_put_length (buf : list Z) (i v : Z) :
  length (buf_put buf i v) = length buf.
Proof.
  unfold buf_put. destruct (i <? 0); [reflexivity | apply list_put_length].
Qed.

Lemma buf_get_buf_put (buf : list Z) (i j v : Z) :
  buf_get (buf_put buf i v) j =
  if (j =? i) && (0 <=? i) && (i <? Z.of_nat (length buf)) then v
  else buf_get buf j.
Proof.
  unfold buf_get, buf_put.
  destruct (Z.ltb_spec j 0) as [Hj|Hj].
  { destruct (Z.eqb_spec j i); [|reflexivity].
    destruct (Z.leb_spec 0 i); [lia | reflexivity]. }
  destruct (Z.ltb_spec i 0) as [Hi|Hi].
  { destruct (Z.leb_spec 0 i); [lia|]. rewrite andb_false_r. reflexivity. }
  rewrite nth_list_put.
  destruct (Nat.eqb_spec (Z.to_nat j) (Z.to_nat i)) as [E|E];
    destruct (Z.eqb_spec j i) as [E'|E']; try lia;
    destruct (Z.leb_spec 0 i); try lia; cbn [andb];
    try reflexivity.
  destruct (Nat.ltb_spec (Z.to_nat i) (length buf));
    destruct (Z.ltb_spec i (Z.of_nat (length buf))); try lia; reflexivity.
Qed.

(** ** Copies between guest memory and host buffers *)

Section RamCopies.
Context {X : Type}.
Implicit Type s : VIRTIODevice X.

Lemma memcpy_from_ram_intrapage_loop_length (n : nat) (m : guest_ram)
    (buf : list Z) (bpos addr l : Z) :
  length (memcpy_from_ram_intrapage_loop n m buf bpos addr l) = length buf.
Proof.
  revert buf l. induction n as [|n IH]; intros buf l; [reflexivity|].
  cbn [memcpy_from_ram_intrapage_loop]. rewrite IH. apply buf_put_length.
Qed.

Lemma memcpy_from_ram_intrapage_loop_get (n : nat) (m : guest_ram)
    (buf : list Z) (bpos addr l j : Z) :
  0 <= bpos + l -> bpos + l + Z.of_nat n <= Z.of_nat (length buf) ->
  buf_get (memcpy_from_ram_intrapage_loop n m buf bpos addr l) j =
  if (bpos + l <=? j) && (j <? bpos + l + Z.of_nat n)
  then load_u8 m (addr + (j - bpos)) else buf_get buf j.
Proof.
  revert buf l. induction n as [|n IH]; intros buf l H0 H1.
  - cbn [memcpy_from_ram_intrapage_loop].
    destruct (Z.leb_spec (bpos + l) j), (Z.ltb_spec j (bpos + l + Z.of_nat 0));
      try reflexivity; lia.
  - cbn [memcpy_from_ram_intrapage_loop]. rewrite IH.
    2: lia.
    2: rewrite buf_put_length; lia.
    rewrite buf_get_buf_put.
    destruct (Z.leb_spec (bpos + (l + 1)) j),
      (Z.ltb_spec j (bpos + (l + 1) + Z.of_nat n)),
      (Z.leb_spec (bpos + l) j),
      (Z.ltb_spec j (bpos + l + Z.of_nat (S n))),
      (Z.eqb_spec j (bpos + l)), (Z.leb_spec 0 (bpos + l)),
      (Z.ltb_spec (bpos + l) (Z.of_nat (length buf)));
      cbn [andb]; try reflexivity; try lia.
    subst j. f_equal. lia.
Qed.

Lemma virtio_memcpy_from_ram_loop_length (n : nat) s (buf : list Z)
    (bpos addr count : Z) :
  length (virtio_memcpy_from_ram_loop n s buf bpos addr count) = length buf.
Proof.
  revert buf bpos addr count. induction n as [|n IH];
    intros buf bpos addr count; [reflexivity|].
  cbn [virtio_memcpy_from_ram_loop]. destruct (0 <? count); [|reflexivity].
  rewrite IH. apply memcpy_from_ram_intrapage_loop_length.
Qed.

Lemma virtio_memcpy_from_ram_loop_get (n : nat) s (buf : list Z)
    (bpos addr count j : Z) :
  (Z.to_nat count <= n)%nat ->
  0 <= bpos -> bpos + count <= Z.of_nat (length buf) ->
  buf_get (virtio_memcpy_from_ram_loop n s buf bpos addr count) j =
  if (bpos <=? j) && (j <? bpos + count)
  then load_u8 (ram s) (addr + (j - bpos)) else buf_get buf j.
Proof.
  revert buf bpos addr count. induction n as [|n IH];
    intros buf bpos addr count Hn H0 H1.
  - cbn [virtio_memcpy_from_ram_loop].
    destruct (Z.leb_spec bpos j), (Z.ltb_spec j (bpos + count));
      try reflexivity; lia.
  - cbn [virtio_memcpy_from_ram_loop].
    destruct (Z.ltb_spec 0 count) as [Hc|Hc].
    2:{ destruct (Z.leb_spec bpos j), (Z.ltb_spec j (bpos + count));
          try reflexivity; lia. }
    pose proof (page_round_positive addr count Hc) as Hl.
    set (l := min_int count
                (VIRTIO_PAGE_SIZE - Z.land addr (VIRTIO_PAGE_SIZE - 1))) in *.
    clearbody l.
    rewrite IH.
    2: lia.
    2: lia.
    2:{ unfold memcpy_from_ram_intrapage.
        rewrite memcpy_from_ram_intrapage_loop_length. lia. }
    unfold memcpy_from_ram_intrapage.
    rewrite memcpy_from_ram_intrapage_loop_get.
    2: lia.
    2: rewrite Z2Nat.id; lia.
    rewrite Z2Nat.id by lia. rewrite load_u8_norm_add.
    destruct (Z.leb_spec (bpos + l) j), (Z.ltb_spec j (bpos + l + (count - l))),
      (Z.leb_spec bpos j), (Z.ltb_spec j (bpos + count)),
      (Z.leb_spec (bpos + 0) j), (Z.ltb_spec j (bpos + 0 + l));
      cbn [andb]; try reflexivity; try lia.
    f_equal. lia.
Qed.

(** X1: [virtio_memcpy_from_ram] fills [count] bytes of the host buffer
    from [bpos] with the bytes of guest memory from [addr], in order, and
    leaves the rest of the buffer as it was: the split at page boundaries
    does not show in the result. *)
Theorem virtio_memcpy_from_ram_bytes s (buf : list Z)
    (bpos addr count : Z) :
  0 <= bpos -> bpos + count <= Z.of_nat (length buf) ->
  length (virtio_memcpy_from_ram s buf bpos addr count) = length buf /\
  forall j,
    buf_get (virtio_memcpy_from_ram s buf bpos addr count) j =
    if (bpos <=? j) && (j <? bpos + count)
    then load_u8 (ram s) (addr + (j - bpos)) else buf_get buf j.
Proof.
  intros H0 H1. unfold virtio_memcpy_from_ram. split.
  - apply virtio_memcpy_from_ram_loop_length.
  - intros j. apply virtio_memcpy_from_ram_loop_get; auto.
Qed.

End RamCopies.

Lemma res_value_ok {A : Type} (r : res A) (d : A) :
  res_is_ok r = true -> r = Ok (res_value r d).
Proof. destruct r; [reflexivity | discriminate | discriminate]. Qed.

Lemma res_value_pair_ok {A B : Type} (r : res (A * B)) (d : A * B) :
  res_is_ok r = true -> r = Ok (fst (res_value r d), snd (res_value r d)).
Proof.
  intros H. rewrite <- surjective_pairing. apply res_value_ok. exact H.
Qed.

Lemma virtio_memcpy_from_ram_bytes_witness :
  buf_get (virtio_memcpy_from_ram blk_ff [0; 0; 0; 0] 1 0xfff 2) 2 =
  if (1 <=? 2) && (2 <? 1 + 2)
  then load_u8 (ram blk_ff) (0xfff + (2 - 1)) else buf_get [0; 0; 0; 0] 2.
Proof.
  refine (proj2 (virtio_memcpy_from_ram_bytes blk_ff [0; 0; 0; 0] 1 0xfff 2
                   _ _) 2); cbn; lia.
Defined.

Section RamStores.
Context {X : Type}.
Implicit Type s : VIRTIODevice X.

Lemma load_u8_virtio_write8 s (a v b : Z) :
  load_u8 (ram (virtio_write8 s a v)) b =
  if u64 b =? u64 a then u8 v else load_u8 (ram s) b.
Proof.
  unfold virtio_write8. cbn [ram with_log with_ram].
  destruct (Z.eqb_spec (u64 b) (u64 a)) as [E|E].
  - unfold load_u8, store_u8. rewrite E, Z.eqb_refl.
    apply u8_small, u8_range.
  - apply load_u8_store_u8_other. exact E.
Qed.

Lemma memcpy_to_ram_intrapage_loop_other (n : nat) s (addr : Z)
    (buf : list Z) (bpos l a : Z) :
  (forall j, l <= j < l + Z.of_nat n -> u64 a <> u64 (addr + j)) ->
  load_u8 (ram (memcpy_to_ram_intrapage_loop n s addr buf bpos l)) a
  = load_u8 (ram s) a.
Proof.
  revert s l. induction n as [|n IH]; intros s l H; [reflexivity|].
  cbn [memcpy_to_ram_intrapage_loop]. rewrite IH.
  - rewrite load_u8_virtio_write8.
    destruct (Z.eqb_spec (u64 a) (u64 (addr + l))) as [E|E];
      [|reflexivity].
    exfalso. apply (H l); [lia | exact E].
  - intros j Hj. apply H. lia.
Qed.

Lemma memcpy_to_ram_intrapage_loop_in (n : nat) s (addr : Z)
    (buf : list Z) (bpos l j : Z) :
  Z.of_nat n <= 18446744073709551616 ->
  l <= j < l + Z.of_nat n ->
  load_u8 (ram (memcpy_to_ram_intrapage_loop n s addr buf bpos l)) (addr + j)
  = u8 (buf_get buf (bpos + j)).
Proof.
  revert s l. induction n as [|n IH]; intros s l Hn Hj; [lia|].
  cbn [memcpy_to_ram_intrapage_loop].
  destruct (Z.eq_dec j l) as [->|Hne].
  - rewrite memcpy_to_ram_intrapage_loop_other.
    + rewrite load_u8_virtio_write8, Z.eqb_refl. reflexivity.
    + intros k Hk. apply u64_apart. lia.
  - apply IH; lia.
Qed.

Lemma virtio_memcpy_to_ram_loop_other (n : nat) s (addr : Z) (buf : list Z)
    (bpos count a : Z) :
  (forall k, 0 <= k < count -> u64 a <> u64 (addr + k)) ->
  load_u8 (ram (virtio_memcpy_to_ram_loop n s addr buf bpos count)) a
  = load_u8 (ram s) a.
Proof.
  revert s addr bpos count. induction n as [|n IH];
    intros s addr bpos count H; [reflexivity|].
  cbn [virtio_memcpy_to_ram_loop].
  destruct (Z.ltb_spec 0 count) as [Hc|Hc]; [|reflexivity].
  pose proof (page_round_positive addr count Hc) as Hl.
  set (l := min_int count
              (VIRTIO_PAGE_SIZE - Z.land addr (VIRTIO_PAGE_SIZE - 1))) in *.
  clearbody l.
  rewrite IH.
  - unfold memcpy_to_ram_intrapage.
    apply memcpy_to_ram_intrapage_loop_other.
    intros j Hj. rewrite Z2Nat.id in Hj by lia. apply H. lia.
  - intros k Hk. rewrite u64_add_l.
    replace (addr + l + k) with (addr + (l + k)) by lia. apply H. lia.
Qed.

Lemma virtio_memcpy_to_ram_loop_in (n : nat) s (addr : Z) (buf : list Z)
    (bpos count k : Z) :
  (Z.to_nat count <= n)%nat ->
  count <= 18446744073709551616 ->
  0 <= k < count ->
  load_u8 (ram (virtio_memcpy_to_ram_loop n s addr buf bpos count))
    (addr + k)
  = u8 (buf_get buf (bpos + k)).
Proof.
  revert s addr bpos count k. induction n as [|n IH];
    intros s addr bpos count k Hn Hc64 Hk; [lia|].
  cbn [virtio_memcpy_to_ram_loop].
  destruct (Z.ltb_spec 0 count) as [Hc|Hc]; [|lia].
  pose proof (page_round_positive addr count Hc) as Hl.
  set (l := min_int count
              (VIRTIO_PAGE_SIZE - Z.land addr (VIRTIO_PAGE_SIZE - 1))) in *.
  clearbody l.
  destruct (Z.lt_ge_cases k l) as [Hkl|Hkl].
  - rewrite virtio_memcpy_to_ram_loop_other.
    + unfold memcpy_to_ram_intrapage.
      rewrite memcpy_to_ram_intrapage_loop_in.
      * reflexivity.
      * rewrite Z2Nat.id; lia.
      * rewrite Z2Nat.id; lia.
    + intros k' Hk'. rewrite u64_add_l. apply u64_apart. lia.
  - replace (addr + k) with (addr + l + (k - l)) by lia.
    rewrite <- load_u8_norm_add. rewrite IH.
    + f_equal. f_equal. lia.
    + lia.
    + lia.
    + lia.
Qed.

(** X2: [virtio_memcpy_to_ram] stores the [count] bytes of the host
    buffer from [bpos], in order, at guest addresses [addr], [addr + 1],
    ..., leaves every other byte of guest memory as it was, and changes
    nothing of the device but guest memory (and the log of stores). *)
Theorem virtio_memcpy_to_ram_bytes s (addr : Z) (buf : list Z)
    (bpos count : Z) :
  count <= 18446744073709551616 ->
  let s' := virtio_memcpy_to_ram s addr buf bpos count in
  (forall k, 0 <= k < count ->
     load_u8 (ram s') (addr + k) = u8 (buf_get buf (bpos + k))) /\
  (forall a, (forall k, 0 <= k < count -> u64 a <> u64 (addr + k)) ->
     load_u8 (ram s') a = load_u8 (ram s) a) /\
  ram_only s s'.
Proof.
  intros Hc s'. unfold s', virtio_memcpy_to_ram. split; [|split].
  - intros k Hk. apply virtio_memcpy_to_ram_loop_in; auto.
  - intros a Ha. apply virtio_memcpy_to_ram_loop_other. exact Ha.
  - apply (virtio_memcpy_to_ram_ram_only s addr buf bpos count).
Qed.

(** X3: a copy to guest memory followed by a copy back from the same
    address returns the bytes that were sent. *)
Theorem ram_copy_round_trip s (addr : Z) (buf back : list Z)
    (bpos bpos' count : Z) :
  count <= 18446744073709551616 ->
  0 <= bpos' -> bpos' + count <= Z.of_nat (length back) ->
  let s' := virtio_memcpy_to_ram s addr buf bpos count in
  let r := virtio_memcpy_from_ram s' back bpos' addr count in
  length r = length back /\
  forall k, 0 <= k < count ->
    buf_get r (bpos' + k) = u8 (buf_get buf (bpos + k)).
Proof.
  intros Hc H0 H1 s' r. unfold r, virtio_memcpy_from_ram. split.
  - apply virtio_memcpy_from_ram_loop_length.
  - intros k Hk. rewrite virtio_memcpy_from_ram_loop_get by auto.
    destruct (Z.leb_spec bpos' (bpos' + k)); [|lia].
    destruct (Z.ltb_spec (bpos' + k) (bpos' + count)); [|lia].
    cbn [andb]. replace (bpos' + k - bpos') with k by lia.
    unfold s', virtio_memcpy_to_ram.
    apply virtio_memcpy_to_ram_loop_in; auto.
Qed.

End RamStores.

Lemma virtio_memcpy_to_ram_bytes_witness :
  load_u8 (ram (virtio_memcpy_to_ram blk0 0xffe [1; 2; 3; 4] 0 4)) (0xffe + 2)
  = u8 (buf_get [1; 2; 3; 4] (0 + 2)).
Proof.
  refine (proj1 (virtio_memcpy_to_ram_bytes blk0 0xffe [1; 2; 3; 4] 0 4 _)
            2 _); lia.
Defined.

Lemma ram_copy_round_trip_witness :
  buf_get
    (virtio_memcpy_from_ram (virtio_memcpy_to_ram blk0 0xffe [1; 2; 3; 4] 0 4)
       [0; 0; 0; 0] 0 0xffe 4) (0 + 3)
  = u8 (buf_get [1; 2; 3; 4] (0 + 3)).
Proof.
  refine (proj2 (ram_copy_round_trip blk0 0xffe [1; 2; 3; 4] [0; 0; 0; 0]
                   0 0 4 _ _ _) 3 _); cbn; lia.
Defined.

(** ** Descriptor fetch *)

Lemma list_by_buf_get (l : list Z) (n : nat) :
  length l = n ->
  l = map (fun i => buf_get l (Z.of_nat i)) (seq 0 n).
Proof.
  intros <-.
  assert (L : length l =
              length (map (fun i => buf_get l (Z.of_nat i))
                        (seq 0 (length l)))).
  { rewrite length_map, length_seq. reflexivity. }
  apply (nth_ext _ _ 0 0 L).
  intros i Hi.
  rewrite (nth_indep (map (fun i => buf_get l (Z.of_nat i))
                        (seq 0 (length l))) 0
             ((fun i => buf_get l (Z.of_nat i)) 0%nat))
    by (rewrite <- L; exact Hi).
  pose proof (map_nth (fun i => buf_get l (Z.of_nat i))
                (seq 0 (length l)) 0%nat i) as M.
  cbv beta in M. rewrite M. clear M.
  rewrite seq_nth by exact Hi. unfold buf_get.
  destruct (Z.ltb_spec (Z.of_nat (0 + i)) 0); [lia|].
  rewrite Nat2Z.id. reflexivity.
Qed.

Lemma load_u32_range (m : guest_ram) (a : Z) :
  0 <= load_u32 m a < 4294967296.
Proof.
  unfold load_u32.
  pose proof (load_u16_range m a). pose proof (load_u16_range m (a + 2)).
  lia.
Qed.

Lemma load_u64_range (m : guest_ram) (a : Z) :
  0 <= load_u64 m a < 18446744073709551616.
Proof.
  unfold load_u64.
  pose proof (load_u32_range m a). pose proof (load_u32_range m (a + 4)).
  lia.
Qed.

Section DescriptorFetch.
Context {X : Type}.
Implicit Type s : VIRTIODevice X.

Lemma get_desc_layout s (q idx : Z) :
  let a := desc_addr (queue s q) + u64 idx * 16 in
  get_desc s q idx =
  mkVIRTIODesc (load_u64 (ram s) a) (load_u32 (ram s) (a + 8))
    (load_u16 (ram s) (a + 12)) (load_u16 (ram s) (a + 14)).
Proof.
  intros a. unfold get_desc. fold a.
  set (r := virtio_memcpy_from_ram s (repeat 0 16%nat) 0 (u64 a) 16).
  assert (Hlen : length r = 16%nat).
  { unfold r, virtio_memcpy_from_ram.
    rewrite virtio_memcpy_from_ram_loop_length. reflexivity. }
  assert (Hget : forall j, 0 <= j < 16 ->
                   buf_get r j = load_u8 (ram s) (a + j)).
  { intros j Hj. unfold r, virtio_memcpy_from_ram.
    rewrite virtio_memcpy_from_ram_loop_get.
    - destruct (Z.leb_spec 0 j); [|lia].
      destruct (Z.ltb_spec j (0 + 16)); [|lia].
      cbn [andb]. rewrite load_u8_norm_add. f_equal. lia.
    - lia.
    - lia.
    - cbn. lia. }
  rewrite (list_by_buf_get r 16 Hlen). clearbody r.
  cbn [seq map Z.of_nat Pos.of_succ_nat Pos.succ].
  rewrite !Hget by lia.
  unfold desc_of_bytes, sub_bytes. cbn [skipn firstn le_decode].
  unfold load_u64, load_u32, load_u16.
  rewrite <- !Z.add_assoc. cbn [Z.add Pos.add Pos.succ Pos.add_carry].
  rewrite Z.add_0_r. f_equal; lia.
Qed.

Lemma get_desc_len_range s (q idx : Z) :
  0 <= d_len (get_desc s q idx) < 4294967296.
Proof.
  rewrite get_desc_layout. cbv zeta. cbn [d_len]. apply load_u32_range.
Qed.

(** X4: [get_desc] returns the descriptor stored little-endian in the 16
    bytes of guest memory at [desc_addr + 16 * desc_idx]: address at
    offset 0, length at 8, flags at 12, next at 14; the fields are in the
    range of their C types. *)
Theorem get_desc_fields s (q idx : Z) :
  let a := desc_addr (queue s q) + u64 idx * 16 in
  let d := get_desc s q idx in
  d = mkVIRTIODesc (load_u64 (ram s) a) (load_u32 (ram s) (a + 8))
        (load_u16 (ram s) (a + 12)) (load_u16 (ram s) (a + 14)) /\
  0 <= d_addr d < 18446744073709551616 /\
  0 <= d_len d < 4294967296 /\
  0 <= d_flags d < 65536 /\ 0 <= d_next d < 65536.
Proof.
  intros a d. unfold d. rewrite get_desc_layout. fold a.
  cbn [d_addr d_len d_flags d_next].
  split; [reflexivity|].
  split; [apply load_u64_range|].
  split; [apply load_u32_range|].
  split; apply load_u16_range.
Qed.

End DescriptorFetch.

(** ** The 64-bit ring addresses *)

Lemma testbit_u32_high (x n : Z) :
  0 <= x < 4294967296 -> 32 <= n -> Z.testbit x n = false.
Proof.
  intros Hx Hn. rewrite <- (Z.mod_small x (2 ^ 32)) by exact Hx.
  apply Z.mod_pow2_bits_high. lia.
Qed.

Lemma lor_shiftl_32 (lo hi : Z) :
  0 <= lo < 4294967296 -> 0 <= hi ->
  Z.lor lo (Z.shiftl hi 32) = lo + 4294967296 * hi.
Proof.
  intros Hlo Hhi.
  assert (D : Z.land lo (Z.shiftl hi 32) = 0).
  { apply Z.bits_inj'. intros n Hn. rewrite Z.land_spec, Z.bits_0.
    destruct (Z.lt_ge_cases n 32).
    - rewrite Z.shiftl_spec_low by lia. apply andb_false_r.
    - rewrite testbit_u32_high by lia. reflexivity. }
  rewrite <- Z.lxor_lor by exact D.
  rewrite <- Z.add_nocarry_lxor by exact D.
  rewrite Z.shiftl_mul_pow2 by lia. change (2 ^ 32) with 4294967296. lia.
Qed.

Lemma set_high32_set_low32 (p lo hi : Z) :
  0 <= lo < 4294967296 -> 0 <= hi < 4294967296 ->
  set_high32 (set_low32 p lo) hi = lo + 4294967296 * hi.
Proof.
  intros Hlo Hhi. rewrite <- lor_shiftl_32 by lia.
  unfold set_high32, set_low32.
  change 0xffffffff with (Z.ones 32).
  change 0xffffffff00000000 with (Z.shiftl (Z.ones 32) 32).
  apply Z.bits_inj'. intros n Hn.
  rewrite !Z.lor_spec, !Z.land_spec, !Z.lor_spec, !Z.land_spec.
  destruct (Z.lt_ge_cases n 32).
  - rewrite Z.ones_spec_low by lia.
    rewrite !Z.shiftl_spec_low by lia.
    rewrite !andb_false_r, andb_true_r. reflexivity.
  - rewrite Z.ones_spec_high by lia.
    rewrite (testbit_u32_high lo) by lia.
    rewrite !andb_false_r. reflexivity.
Qed.

Lemma set_low32_set_high32 (p lo hi : Z) :
  0 <= lo < 4294967296 -> 0 <= hi < 4294967296 ->
  set_low32 (set_high32 p hi) lo = lo + 4294967296 * hi.
Proof.
  intros Hlo Hhi. rewrite <- lor_shiftl_32 by lia.
  unfold set_high32, set_low32.
  change 0xffffffff with (Z.ones 32).
  change 0xffffffff00000000 with (Z.shiftl (Z.ones 32) 32).
  apply Z.bits_inj'. intros n Hn.
  rewrite !Z.lor_spec, !Z.land_spec, !Z.lor_spec, !Z.land_spec.
  destruct (Z.lt_ge_cases n 32).
  - rewrite !Z.shiftl_spec_low by lia.
    rewrite !andb_false_r. rewrite orb_false_r. reflexivity.
  - rewrite Z.ones_spec_high by lia.
    rewrite (testbit_u32_high lo) by lia.
    rewrite andb_false_r, !orb_false_l, orb_false_r.
    rewrite (Z.shiftl_spec (Z.ones 32)) by lia.
    destruct (Z.lt_ge_cases n 64).
    + rewrite Z.ones_spec_low by lia. apply andb_true_r.
    + rewrite Z.shiftl_spec by lia.
      rewrite (testbit_u32_high hi) by lia. reflexivity.
Qed.

Lemma low_high_split (lo hi : Z) :
  0 <= lo < 4294967296 -> 0 <= hi < 4294967296 ->
  u32 (lo + 4294967296 * hi) = lo /\
  u32 (Z.shiftr (lo + 4294967296 * hi) 32) = hi.
Proof.
  intros Hlo Hhi. rewrite Z.shiftr_div_pow2 by lia.
  change (2 ^ 32) with 4294967296. unfold u32.
  split; Z.div_mod_to_equations; lia.
Qed.

Section AddressRegisters.
Context {X : Type}.
Variable device_recv :
  VIRTIODevice X -> Z -> Z -> Z -> Z -> res (Z * VIRTIODevice X).
Variable config_write : option (VIRTIODevice X -> res (VIRTIODevice X)).
Implicit Type s : VIRTIODevice X.

Lemma mmio_write_desc_low (n fuel : nat) s (val : Z) :
  virtio_mmio_write device_recv config_write n fuel s
    VIRTIO_MMIO_QUEUE_DESC_LOW val 2 =
  Ok (upd_sel s (with_desc_addr
                   (set_low32 (desc_addr (queue s (queue_sel s))) (u32 val)))).
Proof. reflexivity. Qed.

Lemma mmio_write_desc_high (n fuel : nat) s (val : Z) :
  virtio_mmio_write device_recv config_write n fuel s
    VIRTIO_MMIO_QUEUE_DESC_HIGH val 2 =
  Ok (upd_sel s (with_desc_addr
                   (set_high32 (desc_addr (queue s (queue_sel s))) (u32 val)))).
Proof. reflexivity. Qed.

Lemma mmio_write_avail_low (n fuel : nat) s (val : Z) :
  virtio_mmio_write device_recv config_write n fuel s
    VIRTIO_MMIO_QUEUE_AVAIL_LOW val 2 =
  Ok (upd_sel s (with_avail_addr
                   (set_low32 (avail_addr (queue s (queue_sel s))) (u32 val)))).
Proof. reflexivity. Qed.

Lemma mmio_write_avail_high (n fuel : nat) s (val : Z) :
  virtio_mmio_write device_recv config_write n fuel s
    VIRTIO_MMIO_QUEUE_AVAIL_HIGH val 2 =
  Ok (upd_sel s (with_avail_addr
                   (set_high32 (avail_addr (queue s (queue_sel s))) (u32 val)))).
Proof. reflexivity. Qed.

Lemma mmio_write_used_low (n fuel : nat) s (val : Z) :
  virtio_mmio_write device_recv config_write n fuel s
    VIRTIO_MMIO_QUEUE_USED_LOW val 2 =
  Ok (upd_sel s (with_used_addr
                   (set_low32 (used_addr (queue s (queue_sel s))) (u32 val)))).
Proof. reflexivity. Qed.

Lemma mmio_write_used_high (n fuel : nat) s (val : Z) :
  virtio_mmio_write device_recv config_write n fuel s
    VIRTIO_MMIO_QUEUE_USED_HIGH val 2 =
  Ok (upd_sel s (with_used_addr
                   (set_high32 (used_addr (queue s (queue_sel s))) (u32 val)))).
Proof. reflexivity. Qed.

Lemma read_pair_desc s :
  read_pair s VIRTIO_MMIO_QUEUE_DESC_LOW VIRTIO_MMIO_QUEUE_DESC_HIGH =
  Ok (u32 (desc_addr (queue s (queue_sel s))),
      u32 (Z.shiftr (desc_addr (queue s (queue_sel s))) 32)).
Proof. reflexivity. Qed.

Lemma read_pair_avail s :
  read_pair s VIRTIO_MMIO_QUEUE_AVAIL_LOW VIRTIO_MMIO_QUEUE_AVAIL_HIGH =
  Ok (u32 (avail_addr (queue s (queue_sel s))),
      u32 (Z.shiftr (avail_addr (queue s (queue_sel s))) 32)).
Proof. reflexivity. Qed.

Lemma read_pair_used s :
  read_pair s VIRTIO_MMIO_QUEUE_USED_LOW VIRTIO_MMIO_QUEUE_USED_HIGH =
  Ok (u32 (used_addr (queue s (queue_sel s))),
      u32 (Z.shiftr (used_addr (queue s (queue_sel s))) 32)).
Proof. reflexivity. Qed.

Lemma upd_sel_sel s (f : QueueState -> QueueState) :
  queue_sel (upd_sel s f) = queue_sel s.
Proof. reflexivity. Qed.

Lemma upd_sel_queue_at s (f : QueueState -> QueueState) (k : Z) :
  k = queue_sel s -> queue (upd_sel s f) k = f (queue s k).
Proof.
  intros ->. unfold upd_sel, set_queue, upd_queue.
  cbn [queue with_queue]. rewrite Z.eqb_refl. reflexivity.
Qed.

Ltac pair_round_trip Wlow Whigh Rpair :=
  eexists _, _; split; [apply Wlow|]; split; [apply Whigh|];
  rewrite Rpair;
  rewrite !upd_sel_queue_at by reflexivity; rewrite ?upd_sel_sel;
  cbn [desc_addr avail_addr used_addr with_desc_addr with_avail_addr
       with_used_addr];
  rewrite set_high32_set_low32 by apply u32_range;
  split; [reflexivity|]; split; [reflexivity|];
  match goal with
  | |- Ok (u32 ?a, u32 (Z.shiftr ?a 32)) = Ok (?l, ?h) =>
      destruct (low_high_split l h (u32_range _) (u32_range _)) as [-> ->];
      reflexivity
  end.

Lemma desc_pair_round_trip (n fuel : nat) s (lo hi : Z) :
  exists s1 s2,
    virtio_mmio_write device_recv config_write n fuel s
      VIRTIO_MMIO_QUEUE_DESC_LOW lo 2 = Ok s1 /\
    virtio_mmio_write device_recv config_write n fuel s1
      VIRTIO_MMIO_QUEUE_DESC_HIGH hi 2 = Ok s2 /\
    queue_sel s2 = queue_sel s /\
    desc_addr (queue s2 (queue_sel s)) = u32 lo + 4294967296 * u32 hi /\
    read_pair s2 VIRTIO_MMIO_QUEUE_DESC_LOW VIRTIO_MMIO_QUEUE_DESC_HIGH
      = Ok (u32 lo, u32 hi).
Proof.
  pair_round_trip mmio_write_desc_low mmio_write_desc_high read_pair_desc.
Qed.

Lemma avail_pair_round_trip (n fuel : nat) s (lo hi : Z) :
  exists s1 s2,
    virtio_mmio_write device_recv config_write n fuel s
      VIRTIO_MMIO_QUEUE_AVAIL_LOW lo 2 = Ok s1 /\
    virtio_mmio_write device_recv config_write n fuel s1
      VIRTIO_MMIO_QUEUE_AVAIL_HIGH hi 2 = Ok s2 /\
    queue_sel s2 = queue_sel s /\
    avail_addr (queue s2 (queue_sel s)) = u32 lo + 4294967296 * u32 hi /\
    read_pair s2 VIRTIO_MMIO_QUEUE_AVAIL_LOW VIRTIO_MMIO_QUEUE_AVAIL_HIGH
      = Ok (u32 lo, u32 hi).
Proof.
  pair_round_trip mmio_write_avail_low mmio_write_avail_high read_pair_avail.
Qed.

Lemma used_pair_round_trip (n fuel : nat) s (lo hi : Z) :
  exists s1 s2,
    virtio_mmio_write device_recv config_write n fuel s
      VIRTIO_MMIO_QUEUE_USED_LOW lo 2 = Ok s1 /\
    virtio_mmio_write device_recv config_write n fuel s1
      VIRTIO_MMIO_QUEUE_USED_HIGH hi 2 = Ok s2 /\
    queue_sel s2 = queue_sel s /\
    used_addr (queue s2 (queue_sel s)) = u32 lo + 4294967296 * u32 hi /\
    read_pair s2 VIRTIO_MMIO_QUEUE_USED_LOW VIRTIO_MMIO_QUEUE_USED_HIGH
      = Ok (u32 lo, u32 hi).
Proof.
  pair_round_trip mmio_write_used_low mmio_write_used_high read_pair_used.
Qed.

(** X5: the two 32-bit halves written to QUEUE_DESC_LOW and
    QUEUE_DESC_HIGH compose into the 64-bit descriptor table address of
    the selected queue, whatever the address was before, and a read of
    the two registers returns the halves written; the same holds for the
    AVAIL and USED pairs.  The selected queue does not change. *)
Theorem ring_address_round_trip (n fuel : nat) s (lo hi : Z) :
  let v := u32 lo + 4294967296 * u32 hi in
  (exists s1 s2,
      virtio_mmio_write device_recv config_write n fuel s
        VIRTIO_MMIO_QUEUE_DESC_LOW lo 2 = Ok s1 /\
      virtio_mmio_write device_recv config_write n fuel s1
        VIRTIO_MMIO_QUEUE_DESC_HIGH hi 2 = Ok s2 /\
      queue_sel s2 = queue_sel s /\
      desc_addr (queue s2 (queue_sel s)) = v /\
      read_pair s2 VIRTIO_MMIO_QUEUE_DESC_LOW VIRTIO_MMIO_QUEUE_DESC_HIGH
        = Ok (u32 lo, u32 hi)) /\
  (exists s1 s2,
      virtio_mmio_write device_recv config_write n fuel s
        VIRTIO_MMIO_QUEUE_AVAIL_LOW lo 2 = Ok s1 /\
      virtio_mmio_write device_recv config_write n fuel s1
        VIRTIO_MMIO_QUEUE_AVAIL_HIGH hi 2 = Ok s2 /\
      queue_sel s2 = queue_sel s /\
      avail_addr (queue s2 (queue_sel s)) = v /\
      read_pair s2 VIRTIO_MMIO_QUEUE_AVAIL_LOW VIRTIO_MMIO_QUEUE_AVAIL_HIGH
        = Ok (u32 lo, u32 hi)) /\
  (exists s1 s2,
      virtio_mmio_write device_recv config_write n fuel s
        VIRTIO_MMIO_QUEUE_USED_LOW lo 2 = Ok s1 /\
      virtio_mmio_write device_recv config_write n fuel s1
        VIRTIO_MMIO_QUEUE_USED_HIGH hi 2 = Ok s2 /\
      queue_sel s2 = queue_sel s /\
      used_addr (queue s2 (queue_sel s)) = v /\
      read_pair s2 VIRTIO_MMIO_QUEUE_USED_LOW VIRTIO_MMIO_QUEUE_USED_HIGH
        = Ok (u32 lo, u32 hi)).
Proof.
  intros v. unfold v. split; [|split].
  - apply desc_pair_round_trip.
  - apply avail_pair_round_trip.
  - apply used_pair_round_trip.
Qed.

End AddressRegisters.

(** ** Little-endian byte strings *)

Lemma le_decode_range (bs : list Z) :
  all_bytes bs -> 0 <= le_decode bs < 256 ^ Z.of_nat (length bs).
Proof.
  induction 1 as [|b r Hb Hr IH]; [cbn; lia|].
  cbn [le_decode length]. rewrite Nat2Z.inj_succ, Z.pow_succ_r by lia. lia.
Qed.

Lemma le_encode_length (n : nat) (v : Z) : length (le_encode n v) = n.
Proof.
  revert v. induction n as [|n IH]; intros v; [reflexivity|].
  cbn. rewrite IH. reflexivity.
Qed.

Lemma le_encode_all_bytes (n : nat) (v : Z) : all_bytes (le_encode n v).
Proof.
  revert v. induction n as [|n IH]; intros v; constructor.
  - apply u8_range.
  - apply IH.
Qed.

Lemma le_encode_decode (bs : list Z) :
  all_bytes bs -> le_encode (length bs) (le_decode bs) = bs.
Proof.
  induction 1 as [|b r Hb Hr IH]; [reflexivity|].
  cbn [le_decode length le_encode]. f_equal.
  - unfold u8. rewrite (Z.mul_comm 256), Z_mod_plus_full.
    apply Z.mod_small. exact Hb.
  - transitivity (le_encode (length r) (le_decode r)); [|exact IH].
    f_equal. rewrite (Z.mul_comm 256), Z_div_plus_full by lia.
    rewrite Z.div_small by exact Hb. lia.
Qed.

Lemma le_decode_encode (n : nat) (v : Z) :
  le_decode (le_encode n v) = v mod 256 ^ Z.of_nat n.
Proof.
  revert v. induction n as [|n IH]; intros v.
  - cbn. symmetry. apply Z.mod_1_r.
  - cbn [le_encode le_decode]. rewrite IH.
    rewrite Nat2Z.inj_succ, Z.pow_succ_r by lia. unfold u8.
    assert (P : 0 < 256 ^ Z.of_nat n) by (apply Z.pow_pos_nonneg; lia).
    rewrite (Z.mul_comm 256). rewrite Z.rem_mul_r by lia. lia.
Qed.

(** ** Configuration space *)

Lemma buf_blit_length (bs buf : list Z) (pos : Z) :
  length (buf_blit buf pos bs) = length buf.
Proof.
  revert buf pos. induction bs as [|b r IH]; intros buf pos; [reflexivity|].
  cbn [buf_blit]. rewrite IH. apply buf_put_length.
Qed.

Lemma buf_blit_get (bs buf : list Z) (pos j : Z) :
  0 <= pos -> pos + Z.of_nat (length bs) <= Z.of_nat (length buf) ->
  buf_get (buf_blit buf pos bs) j =
  if (pos <=? j) && (j <? pos + Z.of_nat (length bs))
  then nth (Z.to_nat (j - pos)) bs 0 else buf_get buf j.
Proof.
  revert buf pos. induction bs as [|b r IH]; intros buf pos H0 H1.
  - cbn [buf_blit length].
    destruct (Z.leb_spec pos j), (Z.ltb_spec j (pos + Z.of_nat 0));
      try reflexivity; lia.
  - cbn [buf_blit]. cbn [length] in *. rewrite IH.
    2: lia.
    2: rewrite buf_put_length; lia.
    rewrite buf_get_buf_put.
    destruct (Z.leb_spec (pos + 1) j),
      (Z.ltb_spec j (pos + 1 + Z.of_nat (length r))),
      (Z.leb_spec pos j),
      (Z.ltb_spec j (pos + Z.of_nat (S (length r)))),
      (Z.eqb_spec j pos), (Z.leb_spec 0 pos),
      (Z.ltb_spec pos (Z.of_nat (length buf)));
      cbn [andb]; try reflexivity; try lia.
    + replace (Z.to_nat (j - pos)) with (S (Z.to_nat (j - (pos + 1))))
        by lia. reflexivity.
    + subst j. rewrite Z.sub_diag. reflexivity.
Qed.

(** The bytes of a buffer from [pos], read one by one. *)
Lemma buf_blit_read_back (bs buf : list Z) (pos : Z) :
  0 <= pos -> pos + Z.of_nat (length bs) <= Z.of_nat (length buf) ->
  map (fun i => buf_get (buf_blit buf pos bs) (pos + Z.of_nat i))
    (seq 0 (length bs)) = bs.
Proof.
  intros H0 H1.
  assert (L : length (map (fun i => buf_get (buf_blit buf pos bs)
                                     (pos + Z.of_nat i))
                        (seq 0 (length bs))) = length bs).
  { rewrite length_map, length_seq. reflexivity. }
  apply (nth_ext _ _ 0 0 L). intros i Hi. rewrite L in Hi.
  rewrite (nth_indep _ 0
             ((fun i => buf_get (buf_blit buf pos bs) (pos + Z.of_nat i))
                0%nat)) by (rewrite L; exact Hi).
  pose proof (map_nth (fun i => buf_get (buf_blit buf pos bs)
                                  (pos + Z.of_nat i))
                (seq 0 (length bs)) 0%nat i) as M.
  cbv beta in M. rewrite M. clear M.
  rewrite seq_nth by exact Hi. rewrite buf_blit_get by assumption.
  destruct (Z.leb_spec pos (pos + Z.of_nat (0 + i))); [|lia].
  destruct (Z.ltb_spec (pos + Z.of_nat (0 + i))
              (pos + Z.of_nat (length bs))); [|lia].
  cbn [andb]. f_equal. lia.
Qed.

Section ConfigSpace.
Context {X : Type}.
Variable device_recv :
  VIRTIODevice X -> Z -> Z -> Z -> Z -> res (Z * VIRTIODevice X).
Implicit Type s : VIRTIODevice X.

Lemma mmio_write_config_word (n fuel : nat) s (o val : Z) :
  0 <= o < 4294967296 - 256 ->
  virtio_mmio_write device_recv None n fuel s (VIRTIO_MMIO_CONFIG + o) val 2 =
  if o <? u32 (config_space_size s - 3)
  then Ok (with_config_space
             (buf_blit (config_space s) o (le_encode 4 (u32 val))) s)
  else Ok s.
Proof.
  intros Ho. unfold virtio_mmio_write, VIRTIO_MMIO_CONFIG.
  rewrite (u32_small (256 + o)) by lia.
  destruct (Z.leb_spec 256 (256 + o)); [|lia].
  replace (256 + o - 256) with o by lia.
  unfold virtio_config_write.
  replace (2 =? 0) with false by reflexivity.
  replace (2 =? 1) with false by reflexivity.
  replace (2 =? 2) with true by reflexivity.
  destruct (o <? u32 (config_space_size s - 3)); reflexivity.
Qed.

Lemma mmio_read_config_word s (o : Z) :
  0 <= o < 4294967296 - 256 ->
  virtio_mmio_read s (VIRTIO_MMIO_CONFIG + o) 2 =
  if o <? u32 (config_space_size s - 3)
  then Ok (le_decode
             (map (fun i => buf_get (config_space s) (o + Z.of_nat i))
                (seq 0 4)))
  else Ok 0.
Proof.
  intros Ho. unfold virtio_mmio_read, VIRTIO_MMIO_CONFIG.
  rewrite (u32_small (256 + o)) by lia.
  destruct (Z.leb_spec 256 (256 + o)); [|lia].
  replace (256 + o - 256) with o by lia.
  unfold virtio_config_read.
  replace (2 =? 0) with false by reflexivity.
  replace (2 =? 1) with false by reflexivity.
  replace (2 =? 2) with true by reflexivity.
  destruct (o <? u32 (config_space_size s - 3)); [|reflexivity].
  cbn [seq map Z.of_nat Pos.of_succ_nat Pos.succ].
  rewrite Z.add_0_r. reflexivity.
Qed.

(** X10: a 32-bit write into the configuration space at an offset below
    [config_space_size - 3] is read back unchanged (as a 32-bit value) by
    a 32-bit read at the same offset, and touches nothing of the device
    but the four bytes; at an offset from [config_space_size - 3] on (for
    a size of at least 3) the write is dropped and the read returns 0. *)
Theorem config_word_round_trip (n fuel : nat) s (o val : Z) :
  3 <= config_space_size s <= Z.of_nat (length (config_space s)) ->
  config_space_size s < 4294967296 ->
  0 <= o < 4294967296 - 256 ->
  exists s',
    virtio_mmio_write device_recv None n fuel s (VIRTIO_MMIO_CONFIG + o) val 2
      = Ok s' /\
    (o < config_space_size s - 3 ->
     virtio_mmio_read s' (VIRTIO_MMIO_CONFIG + o) 2 = Ok (u32 val) /\
     s' = with_config_space (config_space s') s /\
     length (config_space s') = length (config_space s) /\
     forall j, ~ (o <= j < o + 4) ->
       buf_get (config_space s') j = buf_get (config_space s) j) /\
    (config_space_size s - 3 <= o ->
     s' = s /\ virtio_mmio_read s' (VIRTIO_MMIO_CONFIG + o) 2 = Ok 0).
Proof.
  intros Hc Hc32 Ho. rewrite mmio_write_config_word by exact Ho.
  assert (Eb : u32 (config_space_size s - 3) = config_space_size s - 3)
    by (apply u32_small; lia).
  rewrite Eb.
  destruct (Z.ltb_spec o (config_space_size s - 3)) as [Hin|Hout].
  - eexists. split; [reflexivity|]. split; [|intros; lia].
    intros _.
    assert (Hfit : o + Z.of_nat (length (le_encode 4 (u32 val)))
                   <= Z.of_nat (length (config_space s))).
    { rewrite le_encode_length. lia. }
    split.
    { rewrite mmio_read_config_word by exact Ho.
      cbn [config_space_size config_space with_config_space]. rewrite Eb.
      destruct (Z.ltb_spec o (config_space_size s - 3)); [|lia].
      pose proof (buf_blit_read_back (le_encode 4 (u32 val))
                    (config_space s) o (proj1 Ho) Hfit) as R.
      rewrite le_encode_length in R. rewrite R.
      rewrite le_decode_encode. f_equal.
      change (256 ^ Z.of_nat 4) with 4294967296.
      apply Z.mod_small. apply u32_range. }
    split; [destruct s; reflexivity|].
    cbn [config_space with_config_space].
    split; [apply buf_blit_length|].
    intros j Hj. rewrite buf_blit_get by (lia || exact Hfit).
    rewrite le_encode_length.
    destruct (Z.leb_spec o j), (Z.ltb_spec j (o + Z.of_nat 4));
      cbn [andb]; try reflexivity; lia.
  - eexists. split; [reflexivity|]. split; [intros; lia|].
    intros _. split; [reflexivity|].
    rewrite mmio_read_config_word by exact Ho. rewrite Eb.
    destruct (Z.ltb_spec o (config_space_size s - 3)); [lia | reflexivity].
Qed.

End ConfigSpace.

Lemma config_word_round_trip_witness :
  exists s',
    virtio_mmio_write (virtio_block_recv_request file_backend 0) None 0 0
      blk0 (VIRTIO_MMIO_CONFIG + 4) 0x12345678 2 = Ok s' /\
    (4 < config_space_size blk0 - 3 ->
     virtio_mmio_read s' (VIRTIO_MMIO_CONFIG + 4) 2 = Ok (u32 0x12345678) /\
     s' = with_config_space (config_space s') blk0 /\
     length (config_space s') = length (config_space blk0) /\
     forall j, ~ (4 <= j < 4 + 4) ->
       buf_get (config_space s') j = buf_get (config_space blk0) j) /\
    (config_space_size blk0 - 3 <= 4 ->
     s' = blk0 /\ virtio_mmio_read s' (VIRTIO_MMIO_CONFIG + 4) 2 = Ok 0).
Proof.
  apply (config_word_round_trip
           (virtio_block_recv_request file_backend 0) 0 0 blk0 4 0x12345678).
  - vm_compute. split; discriminate.
  - vm_compute. reflexivity.
  - lia.
Defined.

Lemma land_ones32 (v : Z) : Z.land v 0xffffffff = u32 v.
Proof.
  change 0xffffffff with (Z.ones 32). rewrite Z.land_ones by lia.
  reflexivity.
Qed.

Section BlockRegisters.
Context {BS : Type}.
Variable bdev : BlockDevice BS.
Implicit Type s : VIRTIOBlockDevice BS.

Lemma virtioblk_store_8 (n fuel : nat) s (addr : Z) (bytes : list Z) :
  virtioblk_store bdev n fuel s addr 8 bytes =
  (s1 <- blk_mmio_write bdev n fuel s addr
           (Z.land (le_decode (firstn 8 bytes)) 0xffffffff) 2 ;;
   s2 <- blk_mmio_write bdev n fuel s1 (addr + 4)
           (Z.land (Z.shiftr (le_decode (firstn 8 bytes)) 32) 0xffffffff) 2 ;;
   Ok (true, s2)).
Proof. reflexivity. Qed.

Lemma virtioblk_load_8 s (addr : Z) :
  virtioblk_load s addr 8 =
  (low <- virtio_mmio_read s addr 2 ;;
   high <- virtio_mmio_read s (addr + 4) 2 ;;
   Ok (true, le_encode 8 (Z.lor low (Z.shiftl high 32)))).
Proof. reflexivity. Qed.

Lemma read_pair_load_8 s (reg : Z) (lo hi : Z) :
  read_pair s reg (reg + 4) = Ok (lo, hi) ->
  virtioblk_load s reg 8 = Ok (true, le_encode 8 (Z.lor lo (Z.shiftl hi 32))).
Proof.
  rewrite virtioblk_load_8. unfold read_pair.
  destruct (virtio_mmio_read s reg 2) as [l| |]; try discriminate.
  cbn [bind].
  destruct (virtio_mmio_read s (reg + 4) 2) as [h| |]; try discriminate.
  cbn [bind]. intros E.
  assert (l = lo /\ h = hi) as [-> ->] by (split; congruence).
  reflexivity.
Qed.

(** X6: an 8-byte store to QUEUE_DESC_LOW, QUEUE_AVAIL_LOW or
    QUEUE_USED_LOW is split into the writes of the low and of the high
    register, and an 8-byte load at the same address returns the eight
    bytes stored. *)
Theorem virtioblk_ring_address_store_load (n fuel : nat) s (reg : Z)
    (bytes : list Z) :
  In reg [VIRTIO_MMIO_QUEUE_DESC_LOW; VIRTIO_MMIO_QUEUE_AVAIL_LOW;
          VIRTIO_MMIO_QUEUE_USED_LOW] ->
  length bytes = 8%nat -> all_bytes bytes ->
  exists s',
    virtioblk_store bdev n fuel s reg 8 bytes = Ok (true, s') /\
    virtioblk_load s' reg 8 = Ok (true, bytes).
Proof.
  intros Hreg Hlen Hb.
  assert (F : firstn 8 bytes = bytes)
    by (apply firstn_all2; rewrite Hlen; apply le_n).
  pose proof (le_decode_range bytes Hb) as R. rewrite Hlen in R.
  change (256 ^ Z.of_nat 8) with 18446744073709551616 in R.
  set (v := le_decode bytes) in *.
  assert (V : u32 v + 4294967296 * u32 (Z.shiftr v 32) = v).
  { rewrite Z.shiftr_div_pow2 by lia. change (2 ^ 32) with 4294967296.
    unfold u32. clearbody v. Z.div_mod_to_equations. lia. }
  assert (Hback : le_encode 8 v = bytes).
  { unfold v. rewrite <- Hlen at 1. apply le_encode_decode. exact Hb. }
  pose proof (desc_pair_round_trip
                (virtio_block_recv_request bdev fuel) None n fuel s
                (u32 v) (u32 (Z.shiftr v 32))) as (d1 & d2 & D1 & D2 & _ & _ & D3).
  pose proof (avail_pair_round_trip
                (virtio_block_recv_request bdev fuel) None n fuel s
                (u32 v) (u32 (Z.shiftr v 32))) as (a1 & a2 & A1 & A2 & _ & _ & A3).
  pose proof (used_pair_round_trip
                (virtio_block_recv_request bdev fuel) None n fuel s
                (u32 v) (u32 (Z.shiftr v 32))) as (u1 & u2 & U1 & U2 & _ & _ & U3).
  rewrite !(u32_small (u32 _)) in D3, A3, U3 by apply u32_range.
  rewrite virtioblk_store_8, F. fold v. rewrite !land_ones32.
  unfold blk_mmio_write.
  destruct Hreg as [<-|[<-|[<-|[]]]].
  - exists d2. rewrite D1. cbn [bind].
    change (VIRTIO_MMIO_QUEUE_DESC_LOW + 4) with VIRTIO_MMIO_QUEUE_DESC_HIGH.
    rewrite D2. cbn [bind]. split; [reflexivity|].
    rewrite (read_pair_load_8 d2 VIRTIO_MMIO_QUEUE_DESC_LOW _ _ D3).
    rewrite lor_shiftl_32 by (apply u32_range || apply (u32_range _)).
    rewrite V, Hback. reflexivity.
  - exists a2. rewrite A1. cbn [bind].
    change (VIRTIO_MMIO_QUEUE_AVAIL_LOW + 4)
      with VIRTIO_MMIO_QUEUE_AVAIL_HIGH.
    rewrite A2. cbn [bind]. split; [reflexivity|].
    rewrite (read_pair_load_8 a2 VIRTIO_MMIO_QUEUE_AVAIL_LOW _ _ A3).
    rewrite lor_shiftl_32 by (apply u32_range || apply (u32_range _)).
    rewrite V, Hback. reflexivity.
  - exists u2. rewrite U1. cbn [bind].
    change (VIRTIO_MMIO_QUEUE_USED_LOW + 4) with VIRTIO_MMIO_QUEUE_USED_HIGH.
    rewrite U2. cbn [bind]. split; [reflexivity|].
    rewrite (read_pair_load_8 u2 VIRTIO_MMIO_QUEUE_USED_LOW _ _ U3).
    rewrite lor_shiftl_32 by (apply u32_range || apply (u32_range _)).
    rewrite V, Hback. reflexivity.
Qed.

End BlockRegisters.

Lemma virtioblk_ring_address_store_load_witness :
  exists s',
    virtioblk_store file_backend 0 0 blk0 VIRTIO_MMIO_QUEUE_DESC_LOW 8
      [0x00; 0x10; 0x00; 0x80; 0x01; 0x00; 0x00; 0x00] = Ok (true, s') /\
    virtioblk_load s' VIRTIO_MMIO_QUEUE_DESC_LOW 8 =
      Ok (true, [0x00; 0x10; 0x00; 0x80; 0x01; 0x00; 0x00; 0x00]).
Proof.
  apply (virtioblk_ring_address_store_load file_backend 0 0 blk0
           VIRTIO_MMIO_QUEUE_DESC_LOW
           [0x00; 0x10; 0x00; 0x80; 0x01; 0x00; 0x00; 0x00]).
  - left. reflexivity.
  - reflexivity.
  - repeat (constructor; [lia|]). constructor.
Defined.

Section BlockConfig.
Context {BS : Type}.
Variable bdev : BlockDevice BS.
Implicit Type s : VIRTIOBlockDevice BS.

Lemma virtio_block_init_config (m : guest_ram) (line : bool) (b : BS)
    (hp : list (list Z)) :
  let nb := u64 (get_sector_count bdev b) in
  config_space_size (virtio_block_init bdev m line b hp) = 8 /\
  config_space (virtio_block_init bdev m line b hp) =
  le_encode 4 nb ++ le_encode 4 (Z.shiftr nb 32) ++ repeat 0 248.
Proof.
  intros nb. split; reflexivity.
Qed.

(** X9: right after [virtio_block_init] the device identifies itself as
    a block device and an 8-byte load at the start of the configuration
    space returns the sector count of the backend as 64 bits, low byte
    first; the word at offset 4 is the last one a 4-byte load can reach,
    and a load further up returns zero. *)
Theorem block_config_holds_sector_count (m : guest_ram) (line : bool)
    (b : BS) (hp : list (list Z)) :
  let s := virtio_block_init bdev m line b hp in
  virtio_mmio_read s VIRTIO_MMIO_DEVICE_ID 2 = Ok 2 /\
  virtioblk_load s VIRTIO_MMIO_CONFIG 8 =
    Ok (true, le_encode 8 (u64 (get_sector_count bdev b))) /\
  forall o, 5 <= o < 4294967296 - 256 ->
    virtioblk_load s (VIRTIO_MMIO_CONFIG + o) 4 = Ok (true, [0; 0; 0; 0]).
Proof.
  intros s. destruct (virtio_block_init_config m line b hp) as [Hs Hc].
  cbv zeta in Hs, Hc. fold s in Hs, Hc.
  set (nb := u64 (get_sector_count bdev b)) in *.
  assert (Hnb : 0 <= nb < 18446744073709551616) by apply u64_range.
  split; [reflexivity|]. split.
  - rewrite virtioblk_load_8.
    rewrite <- (Z.add_0_r VIRTIO_MMIO_CONFIG) at 1.
    rewrite !mmio_read_config_word by lia.
    rewrite Hs. change (0 <? u32 (8 - 3)) with true.
    change (4 <? u32 (8 - 3)) with true. cbn [bind].
    rewrite Hc.
    change (map (fun i => buf_get (le_encode 4 nb ++ le_encode 4 (Z.shiftr nb 32) ++ repeat 0 248) (0 + Z.of_nat i)) (seq 0 4))
      with (le_encode 4 nb).
    change (map (fun i => buf_get (le_encode 4 nb ++ le_encode 4 (Z.shiftr nb 32) ++ repeat 0 248) (4 + Z.of_nat i)) (seq 0 4))
      with (le_encode 4 (Z.shiftr nb 32)).
    rewrite !le_decode_encode. change (256 ^ Z.of_nat 4) with 4294967296.
    rewrite lor_shiftl_32.
    2: apply Z.mod_pos_bound; lia.
    2: apply Z.mod_pos_bound; lia.
    do 3 f_equal. rewrite Z.shiftr_div_pow2 by lia.
    change (2 ^ 32) with 4294967296. clearbody nb.
    Z.div_mod_to_equations. lia.
  - intros o Ho. unfold virtioblk_load.
    change (8 <? 4) with false. change (4 =? 1) with false.
    change (4 =? 2) with false. change (4 =? 4) with true. cbv iota.
    rewrite mmio_read_config_word by lia. rewrite Hs.
    change (u32 (8 - 3)) with 5.
    destruct (Z.ltb_spec o 5); [lia | reflexivity].
Qed.

End BlockConfig.

(** ** The interrupt line *)

Lemma irq_follows_status_same {X : Type} (s s' : VIRTIODevice X) :
  irq s' = irq s -> int_status s' = int_status s ->
  irq_follows_status s -> irq_follows_status s'.
Proof. unfold irq_follows_status. intros -> ->. exact (fun H => H). Qed.

Lemma irq_follows_status_raised {X : Type} (s : VIRTIODevice X) (bit : Z) :
  bit <> 0 ->
  irq_follows_status (set_irq true (with_int_status (Z.lor (int_status s) bit) s)).
Proof.
  intros Hb. unfold irq_follows_status.
  cbn [irq int_status set_irq with_log with_irq with_int_status].
  destruct (Z.eqb_spec (Z.lor (int_status s) bit) 0) as [E|]; [|reflexivity].
  apply Z.lor_eq_0_iff in E. destruct E as [_ E]. contradiction.
Qed.

Lemma consume_desc_irq_follows {X : Type} (s : VIRTIODevice X)
    (q head len : Z) :
  irq_follows_status (virtio_consume_desc s q head len).
Proof.
  unfold irq_follows_status.
  destruct (consume_desc_irq s q head len) as [-> ->].
  destruct (Z.eqb_spec (Z.lor (int_status s) 1) 0) as [E|]; [|reflexivity].
  apply Z.lor_eq_0_iff in E. destruct E as [_ E]. discriminate E.
Qed.

Lemma virtio_reset_irq {X : Type} (s : VIRTIODevice X) :
  irq (virtio_reset s) = irq s /\ int_status (virtio_reset s) = 0.
Proof. split; reflexivity. Qed.

Section IrqInvariant.
Context {X : Type}.
Variable device_recv :
  VIRTIODevice X -> Z -> Z -> Z -> Z -> res (Z * VIRTIODevice X).
Variable config_write : option (VIRTIODevice X -> res (VIRTIODevice X)).
Hypothesis recv_irq :
  forall s q d rs ws r s',
    irq_follows_status s -> device_recv s q d rs ws = Ok (r, s') ->
    irq_follows_status s'.
Hypothesis config_write_irq :
  forall f s s',
    config_write = Some f -> irq_follows_status s -> f s = Ok s' ->
    irq_follows_status s'.

Lemma advance_last_avail_irq_follows (s : VIRTIODevice X) (q : Z) :
  irq_follows_status s -> irq_follows_status (advance_last_avail s q).
Proof. apply irq_follows_status_same; reflexivity. Qed.

Lemma queue_notify_loop_irq_follows (n fuel : nat) (s : VIRTIODevice X)
    (q a : Z) (vs : list visit) (s' : VIRTIODevice X) :
  irq_follows_status s ->
  queue_notify_loop device_recv n fuel s q a = Ok (vs, s') ->
  irq_follows_status s'.
Proof.
  revert s vs s'. induction n as [|n IH]; intros s vs s' Hs;
    cbn [queue_notify_loop]; [discriminate|].
  destruct (last_avail_idx (queue s q) =? a).
  { intros H. apply Ok_pair_inj in H as [_ <-]. exact Hs. }
  destruct (get_desc_rw_size fuel s q _) as [[[rs ws]|]| |];
    cbn [bind]; try discriminate.
  - destruct (device_recv s q _ rs ws) as [[ret s1]| |] eqn:E;
      cbn [bind]; try discriminate.
    apply (recv_irq _ _ _ _ _ _ _ Hs) in E.
    destruct (ret <? 0).
    { intros H. apply Ok_pair_inj in H as [_ <-]. exact E. }
    destruct (queue_notify_loop device_recv n fuel _ q a)
      as [[vs2 s2]| |] eqn:E2; cbn [bind]; try discriminate.
    intros H. apply Ok_pair_inj in H as [_ <-].
    apply IH in E2; [exact E2|].
    apply advance_last_avail_irq_follows. exact E.
  - destruct (queue_notify_loop device_recv n fuel _ q a)
      as [[vs2 s2]| |] eqn:E2; cbn [bind]; try discriminate.
    intros H. apply Ok_pair_inj in H as [_ <-].
    apply IH in E2; [exact E2|].
    apply advance_last_avail_irq_follows. exact Hs.
Qed.

Lemma queue_notify_irq_follows (n fuel : nat) (s s' : VIRTIODevice X)
    (q : Z) :
  irq_follows_status s ->
  queue_notify device_recv n fuel s q = Ok s' -> irq_follows_status s'.
Proof.
  intros Hs. unfold queue_notify, queue_notify_visits.
  destruct (manual_recv (queue s q)).
  { cbn [bind]. intros H. injection H as <-. exact Hs. }
  destruct (queue_notify_loop device_recv n fuel s q _)
    as [[vs s1]| |] eqn:E; cbn [bind]; try discriminate.
  intros H. injection H as <-.
  eapply queue_notify_loop_irq_follows; eassumption.
Qed.

Lemma call_config_write_irq_follows (s s' : VIRTIODevice X) :
  irq_follows_status s -> call_config_write config_write s = Ok s' ->
  irq_follows_status s'.
Proof.
  intros H. unfold call_config_write.
  destruct config_write as [f|] eqn:E.
  - intros Hf. eapply config_write_irq; [reflexivity | exact H | exact Hf].
  - intros Hf. injection Hf as <-. exact H.
Qed.

Lemma virtio_config_write_irq_follows (s s' : VIRTIODevice X)
    (offset val size_log2 : Z) :
  irq_follows_status s ->
  virtio_config_write config_write s offset val size_log2 = Ok s' ->
  irq_follows_status s'.
Proof.
  intros Hs. unfold virtio_config_write.
  repeat match goal with
         | |- context [if ?c then _ else _] => destruct c
         end;
    first [ apply call_config_write_irq_follows;
            revert Hs; apply irq_follows_status_same; reflexivity
          | intros H; injection H as <-; exact Hs ].
Qed.

Lemma virtio_mmio_write_irq_follows (n fuel : nat) (s s' : VIRTIODevice X)
    (offset val size_log2 : Z) :
  irq_follows_status s ->
  virtio_mmio_write device_recv config_write n fuel s offset val size_log2
    = Ok s' ->
  irq_follows_status s'.
Proof.
  intros Hs. unfold virtio_mmio_write.
  destruct (VIRTIO_MMIO_CONFIG <=? u32 offset).
  { apply virtio_config_write_irq_follows. exact Hs. }
  destruct (size_log2 =? 2);
    [|intros EQ; injection EQ as <-; exact Hs].
  destruct (u32 offset =? VIRTIO_MMIO_DEVICE_FEATURES_SEL).
  { intros EQ. injection EQ as <-. exact Hs. }
  destruct (u32 offset =? VIRTIO_MMIO_QUEUE_SEL).
  { destruct (u32 val <? MAX_QUEUE);
      intros EQ; injection EQ as <-; exact Hs. }
  destruct (u32 offset =? VIRTIO_MMIO_QUEUE_NUM).
  { destruct ((Z.land (u32 val) (u32 (u32 val - 1)) =? 0) && (0 <? u32 val));
      intros EQ; injection EQ as <-; exact Hs. }
  repeat match goal with
         | |- context [if u32 offset =? ?c then _ else _] =>
             destruct (u32 offset =? c)
         end;
    try (intros EQ; injection EQ as <-; exact Hs).
  - (* STATUS *)
    destruct (u32 val =? 0); intros EQ; injection EQ as <-; [|exact Hs].
    reflexivity.
  - (* QUEUE_NOTIFY *)
    destruct (u32 val <? MAX_QUEUE);
      [|intros EQ; injection EQ as <-; exact Hs].
    apply queue_notify_irq_follows. exact Hs.
  - (* INTERRUPT_ACK *)
    cbv zeta. cbn [int_status with_int_status].
    destruct (Z.eqb_spec (Z.land (int_status s) (u32 (Z.lnot (u32 val)))) 0)
      as [E|E]; intros EQ; injection EQ as <-.
    + unfold irq_follows_status.
      cbn [irq int_status set_irq with_log with_irq with_int_status].
      rewrite E. reflexivity.
    + unfold irq_follows_status in *.
      cbn [irq int_status with_int_status]. rewrite Hs.
      destruct (Z.eqb_spec (int_status s) 0) as [E0|E0].
      * rewrite E0 in E. rewrite Z.land_0_l in E. contradiction.
      * destruct (Z.eqb_spec (Z.land (int_status s) (u32 (Z.lnot (u32 val)))) 0);
          [contradiction | reflexivity].
Qed.

End IrqInvariant.

Section BlockInvariants.
Context {BS : Type}.
Variable bdev : BlockDevice BS.
Implicit Type s : VIRTIOBlockDevice BS.

Lemma req_end_irq_follows (fuel : nat) s (ret : Z) s' :
  virtio_block_req_end fuel s ret = Ok s' -> irq_follows_status s'.
Proof.
  unfold virtio_block_req_end.
  destruct (req_type (req (ext s)) =? VIRTIO_BLK_T_IN).
  - destruct (memcpy_to_queue fuel s _ _ 0 _ _) as [[r s1]| |];
      cbn [bind]; try discriminate.
    intros H. injection H as <-. apply consume_desc_irq_follows.
  - destruct (req_type (req (ext s)) =? VIRTIO_BLK_T_OUT); [|discriminate].
    destruct (memcpy_to_queue fuel s _ _ 0 _ _) as [[r s1]| |];
      cbn [bind]; try discriminate.
    intros H. injection H as <-. apply consume_desc_irq_follows.
Qed.

Lemma recv_request_irq_follows (fuel : nat) s (q d rs ws r : Z) s' :
  irq_follows_status s ->
  virtio_block_recv_request bdev fuel s q d rs ws = Ok (r, s') ->
  irq_follows_status s'.
Proof.
  intros Hs. unfold virtio_block_recv_request.
  destruct (req_in_progress (ext s)).
  { intros H. injection H as _ <-. exact Hs. }
  destruct (memcpy_from_queue fuel s _ q d 0 HEADER_SIZE) as [[r0 h]| |];
    cbn [bind]; try discriminate.
  destruct (r0 <? 0).
  { intros H. injection H as _ <-. exact Hs. }
  destruct (le_decode (sub_bytes h 0 4) =? VIRTIO_BLK_T_IN).
  { destruct (read_async bdev _ _ _ _) as [[ret buf] b].
    destruct (0 <? ret).
    - intros H. injection H as _ <-. exact Hs.
    - destruct (virtio_block_req_end fuel _ ret) as [s1| |] eqn:E;
        cbn [bind]; try discriminate.
      intros H. injection H as _ <-.
      apply req_end_irq_follows in E. exact E. }
  destruct (le_decode (sub_bytes h 0 4) =? VIRTIO_BLK_T_OUT).
  { destruct (ws <? 1); [discriminate|].
    destruct (memcpy_from_queue fuel _ _ q d HEADER_SIZE _) as [[r1 buf]| |];
      cbn [bind]; try discriminate.
    destruct (write_async bdev _ _ _ _) as [ret b].
    destruct (0 <? ret).
    - intros H. injection H as _ <-. exact Hs.
    - destruct (virtio_block_req_end fuel _ ret) as [s1| |] eqn:E;
        cbn [bind]; try discriminate.
      intros H. injection H as _ <-.
      apply req_end_irq_follows in E. exact E. }
  intros H. injection H as _ <-. exact Hs.
Qed.

Lemma blk_mmio_write_irq_follows (n fuel : nat) s s'
    (offset val size_log2 : Z) :
  irq_follows_status s ->
  blk_mmio_write bdev n fuel s offset val size_log2 = Ok s' ->
  irq_follows_status s'.
Proof.
  unfold blk_mmio_write. apply virtio_mmio_write_irq_follows.
  - intros s0 q d rs ws r s1. apply recv_request_irq_follows.
  - intros f s0 s1 H. discriminate H.
Qed.

Lemma req_cb_irq_follows (n fuel : nat) s (ret : Z) s' :
  virtio_block_req_cb bdev n fuel s ret = Ok s' -> irq_follows_status s'.
Proof.
  unfold virtio_block_req_cb.
  destruct (virtio_block_req_end fuel s ret) as [s1| |] eqn:E;
    cbn [bind]; try discriminate.
  apply req_end_irq_follows in E. unfold blk_queue_notify.
  apply queue_notify_irq_follows.
  - intros s0 q d rs ws r s2. apply recv_request_irq_follows.
  - exact E.
Qed.

Lemma req_cb_rings_ok (n fuel : nat) s (ret : Z) s' :
  rings_ok s -> virtio_block_req_cb bdev n fuel s ret = Ok s' -> rings_ok s'.
Proof.
  intros Hs. unfold virtio_block_req_cb.
  destruct (virtio_block_req_end fuel s ret) as [s1| |] eqn:E;
    cbn [bind]; try discriminate.
  apply req_end_keeps_queue in E. destruct E as [Eq Es].
  unfold blk_queue_notify. intros H.
  apply queue_notify_same_sizes in H.
  - eapply same_sizes_rings_ok; [exact H|].
    destruct Hs as [A B]. split.
    + cbn [queue_sel with_req_in_progress with_ext]. rewrite Es. exact A.
    + intros i Hi. cbn [queue with_req_in_progress with_ext].
      rewrite Eq. apply B. exact Hi.
  - intros s0 q d rs ws r s2 H0.
    apply recv_request_keeps_queue in H0 as [Hq Hs0].
    split; [exact Hs0 | intros i; rewrite Hq; reflexivity].
Qed.

(** X7: from initialisation with the line low, after any sequence of
    register writes and completions of deferred transfers that returns,
    the interrupt line is high exactly when [int_status] is not zero. *)
Theorem irq_line_follows_int_status (n fuel : nat) (m : guest_ram) (b : BS)
    (hp : list (list Z)) (acts : list blk_action) s' :
  blk_run bdev n fuel (virtio_block_init bdev m false b hp) acts = Ok s' ->
  irq s' = negb (int_status s' =? 0).
Proof.
  assert (G : forall s, irq_follows_status s ->
                blk_run bdev n fuel s acts = Ok s' -> irq_follows_status s').
  { induction acts as [|[o v sz|ret] acts IH]; intros s Hs;
      cbn [blk_run].
    - intros H. injection H as <-. exact Hs.
    - destruct (blk_mmio_write bdev n fuel s o v sz) as [s1| |] eqn:E;
        cbn [bind]; try discriminate.
      apply IH. eapply blk_mmio_write_irq_follows; eassumption.
    - destruct (virtio_block_req_cb bdev n fuel s ret) as [s1| |] eqn:E;
        cbn [bind]; try discriminate.
      apply IH. eapply req_cb_irq_follows; eassumption. }
  apply G. reflexivity.
Qed.

(** X8: from initialisation, after any sequence of register writes and
    completions that returns, the selected queue is one of the
    [MAX_QUEUE] queues of the device, so that [s->queue[s->queue_sel]]
    stays inside the array, and a read of QUEUE_SEL returns it. *)
Theorem queue_sel_stays_in_range (n fuel : nat) (m : guest_ram)
    (line : bool) (b : BS) (hp : list (list Z)) (acts : list blk_action) s' :
  blk_run bdev n fuel (virtio_block_init bdev m line b hp) acts = Ok s' ->
  0 <= queue_sel s' < MAX_QUEUE /\
  virtio_mmio_read s' VIRTIO_MMIO_QUEUE_SEL 2 = Ok (queue_sel s').
Proof.
  intros H. split; [|reflexivity].
  assert (G : forall s, rings_ok s ->
                blk_run bdev n fuel s acts = Ok s' -> rings_ok s').
  { clear H. induction acts as [|[o v sz|ret] acts IH]; intros s Hs;
      cbn [blk_run].
    - intros H. injection H as <-. exact Hs.
    - destruct (blk_mmio_write bdev n fuel s o v sz) as [s1| |] eqn:E;
        cbn [bind]; try discriminate.
      apply IH. eapply blk_mmio_write_rings_ok; eassumption.
    - destruct (virtio_block_req_cb bdev n fuel s ret) as [s1| |] eqn:E;
        cbn [bind]; try discriminate.
      apply IH. eapply req_cb_rings_ok; eassumption. }
  exact (proj1 (G _ (virtio_block_init_rings_ok bdev m line b hp) H)).
Qed.

End BlockInvariants.

Example notify_and_ack_returns :
  res_is_ok (blk_run file_backend 4 8 blk_fresh notify_and_ack) = true.
Proof. vm_compute. reflexivity. Qed.

Lemma irq_line_follows_int_status_witness :
  irq (res_value (blk_run file_backend 4 8 blk_fresh notify_and_ack)
         blk_fresh) =
  negb (int_status
          (res_value (blk_run file_backend 4 8 blk_fresh notify_and_ack)
             blk_fresh) =? 0).
Proof.
  apply (irq_line_follows_int_status file_backend 4 8 read_request_ram
           (block_device_init (repeat 7 1024%nat) BF_MODE_RW)
           [repeat 0x55 600%nat] notify_and_ack).
  apply (res_value_ok (blk_run file_backend 4 8 blk_fresh notify_and_ack)).
  exact notify_and_ack_returns.
Defined.

Lemma queue_sel_stays_in_range_witness :
  0 <= queue_sel (res_value (blk_run file_backend 4 8 blk_fresh
                               notify_and_ack) blk_fresh) < MAX_QUEUE /\
  virtio_mmio_read (res_value (blk_run file_backend 4 8 blk_fresh
                                 notify_and_ack) blk_fresh)
    VIRTIO_MMIO_QUEUE_SEL 2 =
  Ok (queue_sel (res_value (blk_run file_backend 4 8 blk_fresh
                              notify_and_ack) blk_fresh)).
Proof.
  apply (queue_sel_stays_in_range file_backend 4 8 read_request_ram false
           (block_device_init (repeat 7 1024%nat) BF_MODE_RW)
           [repeat 0x55 600%nat] notify_and_ack).
  apply (res_value_ok (blk_run file_backend 4 8 blk_fresh notify_and_ack)).
  exact notify_and_ack_returns.
Defined.

(** ** The file backend *)

Lemma fseek_bytes (fl : host_file) (off : Z) :
  f_bytes (fseek fl off) = f_bytes fl.
Proof. unfold fseek. destruct (off <? 0); reflexivity. Qed.

Lemma fread_bytes (fl : host_file) (buf : list Z) (bpos count : Z) :
  f_bytes (snd (fread fl buf bpos count)) = f_bytes fl.
Proof. reflexivity. Qed.

Lemma bf_read_snapshot_bytes (n : nat) (tbl : Z -> option (list Z))
    (fl : host_file) (sector_num : Z) (buf : list Z) (bpos : Z) :
  f_bytes (snd (bf_read_snapshot n tbl fl sector_num buf bpos)) = f_bytes fl.
Proof.
  revert fl sector_num buf bpos.
  induction n as [|n IH]; intros fl sn buf bpos; [reflexivity|].
  cbn [bf_read_snapshot]. destruct (tbl sn) as [sec|].
  - rewrite IH. reflexivity.
  - unfold fread at 1. rewrite IH. cbn [f_bytes]. apply fseek_bytes.
Qed.

Lemma bf_read_async_ret (bf : BlockDeviceFile) (sector_num : Z)
    (buf : list Z) (n : Z) :
  fst (fst (bf_read_async bf sector_num buf n)) <= 0.
Proof.
  unfold bf_read_async. destruct (f bf) as [fl|]; [|cbn; lia].
  destruct (mode bf).
  - destruct (fread _ buf 0 _). cbn. lia.
  - destruct (fread _ buf 0 _). cbn. lia.
  - destruct (bf_read_snapshot _ _ fl _ buf 0). cbn. lia.
Qed.

Lemma bf_write_async_ret (bf : BlockDeviceFile) (sector_num : Z)
    (buf : list Z) (n : Z) :
  fst (bf_write_async bf sector_num buf n) <= 0.
Proof.
  unfold bf_write_async. destruct (mode bf).
  - cbn. lia.
  - destruct (f bf); cbn; lia.
  - destruct (_ <? _); cbn; lia.
Qed.

(** X12: a read leaves the bytes of the image file as they are in every
    mode, and so does a write unless the mode is read-write; neither
    changes the sector count or the mode. *)
Theorem image_file_preserved (bf : BlockDeviceFile) (sector_num : Z)
    (buf : list Z) (n : Z) :
  let bf_r := snd (bf_read_async bf sector_num buf n) in
  let bf_w := snd (bf_write_async bf sector_num buf n) in
  image_bytes bf_r = image_bytes bf /\
  nb_sectors bf_r = nb_sectors bf /\ mode bf_r = mode bf /\
  sector_table bf_r = sector_table bf /\
  nb_sectors bf_w = nb_sectors bf /\ mode bf_w = mode bf /\
  (mode bf <> BF_MODE_RW -> f bf_w = f bf) /\
  (mode bf <> BF_MODE_SNAPSHOT -> sector_table bf_w = sector_table bf).
Proof.
  cbv zeta. unfold image_bytes.
  assert (R : image_bytes (snd (bf_read_async bf sector_num buf n))
              = image_bytes bf /\
              nb_sectors (snd (bf_read_async bf sector_num buf n))
              = nb_sectors bf /\
              mode (snd (bf_read_async bf sector_num buf n)) = mode bf /\
              sector_table (snd (bf_read_async bf sector_num buf n))
              = sector_table bf).
  { unfold bf_read_async, image_bytes.
    destruct (f bf) as [fl|] eqn:Ef; [|cbn; rewrite Ef; repeat split].
    destruct (mode bf) eqn:Em.
    - destruct (fread _ buf 0 _) as [b1 fl1] eqn:E. cbn.
      replace fl1 with (snd (fread (fseek fl (s64 (sector_num * SECTOR_SIZE)))
                               buf 0 (u64 (s32 (n * SECTOR_SIZE)))))
        by (rewrite E; reflexivity).
      rewrite fread_bytes, fseek_bytes. repeat split.
    - destruct (fread _ buf 0 _) as [b1 fl1] eqn:E. cbn.
      replace fl1 with (snd (fread (fseek fl (s64 (sector_num * SECTOR_SIZE)))
                               buf 0 (u64 (s32 (n * SECTOR_SIZE)))))
        by (rewrite E; reflexivity).
      rewrite fread_bytes, fseek_bytes. repeat split.
    - destruct (bf_read_snapshot _ _ fl _ buf 0) as [b1 fl1] eqn:E. cbn.
      replace fl1 with (snd (bf_read_snapshot (Z.to_nat n) (sector_table bf)
                               fl (u64 sector_num) buf 0))
        by (rewrite E; reflexivity).
      rewrite bf_read_snapshot_bytes. repeat split. }
  destruct R as (R1 & R2 & R3 & R4).
  unfold image_bytes in R1.
  split; [exact R1|]. split; [exact R2|]. split; [exact R3|].
  split; [exact R4|].
  unfold bf_write_async.
  destruct (mode bf) eqn:Em.
  - cbn. rewrite Em. repeat split.
  - destruct (f bf); cbn; rewrite ?Em; repeat split; intros C;
      contradiction.
  - destruct (_ <? _); cbn; rewrite ?Em; repeat split; intros C;
      contradiction.
Qed.

Lemma req_end_keeps_ext {BS : Type} (fuel : nat)
    (s : VIRTIOBlockDevice BS) (ret : Z) (s' : VIRTIOBlockDevice BS) :
  virtio_block_req_end fuel s ret = Ok s' -> ext s' = ext s.
Proof.
  unfold virtio_block_req_end.
  destruct (req_type (req (ext s)) =? VIRTIO_BLK_T_IN).
  - destruct (memcpy_to_queue fuel s _ _ 0 _ _) as [[r s1]| |] eqn:E;
      cbn [bind]; try discriminate.
    intros H. injection H as <-.
    apply memcpy_to_queue_ram_only, ram_only_fields in E.
    destruct E as (_ & _ & Ee & _). exact Ee.
  - destruct (req_type (req (ext s)) =? VIRTIO_BLK_T_OUT); [|discriminate].
    destruct (memcpy_to_queue fuel s _ _ 0 _ _) as [[r s1]| |] eqn:E;
      cbn [bind]; try discriminate.
    intros H. injection H as <-.
    apply memcpy_to_queue_ram_only, ram_only_fields in E.
    destruct E as (_ & _ & Ee & _). exact Ee.
Qed.

Section NeverDeferred.
Implicit Type s : VIRTIOBlockDevice BlockDeviceFile.

(** With a backend that never defers, a call on an idle device that
    returns, returns 0 with the device idle. *)
Lemma file_backend_recv_idle (fuel : nat) s (q d rs ws r : Z) s' :
  req_in_progress (ext s) = false ->
  virtio_block_recv_request file_backend fuel s q d rs ws = Ok (r, s') ->
  r = 0 /\ req_in_progress (ext s') = false.
Proof.
  intros Hp. unfold virtio_block_recv_request. rewrite Hp.
  destruct (memcpy_from_queue fuel s _ q d 0 HEADER_SIZE) as [[r0 h]| |];
    cbn [bind]; try discriminate.
  destruct (r0 <? 0).
  { intros EQ. apply Ok_pair_inj in EQ as [<- <-]. split; [reflexivity|exact Hp]. }
  destruct (le_decode (sub_bytes h 0 4) =? VIRTIO_BLK_T_IN).
  { cbn [read_async file_backend].
    match goal with
    | |- context [bf_read_async ?a ?b ?c ?e] =>
        pose proof (bf_read_async_ret a b c e) as Hret;
        destruct (bf_read_async a b c e) as [[ret buf] b']
    end.
    cbn [fst] in Hret.
    destruct (Z.ltb_spec 0 ret); [lia|].
    destruct (virtio_block_req_end fuel _ ret) as [s1| |] eqn:E;
      cbn [bind]; try discriminate.
    intros EQ. apply Ok_pair_inj in EQ as [<- <-].
    apply req_end_keeps_ext in E. rewrite E.
    split; [reflexivity|]. cbn. exact Hp. }
  destruct (le_decode (sub_bytes h 0 4) =? VIRTIO_BLK_T_OUT).
  { destruct (ws <? 1); [discriminate|].
    destruct (memcpy_from_queue fuel _ _ q d HEADER_SIZE _) as [[r1 buf]| |];
      cbn [bind]; try discriminate.
    cbn [write_async file_backend].
    match goal with
    | |- context [bf_write_async ?a ?b ?c ?e] =>
        pose proof (bf_write_async_ret a b c e) as Hret;
        destruct (bf_write_async a b c e) as [ret b']
    end.
    cbn [fst] in Hret.
    destruct (Z.ltb_spec 0 ret); [lia|].
    destruct (virtio_block_req_end fuel _ ret) as [s1| |] eqn:E;
      cbn [bind]; try discriminate.
    intros EQ. apply Ok_pair_inj in EQ as [<- <-].
    apply req_end_keeps_ext in E. rewrite E.
    split; [reflexivity|]. cbn. exact Hp. }
  intros EQ. apply Ok_pair_inj in EQ as [<- <-].
  split; [reflexivity|]. cbn. exact Hp.
Qed.

(** X11: the transfers of the file backend are synchronous: the result
    of [bf_read_async] and of [bf_write_async] is never above zero.  So
    the block device over this backend never defers a request and never
    pushes a notification back: whenever its callback returns on an idle
    device, it returns 0 and the device is idle again.  (The callback
    need not return: it stops on the assertion of an OUT request without
    status byte and follows a cyclic chain for ever.) *)
Theorem file_backend_never_defers (fuel : nat) s (q d rs ws : Z) :
  (forall bf sector_num buf n,
      fst (fst (bf_read_async bf sector_num buf n)) <= 0 /\
      fst (bf_write_async bf sector_num buf n) <= 0) /\
  (req_in_progress (ext s) = false ->
   forall r s',
     virtio_block_recv_request file_backend fuel s q d rs ws = Ok (r, s') ->
     r = 0 /\ req_in_progress (ext s') = false).
Proof.
  split.
  - intros bf sector_num buf n.
    split; [apply bf_read_async_ret | apply bf_write_async_ret].
  - intros Hp r s' H. exact (file_backend_recv_idle fuel s q d rs ws r s' Hp H).
Qed.

End NeverDeferred.

Example in_request_returns :
  res_is_ok (virtio_block_recv_request file_backend 4
               (blk_setup (one_request_ram VIRTIO_BLK_T_IN)) 0 0 16 0) = true.
Proof. vm_compute. reflexivity. Qed.

Lemma file_backend_never_defers_witness :
  fst (res_value (virtio_block_recv_request file_backend 4
                    (blk_setup (one_request_ram VIRTIO_BLK_T_IN)) 0 0 16 0)
         (0, blk0)) = 0 /\
  req_in_progress
    (ext (snd (res_value (virtio_block_recv_request file_backend 4
                            (blk_setup (one_request_ram VIRTIO_BLK_T_IN))
                            0 0 16 0) (0, blk0)))) = false.
Proof.
  apply (proj2 (file_backend_never_defers 4
                  (blk_setup (one_request_ram VIRTIO_BLK_T_IN)) 0 0 16 0)).
  - vm_compute. reflexivity.
  - apply res_value_pair_ok. exact in_request_returns.
Defined.

(** ** Snapshot mode *)

Lemma buf_sub_length (buf : list Z) (bpos count : Z) :
  length (buf_sub buf bpos count) = Z.to_nat count.
Proof. unfold buf_sub. rewrite length_map, length_seq. reflexivity. Qed.

Lemma nth_buf_sub (buf : list Z) (bpos count : Z) (i : nat) :
  (i < Z.to_nat count)%nat ->
  nth i (buf_sub buf bpos count) 0 = buf_get buf (bpos + Z.of_nat i).
Proof.
  intros Hi. unfold buf_sub.
  rewrite (nth_indep _ 0 ((fun i => buf_get buf (bpos + Z.of_nat i)) 0%nat))
    by (rewrite length_map, length_seq; exact Hi).
  pose proof (map_nth (fun i => buf_get buf (bpos + Z.of_nat i))
                (seq 0 (Z.to_nat count)) 0%nat i) as M.
  cbv beta in M. rewrite M. rewrite seq_nth by exact Hi. reflexivity.
Qed.

Lemma bf_write_snapshot_table (n : nat) (tbl : Z -> option (list Z))
    (sn : Z) (buf : list Z) (bpos k : Z) :
  0 <= sn -> sn + Z.of_nat n < 18446744073709551616 ->
  bf_write_snapshot n tbl sn buf bpos k =
  if (sn <=? k) && (k <? sn + Z.of_nat n)
  then Some (buf_sub buf (bpos + SECTOR_SIZE * (k - sn)) SECTOR_SIZE)
  else tbl k.
Proof.
  revert tbl sn bpos. induction n as [|n IH]; intros tbl sn bpos H0 H1.
  - cbn [bf_write_snapshot].
    destruct (Z.leb_spec sn k), (Z.ltb_spec k (sn + Z.of_nat 0));
      cbn [andb]; try reflexivity; lia.
  - cbn [bf_write_snapshot].
    rewrite (u64_small (sn + 1)) by lia.
    rewrite IH by lia.
    destruct (Z.leb_spec (sn + 1) k),
      (Z.ltb_spec k (sn + 1 + Z.of_nat n)),
      (Z.leb_spec sn k), (Z.ltb_spec k (sn + Z.of_nat (S n)));
      cbn [andb]; try lia;
      try (destruct (Z.eqb_spec k sn) as [->|]; try lia; try reflexivity);
      f_equal; f_equal; unfold SECTOR_SIZE; lia.
Qed.

Lemma bf_read_snapshot_hits (n : nat) (tbl : Z -> option (list Z))
    (fl : host_file) (sn : Z) (src rbuf : list Z) (bpos : Z) :
  0 <= sn -> sn + Z.of_nat n < 18446744073709551616 ->
  0 <= bpos ->
  bpos + SECTOR_SIZE * Z.of_nat n <= Z.of_nat (length rbuf) ->
  (forall k, sn <= k < sn + Z.of_nat n ->
     tbl k = Some (buf_sub src (bpos + SECTOR_SIZE * (k - sn)) SECTOR_SIZE)) ->
  exists rbuf',
    bf_read_snapshot n tbl fl sn rbuf bpos = (rbuf', fl) /\
    length rbuf' = length rbuf /\
    forall j, buf_get rbuf' j =
      if (bpos <=? j) && (j <? bpos + SECTOR_SIZE * Z.of_nat n)
      then buf_get src j else buf_get rbuf j.
Proof.
  revert sn rbuf bpos. induction n as [|n IH]; intros sn rbuf bpos H0 H1 H2 H3 Ht.
  - exists rbuf. split; [reflexivity|]. split; [reflexivity|].
    intros j. unfold SECTOR_SIZE.
    destruct (Z.leb_spec bpos j), (Z.ltb_spec j (bpos + 512 * Z.of_nat 0));
      cbn [andb]; try reflexivity; lia.
  - cbn [bf_read_snapshot].
    rewrite (Ht sn) by lia.
    replace (bpos + SECTOR_SIZE * (sn - sn)) with bpos
      by (unfold SECTOR_SIZE; lia).
    assert (Hl : length (buf_sub src bpos SECTOR_SIZE) = 512%nat)
      by (rewrite buf_sub_length; reflexivity).
    rewrite firstn_all2 by (rewrite Hl; apply le_n).
    rewrite (u64_small (sn + 1)) by lia.
    unfold SECTOR_SIZE in H3.
    destruct (IH (sn + 1)
                (buf_blit rbuf bpos (buf_sub src bpos SECTOR_SIZE))
                (bpos + SECTOR_SIZE)) as (rbuf' & E & L & G).
    + lia.
    + lia.
    + unfold SECTOR_SIZE. lia.
    + rewrite buf_blit_length. unfold SECTOR_SIZE. lia.
    + intros k Hk. rewrite Ht by lia. f_equal. f_equal.
      unfold SECTOR_SIZE. lia.
    + exists rbuf'. split; [exact E|].
      split; [rewrite L; apply buf_blit_length|].
      intros j. rewrite G.
      rewrite buf_blit_get by (rewrite ?Hl; lia). rewrite Hl.
      unfold SECTOR_SIZE.
      destruct (Z.leb_spec (bpos + 512) j),
        (Z.ltb_spec j (bpos + 512 + 512 * Z.of_nat n)),
        (Z.leb_spec bpos j),
        (Z.ltb_spec j (bpos + 512 * Z.of_nat (S n))),
        (Z.ltb_spec j (bpos + Z.of_nat 512));
        cbn [andb]; try reflexivity; try lia.
      rewrite nth_buf_sub by (unfold SECTOR_SIZE; lia).
      f_equal. lia.
Qed.

(** X13: in snapshot mode a write of [n] sectors inside the image is kept
    in the sector table and never reaches the file, and a read of the
    same sectors returns the bytes written; the rest of the read buffer
    is left as it was. *)
Theorem snapshot_write_then_read (bf : BlockDeviceFile) (fl : host_file)
    (sn n : Z) (src rbuf : list Z) :
  mode bf = BF_MODE_SNAPSHOT -> f bf = Some fl ->
  0 <= sn -> 0 <= n -> sn + n <= nb_sectors bf ->
  nb_sectors bf < 9223372036854775808 ->
  SECTOR_SIZE * n <= Z.of_nat (length src) ->
  SECTOR_SIZE * n <= Z.of_nat (length rbuf) ->
  exists bf1 rbuf',
    bf_write_async bf sn src n = (0, bf1) /\
    f bf1 = f bf /\
    bf_read_async bf1 sn rbuf n = (0, rbuf', bf1) /\
    length rbuf' = length rbuf /\
    forall j, buf_get rbuf' j =
      if (0 <=? j) && (j <? SECTOR_SIZE * n)
      then buf_get src j else buf_get rbuf j.
Proof.
  intros Hm Hf H0 Hn Hs Hnb Hsrc Hr.
  unfold bf_write_async. rewrite Hm.
  rewrite (u64_small (nb_sectors bf)) by lia.
  rewrite (u64_small (sn + n)) by lia.
  destruct (Z.ltb_spec (nb_sectors bf) (sn + n)); [lia|].
  rewrite (u64_small sn) by lia.
  eexists. 
  destruct (bf_read_snapshot_hits (Z.to_nat n)
              (bf_write_snapshot (Z.to_nat n) (sector_table bf) sn src 0)
              fl sn src rbuf 0) as (rbuf' & E & L & G).
  - exact H0.
  - lia.
  - lia.
  - rewrite Z2Nat.id by lia. lia.
  - intros k Hk. rewrite bf_write_snapshot_table by lia.
    destruct (Z.leb_spec sn k), (Z.ltb_spec k (sn + Z.of_nat (Z.to_nat n)));
      cbn [andb]; try lia. reflexivity.
  - exists rbuf'. split; [reflexivity|]. split; [reflexivity|].
    unfold bf_read_async. cbn [f mode sector_table nb_sectors].
    rewrite Hf. cbv iota. rewrite (u64_small sn) by lia. rewrite E.
    split; [reflexivity|]. split; [exact L|].
    intros j. rewrite G. rewrite Z2Nat.id by lia. reflexivity.
Qed.

Lemma snapshot_write_then_read_witness :
  exists bf1 rbuf',
    bf_write_async (block_device_init (repeat 0 1024%nat) BF_MODE_SNAPSHOT)
      1 (repeat 7 512%nat) 1 = (0, bf1) /\
    f bf1 = f (block_device_init (repeat 0 1024%nat) BF_MODE_SNAPSHOT) /\
    bf_read_async bf1 1 (repeat 0 512%nat) 1 = (0, rbuf', bf1) /\
    length rbuf' = length (repeat 0 512%nat) /\
    forall j, buf_get rbuf' j =
      if (0 <=? j) && (j <? SECTOR_SIZE * 1)
      then buf_get (repeat 7 512%nat) j else buf_get (repeat 0 512%nat) j.
Proof.
  apply (snapshot_write_then_read
           (block_device_init (repeat 0 1024%nat) BF_MODE_SNAPSHOT)
           (mkHostFile (repeat 0 1024%nat) 1024) 1 1
           (repeat 7 512%nat) (repeat 0 512%nat)).
  - reflexivity.
  - vm_compute. reflexivity.
  - lia.
  - lia.
  - vm_compute. discriminate.
  - vm_compute. reflexivity.
  - vm_compute. discriminate.
  - vm_compute. discriminate.
Defined.

(** ** Sizes of a chain *)

Section ChainSizes.
Context {X : Type}.
Implicit Type s : VIRTIODevice X.

Lemma rw_size_read_loop_chain (rs : list VIRTIODesc) :
  forall (fuel : nat) s (q : Z) (d : VIRTIODesc) (rest tail : list VIRTIODesc)
         (acc : Z),
    desc_chain s q d rest ->
    d :: rest = rs ++ tail ->
    Forall (fun d => has_flag d VRING_DESC_F_WRITE = false) rs ->
    match tail with
    | [] => True
    | w :: _ => has_flag w VRING_DESC_F_WRITE = true
    end ->
    (length rs < fuel)%nat ->
    rw_size_read_loop fuel s q d acc = Ok (len_total acc rs, hd_error tail).
Proof.
  induction rs as [|r rs IH]; intros fuel s q d rest tail acc Hc He Hr Ht Hf.
  - cbn [app] in He. subst tail. cbn [hd_error len_total fold_left].
    destruct fuel as [|fuel]; [inversion Hf|].
    cbn [rw_size_read_loop]. rewrite Ht. reflexivity.
  - cbn [app] in He. injection He as -> ->.
    inversion Hr as [|? ? Hr1 Hr2]; subst.
    destruct fuel as [|fuel]; [inversion Hf|].
    cbn [rw_size_read_loop]. rewrite Hr1.
    cbn [len_total fold_left].
    destruct (rs ++ tail) as [|d' r'] eqn:E.
    + cbn [desc_chain] in Hc. rewrite Hc. cbn [negb].
      apply app_eq_nil in E. destruct E as [-> ->]. reflexivity.
    + cbn [desc_chain] in Hc. destruct Hc as (Hn & Hd & Hc).
      rewrite Hn. cbn [negb]. rewrite <- Hd.
      apply (IH fuel s q d' r' tail _ Hc (eq_sym E) Hr2 Ht).
      cbn [length] in Hf. lia.
Qed.

Lemma rw_size_write_loop_chain (ws : list VIRTIODesc) :
  forall (fuel : nat) s (q : Z) (d : VIRTIODesc) (rest tail : list VIRTIODesc)
         (acc : Z),
    desc_chain s q d rest ->
    d :: rest = ws ++ tail ->
    Forall (fun d => has_flag d VRING_DESC_F_WRITE = true) ws ->
    match tail with
    | [] => True
    | r :: _ => has_flag r VRING_DESC_F_WRITE = false
    end ->
    (length ws < fuel)%nat ->
    rw_size_write_loop fuel s q d acc =
    Ok (match tail with
        | [] => Some (len_total acc ws)
        | _ :: _ => None
        end).
Proof.
  induction ws as [|w ws IH]; intros fuel s q d rest tail acc Hc He Hw Ht Hf.
  - cbn [app] in He. subst tail.
    destruct fuel as [|fuel]; [inversion Hf|].
    cbn [rw_size_write_loop]. rewrite Ht. reflexivity.
  - cbn [app] in He. injection He as -> ->.
    inversion Hw as [|? ? Hw1 Hw2]; subst.
    destruct fuel as [|fuel]; [inversion Hf|].
    cbn [rw_size_write_loop]. rewrite Hw1. cbn [negb].
    cbn [len_total fold_left].
    destruct (ws ++ tail) as [|d' r'] eqn:E.
    + cbn [desc_chain] in Hc. rewrite Hc. cbn [negb].
      apply app_eq_nil in E. destruct E as [-> ->]. reflexivity.
    + cbn [desc_chain] in Hc. destruct Hc as (Hn & Hd & Hc).
      rewrite Hn. cbn [negb]. rewrite <- Hd.
      apply (IH fuel s q d' r' tail _ Hc (eq_sym E) Hw2 Ht).
      cbn [length] in Hf. lia.
Qed.

(** The two loops of [get_desc_rw_size], put together. *)
Lemma get_desc_rw_size_walk (fuel : nat) s (q idx : Z)
    (rest rs ws tail : list VIRTIODesc) :
  desc_chain s q (get_desc s q idx) rest ->
  get_desc s q idx :: rest = rs ++ ws ++ tail ->
  Forall (fun d => has_flag d VRING_DESC_F_WRITE = false) rs ->
  Forall (fun d => has_flag d VRING_DESC_F_WRITE = true) ws ->
  match tail with
  | [] => True
  | r :: _ => ws <> [] /\ has_flag r VRING_DESC_F_WRITE = false
  end ->
  (length (rs ++ ws) < fuel)%nat ->
  get_desc_rw_size fuel s q idx =
  Ok (match tail with
      | [] => Some (len_total 0 rs, len_total 0 ws)
      | _ :: _ => None
      end).
Proof.
  intros Hc He Hr Hw Ht Hf. rewrite length_app in Hf.
  unfold get_desc_rw_size.
  assert (Hhead : match ws ++ tail with
                  | [] => True
                  | w :: _ => has_flag w VRING_DESC_F_WRITE = true
                  end).
  { destruct ws as [|w ws'].
    - destruct tail as [|r t]; [exact I|]. cbv iota beta in Ht.
      destruct Ht as [C _].
      contradiction C. reflexivity.
    - inversion Hw; subst. assumption. }
  rewrite (rw_size_read_loop_chain rs fuel s q _ rest (ws ++ tail) 0
             Hc He Hr Hhead) by lia.
  cbn [bind].
  destruct ws as [|w ws'].
  - cbn [app] in *. destruct tail as [|r t]; [reflexivity|]. cbv iota beta in Ht.
    destruct Ht as [C _]. contradiction C. reflexivity.
  - cbn [app hd_error].
    (* the chain from [w] on *)
    assert (S : exists rest', desc_chain s q w rest' /\
                              w :: rest' = (w :: ws') ++ tail).
    { clear Hf Hhead Hw Ht. revert Hc He Hr.
      generalize (get_desc s q idx). revert rest.
      induction rs as [|r rs IH]; intros rest d Hc He Hr.
      - cbn [app] in He. injection He as -> ->.
        exists (ws' ++ tail). split; [exact Hc | reflexivity].
      - cbn [app] in He. injection He as -> ->.
        inversion Hr; subst.
        destruct (rs ++ (w :: ws') ++ tail) as [|d' r'] eqn:E.
        + apply app_eq_nil in E. destruct E as [_ E]. discriminate E.
        + change (rs ++ w :: ws' ++ tail) with (rs ++ (w :: ws') ++ tail) in Hc.
          rewrite E in Hc. cbn [desc_chain] in Hc. destruct Hc as (_ & _ & Hc).
          apply (IH r' d' Hc (eq_refl _)). assumption. }
    destruct S as (rest' & Hc' & He').
    assert (Ht' : match tail with
                  | [] => True
                  | r :: _ => has_flag r VRING_DESC_F_WRITE = false
                  end).
    { destruct tail; [exact I | exact (proj2 Ht)]. }
    rewrite (rw_size_write_loop_chain (w :: ws') fuel s q w rest' tail 0
               Hc' He' Hw Ht') by lia.
    cbn [bind]. destruct tail; reflexivity.
Qed.

End ChainSizes.

(** ** Copies from a chain *)

Lemma desc_bytes_length (m : guest_ram) (d : VIRTIODesc) :
  length (desc_bytes m d) = Z.to_nat (d_len d).
Proof. unfold desc_bytes. rewrite length_map, length_seq. reflexivity. Qed.

Lemma nth_desc_bytes (m : guest_ram) (d : VIRTIODesc) (i : nat) :
  (i < Z.to_nat (d_len d))%nat ->
  nth i (desc_bytes m d) 0 = load_u8 m (d_addr d + Z.of_nat i).
Proof.
  intros Hi. unfold desc_bytes.
  rewrite (nth_indep _ 0 ((fun i => load_u8 m (d_addr d + Z.of_nat i)) 0%nat))
    by (rewrite length_map, length_seq; exact Hi).
  pose proof (map_nth (fun i => load_u8 m (d_addr d + Z.of_nat i))
                (seq 0 (Z.to_nat (d_len d))) 0%nat i) as M.
  cbv beta in M. rewrite M. rewrite seq_nth by exact Hi. reflexivity.
Qed.

Lemma chain_len_nonneg (ds : list VIRTIODesc) :
  Forall (fun d => 0 <= d_len d) ds -> 0 <= chain_len ds.
Proof.
  induction 1 as [|d r Hd Hr IH]; cbn [chain_len fold_right]; [lia|].
  fold (chain_len r). lia.
Qed.

Lemma chain_len_app (a b : list VIRTIODesc) :
  chain_len (a ++ b) = chain_len a + chain_len b.
Proof.
  induction a as [|d a IH]; [reflexivity|].
  cbn [app chain_len fold_right]. fold (chain_len (a ++ b)).
  fold (chain_len a). lia.
Qed.

Lemma chain_bytes_cons_low (m : guest_ram) (d : VIRTIODesc)
    (r : list VIRTIODesc) (p : Z) :
  0 <= p < d_len d ->
  nth (Z.to_nat p) (chain_bytes m (d :: r)) 0 = load_u8 m (d_addr d + p).
Proof.
  intros Hp. unfold chain_bytes. cbn [flat_map].
  rewrite app_nth1 by (rewrite desc_bytes_length; lia).
  rewrite nth_desc_bytes by lia. rewrite Z2Nat.id by lia. reflexivity.
Qed.

Lemma chain_bytes_cons_high (m : guest_ram) (d : VIRTIODesc)
    (r : list VIRTIODesc) (p : Z) :
  0 <= d_len d <= p ->
  nth (Z.to_nat p) (chain_bytes m (d :: r)) 0 =
  nth (Z.to_nat (p - d_len d)) (chain_bytes m r) 0.
Proof.
  intros Hp. unfold chain_bytes. cbn [flat_map].
  rewrite app_nth2 by (rewrite desc_bytes_length; lia).
  rewrite desc_bytes_length. f_equal. lia.
Qed.

Section CopyFromChain.
Context {X : Type}.
Implicit Type s : VIRTIODevice X.

Lemma virtio_memcpy_from_ram_length s (buf : list Z) (bpos addr count : Z) :
  length (virtio_memcpy_from_ram s buf bpos addr count) = length buf.
Proof. apply virtio_memcpy_from_ram_loop_length. Qed.

Lemma virtio_memcpy_from_ram_get s (buf : list Z) (bpos addr count j : Z) :
  0 <= bpos -> bpos + count <= Z.of_nat (length buf) ->
  buf_get (virtio_memcpy_from_ram s buf bpos addr count) j =
  if (bpos <=? j) && (j <? bpos + count)
  then load_u8 (ram s) (addr + (j - bpos)) else buf_get buf j.
Proof.
  intros H0 H1. unfold virtio_memcpy_from_ram.
  apply virtio_memcpy_from_ram_loop_get; [apply le_n | exact H0 | exact H1].
Qed.

Lemma copy_queue_loop_step (fuel : nat) s (buf : list Z) (bpos q : Z)
    (desc : VIRTIODesc) (offset count : Z) :
  copy_queue_loop (S fuel) s buf bpos q desc offset count false 0 =
  let l := min_int count (s32 (d_len desc - offset)) in
  let buf' :=
    virtio_memcpy_from_ram s buf bpos (u64 (d_addr desc + offset)) l in
  if s32 (count - l) =? 0 then Ok (0, buf', s)
  else if u32 (s32 (offset + l)) =? d_len desc then
    if negb (has_flag desc VRING_DESC_F_NEXT) then Ok (-1, buf', s)
    else if negb (Z.land (d_flags (get_desc s q (d_next desc)))
                    VRING_DESC_F_WRITE =? 0)
    then Ok (-1, buf', s)
    else copy_queue_loop fuel s buf' (bpos + l) q
           (get_desc s q (d_next desc)) 0 (s32 (count - l)) false 0
  else copy_queue_loop fuel s buf' (bpos + l) q desc (s32 (offset + l))
         (s32 (count - l)) false 0.
Proof. reflexivity. Qed.

Lemma is_read_desc_flag (d : VIRTIODesc) :
  is_read_desc d -> (Z.land (d_flags d) VRING_DESC_F_WRITE =? 0) = true.
Proof.
  unfold is_read_desc, has_flag. intros H.
  apply negb_false_iff in H. exact H.
Qed.

(** The third loop on a chain of device-readable descriptors that holds
    the bytes asked for. *)
Lemma copy_queue_loop_chain (post : list VIRTIODesc) :
  forall (fuel : nat) s (buf : list Z) (bpos q : Z) (d : VIRTIODesc)
         (off count : Z),
    desc_path s q d post ->
    Forall is_read_desc post ->
    Forall (fun d => 0 <= d_len d) (d :: post) ->
    chain_len (d :: post) < 2147483648 ->
    0 <= off <= d_len d -> 0 < count ->
    off + count <= chain_len (d :: post) ->
    0 <= bpos -> bpos + count <= Z.of_nat (length buf) ->
    (length post < fuel)%nat ->
    exists buf',
      copy_queue_loop fuel s buf bpos q d off count false 0
        = Ok (0, buf', s) /\
      length buf' = length buf /\
      forall j, buf_get buf' j =
        if (bpos <=? j) && (j <? bpos + count)
        then nth (Z.to_nat (off + (j - bpos)))
               (chain_bytes (ram s) (d :: post)) 0
        else buf_get buf j.
Proof.
  induction post as [|d' post IH];
    intros fuel s buf bpos q d off count Hc Hr Hl Ht Ho Hcnt Hfit Hb0 Hb1 Hf.
  - (* the last descriptor holds the rest *)
    cbn [chain_len fold_right] in Hfit, Ht.
    destruct fuel as [|fuel]; [inversion Hf|].
    rewrite copy_queue_loop_step. cbv zeta.
    rewrite (s32_small (d_len d - off)) by lia.
    assert (El : min_int count (d_len d - off) = count).
    { unfold min_int. destruct (Z.ltb_spec count (d_len d - off)); lia. }
    rewrite El, Z.sub_diag. change (s32 0 =? 0) with true. cbv iota.
    eexists. split; [reflexivity|].
    split; [apply virtio_memcpy_from_ram_length|].
    intros j. rewrite virtio_memcpy_from_ram_get by assumption.
    destruct ((bpos <=? j) && (j <? bpos + count)) eqn:E; [|reflexivity].
    apply andb_true_iff in E. destruct E as [E1 E2].
    apply Z.leb_le in E1. apply Z.ltb_lt in E2.
    rewrite chain_bytes_cons_low by lia.
    rewrite load_u8_norm_add. f_equal. lia.
  - inversion Hr as [|? ? Hr1 Hr2]; subst.
    inversion Hl as [|? ? Hl1 Hl2]; subst.
    inversion Hl2 as [|? ? Hl3 Hl4]; subst.
    pose proof (chain_len_nonneg post Hl4) as Hpost.
    cbn [chain_len fold_right] in Hfit, Ht. fold (chain_len post) in Hfit, Ht.
    cbn [desc_path] in Hc. destruct Hc as (Hn & Hd & Hc).
    destruct fuel as [|fuel]; [inversion Hf|].
    rewrite copy_queue_loop_step. cbv zeta.
    rewrite (s32_small (d_len d - off)) by lia.
    destruct (Z.le_gt_cases count (d_len d - off)) as [Hin|Hout].
    + (* the current descriptor holds the rest *)
      assert (El : min_int count (d_len d - off) = count).
      { unfold min_int. destruct (Z.ltb_spec count (d_len d - off)); lia. }
      rewrite El, Z.sub_diag. change (s32 0 =? 0) with true. cbv iota.
      eexists. split; [reflexivity|].
      split; [apply virtio_memcpy_from_ram_length|].
      intros j. rewrite virtio_memcpy_from_ram_get by assumption.
      destruct ((bpos <=? j) && (j <? bpos + count)) eqn:E; [|reflexivity].
      apply andb_true_iff in E. destruct E as [E1 E2].
      apply Z.leb_le in E1. apply Z.ltb_lt in E2.
      rewrite chain_bytes_cons_low by lia.
      rewrite load_u8_norm_add. f_equal. lia.
    + (* go on with the next descriptor *)
      assert (El : min_int count (d_len d - off) = d_len d - off).
      { unfold min_int. destruct (Z.ltb_spec count (d_len d - off)); lia. }
      rewrite El.
      rewrite (s32_small (count - (d_len d - off))) by lia.
      destruct (Z.eqb_spec (count - (d_len d - off)) 0); [lia|].
      replace (off + (d_len d - off)) with (d_len d) by lia.
      rewrite (s32_small (d_len d)) by lia.
      rewrite (u32_small (d_len d)) by lia.
      rewrite Z.eqb_refl. rewrite Hn. cbn [negb].
      rewrite <- Hd. rewrite (is_read_desc_flag d' Hr1). cbn [negb].
      set (buf1 := virtio_memcpy_from_ram s buf bpos (u64 (d_addr d + off))
                     (d_len d - off)).
      assert (L1 : length buf1 = length buf)
        by apply virtio_memcpy_from_ram_length.
      destruct (IH fuel s buf1 (bpos + (d_len d - off)) q d' 0
                  (count - (d_len d - off)) Hc Hr2 Hl2) as (buf' & E & L & G).
      * cbn [chain_len fold_right]. fold (chain_len post). lia.
      * lia.
      * lia.
      * cbn [chain_len fold_right]. fold (chain_len post). lia.
      * lia.
      * rewrite L1. lia.
      * cbn [length] in Hf. lia.
      * exists buf'. split; [exact E|]. split; [rewrite L; exact L1|].
        intros j. rewrite G. unfold buf1.
        rewrite virtio_memcpy_from_ram_get by lia.
        destruct (Z.leb_spec (bpos + (d_len d - off)) j),
          (Z.ltb_spec j (bpos + (d_len d - off) + (count - (d_len d - off)))),
          (Z.leb_spec bpos j), (Z.ltb_spec j (bpos + count)),
          (Z.ltb_spec j (bpos + (d_len d - off)));
          cbn [andb]; try reflexivity; try lia.
        -- rewrite (chain_bytes_cons_high (ram s) d) by lia.
           f_equal. f_equal. lia.
        -- rewrite chain_bytes_cons_low by lia.
           rewrite load_u8_norm_add. f_equal. lia.
Qed.

Lemma desc_path_len_nonneg (rest : list VIRTIODesc) :
  forall s (q : Z) (d : VIRTIODesc),
    desc_path s q d rest -> Forall (fun d => 0 <= d_len d) rest.
Proof.
  induction rest as [|d' r IH]; intros s q d Hc; constructor.
  - cbn [desc_path] in Hc. destruct Hc as (_ & -> & _).
    apply get_desc_len_range.
  - cbn [desc_path] in Hc. destruct Hc as (_ & _ & Hc).
    apply (IH s q d' Hc).
Qed.

Lemma desc_path_app (a b : list VIRTIODesc) :
  forall s (q : Z) (d : VIRTIODesc),
    desc_path s q d (a ++ b) -> desc_path s q d a.
Proof.
  induction a as [|d' a IH]; intros s q d Hc; [exact I|].
  cbn [app desc_path] in *. destruct Hc as (Hn & Hd & Hc).
  split; [exact Hn|]. split; [exact Hd|]. apply (IH s q d' Hc).
Qed.

(** The second loop: the descriptor that holds position [offset], among
    descriptors whose direction is [fw]. *)
Lemma find_desc_at_offset_chain (fw : Z) (rs : list VIRTIODesc) :
  forall (fuel : nat) s (q : Z) (d : VIRTIODesc) (offset : Z),
    desc_path s q d rs ->
    Forall (fun d => (Z.land (d_flags d) VRING_DESC_F_WRITE =? fw) = true)
      (d :: rs) ->
    Forall (fun d => 0 <= d_len d) (d :: rs) ->
    chain_len (d :: rs) < 2147483648 ->
    0 <= offset < chain_len (d :: rs) ->
    (length rs < fuel)%nat ->
    exists pre di post,
      d :: rs = pre ++ di :: post /\
      find_desc_at_offset fuel s q d offset fw
        = Ok (Some (di, offset - chain_len pre)) /\
      0 <= offset - chain_len pre < d_len di /\
      desc_path s q di post.
Proof.
  induction rs as [|d' rs IH];
    intros fuel s q d offset Hc Hr Hl Ht Ho Hf.
  - cbn [chain_len fold_right] in Ho, Ht.
    destruct fuel as [|fuel]; [inversion Hf|].
    exists [], d, []. split; [reflexivity|].
    rewrite find_desc_at_offset_step.
    inversion Hr as [|? ? Hr1 Hr2]; subst.
    rewrite Hr1. cbn [negb].
    rewrite (u32_small offset) by lia.
    destruct (Z.ltb_spec offset (d_len d)); [|lia].
    cbn [chain_len fold_right]. rewrite Z.sub_0_r.
    split; [reflexivity|]. split; [lia | exact Hc].
  - inversion Hr as [|? ? Hr1 Hr2]; subst.
    inversion Hl as [|? ? Hl1 Hl2]; subst.
    pose proof (chain_len_nonneg (d' :: rs) Hl2) as Hrest.
    cbn [chain_len fold_right] in Ho, Ht.
    fold (chain_len rs) in Ho, Ht.
    change (d_len d' + chain_len rs) with (chain_len (d' :: rs)) in Ho, Ht.
    destruct fuel as [|fuel]; [inversion Hf|].
    rewrite find_desc_at_offset_step.
    rewrite Hr1. cbn [negb].
    rewrite (u32_small offset) by lia.
    destruct (Z.ltb_spec offset (d_len d)) as [Hin|Hout].
    + exists [], d, (d' :: rs). split; [reflexivity|].
      cbn [chain_len fold_right]. rewrite Z.sub_0_r.
      split; [reflexivity|]. split; [lia | exact Hc].
    + cbn [desc_path] in Hc. destruct Hc as (Hn & Hd & Hc).
      rewrite Hn. cbn [negb]. rewrite <- Hd.
      rewrite (s32_small (offset - d_len d)) by lia.
      destruct (IH fuel s q d' (offset - d_len d) Hc Hr2 Hl2)
        as (pre & di & post & E & F & R & C).
      * lia.
      * lia.
      * cbn [length] in Hf. lia.
      * exists (d :: pre), di, post.
        split; [cbn [app]; rewrite E; reflexivity|].
        cbn [chain_len fold_right]. fold (chain_len pre).
        replace (offset - (d_len d + chain_len pre))
          with (offset - d_len d - chain_len pre) by lia.
        split; [exact F|]. split; [exact R | exact C].
Qed.

Lemma is_read_desc_flags (ds : list VIRTIODesc) :
  Forall is_read_desc ds ->
  Forall (fun d => (Z.land (d_flags d) VRING_DESC_F_WRITE =? 0) = true) ds.
Proof.
  intros H. eapply Forall_impl; [|exact H]. apply is_read_desc_flag.
Qed.

Lemma chain_bytes_skip (m : guest_ram) (pre rest : list VIRTIODesc) (p : Z) :
  Forall (fun d => 0 <= d_len d) pre ->
  chain_len pre <= p ->
  nth (Z.to_nat p) (chain_bytes m (pre ++ rest)) 0 =
  nth (Z.to_nat (p - chain_len pre)) (chain_bytes m rest) 0.
Proof.
  revert p. induction pre as [|d pre IH]; intros p Hl Hp.
  - cbn [app chain_len fold_right]. rewrite Z.sub_0_r. reflexivity.
  - inversion Hl as [|? ? Hl1 Hl2]; subst.
    pose proof (chain_len_nonneg pre Hl2) as Hpre.
    cbn [chain_len fold_right] in *. fold (chain_len pre) in *.
    cbn [app]. rewrite chain_bytes_cons_high by lia.
    rewrite IH by (assumption || lia). f_equal. lia.
Qed.

Lemma memcpy_from_queue_get (fuel : nat) s (buf : list Z)
    (q idx offset count : Z) (rs : list VIRTIODesc) :
  desc_path s q (get_desc s q idx) rs ->
  Forall is_read_desc (get_desc s q idx :: rs) ->
  chain_len (get_desc s q idx :: rs) < 2147483648 ->
  0 <= offset -> 0 < count ->
  offset + count <= chain_len (get_desc s q idx :: rs) ->
  count <= Z.of_nat (length buf) ->
  (length rs < fuel)%nat ->
  exists buf',
    memcpy_from_queue fuel s buf q idx offset count = Ok (0, buf') /\
    length buf' = length buf /\
    forall j, buf_get buf' j =
      if (0 <=? j) && (j <? count)
      then nth (Z.to_nat (offset + j))
             (chain_bytes (ram s) (get_desc s q idx :: rs)) 0
      else buf_get buf j.
Proof.
  intros Hc Hr Ht H0 Hcnt Hfit Hbuf Hf.
  assert (Hl : Forall (fun d => 0 <= d_len d) (get_desc s q idx :: rs)).
  { constructor; [apply get_desc_len_range|].
    exact (desc_path_len_nonneg _ s q _ Hc). }
  destruct (find_desc_at_offset_chain 0 rs fuel s q _ offset Hc
              (is_read_desc_flags _ Hr) Hl Ht)
    as (pre & di & post & E & F & R & C); [lia | exact Hf |].
  rewrite E in Hr, Hl, Ht, Hfit.
  apply Forall_app in Hr. destruct Hr as [_ Hr].
  pose proof Hl as Hl'. apply Forall_app in Hl'. destruct Hl' as [Hlpre Hlpost].
  pose proof (chain_len_nonneg pre Hlpre) as Hpre.
  rewrite chain_len_app in Ht, Hfit.
  inversion Hr as [|? ? Hr1 Hr2]; subst.
  destruct (copy_queue_loop_chain post fuel s buf 0 q di
              (offset - chain_len pre) count C Hr2 Hlpost)
    as (buf' & Ecopy & L & G).
  - lia.
  - lia.
  - exact Hcnt.
  - lia.
  - lia.
  - lia.
  - assert (length (get_desc s q idx :: rs) = length (pre ++ di :: post))
      by (rewrite E; reflexivity).
    rewrite length_app in H. cbn [length] in H. lia.
  - exists buf'.
    split.
    { apply (memcpy_from_queue_parts fuel s buf q idx offset count di
               (offset - chain_len pre) 0 buf' s); [lia | exact F | exact Ecopy]. }
    split; [exact L|].
    intros j. rewrite G. rewrite E.
    destruct ((0 <=? j) && (j <? 0 + count)) eqn:B.
    + apply andb_true_iff in B. destruct B as [B1 B2].
      apply Z.leb_le in B1. apply Z.ltb_lt in B2.
      destruct (Z.leb_spec 0 j); [|lia].
      destruct (Z.ltb_spec j count); [|lia]. cbn [andb].
      rewrite chain_bytes_skip by (assumption || lia).
      f_equal. f_equal. lia.
    + replace (0 + count) with count in B by lia. rewrite B. reflexivity.
Qed.

Lemma chain_bytes_length (m : guest_ram) (ds : list VIRTIODesc) :
  Forall (fun d => 0 <= d_len d) ds ->
  Z.of_nat (length (chain_bytes m ds)) = chain_len ds.
Proof.
  induction 1 as [|d r Hd Hr IH]; [reflexivity|].
  unfold chain_bytes in *. cbn [flat_map chain_len fold_right].
  fold (chain_len r). rewrite length_app, Nat2Z.inj_add, IH.
  rewrite desc_bytes_length. lia.
Qed.

Lemma list_eq_by_get (l l' : list Z) :
  length l = length l' ->
  (forall j, 0 <= j < Z.of_nat (length l) -> buf_get l j = buf_get l' j) ->
  l = l'.
Proof.
  intros L H. apply (nth_ext _ _ 0 0 L). intros i Hi.
  specialize (H (Z.of_nat i) ltac:(lia)). unfold buf_get in H.
  destruct (Z.ltb_spec (Z.of_nat i) 0); [lia|].
  rewrite Nat2Z.id in H. exact H.
Qed.

(** A copy that fills the whole host buffer. *)
Lemma memcpy_from_queue_whole (fuel : nat) s (buf : list Z)
    (q idx offset : Z) (rs : list VIRTIODesc) :
  desc_path s q (get_desc s q idx) rs ->
  Forall is_read_desc (get_desc s q idx :: rs) ->
  chain_len (get_desc s q idx :: rs) < 2147483648 ->
  0 <= offset -> (0 < length buf)%nat ->
  offset + Z.of_nat (length buf) <= chain_len (get_desc s q idx :: rs) ->
  (length rs < fuel)%nat ->
  memcpy_from_queue fuel s buf q idx offset (Z.of_nat (length buf)) =
  Ok (0, firstn (length buf)
           (skipn (Z.to_nat offset)
              (chain_bytes (ram s) (get_desc s q idx :: rs)))).
Proof.
  intros Hc Hr Ht H0 Hn Hfit Hf.
  destruct (memcpy_from_queue_get fuel s buf q idx offset
              (Z.of_nat (length buf)) rs Hc Hr Ht H0 ltac:(lia) Hfit
              ltac:(lia) Hf) as (buf' & E & L & G).
  rewrite E. f_equal. f_equal.
  assert (Hl : Forall (fun d => 0 <= d_len d) (get_desc s q idx :: rs)).
  { constructor; [apply get_desc_len_range|].
    exact (desc_path_len_nonneg _ s q _ Hc). }
  pose proof (chain_bytes_length (ram s) _ Hl) as CL.
  apply list_eq_by_get.
  - rewrite L, length_firstn, length_skipn. lia.
  - intros j Hj. rewrite L in Hj. rewrite G.
    destruct (Z.leb_spec 0 j); [|lia].
    destruct (Z.ltb_spec j (Z.of_nat (length buf))); [|lia].
    cbn [andb]. unfold buf_get at 1.
    destruct (Z.ltb_spec j 0); [lia|].
    rewrite nth_firstn.
    destruct (Nat.ltb_spec (Z.to_nat j) (length buf)); [|lia].
    rewrite nth_skipn. f_equal. lia.
Qed.

(** X15: on a chain that starts with device-readable descriptors
    [d :: rs] holding [offset + count] bytes, [memcpy_from_queue] returns
    0 and fills the first [count] positions of the host buffer with the
    bytes of the chain from position [offset] on, taken from the guest
    buffers of the descriptors one after the other; the rest of the host
    buffer is left as it was. *)
Theorem memcpy_from_queue_chain (fuel : nat) s (buf : list Z)
    (q idx offset count : Z) (rs : list VIRTIODesc) :
  desc_path s q (get_desc s q idx) rs ->
  Forall is_read_desc (get_desc s q idx :: rs) ->
  chain_len (get_desc s q idx :: rs) < 2147483648 ->
  0 <= offset -> 0 < count ->
  offset + count <= chain_len (get_desc s q idx :: rs) ->
  count <= Z.of_nat (length buf) ->
  (length rs < fuel)%nat ->
  exists buf',
    memcpy_from_queue fuel s buf q idx offset count = Ok (0, buf') /\
    length buf' = length buf /\
    firstn (Z.to_nat count) buf' =
      firstn (Z.to_nat count)
        (skipn (Z.to_nat offset)
           (chain_bytes (ram s) (get_desc s q idx :: rs))) /\
    skipn (Z.to_nat count) buf' = skipn (Z.to_nat count) buf.
Proof.
  intros Hc Hr Ht H0 Hcnt Hfit Hbuf Hf.
  destruct (memcpy_from_queue_get fuel s buf q idx offset count rs
              Hc Hr Ht H0 Hcnt Hfit Hbuf Hf) as (buf' & E & L & G).
  exists buf'. split; [exact E|]. split; [exact L|].
  assert (Hl : Forall (fun d => 0 <= d_len d) (get_desc s q idx :: rs)).
  { constructor; [apply get_desc_len_range|].
    exact (desc_path_len_nonneg _ s q _ Hc). }
  pose proof (chain_bytes_length (ram s) _ Hl) as CL.
  split.
  - apply list_eq_by_get.
    + rewrite !length_firstn, length_skipn. lia.
    + intros j Hj. rewrite length_firstn in Hj.
      unfold buf_get. destruct (Z.ltb_spec j 0); [lia|].
      rewrite !nth_firstn.
      destruct (Nat.ltb_spec (Z.to_nat j) (Z.to_nat count)); [|lia].
      rewrite nth_skipn.
      pose proof (G j) as Gj. unfold buf_get at 1 in Gj.
      destruct (Z.ltb_spec j 0); [lia|]. rewrite Gj.
      destruct (Z.leb_spec 0 j); [|lia].
      destruct (Z.ltb_spec j count); [|lia].
      cbn [andb]. f_equal. lia.
  - apply list_eq_by_get.
    + rewrite !length_skipn. lia.
    + intros j Hj. rewrite length_skipn in Hj.
      unfold buf_get. destruct (Z.ltb_spec j 0); [lia|].
      rewrite !nth_skipn.
      pose proof (G (Z.of_nat (Z.to_nat count + Z.to_nat j))) as Gj.
      unfold buf_get in Gj.
      destruct (Z.ltb_spec (Z.of_nat (Z.to_nat count + Z.to_nat j)) 0);
        [lia|].
      rewrite Nat2Z.id in Gj. rewrite Gj.
      destruct (Z.ltb_spec (Z.of_nat (Z.to_nat count + Z.to_nat j)) count);
        [lia|].
      rewrite andb_false_r. reflexivity.
Qed.

End CopyFromChain.

Lemma memcpy_from_queue_chain_witness :
  exists buf',
    memcpy_from_queue 4 (blk_setup read_request_ram) (repeat 0 16%nat)
      0 0 0 16 = Ok (0, buf') /\
    length buf' = length (repeat 0 16%nat) /\
    firstn (Z.to_nat 16) buf' =
      firstn (Z.to_nat 16)
        (skipn (Z.to_nat 0)
           (chain_bytes (ram (blk_setup read_request_ram))
              (get_desc (blk_setup read_request_ram) 0 0 :: []))) /\
    skipn (Z.to_nat 16) buf' = skipn (Z.to_nat 16) (repeat 0 16%nat).
Proof.
  apply (memcpy_from_queue_chain 4 (blk_setup read_request_ram)
           (repeat 0 16%nat) 0 0 0 16 []).
  - exact I.
  - constructor; [vm_compute; reflexivity | constructor].
  - vm_compute. reflexivity.
  - lia.
  - lia.
  - vm_compute. discriminate.
  - vm_compute. discriminate.
  - cbn. lia.
Defined.

(** ** Sizes of a chain, without overflow *)

Lemma len_total_chain_len (ds : list VIRTIODesc) :
  forall acc,
    Forall (fun d => 0 <= d_len d) ds ->
    0 <= acc -> acc + chain_len ds < 2147483648 ->
    len_total acc ds = acc + chain_len ds.
Proof.
  induction ds as [|d ds IH]; intros acc Hl Ha Hb.
  - cbn. lia.
  - inversion Hl as [|? ? Hl1 Hl2]; subst.
    pose proof (chain_len_nonneg ds Hl2) as Hn.
    cbn [chain_len fold_right] in *. fold (chain_len ds) in *.
    unfold len_total. cbn [fold_left]. fold (len_total (s32 (acc + d_len d)) ds).
    rewrite (s32_small (acc + d_len d)) by lia.
    rewrite IH by (assumption || lia). lia.
Qed.

Section ChainSizesPlain.
Context {X : Type}.
Implicit Type s : VIRTIODevice X.

Lemma desc_chain_path (rest : list VIRTIODesc) :
  forall s (q : Z) (d : VIRTIODesc),
    desc_chain s q d rest -> desc_path s q d rest.
Proof.
  induction rest as [|d' r IH]; intros s q d Hc; [exact I|].
  cbn [desc_chain desc_path] in *. destruct Hc as (Hn & Hd & Hc).
  split; [exact Hn|]. split; [exact Hd|]. apply (IH s q d' Hc).
Qed.

(** The sizes of a well-formed chain whose parts are shorter than 2^31
    bytes. *)
Lemma get_desc_rw_size_plain (fuel : nat) s (q idx : Z)
    (rest rs ws : list VIRTIODesc) :
  desc_chain s q (get_desc s q idx) rest ->
  get_desc s q idx :: rest = rs ++ ws ->
  Forall is_read_desc rs -> Forall is_write_desc ws ->
  chain_len rs < 2147483648 -> chain_len ws < 2147483648 ->
  (S (length rest) < fuel)%nat ->
  get_desc_rw_size fuel s q idx = Ok (Some (chain_len rs, chain_len ws)).
Proof.
  intros Hc He Hr Hw Hlr Hlw Hf.
  assert (Hl : Forall (fun d => 0 <= d_len d) (rs ++ ws)).
  { rewrite <- He. constructor; [apply get_desc_len_range|].
    apply (desc_path_len_nonneg _ s q _ (desc_chain_path _ s q _ Hc)). }
  apply Forall_app in Hl. destruct Hl as [Hlrs Hlws].
  assert (Len : length (get_desc s q idx :: rest) = length (rs ++ ws))
    by (rewrite He; reflexivity).
  cbn [length] in Len.
  rewrite (get_desc_rw_size_walk fuel s q idx rest rs ws [] Hc).
  - rewrite !len_total_chain_len by (assumption || lia). reflexivity.
  - rewrite app_nil_r. exact He.
  - exact Hr.
  - exact Hw.
  - exact I.
  - lia.
Qed.

(** X14: on a chain made of device-readable descriptors [rs] followed by
    device-writable descriptors [ws], [get_desc_rw_size] returns the sum
    of the lengths of [rs] and the sum of the lengths of [ws], each
    accumulated in an [int] (the plain sums when they are below 2^31);
    if a device-readable descriptor comes after [ws] the chain is
    rejected. *)
Theorem get_desc_rw_size_chain (fuel : nat) s (q idx : Z)
    (rest rs ws tail : list VIRTIODesc) :
  desc_chain s q (get_desc s q idx) rest ->
  get_desc s q idx :: rest = rs ++ ws ++ tail ->
  Forall is_read_desc rs -> Forall is_write_desc ws ->
  match tail with
  | [] => True
  | r :: _ => ws <> [] /\ is_read_desc r
  end ->
  (length (rs ++ ws) < fuel)%nat ->
  get_desc_rw_size fuel s q idx =
  Ok (match tail with
      | [] => Some (len_total 0 rs, len_total 0 ws)
      | _ :: _ => None
      end) /\
  (chain_len rs < 2147483648 -> len_total 0 rs = chain_len rs) /\
  (chain_len ws < 2147483648 -> len_total 0 ws = chain_len ws).
Proof.
  intros Hc He Hr Hw Ht Hf.
  split; [exact (get_desc_rw_size_walk fuel s q idx rest rs ws tail Hc He
                   Hr Hw Ht Hf)|].
  assert (Hl : Forall (fun d => 0 <= d_len d) (rs ++ ws ++ tail)).
  { rewrite <- He. constructor; [apply get_desc_len_range|].
    apply (desc_path_len_nonneg _ s q _ (desc_chain_path _ s q _ Hc)). }
  apply Forall_app in Hl. destruct Hl as [Hlrs Hl].
  apply Forall_app in Hl. destruct Hl as [Hlws _].
  split; intros Hb; apply len_total_chain_len;
    first [assumption | lia].
Qed.

End ChainSizesPlain.

Lemma get_desc_rw_size_chain_witness :
  get_desc_rw_size 4 (blk_setup read_request_ram) 0 0 =
    Ok (Some (len_total 0 [mkVIRTIODesc 0x4000 16 1 1],
              len_total 0 [mkVIRTIODesc 0x5000 512 3 2;
                           mkVIRTIODesc 0x5200 1 2 0])) /\
  (chain_len [mkVIRTIODesc 0x4000 16 1 1] < 2147483648 ->
   len_total 0 [mkVIRTIODesc 0x4000 16 1 1] =
   chain_len [mkVIRTIODesc 0x4000 16 1 1]) /\
  (chain_len [mkVIRTIODesc 0x5000 512 3 2; mkVIRTIODesc 0x5200 1 2 0]
   < 2147483648 ->
   len_total 0 [mkVIRTIODesc 0x5000 512 3 2; mkVIRTIODesc 0x5200 1 2 0] =
   chain_len [mkVIRTIODesc 0x5000 512 3 2; mkVIRTIODesc 0x5200 1 2 0]).
Proof.
  apply (get_desc_rw_size_chain 4 (blk_setup read_request_ram) 0 0
           [mkVIRTIODesc 0x5000 512 3 2; mkVIRTIODesc 0x5200 1 2 0]
           [mkVIRTIODesc 0x4000 16 1 1]
           [mkVIRTIODesc 0x5000 512 3 2; mkVIRTIODesc 0x5200 1 2 0]
           []).
  - vm_compute. repeat split.
  - vm_compute. reflexivity.
  - repeat constructor.
  - repeat constructor.
  - exact I.
  - cbn. lia.
Defined.

(** ** Stores of byte strings *)

Lemma map_seq_shift {A : Type} (f : nat -> A) (n m : nat) :
  map f (seq n m) = map (fun i => f (n + i)%nat) (seq 0 m).
Proof.
  revert f n. induction m as [|m IH]; intros f n; [reflexivity|].
  cbn [seq map]. rewrite Nat.add_0_r. f_equal.
  rewrite (IH f (S n)), (IH (fun i => f (n + i)%nat) 1%nat).
  apply map_ext. intros i. f_equal. lia.
Qed.

Lemma addr_run_length (a : Z) (n : nat) : length (addr_run a n) = n.
Proof. unfold addr_run. rewrite length_map, length_seq. reflexivity. Qed.

Lemma addr_run_app (a : Z) (n m : nat) :
  addr_run a (n + m) = addr_run a n ++ addr_run (a + Z.of_nat n) m.
Proof.
  unfold addr_run. rewrite seq_app, map_app. f_equal.
  cbn [Nat.add]. rewrite map_seq_shift. apply map_ext. intros i. lia.
Qed.

Lemma nth_addr_run (a : Z) (n i : nat) :
  (i < n)%nat -> nth i (addr_run a n) 0 = a + Z.of_nat i.
Proof.
  intros Hi. unfold addr_run.
  rewrite (nth_indep _ 0 ((fun i => a + Z.of_nat i) 0%nat))
    by (rewrite length_map, length_seq; exact Hi).
  pose proof (map_nth (fun i => a + Z.of_nat i) (seq 0 n) 0%nat i) as M.
  cbv beta in M. rewrite M. rewrite seq_nth by exact Hi. reflexivity.
Qed.

Lemma buf_sub_app (buf : list Z) (bpos : Z) (n m : nat) :
  buf_sub buf bpos (Z.of_nat (n + m)) =
  buf_sub buf bpos (Z.of_nat n) ++
  buf_sub buf (bpos + Z.of_nat n) (Z.of_nat m).
Proof.
  unfold buf_sub. rewrite !Nat2Z.id. rewrite seq_app, map_app. f_equal.
  cbn [Nat.add]. rewrite map_seq_shift. apply map_ext. intros i.
  f_equal. lia.
Qed.

Lemma buf_sub_shift (buf : list Z) (p p' c : Z) :
  p = p' -> buf_sub buf p c = buf_sub buf p' c.
Proof. intros ->. reflexivity. Qed.

Lemma write_bytes_app (a1 b1 a2 b2 : list Z) :
  forall m, length a1 = length b1 ->
    write_bytes m (a1 ++ a2) (b1 ++ b2) =
    write_bytes (write_bytes m a1 b1) a2 b2.
Proof.
  revert b1. induction a1 as [|a a1 IH]; intros [|b b1] m H;
    try discriminate H; [reflexivity|].
  cbn [app write_bytes]. apply IH. injection H as H. exact H.
Qed.

Lemma write_bytes_ext (a1 : list Z) :
  forall (a2 bs : list Z) (m1 m2 : guest_ram),
    (forall x, m1 x = m2 x) ->
    Forall2 (fun a a' => u64 a = u64 a') a1 a2 ->
    forall x, write_bytes m1 a1 bs x = write_bytes m2 a2 bs x.
Proof.
  induction a1 as [|a a1 IH]; intros a2 bs m1 m2 Hm Ha x.
  - inversion Ha; subst. cbn [write_bytes]. apply Hm.
  - inversion Ha as [|? a' ? a2' Hh Ht]; subst.
    destruct bs as [|b bs]; cbn [write_bytes]; [apply Hm|].
    apply IH; [|exact Ht]. intros y. unfold store_u8.
    rewrite Hh. rewrite Hm. reflexivity.
Qed.

Lemma Forall2_map_seq (f g : nat -> Z) (n : nat) :
  (forall i, (i < n)%nat -> u64 (f i) = u64 (g i)) ->
  Forall2 (fun a a' => u64 a = u64 a') (map f (seq 0 n)) (map g (seq 0 n)).
Proof.
  intros H.
  assert (G : forall k, (forall i, In i k -> (i < n)%nat) ->
                Forall2 (fun a a' => u64 a = u64 a') (map f k) (map g k)).
  { induction k as [|i k IH]; intros Hk; cbn [map]; constructor.
    - apply H. apply Hk. left. reflexivity.
    - apply IH. intros j Hj. apply Hk. right. exact Hj. }
  apply G. intros i Hi. apply in_seq in Hi. lia.
Qed.

Lemma write_bytes_other (addrs : list Z) :
  forall (bytes : list Z) (m : guest_ram) (a : Z),
    (forall a', In a' addrs -> u64 a' <> u64 a) ->
    load_u8 (write_bytes m addrs bytes) a = load_u8 m a.
Proof.
  induction addrs as [|a0 addrs IH]; intros bytes m a H; [reflexivity|].
  destruct bytes as [|b bytes]; [reflexivity|].
  cbn [write_bytes]. rewrite IH.
  - apply load_u8_store_u8_other. intros E. apply (H a0); [left; reflexivity|].
    symmetry. exact E.
  - intros a' Ha'. apply H. right. exact Ha'.
Qed.

Section CopyToRam.
Context {X : Type}.
Implicit Type s : VIRTIODevice X.

Lemma memcpy_to_ram_intrapage_loop_ram (n : nat) :
  forall s (addr : Z) (buf : list Z) (bpos l x : Z),
    ram (memcpy_to_ram_intrapage_loop n s addr buf bpos l) x =
    write_bytes (ram s) (addr_run (addr + l) n)
      (buf_sub buf (bpos + l) (Z.of_nat n)) x.
Proof.
  induction n as [|n IH]; intros s addr buf bpos l x; [reflexivity|].
  cbn [memcpy_to_ram_intrapage_loop]. rewrite IH.
  change (S n) with (1 + n)%nat.
  rewrite addr_run_app, buf_sub_app.
  rewrite write_bytes_app by reflexivity.
  rewrite (buf_sub_shift buf (bpos + l + Z.of_nat 1) (bpos + (l + 1)))
    by lia.
  assert (B1 : buf_sub buf (bpos + l) (Z.of_nat 1) = [buf_get buf (bpos + l)]).
  { unfold buf_sub. rewrite Nat2Z.id. cbn [seq map Z.of_nat].
    rewrite Z.add_0_r. reflexivity. }
  assert (A1 : addr_run (addr + l) 1 = [addr + l]).
  { unfold addr_run. cbn [seq map Z.of_nat]. rewrite Z.add_0_r.
    reflexivity. }
  rewrite A1, B1.
  apply write_bytes_ext.
  - intros y. reflexivity.
  - unfold addr_run. apply Forall2_map_seq. intros i _. f_equal. lia.
Qed.

Lemma virtio_memcpy_to_ram_loop_ram (n : nat) :
  forall s (addr : Z) (buf : list Z) (bpos count x : Z),
    (Z.to_nat count <= n)%nat ->
    ram (virtio_memcpy_to_ram_loop n s addr buf bpos count) x =
    write_bytes (ram s) (addr_run addr (Z.to_nat count))
      (buf_sub buf bpos count) x.
Proof.
  induction n as [|n IH]; intros s addr buf bpos count x Hn.
  - assert (Z.to_nat count = 0%nat) as E by lia.
    cbn [virtio_memcpy_to_ram_loop]. rewrite E. reflexivity.
  - cbn [virtio_memcpy_to_ram_loop].
    destruct (Z.ltb_spec 0 count) as [Hc|Hc].
    2:{ replace (Z.to_nat count) with 0%nat by lia. reflexivity. }
    pose proof (page_round_positive addr count Hc) as Hl.
    set (l := min_int count
                (VIRTIO_PAGE_SIZE - Z.land addr (VIRTIO_PAGE_SIZE - 1))) in *.
    clearbody l.
    rewrite IH by lia.
    assert (EA : addr_run addr (Z.to_nat count) =
                 addr_run addr (Z.to_nat l) ++
                 addr_run (addr + l) (Z.to_nat (count - l))).
    { replace (Z.to_nat count) with (Z.to_nat l + Z.to_nat (count - l))%nat
        by lia.
      rewrite addr_run_app. rewrite Z2Nat.id by lia. reflexivity. }
    assert (EB : buf_sub buf bpos count =
                 buf_sub buf bpos l ++ buf_sub buf (bpos + l) (count - l)).
    { replace count with (Z.of_nat (Z.to_nat l + Z.to_nat (count - l))) at 1
        by lia.
      rewrite buf_sub_app. rewrite !Z2Nat.id by lia. reflexivity. }
    rewrite EA, EB.
    rewrite write_bytes_app
      by (rewrite addr_run_length, buf_sub_length; reflexivity).
    apply write_bytes_ext.
    + intros y. unfold memcpy_to_ram_intrapage.
      rewrite memcpy_to_ram_intrapage_loop_ram.
      rewrite Z.add_0_r, Z2Nat.id by lia. rewrite Z.add_0_r. reflexivity.
    + unfold addr_run. apply Forall2_map_seq. intros i _.
      rewrite u64_add_l. reflexivity.
Qed.

Lemma virtio_memcpy_to_ram_ram s (addr : Z) (buf : list Z)
    (bpos count x : Z) :
  ram (virtio_memcpy_to_ram s addr buf bpos count) x =
  write_bytes (ram s) (addr_run addr (Z.to_nat count))
    (buf_sub buf bpos count) x.
Proof.
  unfold virtio_memcpy_to_ram. apply virtio_memcpy_to_ram_loop_ram.
  apply le_n.
Qed.

End CopyToRam.

(** ** Copies to a chain *)

Lemma land_write_cases (x : Z) :
  Z.land x VRING_DESC_F_WRITE = 0 \/
  Z.land x VRING_DESC_F_WRITE = VRING_DESC_F_WRITE.
Proof.
  unfold VRING_DESC_F_WRITE. change 2 with (2 ^ 1).
  destruct (Z.testbit x 1) eqn:B; [right|left]; apply Z.bits_inj';
    intros n Hn; rewrite Z.land_spec, ?Z.bits_0, ?Z.pow2_bits_eqb by lia;
    destruct (Z.eqb_spec 1 n) as [<-|]; rewrite ?B, ?andb_false_r;
    reflexivity.
Qed.

Lemma is_write_desc_flag (d : VIRTIODesc) :
  is_write_desc d ->
  (Z.land (d_flags d) VRING_DESC_F_WRITE =? VRING_DESC_F_WRITE) = true.
Proof.
  unfold is_write_desc, has_flag. intros H. apply negb_true_iff in H.
  destruct (land_write_cases (d_flags d)) as [E|E]; rewrite E in *.
  - discriminate H.
  - apply Z.eqb_refl.
Qed.

Lemma is_write_desc_flags (ds : list VIRTIODesc) :
  Forall is_write_desc ds ->
  Forall (fun d => (Z.land (d_flags d) VRING_DESC_F_WRITE
                    =? VRING_DESC_F_WRITE) = true) ds.
Proof.
  intros H. eapply Forall_impl; [|exact H]. apply is_write_desc_flag.
Qed.

Lemma chain_links_cons (d d' : VIRTIODesc) (r : list VIRTIODesc) :
  chain_links (d :: d' :: r) = d_next d :: chain_links (d' :: r).
Proof. reflexivity. Qed.

Lemma chain_links_suffix (pre : list VIRTIODesc) :
  forall (ds : list VIRTIODesc) (i : Z),
    In i (chain_links ds) -> In i (chain_links (pre ++ ds)).
Proof.
  induction pre as [|p pre IH]; intros ds i Hi; [exact Hi|].
  cbn [app]. specialize (IH ds i Hi).
  destruct (pre ++ ds) as [|x r] eqn:E; [contradiction IH|].
  rewrite chain_links_cons. right. exact IH.
Qed.

Lemma Forall2_u64_refl (l : list Z) :
  Forall2 (fun a a' => u64 a = u64 a') l l.
Proof. induction l; constructor; [reflexivity | assumption]. Qed.

Lemma chain_addrs_length (ds : list VIRTIODesc) :
  Forall (fun d => 0 <= d_len d) ds ->
  Z.of_nat (length (chain_addrs ds)) = chain_len ds.
Proof.
  induction 1 as [|d r Hd Hr IH]; [reflexivity|].
  unfold chain_addrs in *. cbn [flat_map chain_len fold_right].
  fold (chain_len r). rewrite length_app, Nat2Z.inj_add, IH.
  unfold desc_addrs. rewrite addr_run_length. lia.
Qed.

Lemma skipn_addr_run (a : Z) (n k : nat) :
  (k <= n)%nat -> skipn k (addr_run a n) = addr_run (a + Z.of_nat k) (n - k).
Proof.
  intros Hk. replace n with (k + (n - k))%nat at 1 by lia.
  rewrite addr_run_app.
  rewrite skipn_app, addr_run_length, Nat.sub_diag.
  rewrite skipn_all2 by (rewrite addr_run_length; apply le_n).
  reflexivity.
Qed.

Lemma firstn_addr_run (a : Z) (n k : nat) :
  (k <= n)%nat -> firstn k (addr_run a n) = addr_run a k.
Proof.
  intros Hk. replace n with (k + (n - k))%nat at 1 by lia.
  rewrite addr_run_app.
  rewrite firstn_app, addr_run_length, Nat.sub_diag.
  rewrite firstn_all2 by (rewrite addr_run_length; apply le_n).
  cbn [firstn]. apply app_nil_r.
Qed.

Lemma in_addr_run (a : Z) (n : nat) (x : Z) :
  In x (addr_run a n) -> exists k, 0 <= k < Z.of_nat n /\ x = a + k.
Proof.
  unfold addr_run. intros H. apply in_map_iff in H.
  destruct H as (i & <- & Hi). apply in_seq in Hi.
  exists (Z.of_nat i). split; [lia | reflexivity].
Qed.

Section CopyToChain.
Context {X : Type}.
Implicit Type s : VIRTIODevice X.

Lemma get_desc_same s (s1 : VIRTIODevice X) (q i : Z) :
  queue s1 = queue s ->
  (forall b, 0 <= b < 16 ->
     load_u8 (ram s1) (desc_addr (queue s q) + u64 i * 16 + b) =
     load_u8 (ram s) (desc_addr (queue s q) + u64 i * 16 + b)) ->
  get_desc s1 q i = get_desc s q i.
Proof.
  intros Hq H. rewrite !get_desc_layout. cbv zeta. rewrite Hq.
  set (a := desc_addr (queue s q) + u64 i * 16) in *. clearbody a.
  pose proof (H 0 ltac:(lia)) as H0. rewrite Z.add_0_r in H0.
  unfold load_u64, load_u32, load_u16.
  rewrite <- !Z.add_assoc. cbn [Z.add Pos.add Pos.succ Pos.add_carry].
  rewrite !H by lia. rewrite H0. reflexivity.
Qed.

Lemma desc_path_same (rest : list VIRTIODesc) :
  forall s (s1 : VIRTIODevice X) (q : Z) (d : VIRTIODesc),
    queue s1 = queue s ->
    (forall i b, In i (chain_links (d :: rest)) -> 0 <= b < 16 ->
       load_u8 (ram s1) (desc_addr (queue s q) + u64 i * 16 + b) =
       load_u8 (ram s) (desc_addr (queue s q) + u64 i * 16 + b)) ->
    desc_path s q d rest -> desc_path s1 q d rest.
Proof.
  induction rest as [|d' r IH]; intros s s1 q d Hq H Hc; [exact I|].
  cbn [desc_path] in *. destruct Hc as (Hn & Hd & Hc).
  split; [exact Hn|]. split.
  - rewrite Hd. symmetry. apply get_desc_same; [exact Hq|].
    intros b Hb. apply H; [|exact Hb]. rewrite chain_links_cons. left.
    reflexivity.
  - apply (IH s s1 q d' Hq); [|exact Hc].
    intros i b Hi Hb. apply H; [|exact Hb]. rewrite chain_links_cons.
    right. exact Hi.
Qed.

Lemma copy_to_queue_loop_step (fuel : nat) s (buf : list Z) (bpos q : Z)
    (desc : VIRTIODesc) (offset count : Z) :
  copy_queue_loop (S fuel) s buf bpos q desc offset count true
    VRING_DESC_F_WRITE =
  let l := min_int count (s32 (d_len desc - offset)) in
  let s' := virtio_memcpy_to_ram s (u64 (d_addr desc + offset)) buf bpos l in
  if s32 (count - l) =? 0 then Ok (0, buf, s')
  else if u32 (s32 (offset + l)) =? d_len desc then
    if negb (has_flag desc VRING_DESC_F_NEXT) then Ok (-1, buf, s')
    else if negb (Z.land (d_flags (get_desc s' q (d_next desc)))
                    VRING_DESC_F_WRITE =? VRING_DESC_F_WRITE)
    then Ok (-1, buf, s')
    else copy_queue_loop fuel s' buf (bpos + l) q
           (get_desc s' q (d_next desc)) 0 (s32 (count - l)) true
           VRING_DESC_F_WRITE
  else copy_queue_loop fuel s' buf (bpos + l) q desc (s32 (offset + l))
         (s32 (count - l)) true VRING_DESC_F_WRITE.
Proof. reflexivity. Qed.

(** What a copy into the buffer of [d] from [off] leaves of the
    descriptor table. *)
Lemma copy_keeps_entry s (d : VIRTIODesc) (buf : list Z)
    (bpos off l a : Z) :
  0 <= off -> 0 <= l -> off + l <= d_len d ->
  (forall k, 0 <= k < d_len d -> u64 (d_addr d + k) <> u64 a) ->
  load_u8 (ram (virtio_memcpy_to_ram s (u64 (d_addr d + off)) buf bpos l)) a
  = load_u8 (ram s) a.
Proof.
  intros Ho Hl Hfit H. unfold load_u8 at 1.
  rewrite virtio_memcpy_to_ram_ram.
  change (u8 (write_bytes (ram s)
                (addr_run (u64 (d_addr d + off)) (Z.to_nat l))
                (buf_sub buf bpos l) (u64 a)))
    with (load_u8 (write_bytes (ram s)
                     (addr_run (u64 (d_addr d + off)) (Z.to_nat l))
                     (buf_sub buf bpos l)) a).
  apply write_bytes_other. intros a' Ha'.
  apply in_addr_run in Ha'. destruct Ha' as (k & Hk & ->).
  rewrite u64_add_l. rewrite <- Z.add_assoc. apply H. lia.
Qed.

(** The third loop on a chain of device-writable descriptors with room
    for the bytes sent. *)
Lemma copy_to_queue_loop_chain (post : list VIRTIODesc) :
  forall (fuel : nat) s (buf : list Z) (bpos q : Z) (d : VIRTIODesc)
         (off count : Z),
    desc_path s q d post ->
    Forall is_write_desc post ->
    Forall (fun d => 0 <= d_len d) (d :: post) ->
    chain_len (d :: post) < 2147483648 ->
    0 <= off <= d_len d -> 0 < count ->
    off + count <= chain_len (d :: post) ->
    buffers_clear (desc_addr (queue s q)) (d :: post)
      (chain_links (d :: post)) ->
    (length post < fuel)%nat ->
    exists s',
      copy_queue_loop fuel s buf bpos q d off count true VRING_DESC_F_WRITE
        = Ok (0, buf, s') /\
      forall x, ram s' x =
        write_bytes (ram s)
          (firstn (Z.to_nat count)
             (skipn (Z.to_nat off) (chain_addrs (d :: post))))
          (buf_sub buf bpos count) x.
Proof.
  induction post as [|d' post IH];
    intros fuel s buf bpos q d off count Hc Hw Hl Ht Ho Hcnt Hfit Hclear Hf.
  - cbn [chain_len fold_right] in Hfit, Ht.
    destruct fuel as [|fuel]; [inversion Hf|].
    rewrite copy_to_queue_loop_step. cbv zeta.
    rewrite (s32_small (d_len d - off)) by lia.
    assert (El : min_int count (d_len d - off) = count).
    { unfold min_int. destruct (Z.ltb_spec count (d_len d - off)); lia. }
    rewrite El, Z.sub_diag. change (s32 0 =? 0) with true. cbv iota.
    eexists. split; [reflexivity|].
    intros x. rewrite virtio_memcpy_to_ram_ram.
    unfold chain_addrs. cbn [flat_map]. rewrite app_nil_r.
    unfold desc_addrs. rewrite skipn_addr_run by lia.
    rewrite firstn_addr_run by lia.
    apply write_bytes_ext; [reflexivity|].
    unfold addr_run. apply Forall2_map_seq. intros i _.
    rewrite u64_add_l. f_equal. lia.
  - inversion Hw as [|? ? Hw1 Hw2]; subst.
    inversion Hl as [|? ? Hl1 Hl2]; subst.
    inversion Hl2 as [|? ? Hl3 Hl4]; subst.
    pose proof (chain_len_nonneg post Hl4) as Hpost.
    cbn [chain_len fold_right] in Hfit, Ht. fold (chain_len post) in Hfit, Ht.
    cbn [desc_path] in Hc. destruct Hc as (Hn & Hd & Hc).
    destruct fuel as [|fuel]; [inversion Hf|].
    rewrite copy_to_queue_loop_step. cbv zeta.
    rewrite (s32_small (d_len d - off)) by lia.
    assert (Eaddrs : skipn (Z.to_nat off) (chain_addrs (d :: d' :: post)) =
                     addr_run (d_addr d + off) (Z.to_nat (d_len d - off)) ++
                     chain_addrs (d' :: post)).
    { unfold chain_addrs at 1. cbn [flat_map].
      fold (chain_addrs post).
      change (desc_addrs d' ++ chain_addrs post)
        with (chain_addrs (d' :: post)).
      rewrite skipn_app. unfold desc_addrs at 1 2.
      rewrite addr_run_length.
      rewrite skipn_addr_run by lia.
      replace (Z.to_nat off - Z.to_nat (d_len d))%nat with 0%nat by lia.
      cbn [skipn]. rewrite Z2Nat.id by lia. f_equal. f_equal. lia. }
    rewrite Eaddrs.
    destruct (Z.le_gt_cases count (d_len d - off)) as [Hin|Hout].
    + assert (El : min_int count (d_len d - off) = count).
      { unfold min_int. destruct (Z.ltb_spec count (d_len d - off)); lia. }
      rewrite El, Z.sub_diag. change (s32 0 =? 0) with true. cbv iota.
      eexists. split; [reflexivity|].
      intros x. rewrite virtio_memcpy_to_ram_ram.
      rewrite firstn_app, addr_run_length.
      rewrite firstn_addr_run by lia.
      replace (Z.to_nat count - Z.to_nat (d_len d - off))%nat with 0%nat
        by lia.
      cbn [firstn]. rewrite app_nil_r.
      apply write_bytes_ext; [reflexivity|].
      unfold addr_run. apply Forall2_map_seq. intros i _.
      rewrite u64_add_l. reflexivity.
    + assert (El : min_int count (d_len d - off) = d_len d - off).
      { unfold min_int. destruct (Z.ltb_spec count (d_len d - off)); lia. }
      rewrite El.
      rewrite (s32_small (count - (d_len d - off))) by lia.
      destruct (Z.eqb_spec (count - (d_len d - off)) 0); [lia|].
      replace (off + (d_len d - off)) with (d_len d) by lia.
      rewrite (s32_small (d_len d)) by lia.
      rewrite (u32_small (d_len d)) by lia.
      rewrite Z.eqb_refl. rewrite Hn. cbn [negb].
      set (s1 := virtio_memcpy_to_ram s (u64 (d_addr d + off)) buf bpos
                   (d_len d - off)).
      assert (Hq1 : queue s1 = queue s).
      { pose proof (virtio_memcpy_to_ram_ram_only s (u64 (d_addr d + off))
                      buf bpos (d_len d - off)) as R.
        apply ram_only_fields in R. exact (proj1 R). }
      assert (Hkeep : forall i b,
                 In i (chain_links (d :: d' :: post)) -> 0 <= b < 16 ->
                 load_u8 (ram s1) (desc_addr (queue s q) + u64 i * 16 + b) =
                 load_u8 (ram s) (desc_addr (queue s q) + u64 i * 16 + b)).
      { intros i b Hi Hb. unfold s1. apply copy_keeps_entry; try lia.
        intros k Hk. apply (Hclear d i k b); [left; reflexivity | | |];
          assumption. }
      assert (Ed : get_desc s1 q (d_next d) = d').
      { rewrite Hd. apply get_desc_same; [exact Hq1|].
        intros b Hb. apply Hkeep; [|exact Hb].
        rewrite chain_links_cons. left. reflexivity. }
      rewrite Ed. rewrite (is_write_desc_flag d' Hw1). cbn [negb].
      assert (Hc1 : desc_path s1 q d' post).
      { apply (desc_path_same post s s1 q d' Hq1); [|exact Hc].
        intros i b Hi Hb. apply Hkeep; [|exact Hb].
        rewrite chain_links_cons. right. exact Hi. }
      destruct (IH fuel s1 buf (bpos + (d_len d - off)) q d' 0
                  (count - (d_len d - off)) Hc1 Hw2 Hl2) as (s' & E & G).
      * cbn [chain_len fold_right]. fold (chain_len post). lia.
      * lia.
      * lia.
      * cbn [chain_len fold_right]. fold (chain_len post). lia.
      * rewrite Hq1. intros w i k b Hw' Hi Hk Hb.
        apply (Hclear w i k b); [right; exact Hw' | | exact Hk | exact Hb].
        rewrite chain_links_cons. right. exact Hi.
      * cbn [length] in Hf. lia.
      * exists s'. split; [exact E|].
        intros x. rewrite G. cbn [Z.to_nat skipn].
        rewrite (firstn_app (Z.to_nat count)
                   (addr_run (d_addr d + off) (Z.to_nat (d_len d - off)))).
        rewrite addr_run_length.
        rewrite (firstn_all2
                   (addr_run (d_addr d + off) (Z.to_nat (d_len d - off))))
          by (rewrite addr_run_length; lia).
        replace (Z.to_nat count - Z.to_nat (d_len d - off))%nat
          with (Z.to_nat (count - (d_len d - off))) by lia.
        assert (EB : buf_sub buf bpos count =
                     buf_sub buf bpos (d_len d - off) ++
                     buf_sub buf (bpos + (d_len d - off))
                       (count - (d_len d - off))).
        { replace count
            with (Z.of_nat (Z.to_nat (d_len d - off)
                            + Z.to_nat (count - (d_len d - off)))) at 1
            by lia.
          rewrite buf_sub_app. rewrite !Z2Nat.id by lia. reflexivity. }
        rewrite EB.
        rewrite write_bytes_app
          by (rewrite addr_run_length, buf_sub_length; reflexivity).
        apply write_bytes_ext; [|apply Forall2_u64_refl].
        intros y. unfold s1. rewrite virtio_memcpy_to_ram_ram.
        apply write_bytes_ext; [reflexivity|].
        unfold addr_run. apply Forall2_map_seq. intros i _.
        rewrite u64_add_l. reflexivity.
Qed.

Lemma is_read_desc_not_write (d : VIRTIODesc) :
  is_read_desc d ->
  (Z.land (d_flags d) VRING_DESC_F_WRITE =? VRING_DESC_F_WRITE) = false.
Proof.
  intros H. apply is_read_desc_flag in H. apply Z.eqb_eq in H.
  rewrite H. reflexivity.
Qed.

(** The first loop: skip the device-readable descriptors. *)
Lemma find_write_desc_chain (rs : list VIRTIODesc) :
  forall (fuel : nat) s (q : Z) (d : VIRTIODesc) (rest : list VIRTIODesc)
         (w : VIRTIODesc) (ws' : list VIRTIODesc),
    desc_path s q d rest ->
    d :: rest = rs ++ w :: ws' ->
    Forall is_read_desc rs -> is_write_desc w ->
    (length rs < fuel)%nat ->
    find_write_desc fuel s q d = Ok (Some w) /\ desc_path s q w ws'.
Proof.
  induction rs as [|r rs IH]; intros fuel s q d rest w ws' Hc He Hr Hw Hf.
  - cbn [app] in He. injection He as -> ->.
    destruct fuel as [|fuel]; [inversion Hf|].
    cbn [find_write_desc]. rewrite (is_write_desc_flag w Hw).
    split; [reflexivity | exact Hc].
  - cbn [app] in He. injection He as -> ->.
    inversion Hr as [|? ? Hr1 Hr2]; subst.
    destruct fuel as [|fuel]; [inversion Hf|].
    cbn [find_write_desc]. rewrite (is_read_desc_not_write r Hr1).
    destruct (rs ++ w :: ws') as [|d' r'] eqn:E.
    { apply app_eq_nil in E. destruct E as [_ E]. discriminate E. }
    cbn [desc_path] in Hc. destruct Hc as (Hn & Hd & Hc).
    rewrite Hn. cbn [negb]. rewrite <- Hd.
    apply (IH fuel s q d' r' w ws' Hc (eq_sym E) Hr2 Hw).
    cbn [length] in Hf. lia.
Qed.

Lemma memcpy_to_queue_parts (fuel : nat) s (buf : list Z)
    (q d offset count : Z) (w desc : VIRTIODesc) (off r : Z) (b : list Z)
    (s' : VIRTIODevice X) :
  count <> 0 ->
  find_write_desc fuel s q (get_desc s q d) = Ok (Some w) ->
  find_desc_at_offset fuel s q w offset VRING_DESC_F_WRITE
    = Ok (Some (desc, off)) ->
  copy_queue_loop fuel s buf 0 q desc off count true VRING_DESC_F_WRITE
    = Ok (r, b, s') ->
  memcpy_to_queue fuel s q d offset buf count = Ok (r, s').
Proof.
  intros Hc Hw Hf Hl. unfold memcpy_to_queue, memcpy_to_from_queue.
  destruct (Z.eqb_spec count 0); [contradiction|].
  rewrite Hw, bind_Ok, Hf, bind_Ok, Hl. reflexivity.
Qed.

Lemma chain_addrs_app (a b : list VIRTIODesc) :
  chain_addrs (a ++ b) = chain_addrs a ++ chain_addrs b.
Proof. unfold chain_addrs. apply flat_map_app. Qed.

(** The three loops of a copy to the queue, put together. *)
Lemma memcpy_to_queue_stores (fuel : nat) s (buf : list Z)
    (q idx offset count : Z) (rest rs ws : list VIRTIODesc) :
  desc_path s q (get_desc s q idx) rest ->
  get_desc s q idx :: rest = rs ++ ws ->
  Forall is_read_desc rs -> Forall is_write_desc ws ->
  chain_len ws < 2147483648 ->
  0 <= offset -> 0 < count -> offset + count <= chain_len ws ->
  buffers_clear (desc_addr (queue s q)) ws (chain_links ws) ->
  (length rest < fuel)%nat ->
  exists s',
    memcpy_to_queue fuel s q idx offset buf count = Ok (0, s') /\
    forall x, ram s' x =
      write_bytes (ram s)
        (firstn (Z.to_nat count) (skipn (Z.to_nat offset) (chain_addrs ws)))
        (buf_sub buf 0 count) x.
Proof.
  intros Hc He Hr Hw Ht H0 Hcnt Hfit Hclear Hf.
  destruct ws as [|w ws'].
  { cbn [chain_len fold_right] in Hfit. lia. }
  assert (Len : length (get_desc s q idx :: rest) = length (rs ++ w :: ws'))
    by (rewrite He; reflexivity).
  rewrite length_app in Len. cbn [length] in Len.
  inversion Hw as [|? ? Hw1 Hw2]; subst.
  destruct (find_write_desc_chain rs fuel s q _ rest w ws' Hc He Hr Hw1)
    as [Efind Hcw]; [lia|].
  assert (Hl : Forall (fun d => 0 <= d_len d) (w :: ws')).
  { pose proof (desc_path_len_nonneg _ s q _ Hc) as A.
    assert (B : Forall (fun d => 0 <= d_len d) (get_desc s q idx :: rest)).
    { constructor; [apply get_desc_len_range | exact A]. }
    rewrite He in B. apply Forall_app in B. exact (proj2 B). }
  destruct (find_desc_at_offset_chain VRING_DESC_F_WRITE ws' fuel s q w
              offset Hcw (is_write_desc_flags _ Hw) Hl Ht)
    as (pre & di & post & E & F & R & C); [lia | lia |].
  assert (Len2 : length (w :: ws') = length (pre ++ di :: post))
    by (rewrite E; reflexivity).
  rewrite length_app in Len2. cbn [length] in Len2.
  rewrite E in Hw, Hl, Ht, Hfit, Hclear.
  apply Forall_app in Hw. destruct Hw as [_ Hw].
  pose proof Hl as Hl'. apply Forall_app in Hl'.
  destruct Hl' as [Hlpre Hlpost].
  pose proof (chain_len_nonneg pre Hlpre) as Hpre.
  rewrite chain_len_app in Ht, Hfit.
  inversion Hw as [|? ? Hw3 Hw4]; subst.
  destruct (copy_to_queue_loop_chain post fuel s buf 0 q di
              (offset - chain_len pre) count C Hw4 Hlpost)
    as (s' & Ecopy & G).
  - lia.
  - lia.
  - exact Hcnt.
  - lia.
  - intros w0 i k b Hw0 Hi Hk Hb.
    apply (Hclear w0 i k b); [| | exact Hk | exact Hb].
    + apply in_or_app. right. exact Hw0.
    + apply chain_links_suffix. exact Hi.
  - lia.
  - exists s'. split.
    { apply (memcpy_to_queue_parts fuel s buf q idx offset count w di
               (offset - chain_len pre) 0 buf s');
        [lia | exact Efind | exact F | exact Ecopy]. }
    intros x. rewrite G. f_equal. f_equal.
    rewrite E. rewrite chain_addrs_app.
    rewrite (skipn_app (Z.to_nat offset) (chain_addrs pre)).
    rewrite (skipn_all2 (chain_addrs pre))
      by (pose proof (chain_addrs_length pre Hlpre); lia).
    cbn [app]. f_equal. f_equal.
    pose proof (chain_addrs_length pre Hlpre). lia.
Qed.

(** X16: on a chain made of device-readable descriptors [rs] followed by
    device-writable descriptors [ws] with room for [offset + count]
    bytes, whose guest buffers stay clear of the descriptors of the
    chain, [memcpy_to_queue] returns 0 and its effect on guest memory is
    that of storing the first [count] bytes of the host buffer, one
    after the other, at the guest addresses of the writable part from
    position [offset] on; bytes at other addresses and the other fields
    of the device do not change. *)
Theorem memcpy_to_queue_chain (fuel : nat) s (buf : list Z)
    (q idx offset count : Z) (rest rs ws : list VIRTIODesc) :
  desc_path s q (get_desc s q idx) rest ->
  get_desc s q idx :: rest = rs ++ ws ->
  Forall is_read_desc rs -> Forall is_write_desc ws ->
  chain_len ws < 2147483648 ->
  0 <= offset -> 0 < count -> offset + count <= chain_len ws ->
  count <= Z.of_nat (length buf) ->
  buffers_clear (desc_addr (queue s q)) ws (chain_links ws) ->
  (length rest < fuel)%nat ->
  exists s',
    memcpy_to_queue fuel s q idx offset buf count = Ok (0, s') /\
    ram_only s s' /\
    (forall a, load_u8 (ram s') a =
       load_u8 (write_bytes (ram s)
                  (firstn (Z.to_nat count)
                     (skipn (Z.to_nat offset) (chain_addrs ws)))
                  (buf_sub buf 0 count)) a) /\
    (forall a,
       (forall a', In a' (firstn (Z.to_nat count)
                            (skipn (Z.to_nat offset) (chain_addrs ws))) ->
                   u64 a' <> u64 a) ->
       load_u8 (ram s') a = load_u8 (ram s) a).
Proof.
  intros Hc He Hr Hw Ht H0 Hcnt Hfit Hbuf Hclear Hf.
  destruct (memcpy_to_queue_stores fuel s buf q idx offset count rest rs ws
              Hc He Hr Hw Ht H0 Hcnt Hfit Hclear Hf) as (s' & Eq & G).
  exists s'. split; [exact Eq|].
  split; [exact (memcpy_to_queue_ram_only fuel s q idx offset buf count 0
                   s' Eq)|].
  assert (L : forall a, load_u8 (ram s') a =
                load_u8 (write_bytes (ram s)
                           (firstn (Z.to_nat count)
                              (skipn (Z.to_nat offset) (chain_addrs ws)))
                           (buf_sub buf 0 count)) a).
  { intros a. unfold load_u8. rewrite G. reflexivity. }
  split; [exact L|].
  intros a Ha. rewrite L. apply write_bytes_other. exact Ha.
Qed.

End CopyToChain.

Lemma memcpy_to_queue_chain_witness :
  exists s',
    memcpy_to_queue 4 (blk_setup read_request_ram) 0 0 0
      (repeat 7 513%nat) 513 = Ok (0, s') /\
    ram_only (blk_setup read_request_ram) s' /\
    (forall a, load_u8 (ram s') a =
       load_u8 (write_bytes (ram (blk_setup read_request_ram))
                  (firstn (Z.to_nat 513)
                     (skipn (Z.to_nat 0)
                        (chain_addrs [mkVIRTIODesc 0x5000 512 3 2;
                                      mkVIRTIODesc 0x5200 1 2 0])))
                  (buf_sub (repeat 7 513%nat) 0 513)) a) /\
    (forall a,
       (forall a', In a' (firstn (Z.to_nat 513)
                            (skipn (Z.to_nat 0)
                               (chain_addrs [mkVIRTIODesc 0x5000 512 3 2;
                                             mkVIRTIODesc 0x5200 1 2 0]))) ->
                   u64 a' <> u64 a) ->
       load_u8 (ram s') a = load_u8 (ram (blk_setup read_request_ram)) a).
Proof.
  apply (memcpy_to_queue_chain 4 (blk_setup read_request_ram)
           (repeat 7 513%nat) 0 0 0 513
           [mkVIRTIODesc 0x5000 512 3 2; mkVIRTIODesc 0x5200 1 2 0]
           [mkVIRTIODesc 0x4000 16 1 1]
           [mkVIRTIODesc 0x5000 512 3 2; mkVIRTIODesc 0x5200 1 2 0]).
  - vm_compute. repeat split.
  - vm_compute. reflexivity.
  - repeat constructor.
  - repeat constructor.
  - vm_compute. reflexivity.
  - lia.
  - lia.
  - vm_compute. discriminate.
  - vm_compute. discriminate.
  - replace (desc_addr (queue (blk_setup read_request_ram) 0)) with 0x1000
      by (vm_compute; reflexivity).
    intros w i k b Hw Hi Hk Hb.
    cbn [chain_links removelast map In d_next] in Hi.
    destruct Hi as [<-|[]].
    change (u64 2) with 2.
    destruct Hw as [<-|[<-|[]]]; cbn [d_addr d_len] in *;
      apply u64_apart'; lia.
  - cbn. lia.
Defined.

(** ** Block requests on a chain *)

Lemma skipn_to_nat_0 {A : Type} (l : list A) : skipn (Z.to_nat 0) l = l.
Proof. reflexivity. Qed.

Lemma of_nat_16 : Z.of_nat 16 = 16.
Proof. reflexivity. Qed.

Section StateExtension.
Context {X : Type}.
Implicit Type s : VIRTIODevice X.

Lemma get_desc_ext s (s1 : VIRTIODevice X) (q i : Z) :
  ram s1 = ram s -> queue s1 = queue s -> get_desc s1 q i = get_desc s q i.
Proof.
  intros Hr Hq. rewrite !get_desc_layout. cbv zeta. rewrite Hr, Hq.
  reflexivity.
Qed.

Lemma desc_path_ext (rest : list VIRTIODesc) :
  forall s (s1 : VIRTIODevice X) (q : Z) (d : VIRTIODesc),
    ram s1 = ram s -> queue s1 = queue s ->
    desc_path s q d rest -> desc_path s1 q d rest.
Proof.
  induction rest as [|d' r IH]; intros s s1 q d Hr Hq Hc; [exact I|].
  cbn [desc_path] in *. destruct Hc as (Hn & Hd & Hc).
  split; [exact Hn|]. split.
  - rewrite Hd. symmetry. apply get_desc_ext; assumption.
  - apply (IH s s1 q d' Hr Hq Hc).
Qed.

End StateExtension.

Lemma malloc_length (st : list Z) (n : Z) :
  length (malloc st n) = Z.to_nat n.
Proof.
  unfold malloc. rewrite length_firstn, length_app, repeat_length. lia.
Qed.

Section BlockRequests.
Context {BS : Type}.
Variable bdev : BlockDevice BS.
Implicit Type s : VIRTIOBlockDevice BS.

Lemma stale_with_req (r : BlockRequest) s : stale (with_req r s) = stale s.
Proof. reflexivity. Qed.

Lemma bs_malloc_done s : bs (ext (malloc_done s)) = bs (ext s).
Proof. reflexivity. Qed.

(** The header of a well-formed request is read whole. *)
Lemma request_header_read (fuel : nat) s (q d : Z) (rs' : list VIRTIODesc) :
  desc_path s q (get_desc s q d) rs' ->
  Forall is_read_desc (get_desc s q d :: rs') ->
  HEADER_SIZE <= chain_len (get_desc s q d :: rs') < 2147483648 ->
  (length rs' < fuel)%nat ->
  memcpy_from_queue fuel s (repeat 0 (Z.to_nat HEADER_SIZE)) q d 0
    HEADER_SIZE =
  Ok (0, request_header (ram s) (get_desc s q d :: rs')).
Proof.
  intros Hc Hr Hl Hf.
  assert (Hbuf : length (repeat 0 (Z.to_nat HEADER_SIZE)) = 16%nat)
    by reflexivity.
  revert Hbuf. generalize (repeat 0 (Z.to_nat HEADER_SIZE)). intros buf Hbuf.
  pose proof (memcpy_from_queue_whole fuel s buf q d 0 rs' Hc Hr (proj2 Hl)
                (Z.le_refl 0)) as W.
  rewrite Hbuf in W. unfold HEADER_SIZE in *.
  rewrite skipn_to_nat_0, of_nat_16 in W. unfold request_header.
  apply W; [lia | lia | exact Hf].
Qed.

(** The steps of a read request, put together. *)
Lemma block_read_request_run (fuel : nat) s (q d read_size write_size : Z)
    (rs' ws : list VIRTIODesc) (ret : Z) (data : list Z) (b' : BS) :
  req_in_progress (ext s) = false ->
  desc_path s q (get_desc s q d) (rs' ++ ws) ->
  Forall is_read_desc (get_desc s q d :: rs') ->
  Forall is_write_desc ws ->
  HEADER_SIZE <= chain_len (get_desc s q d :: rs') < 2147483648 ->
  0 < write_size <= chain_len ws -> chain_len ws < 2147483648 ->
  le_decode
    (sub_bytes (request_header (ram s) (get_desc s q d :: rs')) 0 4)
    = VIRTIO_BLK_T_IN ->
  read_async bdev (bs (ext s))
    (le_decode
       (sub_bytes (request_header (ram s) (get_desc s q d :: rs')) 8 8))
    (malloc (stale s) write_size)
    (Z.quot (s32 (write_size - 1)) SECTOR_SIZE)
    = (ret, data, b') ->
  ret <= 0 ->
  buffers_clear (desc_addr (queue s q)) ws (chain_links ws) ->
  (length (rs' ++ ws) < fuel)%nat ->
  exists s1,
    virtio_block_recv_request bdev fuel s q d read_size write_size
      = Ok (0, virtio_consume_desc s1 q d write_size) /\
    (forall a, load_u8 (ram s1) a =
       load_u8 (write_bytes (ram s)
                  (firstn (Z.to_nat write_size) (chain_addrs ws))
                  (buf_sub (buf_put data (write_size - 1) (status_of ret))
                     0 write_size)) a) /\
    queue s1 = queue s /\ irq s1 = irq s /\ int_status s1 = int_status s /\
    bs (ext s1) = b' /\ req_in_progress (ext s1) = false.
Proof.
  intros Hidle Hc Hr Hw Hl Hws Hwl Htype Hread Hret Hclear Hf.
  rewrite length_app in Hf.
  unfold virtio_block_recv_request. rewrite Hidle.
  rewrite (request_header_read fuel s q d rs' (desc_path_app _ _ s q _ Hc)
             Hr Hl) by lia.
  rewrite bind_Ok. change (0 <? 0) with false. cbv iota.
  rewrite Htype. rewrite Z.eqb_refl.
  rewrite stale_with_req, bs_malloc_done.
  cbn [bs ext with_req with_ext]. rewrite Hread.
  destruct (Z.ltb_spec 0 ret); [lia|].
  set (s_b := with_bs b'
                (with_req (mkBlockRequest VIRTIO_BLK_T_IN data write_size q d)
                   (malloc_done
                      (with_req
                         (mkBlockRequest VIRTIO_BLK_T_IN
                            (req_buf (req (ext s)))
                            (req_write_size (req (ext s))) q d) s)))).
  assert (Hrb : ram s_b = ram s) by reflexivity.
  assert (Hqb : queue s_b = queue s) by reflexivity.
  unfold virtio_block_req_end.
  change (req (ext s_b))
    with (mkBlockRequest VIRTIO_BLK_T_IN data write_size q d).
  cbn [req_type req_queue_idx req_desc_idx req_write_size req_buf].
  rewrite Z.eqb_refl.
  fold (status_of ret).
  destruct (memcpy_to_queue_stores fuel s_b
              (buf_put data (write_size - 1) (status_of ret)) q d 0
              write_size (rs' ++ ws) (get_desc s q d :: rs') ws)
    as (s1 & E & G).
  - rewrite (get_desc_ext s s_b q d Hrb Hqb).
    apply (desc_path_ext _ s s_b q _ Hrb Hqb). exact Hc.
  - rewrite (get_desc_ext s s_b q d Hrb Hqb). reflexivity.
  - exact Hr.
  - exact Hw.
  - exact Hwl.
  - lia.
  - lia.
  - lia.
  - rewrite Hqb. exact Hclear.
  - rewrite length_app. exact Hf.
  - rewrite E, bind_Ok, bind_Ok. exists s1. split; [reflexivity|].
    pose proof (memcpy_to_queue_ram_only fuel s_b q d 0 _ write_size 0 s1 E)
      as R.
    apply ram_only_fields in R.
    destruct R as (Rq & _ & Re & Ri & Rs & _).
    split.
    { intros a. unfold load_u8. rewrite G. reflexivity. }
    split; [rewrite Rq; reflexivity|].
    split; [rewrite Ri; reflexivity|].
    split; [rewrite Rs; reflexivity|].
    rewrite Re. split; [reflexivity|]. cbn. exact Hidle.
Qed.

(** X17: a read request (type IN) on an idle device, on a chain whose
    device-readable part holds the header and whose device-writable part
    has room for [write_size] bytes (both parts shorter than 2^31 bytes,
    the device-writable buffers clear of the descriptor-table entries of
    the chain), with a backend that completes at once.  The backend is
    handed the storage [malloc] returned, whatever it holds.  The
    callback returns 0; the buffer as the backend left it, the last of
    the [write_size] bytes replaced by the status byte (OK, or IOERR if
    the backend failed), is stored in the device-writable buffers in
    order, so a byte the backend did not write reaches the guest as
    [malloc] left it; then the used entry ([desc_idx], [write_size]) is
    published, which raises the interrupt.  The device is idle again. *)
Theorem block_read_request (fuel : nat) s (q d read_size write_size : Z)
    (rs' ws : list VIRTIODesc) (ret : Z) (data : list Z) (b' : BS) :
  req_in_progress (ext s) = false ->
  desc_path s q (get_desc s q d) (rs' ++ ws) ->
  Forall is_read_desc (get_desc s q d :: rs') ->
  Forall is_write_desc ws ->
  HEADER_SIZE <= chain_len (get_desc s q d :: rs') < 2147483648 ->
  0 < write_size <= chain_len ws -> chain_len ws < 2147483648 ->
  le_decode
    (sub_bytes (request_header (ram s) (get_desc s q d :: rs')) 0 4)
    = VIRTIO_BLK_T_IN ->
  read_async bdev (bs (ext s))
    (le_decode
       (sub_bytes (request_header (ram s) (get_desc s q d :: rs')) 8 8))
    (malloc (stale s) write_size)
    (Z.quot (s32 (write_size - 1)) SECTOR_SIZE)
    = (ret, data, b') ->
  ret <= 0 ->
  buffers_clear (desc_addr (queue s q)) ws (chain_links ws) ->
  (length (rs' ++ ws) < fuel)%nat ->
  exists s1 s',
    virtio_block_recv_request bdev fuel s q d read_size write_size
      = Ok (0, s') /\
    s' = virtio_consume_desc s1 q d write_size /\
    (forall a, load_u8 (ram s1) a =
       load_u8 (write_bytes (ram s)
                  (firstn (Z.to_nat write_size) (chain_addrs ws))
                  (buf_sub (buf_put data (write_size - 1) (status_of ret))
                     0 write_size)) a) /\
    queue s' = queue s /\ irq s' = true /\
    int_status s' = Z.lor (int_status s) 1 /\
    bs (ext s') = b' /\ req_in_progress (ext s') = false.
Proof.
  intros Hidle Hc Hr Hw Hl Hws Hwl Htype Hread Hret Hclear Hf.
  destruct (block_read_request_run fuel s q d read_size write_size rs' ws
              ret data b' Hidle Hc Hr Hw Hl Hws Hwl Htype Hread Hret Hclear
              Hf) as (s1 & E & G & Eq & Ei & Es & Eb & Ep).
  exists s1, (virtio_consume_desc s1 q d write_size).
  split; [exact E|]. split; [reflexivity|]. split; [exact G|].
  destruct (consume_desc_irq s1 q d write_size) as [Hirq Hint].
  split; [rewrite consume_desc_queue; exact Eq|].
  split; [exact Hirq|].
  split; [rewrite Hint, Es; reflexivity|].
  split; [exact Eb | exact Ep].
Qed.

Lemma out_is_not_in : (VIRTIO_BLK_T_OUT =? VIRTIO_BLK_T_IN) = false.
Proof. reflexivity. Qed.

Lemma buf_sub_single (st : Z) : buf_sub [st] 0 1 = [st].
Proof. reflexivity. Qed.

(** The data of a write request: the bytes of the device-readable part
    after the header. *)
Lemma request_data_read (fuel : nat) s (q d len : Z) (rs' : list VIRTIODesc)
    (st : list Z) :
  desc_path s q (get_desc s q d) rs' ->
  Forall is_read_desc (get_desc s q d :: rs') ->
  chain_len (get_desc s q d :: rs') < 2147483648 ->
  0 <= len -> HEADER_SIZE + len <= chain_len (get_desc s q d :: rs') ->
  (length rs' < fuel)%nat ->
  exists r,
    memcpy_from_queue fuel s (malloc st len) q d HEADER_SIZE len =
    Ok (r, firstn (Z.to_nat len)
             (skipn 16 (chain_bytes (ram s) (get_desc s q d :: rs')))).
Proof.
  intros Hc Hr Ht Hlen Hfit Hf.
  destruct (Z.eq_dec len 0) as [->|Hne].
  { exists 0. reflexivity. }
  assert (Hbuf : length (malloc st len) = Z.to_nat len)
    by apply malloc_length.
  revert Hbuf. generalize (malloc st len). intros buf Hbuf.
  pose proof (memcpy_from_queue_whole fuel s buf q d HEADER_SIZE rs' Hc Hr
                Ht) as W.
  rewrite Hbuf in W. rewrite Z2Nat.id in W by exact Hlen.
  exists 0. apply W; [unfold HEADER_SIZE; lia | lia | exact Hfit | exact Hf].
Qed.

(** X18: a write request (type OUT) on an idle device, on a chain whose
    device-readable part holds the header followed by the data and whose
    device-writable part has room for the status byte (both parts
    shorter than 2^31 bytes, the device-writable buffers clear of the
    descriptor-table entries of the chain), with a backend that
    completes at once: the backend receives the [read_size - 16] bytes
    that follow the header; the callback returns 0, stores the status
    byte (OK, or IOERR if the backend failed) in the first
    device-writable byte and publishes the used entry ([desc_idx], 1).
    The device is idle again. *)
Theorem block_write_request (fuel : nat) s (q d read_size write_size : Z)
    (rs' ws : list VIRTIODesc) (ret : Z) (b' : BS) :
  req_in_progress (ext s) = false ->
  desc_path s q (get_desc s q d) (rs' ++ ws) ->
  Forall is_read_desc (get_desc s q d :: rs') ->
  Forall is_write_desc ws ->
  chain_len (get_desc s q d :: rs') < 2147483648 ->
  HEADER_SIZE <= read_size <= chain_len (get_desc s q d :: rs') ->
  1 <= write_size -> 1 <= chain_len ws < 2147483648 ->
  le_decode
    (sub_bytes (request_header (ram s) (get_desc s q d :: rs')) 0 4)
    = VIRTIO_BLK_T_OUT ->
  write_async bdev (bs (ext s))
    (le_decode
       (sub_bytes (request_header (ram s) (get_desc s q d :: rs')) 8 8))
    (firstn (Z.to_nat (read_size - HEADER_SIZE))
       (skipn 16 (chain_bytes (ram s) (get_desc s q d :: rs'))))
    (Z.quot (read_size - HEADER_SIZE) SECTOR_SIZE)
    = (ret, b') ->
  ret <= 0 ->
  buffers_clear (desc_addr (queue s q)) ws (chain_links ws) ->
  (length (rs' ++ ws) < fuel)%nat ->
  exists s1,
    virtio_block_recv_request bdev fuel s q d read_size write_size
      = Ok (0, virtio_consume_desc s1 q d 1) /\
    (forall a, load_u8 (ram s1) a =
       load_u8 (write_bytes (ram s) (firstn 1 (chain_addrs ws))
                  [status_of ret]) a) /\
    queue s1 = queue s /\ irq s1 = irq s /\ int_status s1 = int_status s /\
    bs (ext s1) = b' /\ req_in_progress (ext s1) = false.
Proof.
  intros Hidle Hc Hr Hw Ht Hrs Hws Hwl Htype Hwrite Hret Hclear Hf.
  rewrite length_app in Hf.
  pose proof (desc_path_app _ _ s q _ Hc) as Hcr.
  unfold virtio_block_recv_request. rewrite Hidle.
  rewrite (request_header_read fuel s q d rs' Hcr Hr) by (lia || split; lia).
  rewrite bind_Ok. change (0 <? 0) with false. cbv iota.
  rewrite Htype. rewrite out_is_not_in, Z.eqb_refl.
  destruct (Z.ltb_spec write_size 1); [lia|].
  rewrite (s32_small (read_size - HEADER_SIZE))
    by (unfold HEADER_SIZE in *; lia).
  set (s_a := with_req
                (mkBlockRequest VIRTIO_BLK_T_OUT (req_buf (req (ext s)))
                   (req_write_size (req (ext s))) q d) s).
  assert (Hra : ram s_a = ram s) by reflexivity.
  assert (Hqa : queue s_a = queue s) by reflexivity.
  set (s_m := malloc_done s_a).
  assert (Hrm : ram s_m = ram s) by reflexivity.
  assert (Hqm : queue s_m = queue s) by reflexivity.
  destruct (request_data_read fuel s_m q d (read_size - HEADER_SIZE) rs'
              (stale s_a))
    as (r & Edata).
  { rewrite (get_desc_ext s s_m q d Hrm Hqm).
    apply (desc_path_ext _ s s_m q _ Hrm Hqm). exact Hcr. }
  { rewrite (get_desc_ext s s_m q d Hrm Hqm). exact Hr. }
  { rewrite (get_desc_ext s s_m q d Hrm Hqm). exact Ht. }
  { lia. }
  { rewrite (get_desc_ext s s_m q d Hrm Hqm). lia. }
  { lia. }
  rewrite Edata, bind_Ok.
  rewrite (get_desc_ext s s_m q d Hrm Hqm), Hrm.
  change (bs (ext s_m)) with (bs (ext s)).
  rewrite Hwrite.
  destruct (Z.ltb_spec 0 ret); [lia|].
  set (s_b := with_bs b' s_m).
  assert (Hrb : ram s_b = ram s) by reflexivity.
  assert (Hqb : queue s_b = queue s) by reflexivity.
  unfold virtio_block_req_end.
  change (req (ext s_b))
    with (mkBlockRequest VIRTIO_BLK_T_OUT (req_buf (req (ext s)))
            (req_write_size (req (ext s))) q d).
  cbn [req_type req_queue_idx req_desc_idx req_write_size req_buf].
  rewrite out_is_not_in, Z.eqb_refl.
  fold (status_of ret).
  destruct (memcpy_to_queue_stores fuel s_b [status_of ret] q d 0 1
              (rs' ++ ws) (get_desc s q d :: rs') ws)
    as (s1 & E & G).
  - rewrite (get_desc_ext s s_b q d Hrb Hqb).
    apply (desc_path_ext _ s s_b q _ Hrb Hqb). exact Hc.
  - rewrite (get_desc_ext s s_b q d Hrb Hqb). reflexivity.
  - exact Hr.
  - exact Hw.
  - lia.
  - lia.
  - lia.
  - lia.
  - rewrite Hqb. exact Hclear.
  - rewrite length_app. exact Hf.
  - rewrite E, bind_Ok, bind_Ok. exists s1. split; [reflexivity|].
    pose proof (memcpy_to_queue_ram_only fuel s_b q d 0 _ 1 0 s1 E) as R.
    apply ram_only_fields in R.
    destruct R as (Rq & _ & Re & Ri & Rs & _).
    split.
    { intros a. unfold load_u8. rewrite G. rewrite buf_sub_single.
      reflexivity. }
    split; [rewrite Rq; reflexivity|].
    split; [rewrite Ri; reflexivity|].
    split; [rewrite Rs; reflexivity|].
    rewrite Re. split; [reflexivity|]. cbn. exact Hidle.
Qed.

End BlockRequests.

(** A byte of the buffer that the backend does not write reaches the
    guest as [malloc] left it. *)
Example stale_byte_reaches_guest :
  stale_scenario_summary (blk_queue_notify file_backend 4 8 blk_stale 0)
  = Ok (7, 0xaa, VIRTIO_BLK_S_OK, 514).
Proof. vm_compute. reflexivity. Qed.

Lemma block_read_request_witness :
  exists s1 s',
    virtio_block_recv_request file_backend 4 blk_stale 0 0 16 514
      = Ok (0, s') /\
    s' = virtio_consume_desc s1 0 0 514 /\
    (forall a, load_u8 (ram s1) a =
       load_u8 (write_bytes (ram blk_stale)
                  (firstn (Z.to_nat 514)
                     (chain_addrs [mkVIRTIODesc 0x5000 512 3 2;
                                   mkVIRTIODesc 0x5200 2 2 0]))
                  (buf_sub (buf_put (repeat 7 512%nat ++ [0xaa; 0xaa])
                              (514 - 1) (status_of 0)) 0 514)) a) /\
    queue s' = queue blk_stale /\ irq s' = true /\
    int_status s' = Z.lor (int_status blk_stale) 1 /\
    bs (ext s') =
      mkBlockDeviceFile (Some (mkHostFile (repeat 7 1024%nat) 512)) 2
        BF_MODE_RW (fun _ => None) /\
    req_in_progress (ext s') = false.
Proof.
  apply (block_read_request file_backend 4 blk_stale 0 0 16 514 []
           [mkVIRTIODesc 0x5000 512 3 2; mkVIRTIODesc 0x5200 2 2 0]
           0 (repeat 7 512%nat ++ [0xaa; 0xaa])
           (mkBlockDeviceFile (Some (mkHostFile (repeat 7 1024%nat) 512)) 2
              BF_MODE_RW (fun _ => None))).
  - reflexivity.
  - vm_compute. repeat split.
  - constructor; [vm_compute; reflexivity | constructor].
  - repeat constructor.
  - vm_compute. split; [discriminate | reflexivity].
  - vm_compute. split; [reflexivity | discriminate].
  - vm_compute. reflexivity.
  - vm_compute. reflexivity.
  - vm_compute. reflexivity.
  - lia.
  - replace (desc_addr (queue blk_stale 0)) with 0x1000
      by (vm_compute; reflexivity).
    intros w i k b Hw Hi Hk Hb.
    cbn [chain_links removelast map In d_next] in Hi.
    destruct Hi as [<-|[]].
    change (u64 2) with 2.
    destruct Hw as [<-|[<-|[]]]; cbn [d_addr d_len] in *;
      apply u64_apart'; lia.
  - cbn. lia.
Defined.

Lemma block_write_request_witness :
  exists s1,
    virtio_block_recv_request file_backend 4 (blk_setup write_request_ram)
      0 0 528 1 = Ok (0, virtio_consume_desc s1 0 0 1) /\
    (forall a, load_u8 (ram s1) a =
       load_u8 (write_bytes (ram (blk_setup write_request_ram))
                  (firstn 1 (chain_addrs [mkVIRTIODesc 0x5200 1 2 0]))
                  [status_of 0]) a) /\
    queue s1 = queue (blk_setup write_request_ram) /\
    irq s1 = irq (blk_setup write_request_ram) /\
    int_status s1 = int_status (blk_setup write_request_ram) /\
    bs (ext s1) =
      mkBlockDeviceFile
        (Some (mkHostFile (repeat 0 512%nat ++ repeat 9 512%nat) 1024)) 2
        BF_MODE_RW (fun _ => None) /\
    req_in_progress (ext s1) = false.
Proof.
  apply (block_write_request file_backend 4 (blk_setup write_request_ram)
           0 0 528 1 [mkVIRTIODesc 0x5000 512 1 2]
           [mkVIRTIODesc 0x5200 1 2 0] 0
           (mkBlockDeviceFile
              (Some (mkHostFile (repeat 0 512%nat ++ repeat 9 512%nat) 1024))
              2 BF_MODE_RW (fun _ => None))).
  - reflexivity.
  - vm_compute. repeat split.
  - constructor; [vm_compute; reflexivity|].
    constructor; [vm_compute; reflexivity | constructor].
  - repeat constructor.
  - vm_compute. reflexivity.
  - vm_compute. split; discriminate.
  - lia.
  - vm_compute. split; [discriminate | reflexivity].
  - vm_compute. reflexivity.
  - vm_compute. reflexivity.
  - lia.
  - intros w i k b Hw Hi. cbn [chain_links removelast map In] in Hi.
    destruct Hi.
  - cbn. lia.
Defined.

(** ** UART stores *)

Lemma le_encode_decode_app (a b : list Z) :
  all_bytes a -> le_encode (length a) (le_decode (a ++ b)) = a.
Proof.
  induction 1 as [|x r Hx Hr IH]; [reflexivity|].
  cbn [app le_decode length le_encode]. f_equal.
  - unfold u8. rewrite (Z.mul_comm 256), Z_mod_plus_full.
    apply Z.mod_small. exact Hx.
  - transitivity (le_encode (length r) (le_decode (r ++ b))); [|exact IH].
    f_equal. rewrite (Z.mul_comm 256), Z_div_plus_full by lia.
    rewrite Z.div_small by exact Hx. lia.
Qed.

Lemma all_bytes_app (a b : list Z) :
  all_bytes a -> all_bytes b -> all_bytes (a ++ b).
Proof. intros Ha Hb. apply Forall_app. split; assumption. Qed.

Lemma all_bytes_firstn (n : nat) (l : list Z) :
  all_bytes l -> all_bytes (firstn n l).
Proof.
  revert l. induction n as [|n IH]; intros l H; [constructor|].
  destruct H as [|x r Hx Hr]; constructor; [exact Hx | apply IH; exact Hr].
Qed.

Lemma all_bytes_skipn (n : nat) (l : list Z) :
  all_bytes l -> all_bytes (skipn n l).
Proof.
  revert l. induction n as [|n IH]; intros l H; [exact H|].
  destruct H as [|x r Hx Hr]; [constructor | apply IH; exact Hr].
Qed.

Lemma memcpy_reg_bytes (reg : Z) (bytes : list Z) (len : Z) :
  0 <= len <= 4 -> (Z.to_nat len <= length bytes)%nat ->
  all_bytes bytes ->
  le_encode 4 (u32 (memcpy_reg reg bytes len)) =
  firstn (Z.to_nat len) bytes ++ skipn (Z.to_nat len) (le_encode 4 reg).
Proof.
  intros Hl Hb Ha. unfold memcpy_reg.
  set (l := firstn (Z.to_nat len) bytes
            ++ skipn (Z.to_nat len) (le_encode 4 reg)).
  assert (La : all_bytes l).
  { apply all_bytes_app; [apply all_bytes_firstn; exact Ha|].
    apply all_bytes_skipn. apply le_encode_all_bytes. }
  assert (Ll : length l = 4%nat).
  { unfold l. rewrite length_app, length_firstn, length_skipn,
      le_encode_length. lia. }
  pose proof (le_decode_range l La) as R. rewrite Ll in R.
  change (256 ^ Z.of_nat 4) with 4294967296 in R.
  rewrite u32_small by exact R.
  rewrite <- Ll at 1. apply le_encode_decode. exact La.
Qed.

Lemma le_encode_u32 (v : Z) : le_encode 4 (u32 v) = le_encode 4 v.
Proof.
  pose proof (le_encode_all_bytes 4 v) as A.
  pose proof (le_encode_decode (le_encode 4 v) A) as E.
  rewrite le_encode_length, le_decode_encode in E.
  exact E.
Qed.

Lemma memcpy_reg_old_bytes (reg : Z) (len : nat) :
  skipn len (le_encode 4 reg) = skipn len (le_encode 4 (u32 reg)).
Proof. rewrite le_encode_u32. reflexivity. Qed.

Lemma le_encode_prefix (n m : nat) (v : Z) :
  (n <= m)%nat -> le_encode n v = firstn n (le_encode m v).
Proof.
  revert m v. induction n as [|n IH]; intros m v H; [reflexivity|].
  destruct m as [|m]; [lia|]. cbn [le_encode firstn]. f_equal.
  apply IH. lia.
Qed.

Section UartStores.
Context {T : Type}.
Variable term_read : T -> Z * T.
Variable term_write : T -> Z -> T.
Variable update_interrupts : sifive_uart_t T -> sifive_uart_t T.
Implicit Type u : sifive_uart_t T.

(** X19: [sifive_uart_t::store] returns false exactly when the address
    is at or above 0x1000 or the length exceeds 4; inside the window it
    returns true at TXFIFO, TXCTRL, RXCTRL, IE and DIV and aborts at any
    other offset, among them RXFIFO and IP, where a load succeeds. *)
Theorem uart_store_refusal_conditions u (addr len : Z) (bytes : list Z) :
  let st := sifive_uart_store term_write update_interrupts u addr len bytes in
  (0x1000 <= addr \/ 4 < len <-> st = Ok (false, u)) /\
  (addr < 0x1000 -> len <= 4 -> In addr uart_store_regs ->
   exists u', st = Ok (true, u')) /\
  (addr < 0x1000 -> len <= 4 -> ~ In addr uart_store_regs -> st = Aborted) /\
  (addr = UART_RXFIFO \/ addr = UART_IP -> len <= 4 ->
   In addr uart_load_regs /\ st = Aborted).
Proof.
  intros st. unfold st, sifive_uart_store, uart_store_regs, uart_load_regs,
    UART_TXFIFO, UART_RXFIFO, UART_TXCTRL, UART_RXCTRL, UART_IE, UART_IP,
    UART_DIV.
  destruct (Z.leb_spec 0x1000 addr); destruct (Z.ltb_spec 4 len);
    cbn [orb].
  1-3: split; [split; [reflexivity | intros _; lia]|];
       split; [intros; lia|]; split; [intros; lia|];
       intros [->| ->]; lia.
  split.
  { split; [lia|].
    repeat match goal with
           | |- context [if ?a =? ?b then _ else _] =>
               destruct (Z.eqb_spec a b)
           end; discriminate. }
  split.
  { intros _ _ Hin. cbn [In] in Hin.
    repeat match goal with
           | |- context [if ?a =? ?b then _ else _] =>
               destruct (Z.eqb_spec a b)
           end; try (eexists; reflexivity).
    exfalso. intuition congruence. }
  split.
  { intros _ _ Hn. cbn [In] in Hn.
    repeat match goal with
           | |- context [if ?a =? ?b then _ else _] =>
               destruct (Z.eqb_spec a b)
           end; try reflexivity; exfalso; apply Hn; intuition congruence. }
  intros [->| ->] _; split; cbn [In]; try reflexivity; intuition congruence.
Qed.

Variable read_rxfifo : sifive_uart_t T -> Z * sifive_uart_t T.
Variable read_ip : sifive_uart_t T -> Z.

Lemma firstn_memcpy_reg (reg : Z) (bytes : list Z) (len : Z) :
  0 <= len <= 4 -> (Z.to_nat len <= length bytes)%nat ->
  all_bytes bytes ->
  le_encode (Z.to_nat len) (u32 (memcpy_reg reg bytes len)) =
  firstn (Z.to_nat len) bytes.
Proof.
  intros Hl Hb Ha.
  rewrite (le_encode_prefix (Z.to_nat len) 4) by lia.
  rewrite memcpy_reg_bytes by assumption.
  rewrite firstn_app, length_firstn.
  replace (Z.to_nat len - Nat.min (Z.to_nat len) (length bytes))%nat
    with 0%nat by lia.
  cbn [firstn]. rewrite app_nil_r. apply firstn_all2.
  rewrite length_firstn. lia.
Qed.

(** X20: a store of [len] bytes to TXCTRL, RXCTRL or DIV replaces the
    [len] low bytes of the register and keeps the others: a load of the
    same length at the same address returns the bytes stored, a 4-byte
    load returns them followed by the old high bytes; the other
    registers, the FIFO and the terminal do not change. *)
Theorem uart_register_store_load u (reg len : Z) (bytes : list Z) :
  In reg [UART_TXCTRL; UART_RXCTRL; UART_DIV] ->
  0 <= len <= 4 -> (Z.to_nat len <= length bytes)%nat -> all_bytes bytes ->
  exists u' old,
    sifive_uart_store term_write update_interrupts u reg len bytes
      = Ok (true, u') /\
    sifive_uart_load (sifive_uart_t T) read_rxfifo read_ip txctrl rxctrl ie
      div u reg 4 = Ok (true, old, u) /\
    sifive_uart_load (sifive_uart_t T) read_rxfifo read_ip txctrl rxctrl ie
      div u' reg len = Ok (true, firstn (Z.to_nat len) bytes, u') /\
    sifive_uart_load (sifive_uart_t T) read_rxfifo read_ip txctrl rxctrl ie
      div u' reg 4 =
      Ok (true, firstn (Z.to_nat len) bytes ++ skipn (Z.to_nat len) old, u') /\
    ie u' = ie u /\ rx_fifo u' = rx_fifo u /\ term u' = term u /\
    (reg <> UART_TXCTRL -> txctrl u' = txctrl u) /\
    (reg <> UART_RXCTRL -> rxctrl u' = rxctrl u) /\
    (reg <> UART_DIV -> div u' = div u).
Proof.
  intros Hreg Hl Hb Ha.
  assert (W : (0x1000 <=? reg) || (4 <? len) = false).
  { destruct Hreg as [<-|[<-|[<-|[]]]];
      destruct (Z.ltb_spec 4 len); try lia; reflexivity. }
  assert (W4 : forall r, (0x1000 <=? r) || (4 <? 4) = (0x1000 <=? r)).
  { intros r. apply orb_false_r. }
  destruct Hreg as [<-|[<-|[<-|[]]]].
  - eexists _, (le_encode 4 (u32 (txctrl u))).
    unfold sifive_uart_store, sifive_uart_load. rewrite W.
    split; [reflexivity|]. cbn [txctrl rxctrl ie div rx_fifo term].
    split; [reflexivity|].
    split; [cbn [Z.eqb UART_TXCTRL UART_TXFIFO UART_RXFIFO Pos.eqb];
            rewrite firstn_memcpy_reg by assumption; reflexivity|].
    split.
    { cbn [Z.eqb UART_TXCTRL UART_TXFIFO UART_RXFIFO Pos.eqb orb Z.leb Z.ltb
           Z.compare Pos.compare Pos.compare_cont].
      change (Z.to_nat 4) with 4%nat.
      rewrite memcpy_reg_bytes by assumption.
      rewrite (memcpy_reg_old_bytes (txctrl u)). reflexivity. }
    repeat split; intros C; try reflexivity; contradiction C; reflexivity.
  - eexists _, (le_encode 4 (u32 (rxctrl u))).
    unfold sifive_uart_store, sifive_uart_load. rewrite W.
    split; [reflexivity|]. cbn [txctrl rxctrl ie div rx_fifo term].
    split; [reflexivity|].
    split; [cbn [Z.eqb UART_TXCTRL UART_RXCTRL UART_TXFIFO UART_RXFIFO
                 Pos.eqb];
            rewrite firstn_memcpy_reg by assumption; reflexivity|].
    split.
    { cbn [Z.eqb UART_TXCTRL UART_RXCTRL UART_TXFIFO UART_RXFIFO Pos.eqb orb
           Z.leb Z.ltb Z.compare Pos.compare Pos.compare_cont].
      change (Z.to_nat 4) with 4%nat.
      rewrite memcpy_reg_bytes by assumption.
      rewrite (memcpy_reg_old_bytes (rxctrl u)). reflexivity. }
    repeat split; intros C; try reflexivity; contradiction C; reflexivity.
  - eexists _, (le_encode 4 (u32 (div u))).
    unfold sifive_uart_store, sifive_uart_load. rewrite W.
    split; [reflexivity|]. cbn [txctrl rxctrl ie div rx_fifo term].
    split; [reflexivity|].
    split; [cbn [Z.eqb UART_TXCTRL UART_RXCTRL UART_TXFIFO UART_RXFIFO
                 UART_IE UART_IP UART_DIV Pos.eqb];
            rewrite firstn_memcpy_reg by assumption; reflexivity|].
    split.
    { cbn [Z.eqb UART_TXCTRL UART_RXCTRL UART_TXFIFO UART_RXFIFO UART_IE
           UART_IP UART_DIV Pos.eqb orb Z.leb Z.ltb Z.compare Pos.compare
           Pos.compare_cont].
      change (Z.to_nat 4) with 4%nat.
      rewrite memcpy_reg_bytes by assumption.
      rewrite (memcpy_reg_old_bytes (div u)). reflexivity. }
    repeat split; intros C; try reflexivity; contradiction C; reflexivity.
Qed.

End UartStores.

Lemma uart_register_store_load_witness :
  exists u' old,
    sifive_uart_store pending_write (fun u => u) (uart0 []) UART_DIV 2
      [0x34; 0x12] = Ok (true, u') /\
    sifive_uart_load (sifive_uart_t (list Z)) (fun u => (0, u)) (fun _ => 0)
      txctrl rxctrl ie div (uart0 []) UART_DIV 4 = Ok (true, old, uart0 []) /\
    sifive_uart_load (sifive_uart_t (list Z)) (fun u => (0, u)) (fun _ => 0)
      txctrl rxctrl ie div u' UART_DIV 2 =
      Ok (true, firstn (Z.to_nat 2) [0x34; 0x12], u') /\
    sifive_uart_load (sifive_uart_t (list Z)) (fun u => (0, u)) (fun _ => 0)
      txctrl rxctrl ie div u' UART_DIV 4 =
      Ok (true, firstn (Z.to_nat 2) [0x34; 0x12] ++ skipn (Z.to_nat 2) old,
          u') /\
    ie u' = ie (uart0 []) /\ rx_fifo u' = rx_fifo (uart0 []) /\
    term u' = term (uart0 []) /\
    (UART_DIV <> UART_TXCTRL -> txctrl u' = txctrl (uart0 [])) /\
    (UART_DIV <> UART_RXCTRL -> rxctrl u' = rxctrl (uart0 [])) /\
    (UART_DIV <> UART_DIV -> div u' = div (uart0 [])).
Proof.
  apply (uart_register_store_load pending_write (fun u => u)
           (fun u => (0, u)) (fun _ => 0) (uart0 []) UART_DIV 2
           [0x34; 0x12]).
  - right. right. left. reflexivity.
  - lia.
  - cbn. lia.
  - repeat (constructor; [lia|]). constructor.
Defined.

(** ** The UART tick *)

Section UartTick.
Context {T : Type}.
Variable term_read : T -> Z * T.
Variable update_interrupts : sifive_uart_t T -> sifive_uart_t T.
Implicit Type u : sifive_uart_t T.

Lemma sifive_uart_tick_full u :
  UART_RX_FIFO_SIZE <= Z.of_nat (length (rx_fifo u)) ->
  sifive_uart_tick term_read update_interrupts u = u.
Proof.
  intros H. unfold sifive_uart_tick.
  destruct (Z.leb_spec UART_RX_FIFO_SIZE (Z.of_nat (length (rx_fifo u))));
    [reflexivity | lia].
Qed.

Lemma sifive_uart_tick_fifo u :
  (forall v, rx_fifo (update_interrupts v) = rx_fifo v) ->
  exists l,
    rx_fifo (sifive_uart_tick term_read update_interrupts u) = rx_fifo u ++ l /\
    (length l <= 1)%nat /\ all_bytes l /\
    (UART_RX_FIFO_SIZE <= Z.of_nat (length (rx_fifo u)) -> l = []).
Proof.
  intros Hui. unfold sifive_uart_tick.
  destruct (Z.leb_spec UART_RX_FIFO_SIZE (Z.of_nat (length (rx_fifo u)))).
  { exists []. rewrite app_nil_r. split; [reflexivity|].
    split; [cbn; lia|]. split; [constructor | reflexivity]. }
  destruct (term_read (term u)) as [rc t].
  destruct (rc <? 0).
  - exists []. cbn [rx_fifo]. rewrite app_nil_r. split; [reflexivity|].
    split; [cbn; lia|]. split; [constructor | reflexivity].
  - exists [u8 rc]. rewrite Hui. cbn [rx_fifo]. split; [reflexivity|].
    split; [cbn; lia|]. split; [|intros; lia].
    constructor; [apply u8_range | constructor].
Qed.

(** X21: the receive FIFO never grows beyond UART_RX_FIFO_SIZE: if it
    holds at most that many bytes, it still does after any number of
    ticks; ticks only append at the back, one byte (an [uint8_t]) at
    most per tick, and never drop or reorder what is queued; a tick on a
    full FIFO changes nothing, and in particular reads nothing from the
    terminal. *)
Theorem uart_tick_fifo_bounded u (n : nat) :
  (forall v, rx_fifo (update_interrupts v) = rx_fifo v) ->
  Z.of_nat (length (rx_fifo u)) <= UART_RX_FIFO_SIZE ->
  let u' := Nat.iter n (sifive_uart_tick term_read update_interrupts) u in
  Z.of_nat (length (rx_fifo u')) <= UART_RX_FIFO_SIZE /\
  (exists l, rx_fifo u' = rx_fifo u ++ l /\ (length l <= n)%nat /\
             all_bytes l) /\
  (Z.of_nat (length (rx_fifo u)) = UART_RX_FIFO_SIZE -> u' = u).
Proof.
  intros Hui Hb. induction n as [|n IH]; [|rewrite Nat.iter_succ].
  - cbv zeta. unfold Nat.iter. cbn [nat_rect].
    split; [exact Hb|]. split; [|reflexivity].
    exists []. rewrite app_nil_r. split; [reflexivity|].
    split; [cbn; lia | constructor].
  - cbv zeta in *. destruct IH as (B & (l & E & L & A) & F).
    set (v := Nat.iter n (sifive_uart_tick term_read update_interrupts) u)
      in *.
    destruct (sifive_uart_tick_fifo v Hui) as (k & Ek & Lk & Ak & Fk).
    split; [|split].
    + rewrite Ek, length_app.
      destruct (Z.le_gt_cases UART_RX_FIFO_SIZE
                  (Z.of_nat (length (rx_fifo v)))) as [Hfull|Hroom].
      * rewrite (Fk Hfull). cbn [length]. lia.
      * lia.
    + exists (l ++ k). rewrite Ek, E, app_assoc.
      split; [reflexivity|]. split; [rewrite length_app; lia|].
      apply Forall_app. split; assumption.
    + intros Hfull. rewrite (F Hfull). apply sifive_uart_tick_full. lia.
Qed.

End UartTick.

Lemma uart_tick_fifo_bounded_witness :
  Z.of_nat (length (rx_fifo (Nat.iter 3 (sifive_uart_tick pending_read
                                           (fun u => u))
                               (uart0 [65; 66])))) <= UART_RX_FIFO_SIZE /\
  (exists l,
      rx_fifo (Nat.iter 3 (sifive_uart_tick pending_read (fun u => u))
                 (uart0 [65; 66])) = rx_fifo (uart0 [65; 66]) ++ l /\
      (length l <= 3)%nat /\ all_bytes l) /\
  (Z.of_nat (length (rx_fifo (uart0 [65; 66]))) = UART_RX_FIFO_SIZE ->
   Nat.iter 3 (sifive_uart_tick pending_read (fun u => u)) (uart0 [65; 66])
   = uart0 [65; 66]).
Proof.
  apply (uart_tick_fifo_bounded pending_read (fun u => u) (uart0 [65; 66]) 3).
  - intros v. reflexivity.
  - vm_compute. discriminate.
Defined.

Lemma uart_store_refusal_conditions_witness :
  In UART_RXFIFO uart_load_regs /\
  sifive_uart_store pending_write (fun u => u) (uart0 []) UART_RXFIFO 4
    [1; 2; 3; 4] = Aborted.
Proof.
  apply (uart_store_refusal_conditions pending_write (fun u => u) (uart0 [])
           UART_RXFIFO 4 [1; 2; 3; 4]).
  - left. reflexivity.
  - lia.
Defined.

(** ** What a publication leaves alone *)

Section PublicationFrame.
Context {X : Type}.
Implicit Type s : VIRTIODevice X.

(** X22: [virtio_consume_desc] writes the two bytes of the index of the
    used ring and the eight bytes of one slot, and no other byte of guest
    memory; of the device it changes only the interrupt line and
    [int_status]. *)
Theorem consume_desc_frame s (q head len : Z) :
  let qs := queue s q in
  let index := virtio_read16 s (used_idx_addr qs) in
  let s' := virtio_consume_desc s q head len in
  publication_only s s' /\
  forall a,
    (forall k, 0 <= k < 2 -> u64 a <> u64 (used_idx_addr qs + k)) ->
    (forall k, 0 <= k < 8 -> u64 a <> u64 (used_slot_addr qs index + k)) ->
    load_u8 (ram s') a = load_u8 (ram s) a.
Proof.
  intros qs index s'. split.
  - unfold publication_only. repeat split.
  - intros a Hi Hs. unfold s'. rewrite consume_desc_ram. fold qs index.
    pose proof (Hi 0 ltac:(lia)) as I0. rewrite Z.add_0_r in I0.
    pose proof (Hs 0 ltac:(lia)) as S0. rewrite Z.add_0_r in S0.
    rewrite load_u8_store_u32_other.
    + rewrite load_u8_store_u32_other.
      * apply load_u8_store_u16_other; [exact I0 | apply Hi; lia].
      * exact S0.
      * apply Hs. lia.
      * apply Hs. lia.
      * apply Hs. lia.
    + apply Hs. lia.
    + rewrite <- Z.add_assoc. apply Hs. lia.
    + rewrite <- Z.add_assoc. apply Hs. lia.
    + rewrite <- Z.add_assoc. apply Hs. lia.
Qed.

End PublicationFrame.

(** ** Scalar registers *)

Section ScalarRegisters.
Context {X : Type}.
Variable device_recv :
  VIRTIODevice X -> Z -> Z -> Z -> Z -> res (Z * VIRTIODevice X).
Variable config_write : option (VIRTIODevice X -> res (VIRTIODevice X)).
Implicit Type s : VIRTIODevice X.

(** X23: what the driver reads back after a 32-bit write to a scalar
    register.  DEVICE_FEATURES_SEL and a non-zero STATUS return the value
    written; QUEUE_SEL returns it if it is below MAX_QUEUE and is left
    alone otherwise; QUEUE_READY keeps bit 0 only; INTERRUPT_ACK clears
    the acknowledged bits of INTERRUPT_STATUS; the read-only registers
    (magic, version, QUEUE_NUM_MAX, device and vendor id) ignore the
    write. *)
Theorem scalar_register_write_read (n fuel : nat) s (val : Z) :
  let wr reg := virtio_mmio_write device_recv config_write n fuel s reg val 2
  in
  let rd reg r := s' <- r ;; virtio_mmio_read s' reg 2 in
  rd VIRTIO_MMIO_DEVICE_FEATURES_SEL (wr VIRTIO_MMIO_DEVICE_FEATURES_SEL)
    = Ok (u32 val) /\
  rd VIRTIO_MMIO_QUEUE_SEL (wr VIRTIO_MMIO_QUEUE_SEL)
    = Ok (if u32 val <? MAX_QUEUE then u32 val else queue_sel s) /\
  rd VIRTIO_MMIO_QUEUE_READY (wr VIRTIO_MMIO_QUEUE_READY)
    = Ok (Z.land (u32 val) 1) /\
  (u32 val <> 0 ->
   rd VIRTIO_MMIO_STATUS (wr VIRTIO_MMIO_STATUS) = Ok (u32 val)) /\
  rd VIRTIO_MMIO_INTERRUPT_STATUS (wr VIRTIO_MMIO_INTERRUPT_ACK)
    = Ok (Z.land (int_status s) (u32 (Z.lnot (u32 val)))) /\
  wr VIRTIO_MMIO_MAGIC_VALUE = Ok s /\ wr VIRTIO_MMIO_VERSION = Ok s /\
  wr VIRTIO_MMIO_DEVICE_ID = Ok s /\ wr VIRTIO_MMIO_VENDOR_ID = Ok s /\
  wr VIRTIO_MMIO_QUEUE_NUM_MAX = Ok s /\
  wr VIRTIO_MMIO_INTERRUPT_STATUS = Ok s /\
  rd VIRTIO_MMIO_MAGIC_VALUE (Ok s) = Ok 0x74726976 /\
  rd VIRTIO_MMIO_VERSION (Ok s) = Ok 2 /\
  rd VIRTIO_MMIO_QUEUE_NUM_MAX (Ok s) = Ok MAX_QUEUE_NUM.
Proof.
  intros wr rd. unfold wr, rd.
  split; [reflexivity|].
  split.
  { unfold virtio_mmio_write.
    cbn [u32 VIRTIO_MMIO_QUEUE_SEL VIRTIO_MMIO_CONFIG Z.leb Z.compare
         Pos.compare Pos.compare_cont Z.eqb Pos.eqb
         VIRTIO_MMIO_DEVICE_FEATURES_SEL].
    change (u32 VIRTIO_MMIO_QUEUE_SEL) with 48.
    change (VIRTIO_MMIO_CONFIG <=? 48) with false.
    change (2 =? 2) with true.
    change (48 =? VIRTIO_MMIO_DEVICE_FEATURES_SEL) with false.
    change (48 =? VIRTIO_MMIO_QUEUE_SEL) with true. cbv iota.
    destruct (u32 val <? MAX_QUEUE); reflexivity. }
  split.
  { unfold virtio_mmio_write.
    change (u32 VIRTIO_MMIO_QUEUE_READY) with 68.
    change (VIRTIO_MMIO_CONFIG <=? 68) with false.
    change (2 =? 2) with true. cbv iota.
    cbn [Z.eqb Pos.eqb VIRTIO_MMIO_DEVICE_FEATURES_SEL VIRTIO_MMIO_QUEUE_SEL
         VIRTIO_MMIO_QUEUE_NUM VIRTIO_MMIO_QUEUE_DESC_LOW
         VIRTIO_MMIO_QUEUE_AVAIL_LOW VIRTIO_MMIO_QUEUE_USED_LOW
         VIRTIO_MMIO_QUEUE_DESC_HIGH VIRTIO_MMIO_QUEUE_AVAIL_HIGH
         VIRTIO_MMIO_QUEUE_USED_HIGH VIRTIO_MMIO_STATUS
         VIRTIO_MMIO_QUEUE_READY].
    cbn [bind]. unfold virtio_mmio_read.
    change (u32 VIRTIO_MMIO_QUEUE_READY) with 68.
    change (VIRTIO_MMIO_CONFIG <=? 68) with false.
    change (2 =? 2) with true. cbv iota.
    cbn [Z.eqb Pos.eqb VIRTIO_MMIO_MAGIC_VALUE VIRTIO_MMIO_VERSION
         VIRTIO_MMIO_DEVICE_ID VIRTIO_MMIO_VENDOR_ID
         VIRTIO_MMIO_DEVICE_FEATURES
         VIRTIO_MMIO_DEVICE_FEATURES_SEL VIRTIO_MMIO_QUEUE_SEL
         VIRTIO_MMIO_QUEUE_NUM_MAX
         VIRTIO_MMIO_QUEUE_NUM VIRTIO_MMIO_QUEUE_DESC_LOW
         VIRTIO_MMIO_QUEUE_AVAIL_LOW VIRTIO_MMIO_QUEUE_USED_LOW
         VIRTIO_MMIO_QUEUE_DESC_HIGH VIRTIO_MMIO_QUEUE_AVAIL_HIGH
         VIRTIO_MMIO_QUEUE_USED_HIGH VIRTIO_MMIO_STATUS
         VIRTIO_MMIO_QUEUE_READY].
    rewrite upd_sel_sel. rewrite upd_sel_queue_at by reflexivity.
    reflexivity. }
  split.
  { intros Hv. unfold virtio_mmio_write.
    change (u32 VIRTIO_MMIO_STATUS) with 112.
    change (VIRTIO_MMIO_CONFIG <=? 112) with false.
    change (2 =? 2) with true. cbv iota.
    cbn [Z.eqb Pos.eqb VIRTIO_MMIO_DEVICE_FEATURES_SEL VIRTIO_MMIO_QUEUE_SEL
         VIRTIO_MMIO_QUEUE_NUM VIRTIO_MMIO_QUEUE_DESC_LOW
         VIRTIO_MMIO_QUEUE_AVAIL_LOW VIRTIO_MMIO_QUEUE_USED_LOW
         VIRTIO_MMIO_QUEUE_DESC_HIGH VIRTIO_MMIO_QUEUE_AVAIL_HIGH
         VIRTIO_MMIO_QUEUE_USED_HIGH VIRTIO_MMIO_STATUS].
    cbv zeta.
    destruct (Z.eqb_spec (u32 val) 0); [contradiction|]. reflexivity. }
  split.
  { unfold virtio_mmio_write.
    change (u32 VIRTIO_MMIO_INTERRUPT_ACK) with 100.
    change (VIRTIO_MMIO_CONFIG <=? 100) with false.
    change (2 =? 2) with true. cbv iota.
    cbn [Z.eqb Pos.eqb VIRTIO_MMIO_DEVICE_FEATURES_SEL VIRTIO_MMIO_QUEUE_SEL
         VIRTIO_MMIO_QUEUE_NUM VIRTIO_MMIO_QUEUE_DESC_LOW
         VIRTIO_MMIO_QUEUE_AVAIL_LOW VIRTIO_MMIO_QUEUE_USED_LOW
         VIRTIO_MMIO_QUEUE_DESC_HIGH VIRTIO_MMIO_QUEUE_AVAIL_HIGH
         VIRTIO_MMIO_QUEUE_USED_HIGH VIRTIO_MMIO_STATUS
         VIRTIO_MMIO_QUEUE_READY VIRTIO_MMIO_QUEUE_NOTIFY
         VIRTIO_MMIO_INTERRUPT_ACK].
    cbv zeta. cbn [int_status with_int_status].
    destruct (Z.land (int_status s) (u32 (Z.lnot (u32 val))) =? 0);
      reflexivity. }
  repeat split.
Qed.

End ScalarRegisters.

(** ** What a notification leaves alone *)

Lemma same_registers_refl {X : Type} (s : VIRTIODevice X) :
  same_registers s s.
Proof. repeat split. Qed.

Lemma same_registers_trans {X : Type} (s s1 s2 : VIRTIODevice X) :
  same_registers s s1 -> same_registers s1 s2 -> same_registers s s2.
Proof.
  intros (A1 & B1 & C1 & D1 & E1) (A2 & B2 & C2 & D2 & E2).
  repeat split; congruence.
Qed.

Lemma ram_only_same_registers {X : Type} (s s' : VIRTIODevice X) :
  ram_only s s' -> queue s' = queue s /\ same_registers s s'.
Proof. unfold ram_only. intros ->. repeat split. Qed.

Lemma with_last_avail_idx_idem (qs : QueueState) :
  qs = with_last_avail_idx (last_avail_idx qs) qs.
Proof. destruct qs. reflexivity. Qed.

Lemma notify_only_refl {X : Type} (q : Z) (s : VIRTIODevice X) :
  notify_only q s s.
Proof.
  split; [reflexivity|]. split; [apply with_last_avail_idx_idem|].
  apply same_registers_refl.
Qed.

Lemma notify_only_trans {X : Type} (q : Z) (s s1 s2 : VIRTIODevice X) :
  notify_only q s s1 -> notify_only q s1 s2 -> notify_only q s s2.
Proof.
  intros (A1 & B1 & C1) (A2 & B2 & C2). split; [|split].
  - intros i Hi. rewrite A2, A1 by exact Hi. reflexivity.
  - transitivity (with_last_avail_idx (last_avail_idx (queue s2 q))
                    (queue s1 q)); [exact B2|].
    rewrite B1. destruct (queue s q). reflexivity.
  - eapply same_registers_trans; eassumption.
Qed.

Lemma notify_only_kept {X : Type} (q : Z) (s s' : VIRTIODevice X) :
  queue s' = queue s -> same_registers s s' -> notify_only q s s'.
Proof.
  intros Hq Hr. split; [intros i _; rewrite Hq; reflexivity|].
  split; [rewrite Hq; apply with_last_avail_idx_idem | exact Hr].
Qed.

Section NotifyFrame.
Context {BS : Type}.
Variable bdev : BlockDevice BS.
Implicit Type s : VIRTIOBlockDevice BS.

Lemma req_end_same_registers (fuel : nat) s (ret : Z) s' :
  virtio_block_req_end fuel s ret = Ok s' ->
  queue s' = queue s /\ same_registers s s'.
Proof.
  unfold virtio_block_req_end.
  destruct (req_type (req (ext s)) =? VIRTIO_BLK_T_IN).
  - destruct (memcpy_to_queue fuel s _ _ 0 _ _) as [[r s1]| |] eqn:E;
      cbn [bind]; try discriminate.
    intros H. injection H as <-.
    apply memcpy_to_queue_ram_only, ram_only_same_registers in E.
    exact E.
  - destruct (req_type (req (ext s)) =? VIRTIO_BLK_T_OUT); [|discriminate].
    destruct (memcpy_to_queue fuel s _ _ 0 _ _) as [[r s1]| |] eqn:E;
      cbn [bind]; try discriminate.
    intros H. injection H as <-.
    apply memcpy_to_queue_ram_only, ram_only_same_registers in E.
    exact E.
Qed.

Lemma recv_request_same_registers (fuel : nat) s (q d rs ws r : Z) s' :
  virtio_block_recv_request bdev fuel s q d rs ws = Ok (r, s') ->
  queue s' = queue s /\ same_registers s s'.
Proof.
  unfold virtio_block_recv_request.
  destruct (req_in_progress (ext s)).
  { intros H. apply Ok_pair_inj in H as [_ <-].
    split; [reflexivity | repeat split]. }
  destruct (memcpy_from_queue fuel s _ q d 0 HEADER_SIZE) as [[r0 h]| |];
    cbn [bind]; try discriminate.
  destruct (r0 <? 0).
  { intros H. apply Ok_pair_inj in H as [_ <-].
    split; [reflexivity | repeat split]. }
  destruct (le_decode (sub_bytes h 0 4) =? VIRTIO_BLK_T_IN).
  { destruct (read_async bdev _ _ _ _) as [[ret buf] b].
    destruct (0 <? ret).
    - intros H. apply Ok_pair_inj in H as [_ <-].
      split; [reflexivity | repeat split].
    - destruct (virtio_block_req_end fuel _ ret) as [s1| |] eqn:E;
        cbn [bind]; try discriminate.
      intros H. apply Ok_pair_inj in H as [_ <-].
      apply req_end_same_registers in E. exact E. }
  destruct (le_decode (sub_bytes h 0 4) =? VIRTIO_BLK_T_OUT).
  { destruct (ws <? 1); [discriminate|].
    destruct (memcpy_from_queue fuel _ _ q d HEADER_SIZE _) as [[r1 buf]| |];
      cbn [bind]; try discriminate.
    destruct (write_async bdev _ _ _ _) as [ret b].
    destruct (0 <? ret).
    - intros H. apply Ok_pair_inj in H as [_ <-].
      split; [reflexivity | repeat split].
    - destruct (virtio_block_req_end fuel _ ret) as [s1| |] eqn:E;
        cbn [bind]; try discriminate.
      intros H. apply Ok_pair_inj in H as [_ <-].
      apply req_end_same_registers in E. exact E. }
  intros H. apply Ok_pair_inj in H as [_ <-].
  split; [reflexivity | repeat split].
Qed.

Lemma advance_last_avail_notify_only s (q : Z) :
  notify_only q s (advance_last_avail s q).
Proof.
  unfold advance_last_avail, set_queue, upd_queue.
  split; [|split].
  - intros i Hi. cbn [queue with_queue].
    destruct (Z.eqb_spec i q); [contradiction | reflexivity].
  - cbn [queue with_queue]. rewrite Z.eqb_refl. reflexivity.
  - repeat split.
Qed.

Lemma blk_notify_loop_only (n fuel : nat) :
  forall s (q a : Z) (vs : list visit) s',
    queue_notify_loop (virtio_block_recv_request bdev fuel) n fuel s q a
      = Ok (vs, s') ->
    notify_only q s s'.
Proof.
  induction n as [|n IH]; intros s q a vs s';
    cbn [queue_notify_loop]; [discriminate|].
  destruct (last_avail_idx (queue s q) =? a).
  { intros H. apply Ok_pair_inj in H as [_ <-]. apply notify_only_refl. }
  destruct (get_desc_rw_size fuel s q _) as [[[rs ws]|]| |];
    cbn [bind]; try discriminate.
  - destruct (virtio_block_recv_request bdev fuel s q _ rs ws)
      as [[ret s1]| |] eqn:E; cbn [bind]; try discriminate.
    apply recv_request_same_registers in E. destruct E as [Eq Er].
    pose proof (notify_only_kept q s s1 Eq Er) as K.
    destruct (ret <? 0).
    { intros H. apply Ok_pair_inj in H as [_ <-]. exact K. }
    destruct (queue_notify_loop _ n fuel _ q a) as [[vs2 s2]| |] eqn:E2;
      cbn [bind]; try discriminate.
    intros H. apply Ok_pair_inj in H as [_ <-].
    apply IH in E2.
    eapply notify_only_trans; [exact K|].
    eapply notify_only_trans; [apply advance_last_avail_notify_only|exact E2].
  - destruct (queue_notify_loop _ n fuel _ q a) as [[vs2 s2]| |] eqn:E2;
      cbn [bind]; try discriminate.
    intros H. apply Ok_pair_inj in H as [_ <-].
    apply IH in E2.
    eapply notify_only_trans; [apply advance_last_avail_notify_only|exact E2].
Qed.

(** X24: a notification of queue [q] of the block device, and the
    completion of a deferred transfer, never re-program the device: the
    other queues, the ring addresses, size and ready flag of queue [q],
    the selected queue, the status, the feature selector and the
    configuration space are left as they were; only [last_avail_idx] of
    the notified queue may move. *)
Theorem blk_notify_frame (n fuel : nat) s (q ret : Z) :
  (forall s', blk_queue_notify bdev n fuel s q = Ok s' ->
              notify_only q s s') /\
  (forall s', virtio_block_req_cb bdev n fuel s ret = Ok s' ->
              notify_only (req_queue_idx (req (ext s))) s s').
Proof.
  assert (N : forall s0 q0 s', blk_queue_notify bdev n fuel s0 q0 = Ok s' ->
                notify_only q0 s0 s').
  { intros s0 q0 s'. unfold blk_queue_notify, queue_notify,
      queue_notify_visits.
    destruct (manual_recv (queue s0 q0)).
    { cbn [bind]. intros H. injection H as <-. apply notify_only_refl. }
    destruct (queue_notify_loop _ n fuel s0 q0 _) as [[vs s1]| |] eqn:E;
      cbn [bind]; try discriminate.
    intros H. injection H as <-. eapply blk_notify_loop_only. exact E. }
  split; [apply N|].
  intros s'. unfold virtio_block_req_cb.
  destruct (virtio_block_req_end fuel s ret) as [s1| |] eqn:E;
    cbn [bind]; try discriminate.
  pose proof (req_end_keeps_ext fuel s ret s1 E) as Ee.
  intros H. apply N in H.
  apply req_end_same_registers in E. destruct E as [Eq Er].
  cbn [req ext with_req_in_progress with_ext] in H.
  rewrite Ee in H.
  eapply notify_only_trans; [|exact H].
  apply notify_only_kept; [exact Eq|].
  destruct Er as (A & B & C & D & F). repeat split; assumption.
Qed.

End NotifyFrame.

Lemma consume_desc_frame_witness :
  publication_only (blk_setup read_request_ram)
    (virtio_consume_desc (blk_setup read_request_ram) 0 0 513) /\
  load_u8 (ram (virtio_consume_desc (blk_setup read_request_ram) 0 0 513))
    0x5200 = load_u8 (ram (blk_setup read_request_ram)) 0x5200.
Proof.
  destruct (consume_desc_frame (blk_setup read_request_ram) 0 0 513)
    as [A B].
  split; [exact A|].
  apply B.
  - replace (used_idx_addr (queue (blk_setup read_request_ram) 0))
      with 0x3002 by (vm_compute; reflexivity).
    intros k Hk. apply u64_apart'; lia.
  - replace (used_slot_addr (queue (blk_setup read_request_ram) 0)
               (virtio_read16 (blk_setup read_request_ram)
                  (used_idx_addr (queue (blk_setup read_request_ram) 0))))
      with 0x3004 by (vm_compute; reflexivity).
    intros k Hk. apply u64_apart'; lia.
Defined.

Lemma scalar_register_write_read_witness :
  u32 7 <> 0 /\
  (s' <- virtio_mmio_write (fun s _ _ _ _ => Ok (0, s)) None 0 0 blk_fresh
           VIRTIO_MMIO_STATUS 7 2 ;;
   virtio_mmio_read s' VIRTIO_MMIO_STATUS 2) = Ok (u32 7).
Proof.
  split; [discriminate|].
  apply (scalar_register_write_read (fun s _ _ _ _ => Ok (0, s)) None 0 0
           blk_fresh 7).
  discriminate.
Defined.

Lemma blk_notify_frame_witness :
  notify_only 0 (blk_sevens read_request_ram)
    (res_value
       (blk_queue_notify file_backend 2 4 (blk_sevens read_request_ram) 0)
       (blk_sevens read_request_ram)).
Proof.
  apply (proj1 (blk_notify_frame file_backend 2 4
                  (blk_sevens read_request_ram) 0 0)).
  apply res_value_ok. vm_compute. reflexivity.
Defined.

(** ** A notification that serves a read request *)

Lemma u16_succ_neq (l : Z) : 0 <= l < 65536 -> (l =? u16 (l + 1)) = false.
Proof.
  intros H. apply Z.eqb_neq. unfold u16.
  destruct (Z.eq_dec l 65535) as [->|]; [discriminate|].
  rewrite Z.mod_small by lia. lia.
Qed.

Section NotifyServes.
Context {BS : Type}.
Variable bdev : BlockDevice BS.
Implicit Type s : VIRTIOBlockDevice BS.

Lemma queue_notify_loop_step (n fuel : nat) s (q a : Z) :
  queue_notify_loop (virtio_block_recv_request bdev fuel) (S n) fuel s q a =
  let qs := queue s q in
  if last_avail_idx qs =? a then Ok ([], s)
  else
    let desc_idx := virtio_read16 s (avail_entry_addr qs) in
    r <- get_desc_rw_size fuel s q desc_idx ;;
    match r with
    | Some (read_size, write_size) =>
        '(ret, s1) <- virtio_block_recv_request bdev fuel s q desc_idx
                        read_size write_size ;;
        if ret <? 0
        then Ok ([mkVisit (last_avail_idx qs) desc_idx (Called ret)], s1)
        else
          '(vs, s2) <- queue_notify_loop (virtio_block_recv_request bdev fuel)
                         n fuel (advance_last_avail s1 q) q a ;;
          Ok (mkVisit (last_avail_idx qs) desc_idx (Called ret) :: vs, s2)
    | None =>
        '(vs, s2) <- queue_notify_loop (virtio_block_recv_request bdev fuel)
                       n fuel (advance_last_avail s q) q a ;;
        Ok (mkVisit (last_avail_idx qs) desc_idx Skipped :: vs, s2)
    end.
Proof. reflexivity. Qed.

(** X25: the driver has put one new head in the available ring of a
    queue of an idle block device; the head starts a well-formed read
    request (a terminated chain, header in the device-readable part,
    room for data and status in the device-writable part, both parts
    shorter than 2^31 bytes, the device-writable buffers clear of the
    descriptor-table entries of the chain) and the backend, handed the
    storage [malloc] returned, completes at once.  Then a notification
    of the queue returns; it stores the buffer as the backend left it,
    with the status in its last byte, in the device-writable buffers,
    publishes the used entry (head, size of the device-writable part),
    raises the interrupt and leaves [last_avail_idx] at the index the
    driver published. *)
Theorem notify_serves_read_request (n fuel : nat) s (q d : Z)
    (rs' ws : list VIRTIODesc) (ret : Z) (data : list Z) (b' : BS) :
  manual_recv (queue s q) = false ->
  0 <= last_avail_idx (queue s q) < 65536 ->
  virtio_read16 s (u64 (avail_addr (queue s q) + 2)) =
    u16 (last_avail_idx (queue s q) + 1) ->
  virtio_read16 s (avail_entry_addr (queue s q)) = d ->
  req_in_progress (ext s) = false ->
  desc_chain s q (get_desc s q d) (rs' ++ ws) ->
  Forall is_read_desc (get_desc s q d :: rs') ->
  Forall is_write_desc ws ->
  HEADER_SIZE <= chain_len (get_desc s q d :: rs') < 2147483648 ->
  0 < chain_len ws < 2147483648 ->
  le_decode
    (sub_bytes (request_header (ram s) (get_desc s q d :: rs')) 0 4)
    = VIRTIO_BLK_T_IN ->
  read_async bdev (bs (ext s))
    (le_decode
       (sub_bytes (request_header (ram s) (get_desc s q d :: rs')) 8 8))
    (malloc (stale s) (chain_len ws))
    (Z.quot (s32 (chain_len ws - 1)) SECTOR_SIZE)
    = (ret, data, b') ->
  ret <= 0 ->
  buffers_clear (desc_addr (queue s q)) ws (chain_links ws) ->
  (2 <= n)%nat -> (S (length (rs' ++ ws)) < fuel)%nat ->
  exists s1 s',
    blk_queue_notify bdev n fuel s q = Ok s' /\
    s' = advance_last_avail (virtio_consume_desc s1 q d (chain_len ws)) q /\
    (forall a, load_u8 (ram s1) a =
       load_u8 (write_bytes (ram s) (chain_addrs ws)
                  (buf_sub (buf_put data (chain_len ws - 1) (status_of ret))
                     0 (chain_len ws))) a) /\
    last_avail_idx (queue s' q) =
      virtio_read16 s (u64 (avail_addr (queue s q) + 2)) /\
    irq s' = true /\ int_status s' = Z.lor (int_status s) 1 /\
    bs (ext s') = b' /\ req_in_progress (ext s') = false.
Proof.
  intros Hman Hlast Havail Hhead Hidle Hc Hr Hw Hl Hws Htype Hread Hret
    Hclear Hn Hf.
  pose proof (desc_chain_path _ s q _ Hc) as Hp.
  destruct (block_read_request_run bdev fuel s q d
              (chain_len (get_desc s q d :: rs')) (chain_len ws) rs' ws
              ret data b' Hidle Hp Hr Hw Hl ltac:(lia) ltac:(lia) Htype
              Hread Hret Hclear ltac:(lia))
    as (s1 & E & G & Eq & Ei & Es & Eb & Ep).
  exists s1,
    (advance_last_avail (virtio_consume_desc s1 q d (chain_len ws)) q).
  assert (Hsizes : get_desc_rw_size fuel s q d =
                   Ok (Some (chain_len (get_desc s q d :: rs'),
                             chain_len ws))).
  { apply (get_desc_rw_size_plain fuel s q d (rs' ++ ws)
             (get_desc s q d :: rs') ws Hc (eq_refl _) Hr Hw);
      [lia | lia | exact Hf]. }
  assert (Hw' : Forall (fun d => 0 <= d_len d) ws).
  { pose proof (desc_path_len_nonneg _ s q _ Hp) as A.
    apply Forall_app in A. exact (proj2 A). }
  split.
  { unfold blk_queue_notify, queue_notify, queue_notify_visits.
    rewrite Hman. rewrite Havail.
    destruct n as [|[|n]]; [lia | lia |].
    rewrite queue_notify_loop_step. cbv zeta.
    rewrite (u16_succ_neq _ Hlast). rewrite Hhead, Hsizes, bind_Ok.
    rewrite E, bind_Ok. change (0 <? 0) with false. cbv iota.
    rewrite queue_notify_loop_step. cbv zeta.
    rewrite advance_last_avail_idx, consume_desc_queue, Eq, Z.eqb_refl.
    reflexivity. }
  split; [reflexivity|].
  split.
  { intros a. rewrite G. f_equal. f_equal.
    apply firstn_all2.
    pose proof (chain_addrs_length ws Hw'). lia. }
  split.
  { rewrite advance_last_avail_idx, consume_desc_queue, Eq.
    symmetry. exact Havail. }
  split; [reflexivity|].
  split.
  { change (int_status
              (advance_last_avail (virtio_consume_desc s1 q d (chain_len ws))
                 q))
      with (int_status (virtio_consume_desc s1 q d (chain_len ws))).
    rewrite (proj2 (consume_desc_irq s1 q d (chain_len ws))), Es.
    reflexivity. }
  split; [exact Eb | exact Ep].
Qed.

End NotifyServes.

Lemma notify_serves_read_request_witness :
  exists s1 s',
    blk_queue_notify file_backend 2 4 blk_stale 0 = Ok s' /\
    s' = advance_last_avail
           (virtio_consume_desc s1 0 0
              (chain_len [mkVIRTIODesc 0x5000 512 3 2;
                          mkVIRTIODesc 0x5200 2 2 0])) 0 /\
    (forall a, load_u8 (ram s1) a =
       load_u8 (write_bytes (ram blk_stale)
                  (chain_addrs [mkVIRTIODesc 0x5000 512 3 2;
                                mkVIRTIODesc 0x5200 2 2 0])
                  (buf_sub (buf_put (repeat 7 512%nat ++ [0xaa; 0xaa])
                              (chain_len [mkVIRTIODesc 0x5000 512 3 2;
                                          mkVIRTIODesc 0x5200 2 2 0] - 1)
                              (status_of 0)) 0
                     (chain_len [mkVIRTIODesc 0x5000 512 3 2;
                                 mkVIRTIODesc 0x5200 2 2 0]))) a) /\
    last_avail_idx (queue s' 0) =
      virtio_read16 blk_stale (u64 (avail_addr (queue blk_stale 0) + 2)) /\
    irq s' = true /\
    int_status s' = Z.lor (int_status blk_stale) 1 /\
    bs (ext s') =
      mkBlockDeviceFile (Some (mkHostFile (repeat 7 1024%nat) 512)) 2
        BF_MODE_RW (fun _ => None) /\
    req_in_progress (ext s') = false.
Proof.
  apply (notify_serves_read_request file_backend 2 4 blk_stale 0 0 []
           [mkVIRTIODesc 0x5000 512 3 2; mkVIRTIODesc 0x5200 2 2 0]
           0 (repeat 7 512%nat ++ [0xaa; 0xaa])
           (mkBlockDeviceFile (Some (mkHostFile (repeat 7 1024%nat) 512)) 2
              BF_MODE_RW (fun _ => None))).
  - reflexivity.
  - vm_compute. split; [discriminate | reflexivity].
  - vm_compute. reflexivity.
  - vm_compute. reflexivity.
  - reflexivity.
  - vm_compute. repeat split.
  - constructor; [vm_compute; reflexivity | constructor].
  - repeat constructor.
  - vm_compute. split; [discriminate | reflexivity].
  - vm_compute. split; reflexivity.
  - vm_compute. reflexivity.
  - vm_compute. reflexivity.
  - lia.
  - replace (desc_addr (queue blk_stale 0)) with 0x1000
      by (vm_compute; reflexivity).
    intros w i k b Hw Hi Hk Hb.
    cbn [chain_links removelast map In d_next] in Hi.
    destruct Hi as [<-|[]].
    change (u64 2) with 2.
    destruct Hw as [<-|[<-|[]]]; cbn [d_addr d_len] in *;
      apply u64_apart'; lia.
  - lia.
  - cbn. lia.
Defined.

(** ** Loads: what is refused and what is returned *)

Lemma le_encode_split (n m : nat) (v : Z) :
  le_encode (n + m) v = le_encode n v ++ le_encode m (v / 256 ^ Z.of_nat n).
Proof.
  revert v. induction n as [|n IH]; intros v.
  - cbn [Nat.add le_encode app]. rewrite Z.div_1_r. reflexivity.
  - cbn [Nat.add le_encode app]. f_equal. rewrite IH. f_equal. f_equal.
    rewrite Nat2Z.inj_succ, Z.pow_succ_r by lia.
    rewrite Z.div_div by (try apply Z.pow_pos_nonneg; lia). reflexivity.
Qed.

Lemma le_encode_pair (lo hi : Z) :
  0 <= lo < 4294967296 -> 0 <= hi ->
  le_encode 8 (Z.lor lo (Z.shiftl hi 32)) = le_encode 4 lo ++ le_encode 4 hi.
Proof.
  intros Hlo Hhi. rewrite lor_shiftl_32 by assumption.
  rewrite (le_encode_split 4 4). change (256 ^ Z.of_nat 4) with 4294967296.
  f_equal.
  - rewrite <- (le_encode_u32 (lo + 4294967296 * hi)).
    f_equal. unfold u32. Z.div_mod_to_equations. lia.
  - f_equal. Z.div_mod_to_equations. lia.
Qed.

(** C8, amended: [virtioblk_t::load] never looks at the address.  It
    returns false exactly when the length is not 1, 2, 4 or 8; for
    lengths 1 and 2 it returns true with zero bytes; for length 4 it
    returns true with the four bytes, low byte first, of the value that
    [virtio_mmio_read] returns for the register at the address; for
    length 8, with those of the registers at the address and at the
    address plus 4, the latter in the upper half.
    [sifive_uart_t::load] returns false exactly when the address is at or
    above 0x1000 or the length exceeds 4; inside the window it returns
    true with the [len] low bytes of the register at the offset: 0 for
    TXFIFO, the value popped by [read_rxfifo] for RXFIFO, [txctrl],
    [rxctrl], [ie], the value of [read_ip] for IP, [div]; it aborts at
    any other offset. *)
Theorem load_refusal_conditions {BS U : Type} (s : VIRTIOBlockDevice BS)
    (read_rxfifo : U -> Z * U) (read_ip txctrl rxctrl ie div : U -> Z)
    (u : U) (addr len : Z) :
  (~ (len = 1 \/ len = 2 \/ len = 4 \/ len = 8) <->
   virtioblk_load s addr len = Ok (false, [])) /\
  (len = 1 \/ len = 2 ->
   virtioblk_load s addr len = Ok (true, repeat 0 (Z.to_nat len))) /\
  (len = 4 ->
   exists v,
     virtio_mmio_read s addr 2 = Ok v /\
     virtioblk_load s addr len = Ok (true, le_encode 4 v)) /\
  (len = 8 ->
   exists lo hi,
     virtio_mmio_read s addr 2 = Ok lo /\
     virtio_mmio_read s (addr + 4) 2 = Ok hi /\
     virtioblk_load s addr len =
       Ok (true, le_encode 8 (Z.lor lo (Z.shiftl hi 32))) /\
     (0 <= lo < 4294967296 -> 0 <= hi ->
      virtioblk_load s addr len = Ok (true, le_encode 4 lo ++ le_encode 4 hi)))
  /\
  let uart_load :=
    sifive_uart_load U read_rxfifo read_ip txctrl rxctrl ie div u addr len in
  let low (r : Z) := le_encode (Z.to_nat len) (u32 r) in
  (0x1000 <= addr \/ 4 < len <-> uart_load = Ok (false, [], u)) /\
  (addr < 0x1000 -> len <= 4 ->
   (addr = UART_TXFIFO -> uart_load = Ok (true, low 0, u)) /\
   (addr = UART_RXFIFO ->
    uart_load = Ok (true, low (fst (read_rxfifo u)), snd (read_rxfifo u))) /\
   (addr = UART_TXCTRL -> uart_load = Ok (true, low (txctrl u), u)) /\
   (addr = UART_RXCTRL -> uart_load = Ok (true, low (rxctrl u), u)) /\
   (addr = UART_IE -> uart_load = Ok (true, low (ie u), u)) /\
   (addr = UART_IP -> uart_load = Ok (true, low (read_ip u), u)) /\
   (addr = UART_DIV -> uart_load = Ok (true, low (div u), u)) /\
   (~ In addr uart_load_regs -> uart_load = Aborted)).
Proof.
  split; [|split; [|split; [|split]]].
  - unfold virtioblk_load.
    destruct (Z.ltb_spec 8 len).
    { split; [reflexivity | lia]. }
    destruct (Z.eqb_spec len 1) as [->|].
    { split; [lia | discriminate]. }
    destruct (Z.eqb_spec len 2) as [->|].
    { split; [lia | discriminate]. }
    destruct (Z.eqb_spec len 4) as [->|].
    { destruct (virtio_mmio_read_word_returns s addr) as [v ->].
      cbn [bind]. split; [lia | discriminate]. }
    destruct (Z.eqb_spec len 8) as [->|].
    { destruct (virtio_mmio_read_word_returns s addr) as [v ->].
      destruct (virtio_mmio_read_word_returns s (addr + 4)) as [w ->].
      cbn [bind]. split; [lia | discriminate]. }
    split; [reflexivity | lia].
  - intros [-> | ->]; reflexivity.
  - intros ->. destruct (virtio_mmio_read_word_returns s addr) as [v E].
    exists v. split; [exact E|].
    unfold virtioblk_load. cbn [Z.ltb Z.eqb Z.compare Pos.compare
      Pos.compare_cont Pos.eqb]. rewrite E. reflexivity.
  - intros ->. destruct (virtio_mmio_read_word_returns s addr) as [lo E].
    destruct (virtio_mmio_read_word_returns s (addr + 4)) as [hi E'].
    exists lo, hi. split; [exact E|]. split; [exact E'|].
    rewrite virtioblk_load_8, E, E'. cbn [bind].
    split; [reflexivity|].
    intros Hlo Hhi. rewrite le_encode_pair by assumption. reflexivity.
  - intros uart_load low.
    unfold uart_load, low, sifive_uart_load, uart_load_regs,
      UART_TXFIFO, UART_RXFIFO, UART_TXCTRL, UART_RXCTRL, UART_IE, UART_IP,
      UART_DIV.
    destruct (Z.leb_spec 0x1000 addr); destruct (Z.ltb_spec 4 len);
      cbn [orb].
    1-3: (split; [split; [reflexivity | intros _; lia]|]; intros; lia).
    split.
    { split; [lia|].
      destruct (Z.eqb_spec addr 0); [discriminate|].
      destruct (Z.eqb_spec addr 4);
        [destruct (read_rxfifo u); discriminate|].
      destruct (Z.eqb_spec addr 8); [discriminate|].
      destruct (Z.eqb_spec addr 12); [discriminate|].
      destruct (Z.eqb_spec addr 16); [discriminate|].
      destruct (Z.eqb_spec addr 20); [discriminate|].
      destruct (Z.eqb_spec addr 24); discriminate. }
    intros _ _.
    split; [intros ->; reflexivity|].
    split; [intros ->; cbn [Z.eqb Pos.eqb]; destruct (read_rxfifo u);
            reflexivity|].
    split; [intros ->; reflexivity|].
    split; [intros ->; reflexivity|].
    split; [intros ->; reflexivity|].
    split; [intros ->; reflexivity|].
    split; [intros ->; reflexivity|].
    intros Hin. cbn [In] in Hin.
    destruct (Z.eqb_spec addr 0); [lia|].
    destruct (Z.eqb_spec addr 4); [lia|].
    destruct (Z.eqb_spec addr 8); [lia|].
    destruct (Z.eqb_spec addr 12); [lia|].
    destruct (Z.eqb_spec addr 16); [lia|].
    destruct (Z.eqb_spec addr 20); [lia|].
    destruct (Z.eqb_spec addr 24); [lia|].
    reflexivity.
Qed.

Lemma load_refusal_conditions_witness :
  exists v,
    virtio_mmio_read blk0 VIRTIO_MMIO_MAGIC_VALUE 2 = Ok v /\
    virtioblk_load blk0 VIRTIO_MMIO_MAGIC_VALUE 4 = Ok (true, le_encode 4 v).
Proof.
  apply (proj1 (proj2 (proj2
           (load_refusal_conditions blk0 (fun u : unit => (0, u))
              (fun _ => 0) (fun _ => 0) (fun _ => 0) (fun _ => 0)
              (fun _ => 0) tt VIRTIO_MMIO_MAGIC_VALUE 4)))).
  reflexivity.
Defined.

(** ** The notify loop, round by round *)

Section NotifyRounds.
Context {X : Type}.
Variable device_recv :
  VIRTIODevice X -> Z -> Z -> Z -> Z -> res (Z * VIRTIODevice X).

Lemma queue_notify_loop_rounds (n fuel : nat) (s : VIRTIODevice X) (q a : Z)
    (vs : list visit) (s' : VIRTIODevice X) :
  queue_notify_loop device_recv n fuel s q a = Ok (vs, s') ->
  notify_rounds device_recv fuel q s vs s'.
Proof.
  revert s vs s'. induction n as [|n IH]; intros s vs s';
    cbn [queue_notify_loop]; [discriminate|].
  destruct (last_avail_idx (queue s q) =? a).
  { intros H. apply Ok_pair_inj in H as [<- <-]. reflexivity. }
  set (head := virtio_read16 s (avail_entry_addr (queue s q))).
  destruct (get_desc_rw_size fuel s q head) as [[[rs ws]|]| |] eqn:Esz;
    cbn [bind]; try discriminate.
  - destruct (device_recv s q head rs ws) as [[ret s1]| |] eqn:E;
      cbn [bind]; try discriminate.
    destruct (ret <? 0) eqn:Eret.
    + intros H. apply Ok_pair_inj in H as [<- <-].
      cbn [notify_rounds v_index v_head v_outcome].
      split; [reflexivity|]. split; [reflexivity|].
      exists rs, ws, s1. split; [exact Esz|]. split; [exact E|].
      rewrite Eret. split; reflexivity.
    + destruct (queue_notify_loop device_recv n fuel
                  (advance_last_avail s1 q) q a) as [[vs2 s2]| |] eqn:E2;
        cbn [bind]; try discriminate.
      intros H. apply Ok_pair_inj in H as [<- <-].
      cbn [notify_rounds v_index v_head v_outcome].
      split; [reflexivity|]. split; [reflexivity|].
      exists rs, ws, s1. split; [exact Esz|]. split; [exact E|].
      rewrite Eret. apply IH. exact E2.
  - destruct (queue_notify_loop device_recv n fuel
                (advance_last_avail s q) q a) as [[vs2 s2]| |] eqn:E2;
      cbn [bind]; try discriminate.
    intros H. apply Ok_pair_inj in H as [<- <-].
    cbn [notify_rounds v_index v_head v_outcome].
    split; [reflexivity|]. split; [reflexivity|].
    split; [exact Esz|]. apply IH. exact E2.
Qed.

End NotifyRounds.

(** C5, amended: a notify on a queue marked [manual_recv] does nothing.
    Otherwise, for a callback that leaves the queue array alone (as the
    block device's does), [queue_notify] handles the ring positions
    [last_avail_idx], [last_avail_idx + 1], ... modulo 2^16 in order, one
    round each.  In a round the head is read from the available ring at
    the current position; if [get_desc_rw_size] accepts its chain the
    callback is invoked once, on that head and the sizes found, and if
    it rejects the chain the callback is not invoked; the next round
    starts from the state the callback left (from the same state after a
    rejected chain) with [last_avail_idx] moved past the head, unless the
    callback returned a value below 0, which ends the loop in the state
    the callback left, [last_avail_idx] still at that head.  So when the
    call returns, either no round was a push-back and [last_avail_idx]
    equals the [avail.idx] read at entry, after [(avail.idx -
    last_avail_idx) mod 2^16] rounds, or exactly the last round was a
    push-back.  The bound on the rounds of the model plays no role once
    it exceeds that distance. *)
Theorem notify_walks_available_ring {X : Type}
    (device_recv :
       VIRTIODevice X -> Z -> Z -> Z -> Z -> res (Z * VIRTIODevice X))
    (n fuel : nat) (s : VIRTIODevice X) (q : Z) (vs : list visit)
    (s' : VIRTIODevice X) :
  (forall s q d rs ws r s',
      device_recv s q d rs ws = Ok (r, s') -> queue s' = queue s) ->
  0 <= last_avail_idx (queue s q) < 65536 ->
  queue_notify_visits device_recv n fuel s q = Ok (vs, s') ->
  let l := last_avail_idx (queue s q) in
  let a := virtio_read16 s (u64 (avail_addr (queue s q) + 2)) in
  queue_notify device_recv n fuel s q = Ok s' /\
  (manual_recv (queue s q) = true -> vs = [] /\ s' = s) /\
  (manual_recv (queue s q) = false ->
   notify_rounds device_recv fuel q s vs s' /\
   walk_outcome l a vs (last_avail_idx (queue s' q))) /\
  (forall n',
      u16 (a - l) < Z.of_nat n -> u16 (a - l) < Z.of_nat n' ->
      queue_notify_visits device_recv n' fuel s q = Ok (vs, s')).
Proof.
  intros Hkeep Hl Hrun l a.
  assert (Ha : 0 <= a < 65536) by apply load_u16_range.
  split; [unfold queue_notify; rewrite Hrun; reflexivity|].
  unfold queue_notify_visits in *.
  destruct (manual_recv (queue s q)).
  - apply Ok_pair_inj in Hrun as [<- <-].
    split; [intros _; split; reflexivity|].
    split; [discriminate|]. intros n' _ _. reflexivity.
  - split; [discriminate|].
    split.
    + intros _. split.
      * eapply queue_notify_loop_rounds; eauto.
      * eapply queue_notify_loop_walk; eauto.
    + intros n' H1 H2. rewrite <- Hrun.
      apply queue_notify_loop_bound; auto.
Qed.

Lemma notify_walks_available_ring_witness :
  notify_rounds (virtio_block_recv_request file_backend 8) 8 0
    (blk_setup (one_request_ram VIRTIO_BLK_T_IN)) notify_example_visits
    notify_example_state /\
  walk_outcome
    (last_avail_idx (queue (blk_setup (one_request_ram VIRTIO_BLK_T_IN)) 0))
    (virtio_read16 (blk_setup (one_request_ram VIRTIO_BLK_T_IN))
       (u64 (avail_addr
               (queue (blk_setup (one_request_ram VIRTIO_BLK_T_IN)) 0) + 2)))
    notify_example_visits
    (last_avail_idx (queue notify_example_state 0)).
Proof.
  pose proof (notify_walks_available_ring
    (virtio_block_recv_request file_backend 8) 4 8
    (blk_setup (one_request_ram VIRTIO_BLK_T_IN)) 0
    notify_example_visits notify_example_state) as H.
  cbv zeta in H. apply H.
  - intros s q d rs ws r s' H0.
    exact (proj1 (recv_request_keeps_queue file_backend 8 s q d rs ws r s' H0)).
  - vm_compute. split; [discriminate | reflexivity].
  - exact notify_example_returns.
  - vm_compute. reflexivity.
Defined.

(** ** What the block callback publishes *)

Section ReadsOnlyMemory.
Context {X : Type}.
Implicit Type s : VIRTIODevice X.

Lemma virtio_memcpy_from_ram_ext s (s1 : VIRTIODevice X) (buf : list Z)
    (bpos addr count : Z) :
  ram s1 = ram s ->
  virtio_memcpy_from_ram s1 buf bpos addr count =
  virtio_memcpy_from_ram s buf bpos addr count.
Proof.
  intros Hr. unfold virtio_memcpy_from_ram.
  generalize (Z.to_nat count). intros n.
  revert buf bpos addr count.
  induction n as [|n IH]; intros buf bpos addr count; [reflexivity|].
  cbn [virtio_memcpy_from_ram_loop].
  destruct (0 <? count); [|reflexivity].
  unfold memcpy_from_ram_intrapage. rewrite Hr. apply IH.
Qed.

Lemma find_desc_at_offset_ext (fuel : nat) s (s1 : VIRTIODevice X) (q : Z)
    (desc : VIRTIODesc) (offset fw : Z) :
  ram s1 = ram s -> queue s1 = queue s ->
  find_desc_at_offset fuel s1 q desc offset fw =
  find_desc_at_offset fuel s q desc offset fw.
Proof.
  intros Hr Hq. revert desc offset.
  induction fuel as [|fuel IH]; intros desc offset; [reflexivity|].
  cbn [find_desc_at_offset].
  rewrite (get_desc_ext s s1 q (d_next desc) Hr Hq), IH. reflexivity.
Qed.

Lemma copy_from_queue_loop_ext (fuel : nat) s (s1 : VIRTIODevice X)
    (buf : list Z) (bpos q : Z) (desc : VIRTIODesc) (offset count fw : Z) :
  ram s1 = ram s -> queue s1 = queue s ->
  ('(r, b, _) <- copy_queue_loop fuel s1 buf bpos q desc offset count false
                   fw ;; Ok (r, b)) =
  ('(r, b, _) <- copy_queue_loop fuel s buf bpos q desc offset count false
                   fw ;; Ok (r, b)).
Proof.
  intros Hr Hq. revert buf bpos desc offset count.
  induction fuel as [|fuel IH]; intros buf bpos desc offset count;
    [reflexivity|].
  cbn [copy_queue_loop].
  rewrite (virtio_memcpy_from_ram_ext s s1 _ _ _ _ Hr).
  rewrite (get_desc_ext s s1 q (d_next desc) Hr Hq).
  destruct (s32 (count - min_int count (s32 (d_len desc - offset))) =? 0);
    [reflexivity|].
  destruct (u32 (s32 (offset + min_int count (s32 (d_len desc - offset))))
            =? d_len desc).
  - destruct (negb (has_flag desc VRING_DESC_F_NEXT)); [reflexivity|].
    destruct (negb (Z.land (d_flags (get_desc s q (d_next desc)))
                      VRING_DESC_F_WRITE =? fw)); [reflexivity|].
    apply IH.
  - apply IH.
Qed.

Lemma memcpy_from_queue_ext (fuel : nat) s (s1 : VIRTIODevice X)
    (buf : list Z) (q d offset count : Z) :
  ram s1 = ram s -> queue s1 = queue s ->
  memcpy_from_queue fuel s1 buf q d offset count =
  memcpy_from_queue fuel s buf q d offset count.
Proof.
  intros Hr Hq. unfold memcpy_from_queue, memcpy_to_from_queue.
  destruct (count =? 0); [reflexivity|].
  rewrite bind_Ok, bind_Ok.
  rewrite (get_desc_ext s s1 q d Hr Hq).
  rewrite (find_desc_at_offset_ext fuel s s1 q _ offset 0 Hr Hq).
  destruct (find_desc_at_offset fuel s q (get_desc s q d) offset 0)
    as [[[d2 o2]|]| |]; cbn [bind]; try reflexivity.
  apply copy_from_queue_loop_ext; assumption.
Qed.

Lemma data_stores_only_refl s : data_stores_only s s.
Proof. exists []. rewrite app_nil_r. split; [reflexivity | constructor]. Qed.

Lemma data_stores_only_trans s (s1 s2 : VIRTIODevice X) :
  data_stores_only s s1 -> data_stores_only s1 s2 -> data_stores_only s s2.
Proof.
  intros (l1 & E1 & F1) (l2 & E2 & F2). exists (l1 ++ l2).
  rewrite E2, E1, app_assoc. split; [reflexivity|].
  apply Forall_app. split; assumption.
Qed.

Lemma virtio_write8_data_store s (a v : Z) :
  data_stores_only s (virtio_write8 s a v).
Proof.
  exists [EvStore 8 (u64 a) (u8 v)]. split; [reflexivity|].
  constructor; [|constructor]. exists (u64 a), (u8 v). reflexivity.
Qed.

Lemma memcpy_to_ram_intrapage_loop_data_stores (n : nat) s (addr : Z)
    (buf : list Z) (bpos l : Z) :
  data_stores_only s (memcpy_to_ram_intrapage_loop n s addr buf bpos l).
Proof.
  revert s l. induction n as [|n IH]; intros s l;
    cbn [memcpy_to_ram_intrapage_loop].
  - apply data_stores_only_refl.
  - eapply data_stores_only_trans; [apply virtio_write8_data_store|apply IH].
Qed.

Lemma virtio_memcpy_to_ram_data_stores s (addr : Z) (buf : list Z)
    (bpos count : Z) :
  data_stores_only s (virtio_memcpy_to_ram s addr buf bpos count).
Proof.
  unfold virtio_memcpy_to_ram. generalize (Z.to_nat count). intros n.
  revert s addr bpos count.
  induction n as [|n IH]; intros s addr bpos count;
    cbn [virtio_memcpy_to_ram_loop].
  - apply data_stores_only_refl.
  - destruct (0 <? count); [|apply data_stores_only_refl].
    eapply data_stores_only_trans; [|apply IH].
    apply memcpy_to_ram_intrapage_loop_data_stores.
Qed.

Lemma copy_queue_loop_data_stores (fuel : nat) s (buf : list Z) (bpos q : Z)
    (desc : VIRTIODesc) (offset count : Z) (to_queue : bool) (fw : Z)
    (r : Z) (b : list Z) (s' : VIRTIODevice X) :
  copy_queue_loop fuel s buf bpos q desc offset count to_queue fw
    = Ok (r, b, s') ->
  data_stores_only s s'.
Proof.
  revert s buf bpos desc offset count.
  induction fuel as [|fuel IH]; intros s buf bpos desc offset count;
    cbn [copy_queue_loop]; [discriminate|].
  set (l := min_int count (s32 (d_len desc - offset))).
  set (s1 := if to_queue
             then virtio_memcpy_to_ram s (u64 (d_addr desc + offset)) buf
                    bpos l
             else s).
  assert (F : data_stores_only s s1).
  { unfold s1. destruct to_queue;
      [apply virtio_memcpy_to_ram_data_stores
      |apply data_stores_only_refl]. }
  clearbody s1.
  destruct (s32 (count - l) =? 0).
  { intros H. injection H as _ _ <-. exact F. }
  destruct (u32 (s32 (offset + l)) =? d_len desc).
  - destruct (negb (has_flag desc VRING_DESC_F_NEXT)).
    { intros H. injection H as _ _ <-. exact F. }
    destruct (negb (Z.land (d_flags (get_desc s1 q (d_next desc)))
                      VRING_DESC_F_WRITE =? fw)).
    { intros H. injection H as _ _ <-. exact F. }
    intros H. eapply data_stores_only_trans; [exact F | eapply IH; exact H].
  - intros H. eapply data_stores_only_trans; [exact F | eapply IH; exact H].
Qed.

Lemma memcpy_to_queue_data_stores (fuel : nat) s (q d offset : Z)
    (buf : list Z) (count r : Z) (s' : VIRTIODevice X) :
  memcpy_to_queue fuel s q d offset buf count = Ok (r, s') ->
  data_stores_only s s'.
Proof.
  unfold memcpy_to_queue, memcpy_to_from_queue.
  destruct (count =? 0).
  { cbn [bind]. intros H. injection H as _ <-.
    apply data_stores_only_refl. }
  destruct (find_write_desc fuel s q (get_desc s q d)) as [[d1|]| |];
    cbn [bind]; try discriminate.
  - destruct (find_desc_at_offset fuel s q d1 offset _)
      as [[[d2 o2]|]| |]; cbn [bind]; try discriminate.
    + destruct (copy_queue_loop fuel s buf 0 q d2 o2 count true _)
        as [[[r1 b1] s1]| |] eqn:E; cbn [bind]; try discriminate.
      intros H. injection H as _ <-.
      eapply copy_queue_loop_data_stores. exact E.
    + intros H. injection H as _ <-. apply data_stores_only_refl.
  - intros H. injection H as _ <-. apply data_stores_only_refl.
Qed.

Lemma published_by_from s (s0 s' : VIRTIODevice X) (q head len : Z) :
  log s0 = log s ->
  queue s0 = queue s -> irq s0 = irq s -> int_status s0 = int_status s ->
  published_by s0 s' q head len -> published_by s s' q head len.
Proof.
  intros Hl Hq Hi Hs (s1 & Ed & Eq & Ei & Es & E & Ev).
  exists s1.
  split; [unfold data_stores_only in *; rewrite <- Hl; exact Ed|].
  split; [rewrite Eq; exact Hq|]. split; [rewrite Ei; exact Hi|].
  split; [rewrite Es; exact Hs|].
  split; [exact E | rewrite <- Hq; exact Ev].
Qed.

End ReadsOnlyMemory.

Section RequestOutcome.
Context {BS : Type}.
Variable bdev : BlockDevice BS.
Implicit Type s : VIRTIOBlockDevice BS.

(** [virtio_block_req_end] on a recorded IN or OUT request never stops on
    [abort()], and when it returns it has published the entry of the
    request. *)
Lemma req_end_outcome (fuel : nat) s (ret : Z) :
  req_type (req (ext s)) = VIRTIO_BLK_T_IN \/
  req_type (req (ext s)) = VIRTIO_BLK_T_OUT ->
  virtio_block_req_end fuel s ret <> Aborted /\
  forall s',
    virtio_block_req_end fuel s ret = Ok s' ->
    published_by s s' (req_queue_idx (req (ext s)))
      (req_desc_idx (req (ext s)))
      (if req_type (req (ext s)) =? VIRTIO_BLK_T_IN
       then req_write_size (req (ext s)) else 1) /\
    ext s' = ext s.
Proof.
  intros Ht. unfold virtio_block_req_end.
  assert (P : forall s1 len,
             ram_only s s1 -> data_stores_only s s1 ->
             published_by s
               (virtio_consume_desc s1 (req_queue_idx (req (ext s)))
                  (req_desc_idx (req (ext s))) len)
               (req_queue_idx (req (ext s))) (req_desc_idx (req (ext s)))
               len /\
             ext (virtio_consume_desc s1 (req_queue_idx (req (ext s)))
                    (req_desc_idx (req (ext s))) len) = ext s).
  { intros s1 len R D. apply ram_only_fields in R.
    destruct R as (Rq & _ & Re & Ri & Rs & _).
    split; [|exact Re].
    exists s1. split; [exact D|].
    split; [exact Rq|]. split; [exact Ri|]. split; [exact Rs|].
    split; [reflexivity|].
    rewrite consume_desc_new_events, Rq. reflexivity. }
  destruct (req_type (req (ext s)) =? VIRTIO_BLK_T_IN) eqn:Ein.
  - destruct (memcpy_to_queue fuel s _ _ 0 _ _) as [[r s1]| |] eqn:E;
      cbn [bind].
    + split; [discriminate|]. intros s' H. injection H as <-.
      apply P; [eapply memcpy_to_queue_ram_only; exact E
               |eapply memcpy_to_queue_data_stores; exact E].
    + exfalso. revert E. apply memcpy_to_queue_no_abort.
    + split; discriminate.
  - assert (Eout : (req_type (req (ext s)) =? VIRTIO_BLK_T_OUT) = true).
    { destruct Ht as [Ht|Ht]; rewrite Ht in *; [discriminate | reflexivity]. }
    rewrite Eout.
    destruct (memcpy_to_queue fuel s _ _ 0 _ _) as [[r s1]| |] eqn:E;
      cbn [bind].
    + split; [discriminate|]. intros s' H. injection H as <-.
      apply P; [eapply memcpy_to_queue_ram_only; exact E
               |eapply memcpy_to_queue_data_stores; exact E].
    + exfalso. revert E. apply memcpy_to_queue_no_abort.
    + split; discriminate.
Qed.

(** C1, amended: [virtio_block_recv_request] publishes a used-ring entry
    only through [virtio_block_req_end], that is for an IN or OUT request
    whose header was copied and whose backend call completed at once.
    Path by path: on a busy device it returns -1 and leaves the device
    as it is.  On an idle device, when the copy of the header fails it
    returns 0 and leaves the device as it is; when the request type is
    neither IN nor OUT, and when the backend defers the transfer of an
    IN or OUT request (result above 0), it returns 0 and nothing is
    published: no event, no store to guest memory, line and [int_status]
    unchanged (in the second case the request is marked in progress);
    when the backend completes the transfer of an IN request at once it
    never stops on [abort()] and, whenever it returns, it returns 0 after
    exactly one publication, of the entry (head, [write_size]); for an
    OUT request with a status byte, likewise with the entry (head, 1);
    an OUT request without status byte stops on the assertion.
    For a chain whose only descriptor is device-readable and holds at
    least the 16 header bytes, with request type IN and a backend that
    completes at once, the sizes are [(len, 0)], the call returns and the
    entry [(head, 0)] is published. *)
Theorem recv_request_publication (fuel : nat) s (q d rs ws : Z) :
  let call := virtio_block_recv_request bdev fuel s q d rs ws in
  (req_in_progress (ext s) = true -> call = Ok (-1, s)) /\
  (req_in_progress (ext s) = false ->
   forall r h,
     memcpy_from_queue fuel s (repeat 0 (Z.to_nat HEADER_SIZE)) q d 0
       HEADER_SIZE = Ok (r, h) ->
     let h_type := le_decode (sub_bytes h 0 4) in
     let sector := le_decode (sub_bytes h 8 8) in
     (r < 0 -> call = Ok (0, s)) /\
     (0 <= r -> h_type <> VIRTIO_BLK_T_IN -> h_type <> VIRTIO_BLK_T_OUT ->
      exists s', call = Ok (0, s') /\ nothing_published s s') /\
     (0 <= r -> h_type = VIRTIO_BLK_T_IN ->
      forall ret buf b,
        read_async bdev (bs (ext s)) sector (malloc (stale s) ws)
          (Z.quot (s32 (ws - 1)) SECTOR_SIZE) = (ret, buf, b) ->
        (0 < ret ->
         exists s',
           call = Ok (0, s') /\ nothing_published s s' /\
           req_in_progress (ext s') = true) /\
        (ret <= 0 ->
         call <> Aborted /\
         forall r' s',
           call = Ok (r', s') ->
           r' = 0 /\ published_by s s' q d ws /\
           req_in_progress (ext s') = false)) /\
     (0 <= r -> h_type = VIRTIO_BLK_T_OUT -> 1 <= ws ->
      forall r1 data ret b,
        memcpy_from_queue fuel s (malloc (stale s) (s32 (rs - HEADER_SIZE)))
          q d HEADER_SIZE (s32 (rs - HEADER_SIZE)) = Ok (r1, data) ->
        write_async bdev (bs (ext s)) sector data
          (Z.quot (s32 (rs - HEADER_SIZE)) SECTOR_SIZE) = (ret, b) ->
        (0 < ret ->
         exists s',
           call = Ok (0, s') /\ nothing_published s s' /\
           req_in_progress (ext s') = true) /\
        (ret <= 0 ->
         call <> Aborted /\
         forall r' s',
           call = Ok (r', s') ->
           r' = 0 /\ published_by s s' q d 1 /\
           req_in_progress (ext s') = false)) /\
     (0 <= r -> h_type = VIRTIO_BLK_T_OUT -> ws < 1 -> call = Aborted) /\
     (has_flag (get_desc s q d) VRING_DESC_F_WRITE = false ->
      has_flag (get_desc s q d) VRING_DESC_F_NEXT = false ->
      HEADER_SIZE <= d_len (get_desc s q d) < 2147483648 ->
      fuel <> O ->
      h_type = VIRTIO_BLK_T_IN ->
      fst (fst (read_async bdev (bs (ext s)) sector (malloc (stale s) 0) 0))
        <= 0 ->
      get_desc_rw_size fuel s q d = Ok (Some (d_len (get_desc s q d), 0)) /\
      exists s',
        virtio_block_recv_request bdev fuel s q d
          (d_len (get_desc s q d)) 0 = Ok (0, s') /\
        new_events s s' =
          publication_events (queue s q)
            (virtio_read16 s (used_idx_addr (queue s q))) d 0 /\
        irq s' = true)).
Proof.
  intros call. split.
  { intros Hp. unfold call, virtio_block_recv_request. rewrite Hp.
    reflexivity. }
  intros Hp r h Hh h_type sector.
  assert (Hcall : call =
    (if r <? 0 then Ok (0, s)
     else
       let s0 :=
         with_req (mkBlockRequest h_type (req_buf (req (ext s)))
                     (req_write_size (req (ext s))) q d) s in
       if h_type =? VIRTIO_BLK_T_IN then
         let '(ret, buf, b) :=
           read_async bdev (bs (ext s)) sector (malloc (stale s) ws)
             (Z.quot (s32 (ws - 1)) SECTOR_SIZE) in
         let s2 :=
           with_bs b
             (with_req (mkBlockRequest h_type buf ws q d) (malloc_done s0))
         in
         if 0 <? ret then Ok (0, with_req_in_progress true s2)
         else s' <- virtio_block_req_end fuel s2 ret ;; Ok (0, s')
       else if h_type =? VIRTIO_BLK_T_OUT then
         if ws <? 1 then Aborted
         else
           '(_, buf) <- memcpy_from_queue fuel s
                          (malloc (stale s) (s32 (rs - HEADER_SIZE))) q d
                          HEADER_SIZE (s32 (rs - HEADER_SIZE)) ;;
           let '(ret, b) :=
             write_async bdev (bs (ext s)) sector buf
               (Z.quot (s32 (rs - HEADER_SIZE)) SECTOR_SIZE) in
           let s2 := with_bs b (malloc_done s0) in
           if 0 <? ret then Ok (0, with_req_in_progress true s2)
           else s' <- virtio_block_req_end fuel s2 ret ;; Ok (0, s')
       else Ok (0, s0))).
  { unfold call, virtio_block_recv_request. rewrite Hp, Hh, bind_Ok.
    fold h_type sector. cbv zeta.
    destruct (r <? 0); [reflexivity|].
    destruct (h_type =? VIRTIO_BLK_T_IN); [reflexivity|].
    destruct (h_type =? VIRTIO_BLK_T_OUT); [|reflexivity].
    destruct (ws <? 1); [reflexivity|].
    rewrite (memcpy_from_queue_ext fuel s
               (malloc_done
                  (with_req (mkBlockRequest h_type (req_buf (req (ext s)))
                               (req_write_size (req (ext s))) q d) s)))
      by reflexivity.
    reflexivity. }
  split; [|split; [|split; [|split; [|split]]]].
  - intros Hr. rewrite Hcall.
    destruct (Z.ltb_spec r 0); [reflexivity | lia].
  - intros Hr Hin Hout. rewrite Hcall.
    destruct (Z.ltb_spec r 0); [lia|]. cbv zeta.
    destruct (Z.eqb_spec h_type VIRTIO_BLK_T_IN); [contradiction|].
    destruct (Z.eqb_spec h_type VIRTIO_BLK_T_OUT); [contradiction|].
    eexists. split; [reflexivity|]. repeat split.
  - intros Hr Hin ret buf b Hread. rewrite Hcall.
    destruct (Z.ltb_spec r 0); [lia|]. cbv zeta.
    rewrite Hin, Z.eqb_refl, Hread.
    split.
    + intros Hret. destruct (Z.ltb_spec 0 ret); [|lia].
      eexists. split; [reflexivity|]. repeat split.
    + intros Hret. destruct (Z.ltb_spec 0 ret); [lia|].
      match goal with
      | |- context [virtio_block_req_end fuel ?s2 ret] =>
          destruct (req_end_outcome fuel s2 ret (or_introl eq_refl))
            as [Hna Hpub];
          destruct (virtio_block_req_end fuel s2 ret) as [s1| |] eqn:E
      end; cbn [bind].
      * split; [discriminate|]. intros r' s' Hres.
        apply Ok_pair_inj in Hres as [<- <-].
        destruct (Hpub s1 eq_refl) as [Hp1 He1].
        split; [reflexivity|]. split.
        { eapply published_by_from; [| | | |exact Hp1]; reflexivity. }
        rewrite He1. exact Hp.
      * contradiction.
      * split; discriminate.
  - intros Hr Hout Hws r1 data ret b Hdata Hwrite. rewrite Hcall.
    destruct (Z.ltb_spec r 0); [lia|]. cbv zeta.
    rewrite Hout. rewrite out_is_not_in, Z.eqb_refl.
    destruct (Z.ltb_spec ws 1); [lia|].
    rewrite Hdata, bind_Ok, Hwrite.
    split.
    + intros Hret. destruct (Z.ltb_spec 0 ret); [|lia].
      eexists. split; [reflexivity|]. repeat split.
    + intros Hret. destruct (Z.ltb_spec 0 ret); [lia|].
      match goal with
      | |- context [virtio_block_req_end fuel ?s2 ret] =>
          destruct (req_end_outcome fuel s2 ret (or_intror eq_refl))
            as [Hna Hpub];
          destruct (virtio_block_req_end fuel s2 ret) as [s1| |] eqn:E
      end; cbn [bind].
      * split; [discriminate|]. intros r' s' Hres.
        apply Ok_pair_inj in Hres as [<- <-].
        destruct (Hpub s1 eq_refl) as [Hp1 He1].
        split; [reflexivity|]. split.
        { eapply published_by_from; [| | | |exact Hp1]; reflexivity. }
        rewrite He1. exact Hp.
      * contradiction.
      * split; discriminate.
  - intros Hr Hout Hws. rewrite Hcall.
    destruct (Z.ltb_spec r 0); [lia|]. cbv zeta.
    rewrite Hout. rewrite out_is_not_in, Z.eqb_refl.
    destruct (Z.ltb_spec ws 1); [reflexivity | lia].
  - intros Hw Hn Hl Hf Hin Hret.
    destruct fuel as [|fuel]; [contradiction|].
    destruct (single_read_only_desc fuel s q d
                (repeat 0 (Z.to_nat HEADER_SIZE)) Hw Hn Hl) as [Hsz Hcp].
    split; [exact Hsz|].
    rewrite Hcp in Hh. apply Ok_pair_inj in Hh. destruct Hh as [<- Eh].
    unfold virtio_block_recv_request. rewrite Hp, Hcp, bind_Ok.
    change (0 <? 0) with false. cbv iota. rewrite Eh. fold h_type sector.
    rewrite Hin. rewrite Z.eqb_refl.
    rewrite stale_with_req, bs_malloc_done.
    cbn [bs ext with_req with_ext].
    change (Z.quot (s32 (0 - 1)) SECTOR_SIZE) with 0.
    destruct (read_async bdev (bs (ext s)) sector (malloc (stale s) 0) 0)
      as [[ret buf] b].
    cbn [fst] in Hret.
    destruct (Z.ltb_spec 0 ret); [lia|].
    unfold virtio_block_req_end.
    cbn [req_type req ext with_bs with_req with_ext req_write_size
         req_queue_idx req_desc_idx req_buf].
    rewrite Z.eqb_refl.
    rewrite memcpy_to_queue_zero, bind_Ok, bind_Ok.
    eexists. split; [reflexivity|]. split; [|reflexivity].
    apply new_events_consume_same; reflexivity.
Qed.

End RequestOutcome.

Example stale_request_returns :
  res_is_ok (virtio_block_recv_request file_backend 4 blk_stale 0 0 16 514)
  = true.
Proof. vm_compute. reflexivity. Qed.

Lemma recv_request_publication_witness :
  (exists s',
      virtio_block_recv_request file_backend 4
        (blk_setup (one_request_ram 2)) 0 0 16 0 = Ok (0, s') /\
      nothing_published (blk_setup (one_request_ram 2)) s') /\
  virtio_block_recv_request file_backend 4 blk_stale 0 0 16 514 <> Aborted /\
  fst (res_value
         (virtio_block_recv_request file_backend 4 blk_stale 0 0 16 514)
         (0, blk_stale)) = 0 /\
  published_by blk_stale
    (snd (res_value
            (virtio_block_recv_request file_backend 4 blk_stale 0 0 16 514)
            (0, blk_stale))) 0 0 514 /\
  req_in_progress
    (ext (snd (res_value
                 (virtio_block_recv_request file_backend 4 blk_stale 0 0 16
                    514) (0, blk_stale)))) = false.
Proof.
  split.
  - refine (proj1 (proj2 (proj2 (recv_request_publication file_backend 4
      (blk_setup (one_request_ram 2)) 0 0 16 0) _ 0
      (le_encode 4 2 ++ le_encode 4 0 ++ le_encode 8 0) _)) _ _ _).
    + vm_compute. reflexivity.
    + vm_compute. reflexivity.
    + lia.
    + vm_compute. discriminate.
    + vm_compute. discriminate.
  - assert (W :
      virtio_block_recv_request file_backend 4 blk_stale 0 0 16 514
        <> Aborted /\
      forall r' s',
        virtio_block_recv_request file_backend 4 blk_stale 0 0 16 514
          = Ok (r', s') ->
        r' = 0 /\ published_by blk_stale s' 0 0 514 /\
        req_in_progress (ext s') = false).
    { refine (proj2 (proj1 (proj2 (proj2 (proj2
        (recv_request_publication file_backend 4 blk_stale 0 0 16 514) _ 0
        (le_encode 4 VIRTIO_BLK_T_IN ++ le_encode 4 0 ++ le_encode 8 0) _)))
        _ _ 0 (repeat 7 512%nat ++ [0xaa; 0xaa])
        (mkBlockDeviceFile (Some (mkHostFile (repeat 7 1024%nat) 512)) 2
           BF_MODE_RW (fun _ => None)) _) _).
      - vm_compute. reflexivity.
      - vm_compute. reflexivity.
      - lia.
      - vm_compute. reflexivity.
      - vm_compute. reflexivity.
      - lia. }
    destruct W as [Wa Wr]. split; [exact Wa|].
    apply Wr. apply res_value_pair_ok. exact stale_request_returns.
Defined.
